(** * eKorpkit: batch-versioned configuration and dataset build pipeline

    A shallow embedding of [ekorpkit/config.py], [ekorpkit/io/fetch/build.py]
    and [ekorpkit/datasets/dataset.py].  Python objects become records,
    methods become functions in a reader/state/error monad over a [World]
    (file system, DictConfig objects, RNG draw counter, trace of calls
    into external collaborators).  Exceptions keep the world they were raised
    in, as in Python. *)

From stdpp Require Import gmap strings list pretty.
From Stdlib Require Import ZArith Ascii.
Local Open Scope string_scope.

(** ** Configuration values *)

(** YAML / OmegaConf leaves. *)
Inductive scalar :=
| SNone
| SBool (b : bool)
| SInt (z : Z)
| SStr (s : string).

(** A configuration tree: the plain container [eKonf.to_dict] returns, and
    the document stored in a config file. *)
#[warnings="-register-all"]
Inductive cfg :=
| CVal (v : scalar)
| CDict (kvs : list (string * cfg))
| CList (items : list cfg).

(** Keyword arguments / the items of a dict, in insertion order. *)
Abbreviation kwargs := (list (string * cfg)).

Fixpoint assoc {A} (k : string) (l : list (string * A)) : option A :=
  match l with
  | [] => None
  | (k', v) :: r => if String.eqb k k' then Some v else assoc k r
  end.

(** [d[k] = v]: replaces in place, appends a new key at the end. *)
Fixpoint assoc_set {A} (k : string) (v : A) (l : list (string * A))
  : list (string * A) :=
  match l with
  | [] => [(k, v)]
  | (k', v') :: r =>
      if String.eqb k k' then (k, v) :: r else (k', v') :: assoc_set k v r
  end.

(** [d.pop(k, None)]. *)
Fixpoint assoc_del {A} (k : string) (l : list (string * A))
  : list (string * A) :=
  match l with
  | [] => []
  | (k', v') :: r =>
      if String.eqb k k' then assoc_del k r else (k', v') :: assoc_del k r
  end.

Definition keys {A} (l : list (string * A)) : list string := map fst l.

Definition mem (k : string) (l : list string) : bool :=
  existsb (String.eqb k) l.

(** Python truthiness of a configuration value. *)
Definition truthy (c : cfg) : bool :=
  match c with
  | CVal SNone => false
  | CVal (SBool b) => b
  | CVal (SInt z) => negb (z =? 0)%Z
  | CVal (SStr s) => negb (String.eqb s "")
  | CDict kvs => match kvs with [] => false | _ => true end
  | CList l => match l with [] => false | _ => true end
  end.

(** ** Paths ([pathlib.PurePosixPath]) *)

(** A path is its tuple of [parts]; an absolute path starts with the anchor
    ["/"] (or ["//"]).  [..] and symbolic links are left to the kernel and
    are not interpreted here. *)
Abbreviation Path := (list string).

Fixpoint segments (s : string) : list string :=
  match s with
  | EmptyString => [EmptyString]
  | String c s' =>
      if Ascii.eqb c "/"%char then EmptyString :: segments s'
      else match segments s' with
           | seg :: rest => String c seg :: rest
           | [] => [String c EmptyString]
           end
  end.

Fixpoint leading_slashes (s : string) : nat :=
  match s with
  | String c s' => if Ascii.eqb c "/"%char then S (leading_slashes s') else 0
  | EmptyString => 0
  end.

Definition anchor (s : string) : Path :=
  match leading_slashes s with
  | 0 => []
  | 2 => ["//"]
  | _ => ["/"]
  end.

Definition is_name (s : string) : bool :=
  negb (String.eqb s "" || String.eqb s ".").

(** [Path(s)] *)
Definition Path_of (s : string) : Path :=
  anchor s ++ List.filter is_name (segments s).

Definition is_absolute (p : Path) : bool :=
  match p with
  | a :: _ => String.eqb a "/" || String.eqb a "//"
  | [] => false
  end.

(** [p / s]: an absolute right operand replaces the left one. *)
Definition joinpath (p : Path) (s : string) : Path :=
  let q := Path_of s in
  if is_absolute q then q else p ++ q.

Fixpoint join_sep (sep : string) (l : list string) : string :=
  match l with
  | [] => ""
  | [x] => x
  | x :: r => x +:+ sep +:+ join_sep sep r
  end.

(** [str(p)] *)
Definition str_of_path (p : Path) : string :=
  match p with
  | [] => "."
  | a :: r => if is_absolute p then a +:+ join_sep "/" r else join_sep "/" p
  end.

(** [p.name] *)
Definition path_name (p : Path) : string :=
  if is_absolute p then List.last (tail p) "" else List.last p "".

(** ** The world *)

(** A dataframe, as far as this layer looks at it. *)
Record table := Table { columns : list string; rows : list (list scalar) }.

Inductive content :=
| Doc (c : cfg)          (* a YAML or JSON document *)
| Tab (t : table).       (* a persisted dataframe *)

Inductive node :=
| Dir
| File (c : content).

(** Calls that leave this layer. *)
Inductive event :=
| EvInstantiate (target : cfg)
| EvLoader (split_name : string)
| EvReadTable (p : Path)
| EvPipeline (pipes : list cfg) (args : kwargs)
| EvInfoLoad
| EvInfoSave
| EvInitStats (split_name : string) (stats : kwargs)
| EvCalcStats (split_name : string)
| EvHubLogin
| EvReleaseGpu.

Inductive exn :=
| ValueError (msg : string)
| KeyError (k : string)
| AttributeError (attr : string)
| TypeError (msg : string)
| ValidationError (field : string)
| FileExistsError (p : Path)
| NotADirectoryError (p : Path)
| FileNotFoundError (p : Path).

Record World := mkWorld {
  fs : gmap Path node;       (* keyed by absolute parts *)
  heap : list cfg;           (* the DictConfig objects, by location *)
  draws : nat;               (* how often the RNG was reseeded and drawn *)
  trace : list event         (* external calls, oldest first *)
}.

(** What the process finds around it: the working directory and the
    collaborators whose code is not part of this layer. *)
Record Env := mkEnv {
  cwd : Path;
  glob_select : Path -> string -> Path -> bool;
      (* pathlib: is this existing path yielded by [dir.glob(pattern)] *)
  os_entropy : nat -> Z;
      (* what the [n]-th reseeded generator draws first *)
  compose : string -> cfg;
      (* the configuration composition service *)
  instantiate : cfg -> string -> option table;
      (* [instantiate(self.loader, split_name=...)] *)
  pipeline : table -> list cfg -> kwargs -> gmap Path node ->
             table * gmap Path node;
      (* [apply_pipeline]: the steps may write files *)
}.

Inductive Res (A : Type) :=
| Ok (a : A)
| Raise (e : exn).
Arguments Ok {A} a.
Arguments Raise {A} e.

Definition M (A : Type) : Type := Env -> World -> Res A * World.

Definition ret {A} (a : A) : M A := fun _ w => (Ok a, w).
Definition raise {A} (e : exn) : M A := fun _ w => (Raise e, w).
Definition bind {A B} (m : M A) (k : A -> M B) : M B :=
  fun env w =>
    match m env w with
    | (Ok a, w') => k a env w'
    | (Raise e, w') => (Raise e, w')
    end.
Definition ask : M Env := fun env w => (Ok env, w).
Definition get : M World := fun _ w => (Ok w, w).
Definition put (w : World) : M unit := fun _ _ => (Ok tt, w).
Definition lift {A} (r : Res A) : M A := fun _ w => (r, w).

Notation "x <- m ;; k" := (bind m (fun x => k))
  (at level 100, m at next level, right associativity).
Notation "m ;;; k" := (bind m (fun _ => k))
  (at level 100, right associativity).

Definition emit (e : event) : M unit :=
  fun _ w => (Ok tt, mkWorld (fs w) (heap w) (draws w) (trace w ++ [e])).

Definition put_fs (f : gmap Path node) : M unit :=
  fun _ w => (Ok tt, mkWorld f (heap w) (draws w) (trace w)).

Definition put_heap (h : list cfg) : M unit :=
  fun _ w => (Ok tt, mkWorld (fs w) h (draws w) (trace w)).

(** ** File system *)

Definition resolve (env : Env) (p : Path) : Path :=
  if is_absolute p then p else cwd env ++ p.

Definition fs_is_dir (f : gmap Path node) (p : Path) : bool :=
  match f !! p with Some Dir => true | _ => false end.

Definition fs_is_file (f : gmap Path node) (p : Path) : bool :=
  match f !! p with Some (File _) => true | _ => false end.

Definition fs_exists (f : gmap Path node) (p : Path) : bool :=
  match f !! p with Some _ => true | None => false end.

(** [os.mkdir] along [pre], [pre/x1], ...: every prefix that is missing is
    created; a prefix that is a regular file stops the call. *)
Fixpoint mkdir_from (pre : Path) (rest : list string) (f : gmap Path node)
  : option (gmap Path node) :=
  match f !! pre with
  | Some (File _) => None
  | _ =>
      let f' := <[pre := Dir]> f in
      match rest with
      | [] => Some f'
      | x :: r => mkdir_from (pre ++ [x]) r f'
      end
  end.

Definition mkdir_parents (p : Path) (f : gmap Path node)
  : option (gmap Path node) :=
  match p with
  | [] => Some f
  | a :: r => mkdir_from [a] r f
  end.

(** [p.mkdir(parents=True, exist_ok=True)]: the kernel refuses before
    anything is created when a prefix is a regular file. *)
Definition mkdir (p : Path) : M unit :=
  fun env w =>
    let q := resolve env p in
    match mkdir_parents q (fs w) with
    | Some f' => (Ok tt, mkWorld f' (heap w) (draws w) (trace w))
    | None =>
        (Raise (if fs_is_file (fs w) q then FileExistsError q
                else NotADirectoryError q), w)
    end.

Definition is_dir (p : Path) : M bool :=
  fun env w => (Ok (fs_is_dir (fs w) (resolve env p)), w).
Definition is_file (p : Path) : M bool :=
  fun env w => (Ok (fs_is_file (fs w) (resolve env p)), w).
Definition exists_ (p : Path) : M bool :=
  fun env w => (Ok (fs_exists (fs w) (resolve env p)), w).

Definition is_under (dir p : Path) : bool :=
  (length dir <? length p)%nat && bool_decide (take (length dir) p = dir).

(** [list(dir.glob(pattern))]: what is yielded lies below [dir]. *)
Definition fs_glob (env : Env) (f : gmap Path node) (dir : Path)
  (pattern : string) : list Path :=
  map fst
    (map_to_list
       (filter (fun kv : Path * node =>
                  Is_true (is_under dir (fst kv)
                           && glob_select env dir pattern (fst kv))) f)).

Definition glob (dir : Path) (pattern : string) : M (list Path) :=
  fun env w => (Ok (fs_glob env (fs w) (resolve env dir) pattern), w).

Definition write_file (p : Path) (c : content) : M unit :=
  fun env w =>
    let q := resolve env p in
    if fs_is_dir (fs w) q then (Raise (FileExistsError q), w)
    else if fs_is_dir (fs w) (removelast q)
    then (Ok tt, mkWorld (<[q := File c]> (fs w)) (heap w) (draws w) (trace w))
    else (Raise (FileNotFoundError q), w).

(** ** Randomness *)

(** [random.seed(); random.randint(lo, hi)]: both ends are included. *)
Definition randint (lo hi : Z) : M Z :=
  fun env w =>
    (Ok (lo + os_entropy env (draws w) mod (hi - lo + 1))%Z,
     mkWorld (fs w) (heap w) (S (draws w)) (trace w)).

(** ** pydantic field parsing *)

Definition as_str (c : cfg) : option string :=
  match c with CVal (SStr s) => Some s | _ => None end.
Definition as_int (c : cfg) : option Z :=
  match c with CVal (SInt z) => Some z | _ => None end.
Definition as_bool (c : cfg) : option bool :=
  match c with CVal (SBool b) => Some b | _ => None end.

(** A field declared [T = None]: a missing key and [None] both give [None]. *)
Definition opt_field {A} (conv : cfg -> option A) (k : string) (d : kwargs)
  : M (option A) :=
  match assoc k d with
  | None | Some (CVal SNone) => ret None
  | Some c =>
      match conv c with
      | Some a => ret (Some a)
      | None => raise (ValidationError k)
      end
  end.

(** A field with a default that is not [None]. *)
Definition dflt_field {A} (conv : cfg -> option A) (k : string) (dflt : A)
  (d : kwargs) : M A :=
  match assoc k d with
  | None => ret dflt
  | Some c =>
      match conv c with
      | Some a => ret a
      | None => raise (ValidationError k)
      end
  end.

Definition req_field {A} (conv : cfg -> option A) (k : string) (d : kwargs)
  : M A :=
  match assoc k d with
  | Some c =>
      match conv c with
      | Some a => ret a
      | None => raise (ValidationError k)
      end
  | None => raise (ValidationError k)
  end.

(** pydantic validates every field of a model before it raises: a field
    that does not validate is recorded, it is left out of [values], and the
    next field is validated.  What is recorded is what the validators of the
    field raise as [ValueError] (a [ValidationError] is one), [TypeError] or
    [AssertionError]; every other exception leaves the validation at once. *)
Definition is_field_error (e : exn) : bool :=
  match e with
  | ValueError _ | TypeError _ | ValidationError _ => true
  | _ => false
  end.

Definition try_field {A} (m : M A) : M (Res A) :=
  fun env w =>
    match m env w with
    | (Ok a, w') => (Ok (Ok a), w')
    | (Raise e, w') =>
        if is_field_error e then (Ok (Raise e), w') else (Raise e, w')
    end.

(** [**cfg]: unpacking needs a mapping. *)
Definition as_kwargs (c : cfg) : M kwargs :=
  match c with
  | CDict kvs => ret kvs
  | _ => raise (TypeError "argument after ** must be a mapping")
  end.

(** ** [str.strip(".")] *)

Fixpoint lstrip_dot (s : string) : string :=
  match s with
  | String c s' => if Ascii.eqb c "."%char then lstrip_dot s' else s
  | EmptyString => EmptyString
  end.

Fixpoint rstrip_dot (s : string) : string :=
  match s with
  | EmptyString => EmptyString
  | String c s' =>
      match rstrip_dot s' with
      | EmptyString => if Ascii.eqb c "."%char then EmptyString
                       else String c EmptyString
      | t => String c t
      end
  end.

Definition strip_dot (s : string) : string := rstrip_dot (lstrip_dot s).

(** [f"{x}"] for an [Optional[int]] *)
Definition fmt_int (z : option Z) : string :=
  match z with
  | Some z => pretty z
  | None => "None"
  end.

(** ** [class PathConfig(BaseModel)] *)

Module PathConfig.

Record t := mk {
  task_name : string;
  root : option string;
  batch_name : option string;
  verbose : bool
}.

(** [extra = "ignore"]: other keys are dropped. *)
Definition __init__ (data : kwargs) : M t :=
  data <- match data with
          | [] => env <- ask ;; as_kwargs (compose env "path=__batch__")
          | _ => ret data
          end ;;
  task_name <- dflt_field as_str "task_name" "default-task" data ;;
  root <- opt_field as_str "root" data ;;
  batch_name <- opt_field as_str "batch_name" data ;;
  verbose <- dflt_field as_bool "verbose" false data ;;
  ret (mk task_name root batch_name verbose).

(** The properties below only compute; [Path(None)] and [p / None] are
    type errors. *)
Definition root_dir (self : t) : Res Path :=
  match root self with
  | Some r => Ok (Path_of r)
  | None => Raise (TypeError "expected str, bytes or os.PathLike object")
  end.

Definition sub (self : t) (seg : string) : Res Path :=
  match root_dir self with
  | Ok d => Ok (joinpath d seg)
  | Raise e => Raise e
  end.

Definition output_dir (self : t) : Res Path := sub self "outputs".

Definition batch_dir (self : t) : Res Path :=
  match output_dir self, batch_name self with
  | Ok d, Some b => Ok (joinpath d b)
  | Ok _, None => Raise (TypeError "unsupported operand type(s) for /")
  | Raise e, _ => Raise e
  end.

Definition library_dir (self : t) : Res Path := sub self "libs".
Definition data_dir (self : t) : Res Path := sub self "data".
Definition model_dir (self : t) : Res Path := sub self "models".
Definition cache_dir (self : t) : Res Path := sub self "cache".
Definition tmp_dir (self : t) : Res Path := sub self "tmp".

End PathConfig.

(** ** [class BaseBatchConfig(BaseModel)] *)

Module BaseBatchConfig.

(** [num_workers], [device] and [num_devices] are validated with the other
    fields; this layer reads them nowhere, and the record leaves them out. *)
Record t := mk {
  batch_name : string;
  batch_num : option Z;
  output_dir : Path;
  output_suffix : option string;
  output_extention : string;
  random_seed : bool;
  seed : option Z;
  resume_run : bool;
  resume_latest : bool;
  config_yaml : string;
  config_json : string;
  config_dirname : string;
  verbose : bool
}.

Definition with_batch_num (n : option Z) (b : t) : t :=
  mk (batch_name b) n (output_dir b) (output_suffix b) (output_extention b)
     (random_seed b) (seed b) (resume_run b) (resume_latest b)
     (config_yaml b) (config_json b) (config_dirname b) (verbose b).

Definition with_batch_name (s : string) (b : t) : t :=
  mk s (batch_num b) (output_dir b) (output_suffix b) (output_extention b)
     (random_seed b) (seed b) (resume_run b) (resume_latest b)
     (config_yaml b) (config_json b) (config_dirname b) (verbose b).

Definition with_output_dir (p : Path) (b : t) : t :=
  mk (batch_name b) (batch_num b) p (output_suffix b) (output_extention b)
     (random_seed b) (seed b) (resume_run b) (resume_latest b)
     (config_yaml b) (config_json b) (config_dirname b) (verbose b).

(** [@validator("seed")] *)
Definition _validate_seed (v : option Z) (random_seed : bool) : M Z :=
  match v with
  | Some z =>
      if random_seed || (z <? 0)%Z then randint 0 (2 ^ 32 - 1) else ret z
  | None => randint 0 (2 ^ 32 - 1)
  end.

(** [@validator("output_extention")] *)
Definition _validate_output_extention (v : option string) : string :=
  match v with
  | Some s => if String.eqb s "" then "" else strip_dot s
  | None => ""
  end.

Definition as_verbose (c : cfg) : option bool :=
  match c with
  | CVal (SBool b) => Some b
  | CVal (SInt z) => Some (negb (z =? 0)%Z)
  | _ => None
  end.

(** The field [output_extention] with its validator.  pydantic runs the
    validators of a field only when the key is supplied: a missing
    [output_extention] stays [""].  A [None] that is supplied reaches the
    validator. *)
Definition output_extention_field (data : kwargs) : M string :=
  match assoc "output_extention" data with
  | None => ret ""
  | Some _ =>
      v <- opt_field as_str "output_extention" data ;;
      ret (_validate_output_extention v)
  end.

(** The field [seed] with its validator: a missing [seed] stays [None], a
    [None] that is supplied reaches the validator.  The validator reads
    [values["random_seed"]], and [values] holds no [random_seed] when that
    field did not validate. *)
Definition seed_field (data : kwargs) (random_seed : Res bool)
  : M (option Z) :=
  match assoc "seed" data with
  | None => ret None
  | Some _ =>
      v <- opt_field as_int "seed" data ;;
      random_seed <- match random_seed with
                     | Ok b => ret b
                     | Raise _ => raise (KeyError "random_seed")
                     end ;;
      s <- _validate_seed v random_seed ;;
      ret (Some s)
  end.

(** [super().__init__] on the keyword arguments: every field is validated,
    in the order of the fields, and the error that is raised then is
    named after the first field that did not validate. *)
Definition validate (data : kwargs) : M t :=
  env <- ask ;;
  batch_name <- try_field (req_field as_str "batch_name" data) ;;
  batch_num <- try_field (opt_field as_int "batch_num" data) ;;
  output_dir <- try_field
                  (dflt_field (fun c => Path_of <$> as_str c) "output_dir"
                     (joinpath (cwd env) "outputs") data) ;;
  output_suffix <- try_field (opt_field as_str "output_suffix" data) ;;
  output_extention <- try_field (output_extention_field data) ;;
  random_seed <- try_field (dflt_field as_bool "random_seed" true data) ;;
  seed <- try_field (seed_field data random_seed) ;;
  resume_run <- try_field (dflt_field as_bool "resume_run" false data) ;;
  resume_latest <- try_field
                     (dflt_field as_bool "resume_latest" false data) ;;
  num_workers <- try_field (dflt_field as_int "num_workers" 1%Z data) ;;
  device <- try_field (dflt_field as_str "device" "cpu" data) ;;
  num_devices <- try_field (opt_field as_int "num_devices" data) ;;
  verbose <- try_field (dflt_field as_verbose "verbose" false data) ;;
  config_yaml <- try_field
                   (dflt_field as_str "config_yaml" "config.yaml" data) ;;
  config_json <- try_field
                   (dflt_field as_str "config_json" "config.json" data) ;;
  config_dirname <- try_field
                      (dflt_field as_str "config_dirname" "configs" data) ;;
  batch_name <- lift batch_name ;;
  batch_num <- lift batch_num ;;
  output_dir <- lift output_dir ;;
  output_suffix <- lift output_suffix ;;
  output_extention <- lift output_extention ;;
  random_seed <- lift random_seed ;;
  seed <- lift seed ;;
  resume_run <- lift resume_run ;;
  resume_latest <- lift resume_latest ;;
  lift num_workers ;;;
  lift device ;;;
  lift num_devices ;;;
  verbose <- lift verbose ;;
  config_yaml <- lift config_yaml ;;
  config_json <- lift config_json ;;
  config_dirname <- lift config_dirname ;;
  ret (mk batch_name batch_num output_dir output_suffix output_extention
          random_seed seed resume_run resume_latest
          config_yaml config_json config_dirname verbose).

Definition batch_dir (self : t) : M Path :=
  let batch_dir := joinpath (output_dir self) (batch_name self) in
  mkdir batch_dir ;;;
  ret batch_dir.

Definition config_dir (self : t) : M Path :=
  d <- batch_dir self ;;
  let config_dir := joinpath d (config_dirname self) in
  mkdir config_dir ;;;
  ret config_dir.

Definition file_prefix (self : t) : string :=
  batch_name self +:+ "(" +:+ fmt_int (batch_num self) +:+ ")".

Definition output_file (self : t) : string :=
  match output_suffix self with
  | Some sfx =>
      if String.eqb sfx ""
      then file_prefix self +:+ "." +:+ output_extention self
      else file_prefix self +:+ "_" +:+ sfx +:+ "." +:+ output_extention self
  | None => file_prefix self +:+ "." +:+ output_extention self
  end.

Definition config_filename (self : t) : string :=
  file_prefix self +:+ "_" +:+ config_yaml self.

Definition config_jsonfile (self : t) : string :=
  file_prefix self +:+ "_" +:+ config_json self.

Definition config_filepattern (self : t) : string :=
  batch_name self +:+ "(*)_" +:+ config_yaml self.

Definition config_filepath (self : t) : M Path :=
  d <- config_dir self ;;
  ret (joinpath d (config_filename self)).

Definition config_jsonpath (self : t) : M Path :=
  d <- config_dir self ;;
  ret (joinpath d (config_jsonfile self)).

Definition init_batch_num (self : t) : M t :=
  match batch_num self with
  | None =>
      d <- config_dir self ;;
      files <- glob d (config_filepattern self) ;;
      let num_files := Z.of_nat (length files) in
      if resume_latest self
      then ret (with_batch_num (Some (num_files - 1)%Z) self)
      else ret (with_batch_num (Some num_files) self)
  | Some _ => ret self
  end.

Definition __init__ (data : kwargs) : M t :=
  data <- match data with
          | [] => env <- ask ;; as_kwargs (compose env "batch")
          | _ => ret data
          end ;;
  self <- validate data ;;
  init_batch_num self.

End BaseBatchConfig.

(** ** Configuration objects ([eKonf], OmegaConf) *)

(** Modelled from the spec: [eKonf.merge] is not among the sources; "later
    sources win key-by-key on conflict, structurally merged for nested maps".
    Keys of the destination keep their place, new keys are appended. *)
Fixpoint merge_tree (a b : cfg) {struct b} : cfg :=
  match b with
  | CDict kb =>
      match a with
      | CDict ka =>
          CDict ((fix go (kb : kwargs) (acc : kwargs) {struct kb} : kwargs :=
                    match kb with
                    | [] => acc
                    | (k, vb) :: kb' =>
                        go kb' (assoc_set k
                                  (match assoc k acc with
                                   | Some va => merge_tree va vb
                                   | None => vb
                                   end) acc)
                    end) kb ka)
      | _ => b
      end
  | _ => b
  end.

(** [d.k1.k2 = v] on a tree; [None] when [d.k1] is not a mapping. *)
Definition set_in (k1 k2 : string) (v : cfg) (d : cfg) : option cfg :=
  match d with
  | CDict kvs =>
      match assoc k1 kvs with
      | Some (CDict sub) => Some (CDict (assoc_set k1 (CDict (assoc_set k2 v sub)) kvs))
      | _ => None
      end
  | _ => None
  end.

(** [d.k = v] on a tree. *)
Definition set_top (k : string) (v : cfg) (d : cfg) : option cfg :=
  match d with
  | CDict kvs => Some (CDict (assoc_set k v kvs))
  | _ => None
  end.

(** [d.k]; a missing key reads as [None]. *)
Definition get_top (k : string) (d : cfg) : cfg :=
  match d with
  | CDict kvs => default (CVal SNone) (assoc k kvs)
  | _ => CVal SNone
  end.

(** A DictConfig is an object: a cell of [heap] holding its tree.  Two
    variables that hold the same location are the same object.  Children
    belong to their root: OmegaConf deep-copies a node that is assigned into
    a config, and [copy()] and [merge] return configs that share nothing
    with their arguments. *)
Module DictConfig.

Definition new (c : cfg) : M nat :=
  fun _ w =>
    (Ok (length (heap w)),
     mkWorld (fs w) (heap w ++ [c]) (draws w) (trace w)).

Definition read (l : nat) : M cfg :=
  fun _ w =>
    match heap w !! l with
    | Some c => (Ok c, w)
    | None => (Raise (ValueError "no such object"), w)
    end.

Definition write (l : nat) (c : cfg) : M unit :=
  fun _ w => (Ok tt, mkWorld (fs w) (<[l := c]> (heap w)) (draws w) (trace w)).

(** [cfg.copy()] *)
Definition copy (l : nat) : M nat :=
  c <- read l ;; new c.

(** [cfg.k1.k2 = v] *)
Definition setattr2 (l : nat) (k1 k2 : string) (v : cfg) : M unit :=
  c <- read l ;;
  match set_in k1 k2 v c with
  | Some c' => write l c'
  | None => raise (AttributeError k2)
  end.

(** [cfg.k = v] *)
Definition setattr (l : nat) (k : string) (v : cfg) : M unit :=
  c <- read l ;;
  match set_top k v c with
  | Some c' => write l c'
  | None => raise (AttributeError k)
  end.

(** [cfg.k] *)
Definition getattr (l : nat) (k : string) : M cfg :=
  c <- read l ;; ret (get_top k c).

End DictConfig.

Module eKonf.

(** Modelled from the spec: [eKonf.to_config] is not among the sources;
    it wraps keyword arguments into a configuration tree. *)
Definition to_config (args : kwargs) : M nat := DictConfig.new (CDict args).

(** Modelled from the spec: [eKonf.to_dict] is not among the sources; it
    returns the tree of a configuration as a plain container. *)
Definition to_dict (l : nat) : M cfg := DictConfig.read l.

(** Modelled from the spec: [eKonf.merge] is not among the sources;
    "merge baseline <- file contents <- override args", into a new
    configuration. *)
Definition merge (l : nat) (b : cfg) : M nat :=
  a <- DictConfig.read l ;; DictConfig.new (merge_tree a b).

(** Modelled from the spec: [eKonf.compose] is not among the sources; the
    composition service "returns a merged structured configuration
    tree". *)
Definition compose (group : string) : M cfg :=
  env <- ask ;; ret (compose env group).

(** Modelled from the spec: [eKonf.save] and [eKonf.load] are not among
    the sources; the config file is an "owned format, must round-trip". *)
Definition save (args : cfg) (p : Path) : M unit := write_file p (Doc args).

Definition load (p : Path) : M cfg :=
  fun env w =>
    match fs w !! resolve env p with
    | Some (File (Doc c)) => (Ok c, w)
    | Some _ => (Raise (ValueError "not a document"), w)
    | None => (Raise (FileNotFoundError (resolve env p)), w)
    end.

(** Modelled from the spec: [eKonf.save_json] is not among the sources;
    "a flattened settings document". *)
Definition save_json (doc : cfg) (p : Path) : M unit := write_file p (Doc doc).

End eKonf.

(** ** [class BaseBatchModel(BaseModel)] *)

(** [include] and [exclude] of [save_config]: one name or a list of names. *)
Inductive names :=
| Name (s : string)
| Names (l : list string).

Definition names_truthy (n : names) : bool :=
  match n with
  | Name s => negb (String.eqb s "")
  | Names l => match l with [] => false | _ => true end
  end.

Definition names_list (n : names) : list string :=
  match n with
  | Name s => [s]
  | Names l => l
  end.

Definition opt_str (o : option string) : cfg :=
  match o with Some s => CVal (SStr s) | None => CVal SNone end.

Definition opt_int (o : option Z) : cfg :=
  match o with Some z => CVal (SInt z) | None => CVal SNone end.

Definition is_none (c : cfg) : bool :=
  match c with CVal SNone => true | _ => false end.

Module BaseBatchModel.

Record t := mk {
  config_name : option string;
  config_group : option string;
  name : string;
  path : option PathConfig.t;
  batch : option BaseBatchConfig.t;
  project : option kwargs;
  module : option cfg;
  auto : option cfg;
  autoload : bool;
  version : string;
  _config_ : nat;
  _initial_config_ : nat
}.

Definition with_name (s : string) (m : t) : t :=
  mk (config_name m) (config_group m) s (path m) (batch m) (project m)
     (module m) (auto m) (autoload m) (version m)
     (_config_ m) (_initial_config_ m).

Definition with_path (p : option PathConfig.t) (m : t) : t :=
  mk (config_name m) (config_group m) (name m) p (batch m) (project m)
     (module m) (auto m) (autoload m) (version m)
     (_config_ m) (_initial_config_ m).

Definition with_batch (b : option BaseBatchConfig.t) (m : t) : t :=
  mk (config_name m) (config_group m) (name m) (path m) b (project m)
     (module m) (auto m) (autoload m) (version m)
     (_config_ m) (_initial_config_ m).

Definition with_config (c : nat) (m : t) : t :=
  mk (config_name m) (config_group m) (name m) (path m) (batch m) (project m)
     (module m) (auto m) (autoload m) (version m)
     c (_initial_config_ m).

(** [Config.exclude] *)
Definition exclude : list string :=
  ["_config_"; "_initial_config_"; "__data__"; "path"; "module"; "secret";
   "auto"; "project"].

(** [self.batch.<attr>] needs a batch. *)
Definition the_batch (self : t) (attr : string) : M BaseBatchConfig.t :=
  match batch self with
  | Some b => ret b
  | None => raise (AttributeError attr)
  end.

(** A field whose type is a model: pydantic builds it from a mapping. *)
Definition sub_model {A} (ctor : kwargs -> M A) (k : string) (kw : kwargs)
  : M (option A) :=
  match assoc k kw with
  | None | Some (CVal SNone) => ret None
  | Some (CDict d) => a <- ctor d ;; ret (Some a)
  | Some _ => raise (ValidationError k)
  end.

Definition raw_field (k : string) (kw : kwargs) : option cfg :=
  match assoc k kw with
  | None | Some (CVal SNone) => None
  | Some c => Some c
  end.

Definition set_output_dir (val : Path) (self : t) : M t :=
  DictConfig.setattr2 (_config_ self) "batch" "output_dir"
    (CVal (SStr (str_of_path val))) ;;;
  b <- the_batch self "output_dir" ;;
  ret (with_batch (Some (BaseBatchConfig.with_output_dir val b)) self).

(** While the config has no [path], the composed default is assigned into
    the config (which takes a copy of it) and [root] is then set on the
    local object only. *)
Definition set_root_dir (root_dir : option string) (self : t) : M t :=
  path <- DictConfig.getattr (_config_ self) "path" ;;
  kw <- (if is_none path
         then
           path <- eKonf.compose "path=_batch_" ;;
           DictConfig.setattr (_config_ self) "path" path ;;;
           match root_dir with
           | Some r =>
               match set_top "root" (CVal (SStr r)) path with
               | Some path' => as_kwargs path'
               | None => raise (AttributeError "root")
               end
           | None => as_kwargs path
           end
         else
           match root_dir with
           | Some r =>
               DictConfig.setattr2 (_config_ self) "path" "root"
                 (CVal (SStr r))
           | None => ret tt
           end ;;;
           path <- DictConfig.getattr (_config_ self) "path" ;;
           as_kwargs path) ;;
  p <- PathConfig.__init__ kw ;;
  let self := with_path (Some p) self in
  out <- lift (PathConfig.output_dir p) ;;
  set_output_dir out self.

Definition set_batch_num (val : option Z) (self : t) : M t :=
  DictConfig.setattr2 (_config_ self) "batch" "batch_num" (opt_int val) ;;;
  b <- the_batch self "batch_num" ;;
  ret (with_batch (Some (BaseBatchConfig.with_batch_num val b)) self).

Definition initialize_configs (root_dir : option string) (self : t) : M t :=
  self <- set_root_dir root_dir self ;;
  bc <- DictConfig.getattr (_config_ self) "batch" ;;
  kw <- as_kwargs bc ;;
  b <- BaseBatchConfig.__init__ kw ;;
  let self := with_batch (Some b) self in
  self <- set_batch_num (BaseBatchConfig.batch_num b) self ;;
  match project self with
  | None => raise (AttributeError "init_huggingface_hub")
  | Some p =>
      if truthy (default (CVal SNone) (assoc "init_huggingface_hub" p))
      then emit EvHubLogin ;;; ret self
      else ret self
  end.

(** The three assignments that open [set_batch_name]. *)
Definition assign_batch_name (val : string) (self : t) : M t :=
  DictConfig.setattr2 (_config_ self) "batch" "batch_name"
    (CVal (SStr val)) ;;;
  DictConfig.setattr (_config_ self) "name" (CVal (SStr val)) ;;;
  b <- the_batch self "batch_name" ;;
  ret (with_batch (Some (BaseBatchConfig.with_batch_name val b)) self).

(** [self.name = val] re-enters [set_batch_name] through [__setattr__];
    in that call [self.name == val], so it goes no deeper. *)
Definition set_batch_name (val : string) (self : t) : M t :=
  self <- assign_batch_name val self ;;
  self <- (if String.eqb (name self) val then ret self
           else
             self <- assign_batch_name val (with_name val self) ;;
             initialize_configs None self) ;;
  initialize_configs None self.

Definition __init__ (config_group : option string)
  (root_dir : option string) (args : kwargs) : M t :=
  args <- match config_group with
          | Some g =>
              base <- eKonf.compose g ;;
              l <- DictConfig.new base ;;
              eKonf.merge l (CDict args)
          | None => eKonf.to_config args
          end ;;
  data <- DictConfig.read args ;;
  kw <- as_kwargs data ;;
  config_name <- opt_field as_str "config_name" kw ;;
  name <- req_field as_str "name" kw ;;
  path <- sub_model PathConfig.__init__ "path" kw ;;
  batch <- sub_model BaseBatchConfig.__init__ "batch" kw ;;
  project <- sub_model ret "project" kw ;;
  autoload <- dflt_field as_bool "autoload" false kw ;;
  version <- dflt_field as_str "version" "0.0.0" kw ;;
  initial <- DictConfig.copy args ;;
  initialize_configs root_dir
    (mk config_name None name path batch project
        (raw_field "module" kw) (raw_field "auto" kw) autoload version
        args initial).

Definition config (self : t) : nat := _config_ self.

Definition batch_name (self : t) : M string :=
  b <- the_batch self "batch_name" ;; ret (BaseBatchConfig.batch_name b).

Definition batch_num (self : t) : M (option Z) :=
  b <- the_batch self "batch_num" ;; ret (BaseBatchConfig.batch_num b).

Definition seed (self : t) : M (option Z) :=
  b <- the_batch self "seed" ;; ret (BaseBatchConfig.seed b).

Definition batch_dir (self : t) : M Path :=
  b <- the_batch self "batch_dir" ;; BaseBatchConfig.batch_dir b.

Definition output_dir (self : t) : M Path :=
  match path self with
  | Some p => lift (PathConfig.output_dir p)
  | None => raise (AttributeError "output_dir")
  end.

(** [self.dict(exclude=..., exclude_none=True)], as the JSON dumper
    writes it: declared fields only, paths as strings. *)
Definition dict (excl : list string) (self : t) : kwargs :=
  let path_doc :=
    match path self with
    | Some p =>
        CDict (List.filter (fun kv => negb (is_none (snd kv)))
                 [("task_name", CVal (SStr (PathConfig.task_name p)));
                  ("root", opt_str (PathConfig.root p));
                  ("batch_name", opt_str (PathConfig.batch_name p));
                  ("verbose", CVal (SBool (PathConfig.verbose p)))])
    | None => CVal SNone
    end in
  let batch_doc :=
    match batch self with
    | Some b =>
        CDict (List.filter (fun kv => negb (is_none (snd kv)))
                 [("batch_name", CVal (SStr (BaseBatchConfig.batch_name b)));
                  ("batch_num", opt_int (BaseBatchConfig.batch_num b));
                  ("output_dir",
                    CVal (SStr (str_of_path (BaseBatchConfig.output_dir b))));
                  ("output_suffix", opt_str (BaseBatchConfig.output_suffix b));
                  ("output_extention",
                    CVal (SStr (BaseBatchConfig.output_extention b)));
                  ("random_seed", CVal (SBool (BaseBatchConfig.random_seed b)));
                  ("seed", opt_int (BaseBatchConfig.seed b));
                  ("resume_run", CVal (SBool (BaseBatchConfig.resume_run b)));
                  ("resume_latest",
                    CVal (SBool (BaseBatchConfig.resume_latest b)));
                  ("verbose", CVal (SBool (BaseBatchConfig.verbose b)));
                  ("config_yaml", CVal (SStr (BaseBatchConfig.config_yaml b)));
                  ("config_json", CVal (SStr (BaseBatchConfig.config_json b)));
                  ("config_dirname",
                    CVal (SStr (BaseBatchConfig.config_dirname b)))])
    | None => CVal SNone
    end in
  List.filter
    (fun kv => negb (mem (fst kv) excl) && negb (is_none (snd kv)))
    [("config_name", opt_str (config_name self));
     ("config_group", opt_str (config_group self));
     ("name", CVal (SStr (name self)));
     ("path", path_doc);
     ("batch", batch_doc);
     ("project", match project self with
                 | Some p => CDict p | None => CVal SNone end);
     ("module", default (CVal SNone) (module self));
     ("auto", default (CVal SNone) (auto self));
     ("autoload", CVal (SBool (autoload self)));
     ("version", CVal (SStr (version self)))].

Definition save_settings (excl : option (list string)) (self : t) : M unit :=
  let excl := default exclude excl in
  b <- the_batch self "verbose" ;;
  p <- BaseBatchConfig.config_jsonpath b ;;
  eKonf.save_json (CDict (dict excl self)) p.

(** [for key in include: args[key] = cfg[key]] *)
Fixpoint pick (include : list string) (cfg args : kwargs) : M kwargs :=
  match include with
  | [] => ret args
  | key :: r =>
      match assoc key cfg with
      | Some v => pick r cfg (assoc_set key v args)
      | None => raise (KeyError key)
      end
  end.

(** [for key in exclude: args.pop(key, None)] *)
Definition drop (excl : list string) (args : kwargs) : kwargs :=
  fold_left (fun acc key => assoc_del key acc) excl args.

Definition save_config (config : option nat) (excl incl : option names)
  (self : t) : M (t * string) :=
  let self := match config with
              | Some c => with_config c self
              | None => self
              end in
  b <- the_batch self "config_filepath" ;;
  BaseBatchConfig.config_filepath b ;;;
  cfg <- eKonf.to_dict (_config_ self) ;;
  cfg <- as_kwargs cfg ;;
  let excl := default (Names exclude) excl in
  args <- (if match incl with Some i => names_truthy i | None => false end
           then pick (names_list (default (Names []) incl)) cfg []
           else if names_truthy excl
                then ret (drop (names_list excl) cfg)
                else ret cfg) ;;
  p <- BaseBatchConfig.config_filepath b ;;
  eKonf.save (CDict args) p ;;;
  save_settings (Some (names_list excl)) self ;;;
  ret (self, BaseBatchConfig.config_filename b).

Definition load_config (batch_name : option string) (batch_num : option Z)
  (args : kwargs) (self : t) : M t :=
  batch_name <- match batch_name with
                | Some n => ret n
                | None =>
                    b <- the_batch self "batch_name" ;;
                    ret (BaseBatchConfig.batch_name b)
                end ;;
  r <- match batch_num with
       | Some n =>
           cfg <- DictConfig.copy (_initial_config_ self) ;;
           b <- the_batch self "batch_name" ;;
           let b := BaseBatchConfig.with_batch_num (Some n)
                      (BaseBatchConfig.with_batch_name batch_name b) in
           let self := with_batch (Some b) self in
           _path <- BaseBatchConfig.config_filepath b ;;
           found <- is_file _path ;;
           if found
           then
             batch_cfg <- eKonf.load _path ;;
             cfg <- eKonf.merge cfg batch_cfg ;;
             ret (cfg, self, Some n)
           else ret (cfg, self, None)
       | None => ret (_config_ self, self, None)
       end ;;
  let '(cfg, self, batch_num) := r in
  new <- eKonf.merge cfg (CDict args) ;;
  let self := with_config new self in
  self <- set_batch_num batch_num self ;;
  set_batch_name batch_name self.

Definition reset (self : t) : M unit := emit EvReleaseGpu.

End BaseBatchModel.

(** ** Dataframe collaborators *)

(** Modelled from the spec: [load_dataframe] ([ekorpkit.io.file]) is not
    among the sources; "load(path, dtypeHints) -> Table". *)
Definition load_dataframe (p : Path) : M table :=
  fun env w =>
    let w' := mkWorld (fs w) (heap w) (draws w)
                (trace w ++ [EvReadTable (resolve env p)]) in
    match fs w !! resolve env p with
    | Some (File (Tab t)) => (Ok t, w')
    | Some _ => (Raise (ValueError "not a table"), w')
    | None => (Raise (FileNotFoundError (resolve env p)), w')
    end.

(** Modelled from the spec: [apply_pipeline] ([ekorpkit.pipelines.pipe]) is
    not among the sources; the named steps run "in declared order against a
    tabular value, each step returning a (possibly new) table", and saving
    steps write files. *)
Definition apply_pipeline (df : table) (pipes : list cfg) (args : kwargs)
  : M table :=
  fun env w =>
    let '(df', f') := pipeline env df pipes args (fs w) in
    (Ok df', mkWorld f' (heap w) (draws w) (trace w ++ [EvPipeline pipes args])).

(** [d.get(k, dflt)] on keyword arguments. *)
Definition get_or (k : string) (dflt : cfg) (d : kwargs) : cfg :=
  default dflt (assoc k d).

Definition fmt_opt (o : option string) : string :=
  match o with Some s => s | None => "None" end.

Definition items (c : cfg) : list cfg :=
  match c with CList l => l | _ => [] end.

(** ** [class DatasetBuilder] *)

Module DatasetBuilder.

Record t := mk {
  name : option string;
  data_dir : option string;
  data_filetype : string;
  column_info : cfg;
  verbose : bool;
  fetch_dir : cfg;
  fetch_sources : cfg;
  overwrite : bool;
  calculate_stats : bool;
  preprocess_text : bool;
  downloader : cfg;
  loader : cfg;
  info_args : cfg;
  summary_info : bool;
  pipeline_args : kwargs;
  transform_pipeline : list cfg;
  process_pipeline : list cfg
}.

Definition with_summary_info (b : bool) (s : t) : t :=
  mk (name s) (data_dir s) (data_filetype s) (column_info s) (verbose s)
     (fetch_dir s) (fetch_sources s) (overwrite s) (calculate_stats s)
     (preprocess_text s) (downloader s) (loader s) (info_args s) b
     (pipeline_args s) (transform_pipeline s) (process_pipeline s).

Definition with_pipelines (pa : kwargs) (tp pp : list cfg) (s : t) : t :=
  mk (name s) (data_dir s) (data_filetype s) (column_info s) (verbose s)
     (fetch_dir s) (fetch_sources s) (overwrite s) (calculate_stats s)
     (preprocess_text s) (downloader s) (loader s) (info_args s)
     (summary_info s) pa tp pp.

Definition __init__ (args : kwargs) : M t :=
  fetch_args <- match assoc "fetch" args with
                | Some (CDict d) => ret d
                | _ => raise (AttributeError "get")
                end ;;
  let fetch_sources :=
    match get_or "data_sources" (CVal SNone) fetch_args with
    | CVal (SStr s) => CDict [("train", CList [CVal (SStr s)])]
    | CList l => CDict [("train", CList l)]
    | c => c
    end in
  pipeline_args <- match get_or "pipeline" (CDict []) args with
                   | CDict d => ret d
                   | _ => raise (AttributeError "get")
                   end ;;
  ret (mk (assoc "name" args ≫= as_str)
          (assoc "data_dir" args ≫= as_str)
          (default "parquet" (assoc "filetype" args ≫= as_str))
          (get_or "column_info" (CVal SNone) args)
          (truthy (get_or "verbose" (CVal (SBool false)) args))
          (get_or "data_dir" (CVal SNone) fetch_args)
          fetch_sources
          (truthy (get_or "overwrite" (CVal (SBool false)) fetch_args))
          (truthy (get_or "calculate_stats" (CVal (SBool false)) fetch_args))
          (truthy (get_or "preprocess_text" (CVal (SBool false)) fetch_args))
          (get_or "downloader" (CVal SNone) fetch_args)
          (get_or "loader" (CVal SNone) fetch_args)
          (get_or "info" (CVal SNone) args)
          false
          pipeline_args
          (items (get_or "_transform_" (CList []) pipeline_args))
          (items (get_or "_preprocess_" (CList []) pipeline_args))).

(** [self.pipeline_args[pipe][k] = v] *)
Definition set_pipe_arg (pipe k : string) (v : cfg) (pa : kwargs) : M kwargs :=
  match assoc pipe pa with
  | Some (CDict d) => ret (assoc_set pipe (CDict (assoc_set k v d)) pa)
  | _ => raise (TypeError "object does not support item assignment")
  end.

Definition has (pipe : string) (l : list cfg) : bool :=
  existsb (fun c => match c with
                    | CVal (SStr s) => String.eqb s pipe
                    | _ => false
                    end) l.

(** [if pipe not in lst: lst.append(pipe)]; the list is the one stored
    under [key] in [pipeline_args] when that entry is a list. *)
Definition append_pipe (key pipe : string) (lst : list cfg) (pa : kwargs)
  : list cfg * kwargs :=
  if has pipe lst then (lst, pa)
  else
    let lst' := (lst ++ [CVal (SStr pipe)])%list in
    match assoc key pa with
    | Some (CList _) => (lst', assoc_set key (CList lst') pa)
    | _ => (lst', pa)
    end.

Definition file_name (self : t) (pre split_name : string) : string :=
  pre +:+ fmt_opt (name self) +:+ "-" +:+ split_name +:+ data_filetype self.

Definition output_file (self : t) (split_name : string) : Path :=
  joinpath (Path_of (default "" (data_dir self)))
    (file_name self "" split_name).

(** Lines 104-124 of [_process_split]: the saving steps are told their
    files. *)
Definition prepare_pipes (split_name : string)
  (output_dir output_file output_meta_file : Path) (self : t) : M t :=
  let sample_file_prefix :=
    str_of_path output_dir +:+ "/sample-" +:+ fmt_opt (name self)
      +:+ "-" +:+ split_name +:+ "-" in
  let pa := pipeline_args self in
  let tp := transform_pipeline self in
  let pp := process_pipeline self in
  r <- (if mem "save_metadata" (keys pa)
        then
          let '(tp, pa) := append_pipe "_transform_" "save_metadata" tp pa in
          pa <- set_pipe_arg "save_metadata" "filepath"
                  (CVal (SStr (str_of_path output_meta_file))) pa ;;
          pa <- set_pipe_arg "save_metadata" "column_info"
                  (column_info self) pa ;;
          pa <- set_pipe_arg "save_metadata" "split_name"
                  (CVal (SStr split_name)) pa ;;
          ret (tp, pa)
        else ret (tp, pa)) ;;
  let '(tp, pa) := r in
  r <- (if mem "save_samples" (keys pa)
        then
          let '(pp, pa) := append_pipe "_preprocess_" "save_samples" pp pa in
          pa <- set_pipe_arg "save_samples" "sample_file_prefix"
                  (CVal (SStr sample_file_prefix)) pa ;;
          ret (pp, pa)
        else ret (pp, pa)) ;;
  let '(pp, pa) := r in
  r <- (if mem "save_dataframe" (keys pa)
        then
          let '(pp, pa) := append_pipe "_preprocess_" "save_dataframe" pp pa in
          pa <- set_pipe_arg "save_dataframe" "filepath"
                  (CVal (SStr (str_of_path output_file))) pa ;;
          columns_to_keep <-
            match column_info self with
            | CDict ci =>
                let c := get_or "data" (CVal SNone) ci in
                if truthy c
                then match c with
                     | CDict d => ret (CList (map (fun k => CVal (SStr k)) (keys d)))
                     | _ => raise (AttributeError "keys")
                     end
                else ret c
            | _ => raise (AttributeError "get")
            end ;;
          pa <- set_pipe_arg "save_dataframe" "columns_to_keep"
                  columns_to_keep pa ;;
          ret (pp, pa)
        else ret (pp, pa)) ;;
  let '(pp, pa) := r in
  ret (with_pipelines pa tp pp self).

(** Lines 126-158: the table of the split, from the loader or from the
    file that is already there. *)
Definition fetch (split_name : string) (output_file output_meta_file : Path)
  (self : t) : M (option table) :=
  present <- exists_ output_file ;;
  if negb present || overwrite self
  then
    env <- ask ;;
    emit (EvLoader split_name) ;;;
    match instantiate env (loader self) split_name with
    | None => raise (ValueError "dataframe is None")
    | Some df =>
        df <- (match transform_pipeline self with
               | [] => ret df
               | tp => apply_pipeline df tp (pipeline_args self)
               end) ;;
        (if summary_info self && calculate_stats self
         then
           meta <- is_file output_meta_file ;;
           emit (EvInitStats split_name
                   ([("name", CVal (SStr split_name));
                     ("dataset_name", opt_str (name self));
                     ("data_file", CVal (SStr (path_name output_file)))]
                    ++ (if meta : bool
                        then [("meta_file",
                                CVal (SStr (path_name output_meta_file)))]
                        else [])))
         else ret tt) ;;;
        ret (Some df)
    end
  else
    if calculate_stats self || preprocess_text self
    then df <- load_dataframe output_file ;; ret (Some df)
    else ret None.

(** Lines 160-169. *)
Definition finish (split_name : string) (df : option table) (self : t)
  : M t :=
  match df with
  | None => ret self
  | Some df =>
      df <- (match process_pipeline self with
             | [] => ret df
             | pp => apply_pipeline df pp (pipeline_args self)
             end) ;;
      (if calculate_stats self && summary_info self
       then emit (EvCalcStats split_name)
       else ret tt) ;;;
      ret self
  end.

Definition _process_split (split_name : string) (self : t) : M t :=
  output_dir <- match data_dir self with
                | Some d => ret (Path_of d)
                | None => raise (TypeError "expected str, not NoneType")
                end ;;
  isd <- is_dir output_dir ;;
  (if isd then ret tt else mkdir output_dir) ;;;
  let output_file := joinpath output_dir (file_name self "" split_name) in
  let output_meta_file :=
    joinpath output_dir (file_name self "meta-" split_name) in
  self <- prepare_pipes split_name output_dir output_file output_meta_file
            self ;;
  df <- fetch split_name output_file output_meta_file self ;;
  finish split_name df self.

(** [for split_name, split_data_source in self.fetch_sources.items()] *)
Fixpoint each_split (sources : kwargs) (self : t) : M t :=
  match sources with
  | [] => ret self
  | (split_name, split_data_source) :: rest =>
      if is_none split_data_source then each_split rest self
      else
        self <- _process_split split_name self ;;
        each_split rest self
  end.

(** Lines 70-80 of [build]: the downloader and the summary object. *)
Definition prelude (self : t) : M t :=
  (if truthy (downloader self)
   then
     match downloader self with
     | CDict d =>
         (if truthy (get_or "_target_" (CVal SNone) d)
          then emit (EvInstantiate (downloader self)) else ret tt) ;;;
         (if truthy (get_or "pipeline" (CVal SNone) d)
          then emit (EvInstantiate (get_or "pipeline" (CVal SNone) d))
          else ret tt)
     | _ => raise (AttributeError "get")
     end
   else ret tt) ;;;
  self <- (if truthy (info_args self)
           then emit (EvInstantiate (info_args self)) ;;;
                ret (with_summary_info true self)
           else ret self) ;;
  (if summary_info self then emit EvInfoLoad else ret tt) ;;;
  ret self.

Definition build (self : t) : M t :=
  self <- prelude self ;;
  sources <- match fetch_sources self with
             | CDict d => ret d
             | _ => raise (AttributeError "items")
             end ;;
  self <- each_split sources self ;;
  (if summary_info self then emit EvInfoSave else ret tt) ;;;
  ret self.

End DatasetBuilder.

(** ** The entry points of [build.py]

    The constructor call unpacks [cfg], which needs a mapping;
    [db.build()] is run for what it does, its value is dropped. *)
Definition build_corpus (args : kwargs) : M unit :=
  cfg <- match get_or "corpus" (CDict []) args with
         | CDict d => ret (get_or "builtin" (CVal SNone) d)
         | _ => raise (AttributeError "get")
         end ;;
  if truthy cfg
  then
    match cfg with
    | CDict d =>
        db <- DatasetBuilder.__init__ d ;;
        DatasetBuilder.build db ;;;
        ret tt
    | _ => raise (TypeError "argument after ** must be a mapping")
    end
  else ret tt.

Definition build_t5 (args : kwargs) : M unit :=
  cfg <- match get_or "dataset" (CDict []) args with
         | CDict d => ret (get_or "t5" (CVal SNone) d)
         | _ => raise (AttributeError "get")
         end ;;
  if truthy cfg
  then
    match cfg with
    | CDict d =>
        db <- DatasetBuilder.__init__ d ;;
        DatasetBuilder.build db ;;;
        ret tt
    | _ => raise (TypeError "argument after ** must be a mapping")
    end
  else ret tt.

Definition build_simple (args : kwargs) : M unit :=
  cfg <- match get_or "dataset" (CDict []) args with
         | CDict d => ret (get_or "simple" (CVal SNone) d)
         | _ => raise (AttributeError "get")
         end ;;
  if truthy cfg
  then
    match cfg with
    | CDict d =>
        db <- DatasetBuilder.__init__ d ;;
        DatasetBuilder.build db ;;;
        ret tt
    | _ => raise (TypeError "argument after ** must be a mapping")
    end
  else ret tt.

(** ** [class Dataset] *)

Module Dataset.

Record t := mk {
  name : string;
  verbose : bool;
  autoload : bool;
  data_dir : Path;
  info_file : Path;
  filetype : string;
  data_files : kwargs;
  column_info : kwargs;
  _id_keys : list cfg;
  _data_keys : cfg;
  pipeline_args : kwargs;
  transform_pipeline : list cfg;
  process_pipeline : list cfg;
  splits : list (string * table);
  _loaded : bool
}.

Definition with_splits (sp : list (string * table)) (d : t) : t :=
  mk (name d) (verbose d) (autoload d) (data_dir d) (info_file d)
     (filetype d) (data_files d) (column_info d) (_id_keys d) (_data_keys d)
     (pipeline_args d) (transform_pipeline d) (process_pipeline d)
     sp (_loaded d).

Definition with_loaded (b : bool) (d : t) : t :=
  mk (name d) (verbose d) (autoload d) (data_dir d) (info_file d)
     (filetype d) (data_files d) (column_info d) (_id_keys d) (_data_keys d)
     (pipeline_args d) (transform_pipeline d) (process_pipeline d)
     (splits d) b.

(** [for split, data_file in self.data_files.items()] *)
Fixpoint load_each (files : kwargs) (self : t) : M t :=
  match files with
  | [] => ret self
  | (split, data_file) :: rest =>
      data_file <- match data_file with
                   | CVal (SStr f) => ret (joinpath (data_dir self) f)
                   | _ => raise (TypeError "unsupported operand type(s) for /")
                   end ;;
      df <- load_dataframe data_file ;;
      df <- (match process_pipeline self with
             | [] => ret df
             | pp => apply_pipeline df pp (pipeline_args self)
             end) ;;
      load_each rest (with_splits (assoc_set split df (splits self)) self)
  end.

Definition load (self : t) : M t :=
  if _loaded self then ret self
  else
    self <- load_each (data_files self) self ;;
    ret (with_loaded true self).

(** [__getitem__] *)
Definition getitem (split : string) (self : t) : Res table :=
  match assoc split (splits self) with
  | Some df => Ok df
  | None => Raise (KeyError split)
  end.

(** The property [DATA]: [list(self._data_keys.keys())]. *)
Definition DATA (self : t) : Res (list string) :=
  match _data_keys self with
  | CDict d => Ok (keys d)
  | _ => Raise (AttributeError "keys")
  end.

Definition __init__ (args : kwargs) : M t :=
  name <- match assoc "name" args with
          | Some (CVal (SStr s)) => ret s
          | Some (CList (CVal (SStr s) :: _)) => ret s
          | Some _ => raise (TypeError "name")
          | None => raise (KeyError "name")
          end ;;
  let verbose := truthy (get_or "verbose" (CVal (SBool false)) args) in
  let autoload := truthy (get_or "autoload" (CVal (SBool false)) args) in
  let use_name_as_subdir :=
    truthy (get_or "use_name_as_subdir" (CVal (SBool true)) args) in
  data_dir <- match assoc "data_dir" args with
              | Some (CVal (SStr s)) => ret (Path_of s)
              | Some _ => raise (TypeError "data_dir")
              | None => raise (KeyError "data_dir")
              end ;;
  let data_dir := if use_name_as_subdir then joinpath data_dir name
                  else data_dir in
  let info_file := joinpath data_dir ("info-" +:+ name +:+ ".yaml") in
  found <- is_file info_file ;;
  info <- (if found then eKonf.load info_file else ret (CDict [])) ;;
  args <- (if truthy info
           then as_kwargs (merge_tree (CDict args) info)
           else ret args) ;;
  let filetype := default "csv" (assoc "filetype" args ≫= as_str) in
  let data_files :=
    match get_or "data_files" (CVal SNone) args with
    | CDict d => d
    | _ =>
        [("train", CVal (SStr (name +:+ "-train." +:+ filetype)));
         ("dev", CVal (SStr (name +:+ "-dev." +:+ filetype)));
         ("test", CVal (SStr (name +:+ "-test." +:+ filetype)))]
    end in
  column_info <- match get_or "column_info" (CVal SNone) args with
                 | CVal SNone => raise (ValueError "Column info can't be None")
                 | CDict d => ret d
                 | _ => raise (TypeError "column_info")
                 end ;;
  _keys <- match assoc "keys" column_info with
           | Some (CDict d) => ret d
           | Some _ => raise (TypeError "keys")
           | None => raise (KeyError "keys")
           end ;;
  _id_keys <- match assoc "id" _keys with
              | Some (CVal (SStr s)) => ret [CVal (SStr s)]
              | Some (CList l) => ret l
              | Some c => ret [c]
              | None => raise (KeyError "id")
              end ;;
  pipeline_args <- match get_or "pipeline" (CDict []) args with
                   | CDict d => ret d
                   | _ => raise (AttributeError "get")
                   end ;;
  let self :=
    mk name verbose autoload data_dir info_file filetype data_files
       column_info _id_keys (get_or "data" (CVal SNone) column_info)
       pipeline_args
       (items (get_or "_transform_" (CList []) pipeline_args))
       (items (get_or "_pipeline_" (CList []) pipeline_args))
       [] false in
  if autoload then load self else ret self.

End Dataset.

(** ** A reference environment *)

(** A name against a pattern of literals, [?] and [*]. *)
Fixpoint wildcard (p : string) : string -> bool :=
  match p with
  | EmptyString => fun n => match n with EmptyString => true | _ => false end
  | String c p' =>
      if Ascii.eqb c "*"%char
      then fix star (n : string) : bool :=
             wildcard p' n
             || match n with
                | String _ n' => star n'
                | EmptyString => false
                end
      else fun n =>
             match n with
             | String d n' =>
                 (Ascii.eqb c "?"%char || Ascii.eqb c d) && wildcard p' n'
             | EmptyString => false
             end
  end.

(** The entries directly in [dir] whose name matches. *)
Definition glob_children (dir : Path) (pattern : string) (p : Path) : bool :=
  match List.rev p with
  | n :: r => bool_decide (List.rev r = dir) && wildcard pattern n
  | [] => false
  end.

Definition env0 : Env :=
  mkEnv ["/"; "work"] glob_children (fun n => Z.of_nat n)
        (fun _ => CDict [("root", CVal (SStr "/ws"))])
        (fun _ _ => None)
        (fun df _ _ f => (df, f)).

Definition w0 : World := mkWorld ∅ [] 0 [].

(** * Vocabulary of the statements *)

Local Open Scope list_scope.

(** What a supplied or missing key parses to. *)
Definition parse_opt {A} (conv : cfg -> option A) (k : string) (d : kwargs)
  : option (option A) :=
  match assoc k d with
  | None | Some (CVal SNone) => Some None
  | Some c => match conv c with Some a => Some (Some a) | None => None end
  end.

(** A keyword that is left out or passed as [None]. *)
Definition unset (k : string) (d : kwargs) : Prop :=
  assoc k d = None \/ assoc k d = Some (CVal SNone).

Fixpoint dots (n : nat) : string :=
  match n with
  | 0 => ""
  | S n => String "."%char (dots n)
  end.

(** The paths [mkdir_from] visits. *)
Fixpoint prefixes_from (pre : Path) (rest : list string) : list Path :=
  pre :: match rest with
         | [] => []
         | x :: r => prefixes_from (pre ++ [x]) r
         end.

Definition prefixes (p : Path) : list Path :=
  match p with
  | [] => []
  | a :: r => prefixes_from [a] r
  end.

(** No regular file sits on the way to [p]. *)
Definition makeable (f : gmap Path node) (p : Path) : Prop :=
  forall q, q ∈ prefixes p -> fs_is_file f q = false.

Definition batch_dir_path (b : BaseBatchConfig.t) : Path :=
  joinpath (BaseBatchConfig.output_dir b) (BaseBatchConfig.batch_name b).

Definition config_dir_path (b : BaseBatchConfig.t) : Path :=
  joinpath (batch_dir_path b) (BaseBatchConfig.config_dirname b).

Definition with_fs (f : gmap Path node) (w : World) : World :=
  mkWorld f (heap w) (draws w) (trace w).

(** The count of matching entries, as [init_batch_num] takes it. *)
Definition num_files (env : Env) (f : gmap Path node) (b : BaseBatchConfig.t)
  : Z :=
  Z.of_nat (length (fs_glob env f (resolve env (config_dir_path b))
                      (BaseBatchConfig.config_filepattern b))).

(** A batch as [BaseBatchConfig(batch_name="exp1", output_dir="/r/outputs")]
    validates it, before [init_batch_num]. *)
Definition b_exp1 : BaseBatchConfig.t :=
  BaseBatchConfig.mk "exp1" None ["/"; "r"; "outputs"] None "" true None
    false false "config.yaml" "config.json" "configs" false.

Definition b_exp1_latest : BaseBatchConfig.t :=
  BaseBatchConfig.mk "exp1" None ["/"; "r"; "outputs"] None "" true None
    false true "config.yaml" "config.json" "configs" false.

(** Two runs of [exp1] have been saved. *)
Definition fs_two : gmap Path node :=
  <[ ["/"; "r"; "outputs"; "exp1"; "configs"; "exp1(1)_config.yaml"]
       := File (Doc (CDict [])) ]>
  (<[ ["/"; "r"; "outputs"; "exp1"; "configs"; "exp1(0)_config.yaml"]
        := File (Doc (CDict [])) ]>
   (<[ ["/"; "r"; "outputs"; "exp1"; "configs"; "exp1(0)_config.json"]
         := File (Doc (CDict [])) ]> ∅)).

Definition w_two : World := mkWorld fs_two [] 0 [].

(** [PathConfig(root="/r", batch_name="exp1")] *)
Definition p_exp1 : PathConfig.t :=
  PathConfig.mk "default-task" (Some "/r") (Some "exp1") false.

(** [exp1] under [/r/outputs], first run. *)
Definition b_run0 : BaseBatchConfig.t :=
  BaseBatchConfig.mk "exp1" (Some 0%Z) ["/"; "r"; "outputs"] None "" true None
    false false "config.yaml" "config.json" "configs" false.

Definition data_tar : kwargs :=
  [("batch_name", CVal (SStr "exp1"));
   ("output_dir", CVal (SStr "/r/outputs"));
   ("output_extention", CVal (SStr "..tar.gz."))].

Definition b_tar : BaseBatchConfig.t :=
  BaseBatchConfig.mk "exp1" (Some 0%Z) ["/"; "r"; "outputs"] None "tar.gz"
    true None false false "config.yaml" "config.json" "configs" false.

Definition data_plain : kwargs :=
  [("batch_name", CVal (SStr "exp1"));
   ("output_dir", CVal (SStr "/r/outputs"));
   ("output_extention", CVal SNone)].

(** An environment whose generator draws the largest value. *)
Definition env_max : Env :=
  mkEnv ["/"; "work"] glob_children (fun _ => 2 ^ 32 - 1)%Z
        (fun _ => CDict [("root", CVal (SStr "/ws"))])
        (fun _ _ => None)
        (fun df _ _ f => (df, f)).

Definition data_seed (rs : bool) (seed : cfg) : kwargs :=
  [("batch_name", CVal (SStr "exp1"));
   ("output_dir", CVal (SStr "/r/outputs"));
   ("random_seed", CVal (SBool rs));
   ("seed", seed)].

Definition b_seed42 : BaseBatchConfig.t :=
  BaseBatchConfig.mk "exp1" (Some 0%Z) ["/"; "r"; "outputs"] None ""
    false (Some 42%Z) false false "config.yaml" "config.json" "configs" false.

(** [m] takes every world to one that is [R]-related to it, whether it
    returns or raises. *)
Definition preserves {A} (R : World -> World -> Prop) (env : Env) (m : M A)
  : Prop :=
  forall w, R w (snd (m env w)).

(** The events of [w'] extend those of [w] by events that satisfy [P]. *)
Definition emits (P : event -> Prop) (w w' : World) : Prop :=
  exists evs, trace w' = trace w ++ evs /\ Forall P evs.

(** What exists in the file system of [w] still exists in [w']. *)
Definition keeps (w w' : World) : Prop :=
  forall q, fs_exists (fs w) q = true -> fs_exists (fs w') q = true.

(** The pipeline steps of the environment add and rewrite files, but remove
    none. *)
Definition pipeline_keeps (env : Env) : Prop :=
  forall df pipes args f q,
    fs_exists f q = true ->
    fs_exists (snd (pipeline env df pipes args f)) q = true.

(** Every value [m] returns satisfies [Q]. *)
Definition returns {A} (Q : A -> Prop) (env : Env) (m : M A) : Prop :=
  forall w a w', m env w = (Ok a, w') -> Q a.

(** [self'] is [self] with other pipelines. *)
Definition same_setup (self self' : DatasetBuilder.t) : Prop :=
  exists pa tp pp, self' = DatasetBuilder.with_pipelines pa tp pp self.

(** Statistics or text preprocessing were asked for. *)
Definition requested (self : DatasetBuilder.t) : bool :=
  DatasetBuilder.calculate_stats self || DatasetBuilder.preprocess_text self.

(** The event is no loader call, unless it is the call for split [s]. *)
Definition loader_of (s : string) (e : event) : Prop :=
  forall x, e = EvLoader x -> x = s.

Definition not_loader (e : event) : Prop := forall x, e <> EvLoader x.

Definition not_read (e : event) : Prop := forall p, e <> EvReadTable p.

(** None of the saving steps is configured. *)
Definition no_saving_steps (self : DatasetBuilder.t) : Prop :=
  mem "save_metadata" (keys (DatasetBuilder.pipeline_args self)) = false
  /\ mem "save_samples" (keys (DatasetBuilder.pipeline_args self)) = false
  /\ mem "save_dataframe" (keys (DatasetBuilder.pipeline_args self)) = false.

(** [self'] differs from [self] in its pipelines and summary object only. *)
Definition same_target (self self' : DatasetBuilder.t) : Prop :=
  DatasetBuilder.name self' = DatasetBuilder.name self
  /\ DatasetBuilder.data_dir self' = DatasetBuilder.data_dir self
  /\ DatasetBuilder.data_filetype self' = DatasetBuilder.data_filetype self
  /\ DatasetBuilder.overwrite self' = DatasetBuilder.overwrite self
  /\ DatasetBuilder.calculate_stats self' = DatasetBuilder.calculate_stats self
  /\ DatasetBuilder.preprocess_text self' = DatasetBuilder.preprocess_text self
  /\ DatasetBuilder.loader self' = DatasetBuilder.loader self
  /\ DatasetBuilder.fetch_sources self' = DatasetBuilder.fetch_sources self.

(** The world differs from [w] by events that satisfy [P] only. *)
Definition emits_only (P : event -> Prop) (w w' : World) : Prop :=
  fs w' = fs w /\ emits P w w'.

(** A builder of [exp] whose train split has been written already. *)
Definition builder0 : DatasetBuilder.t :=
  DatasetBuilder.mk (Some "exp") (Some "/data") ".parquet" (CVal SNone) false
    (CVal SNone) (CDict [("train", CList [CVal (SStr "src.csv")])])
    false true false (CVal SNone) (CVal SNone) (CVal SNone) false [] [] [].

Definition fs_built : gmap Path node :=
  <[ ["/"; "data"; "exp-train.parquet"] := File (Tab (Table ["text"] [])) ]>
  (<[ ["/"; "data"] := Dir ]> ∅).

Definition w_built : World := mkWorld fs_built [] 0 [].

(** A builder of [exp] that is told to fetch again. *)
Definition builder_again : DatasetBuilder.t :=
  DatasetBuilder.mk (Some "exp") (Some "/data") ".parquet" (CVal SNone) false
    (CVal SNone) (CDict [("train", CList [CVal (SStr "src.csv")])])
    true true false (CVal SNone) (CVal SNone) (CVal SNone) false [] [] [].

(** The outcome of a run in which a loader call for [split] that yields
    nothing is the last thing that happens. *)
Definition fatal_at (split : string) {A} (w : World) (rw : Res A * World)
  : Prop :=
  exists evs,
    trace (snd rw) = trace w ++ evs
    /\ (EvLoader split ∈ evs ->
        fst rw = Raise (ValueError "dataframe is None")
        /\ exists evs1, evs = evs1 ++ [EvLoader split]).

(** [load], [n] times over. *)
Fixpoint load_times (n : nat) (self : Dataset.t) : M Dataset.t :=
  match n with
  | 0 => ret self
  | S n => self <- Dataset.load self ;; load_times n self
  end.

(** How often the table at [p] was read. *)
Definition reads_of (p : Path) (evs : list event) : nat :=
  length (List.filter (fun e => match e with
                                | EvReadTable q => bool_decide (q = p)
                                | _ => false
                                end) evs).

(** A dataset of [exp] with one split. *)
Definition dataset0 : Dataset.t :=
  Dataset.mk "exp" false false ["/"; "data"; "exp"]
    ["/"; "data"; "exp"; "info-exp.yaml"] "parquet"
    [("train", CVal (SStr "exp-train.parquet"))]
    [("keys", CDict [("id", CVal (SStr "id"))])]
    [CVal (SStr "id")] (CVal SNone) [] [] [] [] false.

Definition w_data : World :=
  mkWorld (<[ ["/"; "data"; "exp"; "exp-train.parquet"]
                := File (Tab (Table ["id"; "text"] [])) ]> ∅) [] 0 [].

Definition is_read (e : event) : bool :=
  match e with EvReadTable _ => true | _ => false end.

(** The files a dataset reads its splits from. *)
Definition split_files (env : Env) (self : Dataset.t) : list Path :=
  map (fun kv => resolve env
                   (joinpath (Dataset.data_dir self)
                      (default "" (as_str (snd kv)))))
    (Dataset.data_files self).

(** The object at [L] holds [base] and is left alone. *)
Definition holds (L : nat) (base : cfg) (w : World) : Prop :=
  heap w !! L = Some base.

(** From a world where [L] holds [base], [m] ends, returning or raising, in
    a world where it still does; what it returns satisfies [Q]. *)
Definition safe {A} (L : nat) (base : cfg) (env : Env) (m : M A)
  (Q : A -> Prop) : Prop :=
  forall w, holds L base w ->
    holds L base (snd (m env w))
    /\ forall a, fst (m env w) = Ok a -> Q a.

(** The live configuration of the entity is another object than [L], and
    [L] is its baseline. *)
Definition good (L : nat) (self : BaseBatchModel.t) : Prop :=
  BaseBatchModel._config_ self <> L
  /\ BaseBatchModel._initial_config_ self = L.

Definition same_heap (w w' : World) : Prop := heap w' = heap w.

(** What a caller may do to an entity after construction: change the live
    configuration tree directly, or call a method. *)
Inductive op :=
| OpSetAttr (k : string) (v : cfg)              (* [self.config.k = v] *)
| OpSetAttr2 (k1 k2 : string) (v : cfg)         (* [self.config.k1.k2 = v] *)
| OpSetRootDir (root_dir : option string)
| OpSetOutputDir (val : Path)
| OpSetBatchNum (val : option Z)
| OpSetBatchName (val : string)
| OpInitialize (root_dir : option string)
| OpSaveConfig (excl incl : option names)
| OpLoadConfig (batch_name : option string) (batch_num : option Z)
    (args : kwargs).

Definition run_op (o : op) (self : BaseBatchModel.t) : M BaseBatchModel.t :=
  match o with
  | OpSetAttr k v =>
      DictConfig.setattr (BaseBatchModel._config_ self) k v ;;; ret self
  | OpSetAttr2 k1 k2 v =>
      DictConfig.setattr2 (BaseBatchModel._config_ self) k1 k2 v ;;; ret self
  | OpSetRootDir r => BaseBatchModel.set_root_dir r self
  | OpSetOutputDir p => BaseBatchModel.set_output_dir p self
  | OpSetBatchNum n => BaseBatchModel.set_batch_num n self
  | OpSetBatchName s => BaseBatchModel.set_batch_name s self
  | OpInitialize r => BaseBatchModel.initialize_configs r self
  | OpSaveConfig excl incl =>
      r <- BaseBatchModel.save_config None excl incl self ;; ret (fst r)
  | OpLoadConfig bn n args => BaseBatchModel.load_config bn n args self
  end.

Fixpoint run_ops (os : list op) (self : BaseBatchModel.t)
  : M BaseBatchModel.t :=
  match os with
  | [] => ret self
  | o :: os => self <- run_op o self ;; run_ops os self
  end.

Definition args1 : kwargs :=
  [("name", CVal (SStr "exp1"));
   ("batch", CDict [("batch_name", CVal (SStr "exp1"));
                    ("output_dir", CVal (SStr "/r/outputs"));
                    ("random_seed", CVal (SBool false));
                    ("seed", CVal (SInt 42))]);
   ("path", CDict [("root", CVal (SStr "/r"))]);
   ("project", CDict []);
   ("lr", CVal (SInt 3))].

(** A session on the entity built from [args1]: an ad-hoc change of the
    live tree, two setters, a save and a reload. *)
Definition session1 : list op :=
  [OpSetAttr2 "batch" "note" (CVal (SStr "ad hoc"));
   OpSetAttr "lr" (CVal (SInt 99));
   OpSetBatchNum (Some 7%Z);
   OpSaveConfig None None;
   OpLoadConfig None (Some 3%Z) []].

(** The world with the tree [t] in the cell [l]. *)
Definition set_cell (l : nat) (t : cfg) (w : World) : World :=
  mkWorld (fs w) (<[l := t]> (heap w)) (draws w) (trace w).

(** What the count of [init_batch_num] depends on. *)
Definition count_key (b : BaseBatchConfig.t)
  : string * Path * string * string * bool :=
  (BaseBatchConfig.batch_name b, BaseBatchConfig.output_dir b,
   BaseBatchConfig.config_dirname b, BaseBatchConfig.config_yaml b,
   BaseBatchConfig.resume_latest b).

(** The number [init_batch_num] derives for [b] over the files [f]. *)
Definition derived_num (env : Env) (f : gmap Path node)
  (b : BaseBatchConfig.t) : Z :=
  let N := num_files env f b in
  if BaseBatchConfig.resume_latest b then (N - 1)%Z else N.

(** Regular files stay as they are. *)
Definition keeps_files (f f' : gmap Path node) : Prop :=
  forall q c, f !! q = Some (File c) -> f' !! q = Some (File c).

(** [m] reads the environment only: it leaves every world as it is, and
    what it returns does not depend on the world. *)
Definition reads_env {A} (m : M A) : Prop :=
  forall env w w', m env w' = (fst (m env w), w').

(** The path section [pkw] of a configuration validates to [p], whose
    output directory is [out]. *)
Definition path_out (env : Env) (pkw : kwargs) (p : PathConfig.t)
  (out : Path) : Prop :=
  (forall w, PathConfig.__init__ pkw env w = (Ok p, w))
  /\ PathConfig.output_dir p = Ok out.

(** [t'] is [t] up to the entries an entity sets by itself: [name], a
    [path] that was missing, and [batch_num], [batch_name] and
    [output_dir] of [batch]. *)
Definition patched (t t' : cfg) : Prop :=
  exists kvs kvs',
    t = CDict kvs /\ t' = CDict kvs'
    /\ (forall k, k <> "name" -> k <> "batch" -> k <> "path" ->
        assoc k kvs' = assoc k kvs)
    /\ (is_none (get_top "path" t) = false ->
        assoc "path" kvs' = assoc "path" kvs)
    /\ (forall b, assoc "batch" kvs = Some (CDict b) ->
        exists b', assoc "batch" kvs' = Some (CDict b')
                   /\ forall k, k <> "batch_num" -> k <> "batch_name" ->
                                k <> "output_dir" ->
                                assoc k b' = assoc k b).

(** The live tree [t] and the batch [b] as [initialize_configs] leaves
    them: [batch.output_dir] is the output directory of [path], [b] was
    validated from [batch], and [batch.batch_num] is the number [n] of
    [b]. *)
Definition settled (env : Env) (t : cfg) (b : BaseBatchConfig.t) (n : Z)
  : Prop :=
  exists pkw p out bkw,
    get_top "path" t = CDict pkw /\ path_out env pkw p out
    /\ get_top "batch" t = CDict bkw
    /\ assoc "output_dir" bkw = Some (CVal (SStr (str_of_path out)))
    /\ assoc "batch_num" bkw = Some (CVal (SInt n))
    /\ assoc "batch_name" bkw
       = Some (CVal (SStr (BaseBatchConfig.batch_name b)))
    /\ BaseBatchConfig.batch_num b = Some n
    /\ exists kw0 w0 b0 w0',
         (forall k, k <> "batch_num" -> assoc k kw0 = assoc k bkw)
         /\ BaseBatchConfig.validate kw0 env w0 = (Ok b0, w0')
         /\ count_key b0 = count_key b.

(** The entity built from [args1], after one [save_config()]. *)
Definition saved_once : M BaseBatchModel.t :=
  self <- BaseBatchModel.__init__ None None args1 ;;
  r <- BaseBatchModel.save_config None None None self ;;
  ret (fst r).

(** The configuration document and the settings document of a batch. *)
Definition config_file (env : Env) (b : BaseBatchConfig.t) : Path :=
  resolve env (joinpath (config_dir_path b)
                 (BaseBatchConfig.config_filename b)).

Definition settings_file (env : Env) (b : BaseBatchConfig.t) : Path :=
  resolve env (joinpath (config_dir_path b)
                 (BaseBatchConfig.config_jsonfile b)).

(** A snapshot without the keys of [Config.exclude]. *)
Definition restricted (t : cfg) : cfg :=
  match t with
  | CDict kvs => CDict (BaseBatchModel.drop BaseBatchModel.exclude kvs)
  | _ => t
  end.

(** The round trip: the entity of [args1] saves its snapshot; an entity
    built from [args2] loads it under the batch name and number of the
    first.  Returns the saved snapshot and the snapshot of the second
    entity after the load. *)
Definition round_trip (args2 : kwargs) : M (cfg * cfg) :=
  self1 <- BaseBatchModel.__init__ None None args1 ;;
  saved <- eKonf.to_dict (BaseBatchModel.config self1) ;;
  BaseBatchModel.save_config None None None self1 ;;;
  batch_name <- BaseBatchModel.batch_name self1 ;;
  batch_num <- BaseBatchModel.batch_num self1 ;;
  self2 <- BaseBatchModel.__init__ None None args2 ;;
  self2 <- BaseBatchModel.load_config (Some batch_name) batch_num [] self2 ;;
  loaded <- eKonf.to_dict (BaseBatchModel.config self2) ;;
  ret (saved, loaded).

(** [args1] with one more setting. *)
Definition args2 : kwargs :=
  [("name", CVal (SStr "exp1"));
   ("batch", CDict [("batch_name", CVal (SStr "exp1"));
                    ("output_dir", CVal (SStr "/r/outputs"));
                    ("random_seed", CVal (SBool false));
                    ("seed", CVal (SInt 42))]);
   ("path", CDict [("root", CVal (SStr "/r"))]);
   ("project", CDict []);
   ("lr", CVal (SInt 3));
   ("epochs", CVal (SInt 10))].

(** The regular files of [f'] are those of [f], with the same contents. *)
Definition same_files (f f' : gmap Path node) : Prop :=
  forall q c, f' !! q = Some (File c) <-> f !! q = Some (File c).



(** The world [w'] has the regular files of [w]. *)
Definition files_as (w w' : World) : Prop := same_files (fs w) (fs w').

(** The live snapshot of the entity built from [args1]. *)
Definition args_live : kwargs :=
  [("name", CVal (SStr "exp1"));
   ("batch", CDict [("batch_name", CVal (SStr "exp1"));
                    ("output_dir", CVal (SStr "/r/outputs"));
                    ("random_seed", CVal (SBool false));
                    ("seed", CVal (SInt 42));
                    ("batch_num", CVal (SInt 0))]);
   ("path", CDict [("root", CVal (SStr "/r"))]);
   ("project", CDict []);
   ("lr", CVal (SInt 3))].

(** The splits the loader was called for, in the order of the calls. *)
Definition loader_calls (evs : list event) : list string :=
  omap (fun e => match e with EvLoader s => Some s | _ => None end) evs.

(** The splits of [fetch_sources] that have a source, in dictionary order. *)
Definition sourced_splits (sources : kwargs) : list string :=
  omap (fun kv => if is_none (snd kv) then None else Some (fst kv)) sources.

Definition splits_of (c : cfg) : list string :=
  match c with CDict sources => sourced_splits sources | _ => [] end.

(** From [w] to [w'] the loader was called for the splits [l], in that
    order. *)
Definition calls (l : list string) (w w' : World) : Prop :=
  exists evs, trace w' = trace w ++ evs /\ loader_calls evs = l.

(** An environment whose loader yields an empty table for every split. *)
Definition env_load : Env :=
  mkEnv ["/"; "work"] glob_children (fun n => Z.of_nat n)
        (fun _ => CDict [("root", CVal (SStr "/ws"))])
        (fun _ _ => Some (Table ["text"] []))
        (fun df _ _ f => (df, f)).

(** A builder of two splits and one entry without a source, told to fetch
    again. *)
Definition builder_two : DatasetBuilder.t :=
  DatasetBuilder.mk (Some "exp") (Some "/data") ".parquet" (CVal SNone) false
    (CVal SNone)
    (CDict [("train", CList [CVal (SStr "src.csv")]);
            ("dev", CVal SNone);
            ("test", CList [CVal (SStr "test.csv")])])
    true true false (CVal SNone) (CVal SNone) (CVal SNone) false [] [] [].

(** [pipe in self.pipeline_args] *)
Definition configured (pipe : string) (self : DatasetBuilder.t) : bool :=
  mem pipe (keys (DatasetBuilder.pipeline_args self)).

(** [pa[pipe][k]], when it is there. *)
Definition arg_of (pipe k : string) (pa : kwargs) : option cfg :=
  match assoc pipe pa with
  | Some (CDict d) => assoc k d
  | _ => None
  end.

(** [self.pipeline_args[pipe][k]] *)
Definition pipe_arg (pipe k : string) (self : DatasetBuilder.t) : option cfg :=
  arg_of pipe k (DatasetBuilder.pipeline_args self).

(** The three files and names [_process_split] works with. *)
Definition output_dir (self : DatasetBuilder.t) : Path :=
  Path_of (default "" (DatasetBuilder.data_dir self)).

Definition output_meta_file (self : DatasetBuilder.t) (s : string) : Path :=
  joinpath (output_dir self) (DatasetBuilder.file_name self "meta-" s).

Definition sample_file_prefix (self : DatasetBuilder.t) (s : string) : string :=
  str_of_path (output_dir self) +:+ "/sample-"
    +:+ fmt_opt (DatasetBuilder.name self) +:+ "-" +:+ s +:+ "-".

(** A builder with the three saving steps configured. *)
Definition builder_saving : DatasetBuilder.t :=
  DatasetBuilder.mk (Some "exp") (Some "/data") ".parquet"
    (CDict [("data", CDict [("id", CVal (SStr "int"));
                            ("text", CVal (SStr "str"))])])
    false (CVal SNone)
    (CDict [("train", CList [CVal (SStr "src.csv")]);
            ("test", CList [CVal (SStr "test.csv")])])
    false false false (CVal SNone) (CVal SNone) (CVal SNone) false
    [("_transform_", CList [CVal (SStr "normalize")]);
     ("save_metadata", CDict []);
     ("save_samples", CDict [("num_samples_to_save", CVal (SInt 3))]);
     ("save_dataframe", CDict [])]
    [CVal (SStr "normalize")] [].

(** What the three entry points of [build.py] do at the edges of their
    arguments: [section] is the key they read in [args], [key] the entry
    of that section they build. *)
Definition entry_point_edges (f : kwargs -> M unit) (section key : string)
  : Prop :=
  forall args env w,
    (* no section: nothing is built *)
    (assoc section args = None -> f args env w = (Ok tt, w))
    (* a section that is no mapping, [None] included *)
    /\ (forall c, assoc section args = Some c -> (forall d, c <> CDict d) ->
        f args env w = (Raise (AttributeError "get"), w))
    (* no entry, or an empty one: nothing is built *)
    /\ (forall d, assoc section args = Some (CDict d) ->
        truthy (get_or key (CVal SNone) d) = false ->
        f args env w = (Ok tt, w))
    (* an entry that is no mapping *)
    /\ (forall d c, assoc section args = Some (CDict d) ->
        assoc key d = Some c -> truthy c = true -> (forall x, c <> CDict x) ->
        f args env w
        = (Raise (TypeError "argument after ** must be a mapping"), w))
    (* an entry without a [fetch] mapping: the constructor fails *)
    /\ (forall d x, assoc section args = Some (CDict d) ->
        assoc key d = Some (CDict x) -> x <> [] ->
        (forall fa, assoc "fetch" x <> Some (CDict fa)) ->
        f args env w = (Raise (AttributeError "get"), w))
    (* otherwise the loader is called for splits of the entry only *)
    /\ (forall d x db w1, assoc section args = Some (CDict d) ->
        assoc key d = Some (CDict x) -> x <> [] ->
        DatasetBuilder.__init__ x env w = (Ok db, w1) ->
        exists evs,
          trace (snd (f args env w)) = trace w ++ evs
          /\ loader_calls evs
             `sublist_of` splits_of (DatasetBuilder.fetch_sources db)).

(** A dataset of two splits, and a world that holds their files. *)
Definition dataset_two : Dataset.t :=
  Dataset.mk "exp" false false ["/"; "data"; "exp"]
    ["/"; "data"; "exp"; "info-exp.yaml"] "parquet"
    [("train", CVal (SStr "exp-train.parquet"));
     ("test", CVal (SStr "exp-test.parquet"))]
    [("keys", CDict [("id", CVal (SStr "id"))])]
    [CVal (SStr "id")] (CVal SNone) [] [] [] [] false.

Definition w_splits : World :=
  mkWorld (<[ ["/"; "data"; "exp"; "exp-train.parquet"]
                := File (Tab (Table ["id"; "text"] [])) ]>
           (<[ ["/"; "data"; "exp"; "exp-test.parquet"]
                 := File (Tab (Table ["id"; "text"]
                                 [[SInt 1; SStr "a"]])) ]> ∅)) [] 0 [].

(** The info file [Dataset.__init__] looks for, from the arguments. *)
Definition info_path (args : kwargs) (n d : string) : Path :=
  joinpath
    (if truthy (get_or "use_name_as_subdir" (CVal (SBool true)) args)
     then joinpath (Path_of d) n else Path_of d)
    ("info-" +:+ n +:+ ".yaml").

(** Arguments of a dataset of two splits that is loaded at once. *)
Definition dataset_args : kwargs :=
  [("name", CVal (SStr "exp")); ("data_dir", CVal (SStr "/data"));
   ("autoload", CVal (SBool true)); ("filetype", CVal (SStr "parquet"));
   ("data_files", CDict [("train", CVal (SStr "exp-train.parquet"));
                         ("test", CVal (SStr "exp-test.parquet"))]);
   ("column_info", CDict [("keys", CDict [("id", CVal (SStr "id"))])])].

(** The configuration an entity is constructed from: the keyword arguments,
    merged onto the composed group when one is named. *)
Definition baseline (env : Env) (config_group : option string)
  (args : kwargs) : cfg :=
  match config_group with
  | Some g => merge_tree (compose env g) (CDict args)
  | None => CDict args
  end.

(** Ad-hoc changes of the live tree, and a setter. *)
Definition session_adhoc : list op :=
  [OpSetAttr2 "batch" "note" (CVal (SStr "ad hoc"));
   OpSetAttr "lr" (CVal (SInt 99));
   OpSetBatchNum (Some 7%Z)].


(** * Verification *)

(** ** Running monadic code *)

Lemma bind_ok {A B} (m : M A) (k : A -> M B) env w b w' :
  bind m k env w = (Ok b, w') ->
  exists a w1, m env w = (Ok a, w1) /\ k a env w1 = (Ok b, w').
Proof.
  unfold bind. destruct (m env w) as [[a|e] w1]; intros H.
  - eauto.
  - discriminate.
Qed.

Lemma bind_run {A B} (m : M A) (k : A -> M B) env w a w1 :
  m env w = (Ok a, w1) -> bind m k env w = k a env w1.
Proof. unfold bind. intros ->. reflexivity. Qed.

Lemma bind_raise {A B} (m : M A) (k : A -> M B) env w e w1 :
  m env w = (Raise e, w1) -> bind m k env w = (Raise e, w1).
Proof. unfold bind. intros ->. reflexivity. Qed.

Tactic Notation "inv_bind" hyp(H) "as" ident(a) ident(w) ident(Ha) :=
  apply bind_ok in H as (a & w & Ha & H).

Lemma ret_ok {A} (a b : A) env w w' :
  ret a env w = (Ok b, w') -> b = a /\ w' = w.
Proof. unfold ret. intros [= <- <-]. auto. Qed.

(** The field parsers read their arguments only. *)
Lemma opt_field_pure {A} (conv : cfg -> option A) k d env w r w' :
  opt_field conv k d env w = (r, w') -> w' = w.
Proof.
  unfold opt_field, ret, raise.
  destruct (assoc k d) as [[[]| |]|]; try destruct (conv _);
    intros [= _ <-]; reflexivity.
Qed.

Lemma dflt_field_pure {A} (conv : cfg -> option A) k x d env w r w' :
  dflt_field conv k x d env w = (r, w') -> w' = w.
Proof.
  unfold dflt_field, ret, raise.
  destruct (assoc k d); try destruct (conv _); intros [= _ <-]; reflexivity.
Qed.

Lemma req_field_pure {A} (conv : cfg -> option A) k d env w r w' :
  req_field conv k d env w = (r, w') -> w' = w.
Proof.
  unfold req_field, ret, raise.
  destruct (assoc k d); try destruct (conv _); intros [= _ <-]; reflexivity.
Qed.

Lemma opt_field_env {A} (conv : cfg -> option A) k d env w env' w' :
  fst (opt_field conv k d env w) = fst (opt_field conv k d env' w').
Proof.
  unfold opt_field, ret, raise.
  destruct (assoc k d) as [[[]| |]|]; try destruct (conv _); reflexivity.
Qed.

Lemma opt_field_ok {A} (conv : cfg -> option A) k d env w v w' :
  opt_field conv k d env w = (Ok v, w') ->
  parse_opt conv k d = Some v /\ w' = w.
Proof.
  unfold opt_field, parse_opt, ret, raise.
  destruct (assoc k d) as [[[]| |]|]; try destruct (conv _);
    intros [= <- <-] || intros [=]; auto.
Qed.

Lemma dflt_field_ok {A} (conv : cfg -> option A) k x d env w v w' :
  dflt_field conv k x d env w = (Ok v, w') ->
  v = match assoc k d with
      | None => x
      | Some c => default v (conv c)
      end /\ w' = w.
Proof.
  unfold dflt_field, ret, raise.
  destruct (assoc k d); try destruct (conv _);
    intros [= <- <-] || intros [=]; auto.
Qed.

(** The field parsers do not look at the world either. *)
Lemma opt_field_any {A} (conv : cfg -> option A) k d env w r w' :
  opt_field conv k d env w = (r, w') ->
  forall env2 w2, opt_field conv k d env2 w2 = (r, w2).
Proof.
  unfold opt_field, ret, raise.
  destruct (assoc k d) as [[[]| |]|]; try destruct (conv _);
    intros [= <- _]; reflexivity.
Qed.

Lemma dflt_field_any {A} (conv : cfg -> option A) k x d env w r w' :
  dflt_field conv k x d env w = (r, w') ->
  forall env2 w2, dflt_field conv k x d env2 w2 = (r, w2).
Proof.
  unfold dflt_field, ret, raise.
  destruct (assoc k d); try destruct (conv _); intros [= <- _]; reflexivity.
Qed.

Lemma req_field_any {A} (conv : cfg -> option A) k d env w r w' :
  req_field conv k d env w = (r, w') ->
  forall env2 w2, req_field conv k d env2 w2 = (r, w2).
Proof.
  unfold req_field, ret, raise.
  destruct (assoc k d); try destruct (conv _); intros [= <- _]; reflexivity.
Qed.

(** A field that was tried: what the validation goes on with. *)
Lemma try_field_ok {A} (m : M A) env w r w' :
  try_field m env w = (Ok r, w') -> m env w = (r, w').
Proof.
  unfold try_field. destruct (m env w) as [[a|e] w1].
  - by intros [= <- <-].
  - destruct (is_field_error e); [by intros [= <- <-]|done].
Qed.

Lemma lift_ok {A} (r : Res A) env w a w' :
  lift r env w = (Ok a, w') -> r = Ok a /\ w' = w.
Proof. unfold lift. by intros [= -> <-]. Qed.

Section BatchConfigFacts.

Import BaseBatchConfig.

Lemma output_extention_field_pure data env w r w' :
  output_extention_field data env w = (r, w') -> w' = w.
Proof.
  unfold output_extention_field.
  destruct (assoc "output_extention" data); [|by intros [= _ <-]].
  unfold bind.
  destruct (opt_field as_str "output_extention" data env w) as [[v|e] w1]
    eqn:E; apply opt_field_pure in E as ->; by intros [= _ <-].
Qed.

(** A validation that returns, field by field: every field has validated,
    and only the validator of [seed] may have changed the world. *)
Lemma validate_run data env w b w' :
  validate data env w = (Ok b, w') ->
  req_field as_str "batch_name" data env w = (Ok (batch_name b), w)
  /\ opt_field as_int "batch_num" data env w = (Ok (batch_num b), w)
  /\ dflt_field (fun c => Path_of <$> as_str c) "output_dir"
       (joinpath (cwd env) "outputs") data env w
     = (Ok (output_dir b), w)
  /\ opt_field as_str "output_suffix" data env w = (Ok (output_suffix b), w)
  /\ output_extention_field data env w = (Ok (output_extention b), w)
  /\ dflt_field as_bool "random_seed" true data env w
     = (Ok (random_seed b), w)
  /\ seed_field data (Ok (random_seed b)) env w = (Ok (seed b), w')
  /\ dflt_field as_bool "resume_run" false data env w
     = (Ok (resume_run b), w)
  /\ dflt_field as_bool "resume_latest" false data env w
     = (Ok (resume_latest b), w)
  /\ dflt_field as_verbose "verbose" false data env w = (Ok (verbose b), w)
  /\ dflt_field as_str "config_yaml" "config.yaml" data env w
     = (Ok (config_yaml b), w)
  /\ dflt_field as_str "config_json" "config.json" data env w
     = (Ok (config_json b), w)
  /\ dflt_field as_str "config_dirname" "configs" data env w
     = (Ok (config_dirname b), w).
Proof.
  unfold validate. intros H.
  inv_bind H as e0 w0 H0. unfold ask in H0. injection H0 as <- <-.
  inv_bind H as r1 w1 H1. apply try_field_ok in H1.
  pose proof (req_field_pure _ _ _ _ _ _ _ H1) as ->.
  inv_bind H as r2 w2 H2. apply try_field_ok in H2.
  pose proof (opt_field_pure _ _ _ _ _ _ _ H2) as ->.
  inv_bind H as r3 w3 H3. apply try_field_ok in H3.
  pose proof (dflt_field_pure _ _ _ _ _ _ _ _ H3) as ->.
  inv_bind H as r4 w4 H4. apply try_field_ok in H4.
  pose proof (opt_field_pure _ _ _ _ _ _ _ H4) as ->.
  inv_bind H as r5 w5 H5. apply try_field_ok in H5.
  pose proof (output_extention_field_pure _ _ _ _ _ H5) as ->.
  inv_bind H as r6 w6 H6. apply try_field_ok in H6.
  pose proof (dflt_field_pure _ _ _ _ _ _ _ _ H6) as ->.
  inv_bind H as r7 w7 H7. apply try_field_ok in H7.
  inv_bind H as r8 w8 H8. apply try_field_ok in H8.
  pose proof (dflt_field_pure _ _ _ _ _ _ _ _ H8) as ->.
  inv_bind H as r9 w9 H9. apply try_field_ok in H9.
  pose proof (dflt_field_pure _ _ _ _ _ _ _ _ H9) as ->.
  inv_bind H as r10 w10 H10. apply try_field_ok in H10.
  pose proof (dflt_field_pure _ _ _ _ _ _ _ _ H10) as ->.
  inv_bind H as r11 w11 H11. apply try_field_ok in H11.
  pose proof (dflt_field_pure _ _ _ _ _ _ _ _ H11) as ->.
  inv_bind H as r12 w12 H12. apply try_field_ok in H12.
  pose proof (opt_field_pure _ _ _ _ _ _ _ H12) as ->.
  inv_bind H as r13 w13 H13. apply try_field_ok in H13.
  pose proof (dflt_field_pure _ _ _ _ _ _ _ _ H13) as ->.
  inv_bind H as r14 w14 H14. apply try_field_ok in H14.
  pose proof (dflt_field_pure _ _ _ _ _ _ _ _ H14) as ->.
  inv_bind H as r15 w15 H15. apply try_field_ok in H15.
  pose proof (dflt_field_pure _ _ _ _ _ _ _ _ H15) as ->.
  inv_bind H as r16 w16 H16. apply try_field_ok in H16.
  pose proof (dflt_field_pure _ _ _ _ _ _ _ _ H16) as ->.
  inv_bind H as x1 v1 L1. apply lift_ok in L1 as [-> ->].
  inv_bind H as x2 v2 L2. apply lift_ok in L2 as [-> ->].
  inv_bind H as x3 v3 L3. apply lift_ok in L3 as [-> ->].
  inv_bind H as x4 v4 L4. apply lift_ok in L4 as [-> ->].
  inv_bind H as x5 v5 L5. apply lift_ok in L5 as [-> ->].
  inv_bind H as x6 v6 L6. apply lift_ok in L6 as [-> ->].
  inv_bind H as x7 v7 L7. apply lift_ok in L7 as [-> ->].
  inv_bind H as x8 v8 L8. apply lift_ok in L8 as [-> ->].
  inv_bind H as x9 v9 L9. apply lift_ok in L9 as [-> ->].
  inv_bind H as x10 v10 L10. apply lift_ok in L10 as [-> ->].
  inv_bind H as x11 v11 L11. apply lift_ok in L11 as [-> ->].
  inv_bind H as x12 v12 L12. apply lift_ok in L12 as [-> ->].
  inv_bind H as x13 v13 L13. apply lift_ok in L13 as [-> ->].
  inv_bind H as x14 v14 L14. apply lift_ok in L14 as [-> ->].
  inv_bind H as x15 v15 L15. apply lift_ok in L15 as [-> ->].
  inv_bind H as x16 v16 L16. apply lift_ok in L16 as [-> ->].
  apply ret_ok in H as [-> ->]. simpl.
  rewrite (dflt_field_any _ _ _ _ _ _ _ _ H8 env w).
  rewrite (dflt_field_any _ _ _ _ _ _ _ _ H9 env w).
  rewrite (dflt_field_any _ _ _ _ _ _ _ _ H13 env w).
  rewrite (dflt_field_any _ _ _ _ _ _ _ _ H14 env w).
  rewrite (dflt_field_any _ _ _ _ _ _ _ _ H15 env w).
  rewrite (dflt_field_any _ _ _ _ _ _ _ _ H16 env w).
  by repeat split.
Qed.

(** What [validate] stores for the fields the claims speak of. *)
Lemma validate_inv data env w b w' :
  validate data env w = (Ok b, w') ->
  parse_opt as_int "batch_num" data = Some (batch_num b)
  /\ parse_opt as_str "output_suffix" data = Some (output_suffix b)
  /\ match assoc "output_extention" data with
     | None => output_extention b = ""
     | Some _ =>
         exists v, parse_opt as_str "output_extention" data = Some v
                   /\ output_extention b = _validate_output_extention v
     end
  /\ match assoc "seed" data with
     | None => seed b = None /\ w' = w
     | Some _ =>
         exists v s, parse_opt as_int "seed" data = Some v
                     /\ _validate_seed v (random_seed b) env w = (Ok s, w')
                     /\ seed b = Some s
     end.
Proof.
  intros H.
  apply validate_run in H
    as (_ & Hnum & _ & Hsfx & Hext & _ & Hseed & _).
  apply opt_field_ok in Hnum as [Hnum _].
  apply opt_field_ok in Hsfx as [Hsfx _].
  split; [done|]. split; [done|]. split.
  - unfold output_extention_field in Hext.
    destruct (assoc "output_extention" data) eqn:E.
    + inv_bind Hext as v wv Hv. apply opt_field_ok in Hv as [Hv ->].
      apply ret_ok in Hext as [-> _]. eauto.
    + by apply ret_ok in Hext as [-> _].
  - unfold seed_field in Hseed.
    destruct (assoc "seed" data) eqn:E.
    + inv_bind Hseed as v wv Hv. apply opt_field_ok in Hv as [Hv ->].
      inv_bind Hseed as rs wr Hr. apply ret_ok in Hr as [-> ->].
      inv_bind Hseed as s ws Hs. apply ret_ok in Hseed as [-> ->]. eauto.
    + by apply ret_ok in Hseed as [-> ->].
Qed.

End BatchConfigFacts.

(** ** The file system *)

Lemma mkdir_from_lookup rest : forall pre f f',
  mkdir_from pre rest f = Some f' ->
  forall p, f' !! p = if bool_decide (p ∈ prefixes_from pre rest)
                      then Some Dir else f !! p.
Proof.
  induction rest as [|x r IH]; intros pre f f' H p; simpl in H.
  - assert (f' = <[pre:=Dir]> f) as ->
      by (destruct (f !! pre) as [[]|]; congruence).
    simpl. destruct (decide (p = pre)) as [->|Hne].
    + rewrite bool_decide_eq_true_2 by (apply list_elem_of_here).
      apply lookup_insert_eq.
    + rewrite bool_decide_eq_false_2 by (by intros ?%list_elem_of_singleton).
      by apply lookup_insert_ne.
  - assert (mkdir_from (pre ++ [x]) r (<[pre:=Dir]> f) = Some f') as H'
      by (destruct (f !! pre) as [[]|]; congruence).
    rewrite (IH _ _ _ H' p). simpl.
    destruct (decide (p = pre)) as [->|Hne].
    + rewrite (bool_decide_eq_true_2 (pre ∈ pre :: _))
        by (apply list_elem_of_here).
      case_bool_decide; [done|]. apply lookup_insert_eq.
    + rewrite lookup_insert_ne by done.
      destruct (decide (p ∈ prefixes_from (pre ++ [x]) r)) as [Hin|Hin].
      * rewrite !bool_decide_eq_true_2; [done| |done].
        by apply list_elem_of_further.
      * rewrite !bool_decide_eq_false_2; [done| |done].
        by intros [?|?]%elem_of_cons.
Qed.

Lemma mkdir_from_total rest : forall pre f,
  (forall q, q ∈ prefixes_from pre rest -> fs_is_file f q = false) ->
  is_Some (mkdir_from pre rest f).
Proof.
  induction rest as [|x r IH]; intros pre f H; simpl.
  - assert (fs_is_file f pre = false) as Hpre
      by (apply H; apply list_elem_of_here).
    unfold fs_is_file in Hpre. destruct (f !! pre) as [[]|]; eauto.
    discriminate.
  - assert (fs_is_file f pre = false) as Hpre
      by (apply H; apply list_elem_of_here).
    assert (is_Some (mkdir_from (pre ++ [x]) r (<[pre:=Dir]> f))) as Hs.
    { apply IH. intros q Hq. unfold fs_is_file.
      destruct (decide (q = pre)) as [->|Hne].
      - by rewrite lookup_insert_eq.
      - rewrite lookup_insert_ne by done. apply H.
        by apply list_elem_of_further. }
    unfold fs_is_file in Hpre. destruct (f !! pre) as [[]|]; done.
Qed.

Lemma mkdir_from_nofile rest : forall pre f f',
  mkdir_from pre rest f = Some f' ->
  forall q, q ∈ prefixes_from pre rest -> fs_is_file f q = false.
Proof.
  induction rest as [|x r IH]; intros pre f f' H q Hq; simpl in *.
  - apply list_elem_of_singleton in Hq as ->. unfold fs_is_file.
    destruct (f !! pre) as [[]|]; done.
  - assert (fs_is_file f pre = false) as Hpre
      by (unfold fs_is_file; destruct (f !! pre) as [[]|]; done).
    apply elem_of_cons in Hq as [->|Hq]; [done|].
    assert (mkdir_from (pre ++ [x]) r (<[pre:=Dir]> f) = Some f') as H'
      by (destruct (f !! pre) as [[]|]; congruence).
    specialize (IH _ _ _ H' q Hq). unfold fs_is_file in IH |- *.
    destruct (decide (q = pre)) as [->|Hne]; [done|].
    by rewrite lookup_insert_ne in IH.
Qed.

Lemma mkdir_from_dirs rest : forall pre g,
  (forall q, q ∈ prefixes_from pre rest -> g !! q = Some Dir) ->
  mkdir_from pre rest g = Some g.
Proof.
  induction rest as [|x r IH]; intros pre g H; simpl.
  - assert (g !! pre = Some Dir) as Hpre
      by (apply H; apply list_elem_of_here).
    by rewrite Hpre, (insert_id g pre Dir Hpre).
  - assert (g !! pre = Some Dir) as Hpre
      by (apply H; apply list_elem_of_here).
    rewrite Hpre, (insert_id g pre Dir Hpre).
    apply IH. intros q Hq. apply H. by apply list_elem_of_further.
Qed.

Lemma mkdir_from_idem pre rest f f' :
  mkdir_from pre rest f = Some f' -> mkdir_from pre rest f' = Some f'.
Proof.
  intros H. apply mkdir_from_dirs. intros q Hq.
  rewrite (mkdir_from_lookup _ _ _ _ H q).
  by rewrite bool_decide_eq_true_2.
Qed.

Lemma prefixes_from_last rest : forall pre,
  pre ++ rest ∈ prefixes_from pre rest.
Proof.
  induction rest as [|x r IH]; intros pre; simpl.
  - rewrite app_nil_r. apply list_elem_of_here.
  - apply list_elem_of_further.
    replace (pre ++ x :: r) with ((pre ++ [x]) ++ r)
      by (by rewrite <- app_assoc).
    apply IH.
Qed.


Lemma prefixes_self p : p <> [] -> p ∈ prefixes p.
Proof.
  destruct p as [|a r]; [done|]. intros _. simpl.
  apply (prefixes_from_last r [a]).
Qed.


Lemma mkdir_parents_lookup p f f' :
  mkdir_parents p f = Some f' ->
  forall q, f' !! q = if bool_decide (q ∈ prefixes p)
                      then Some Dir else f !! q.
Proof.
  destruct p as [|a r].
  - intros [= <-] q. case_bool_decide as Hq; [|done].
    by apply elem_of_nil in Hq.
  - apply mkdir_from_lookup.
Qed.

Lemma mkdir_parents_total p f :
  makeable f p -> is_Some (mkdir_parents p f).
Proof.
  destruct p as [|a r]; simpl; [eauto|]. apply mkdir_from_total.
Qed.

Lemma mkdir_parents_nofile p f f' :
  mkdir_parents p f = Some f' -> makeable f p.
Proof.
  destruct p as [|a r]; simpl.
  - intros _ q. by intros ?%elem_of_nil.
  - intros H q. by apply (mkdir_from_nofile r [a] f f').
Qed.

Lemma mkdir_parents_idem p f f' :
  mkdir_parents p f = Some f' -> mkdir_parents p f' = Some f'.
Proof.
  destruct p as [|a r]; simpl; [congruence|]. apply mkdir_from_idem.
Qed.

Lemma mkdir_parents_is_dir p f f' :
  p <> [] -> mkdir_parents p f = Some f' -> fs_is_dir f' p = true.
Proof.
  intros Hp H. unfold fs_is_dir.
  rewrite (mkdir_parents_lookup _ _ _ H p).
  by rewrite bool_decide_eq_true_2 by by apply prefixes_self.
Qed.

(** Creating directories leaves the files alone. *)
Lemma mkdir_parents_files p f f' q :
  mkdir_parents p f = Some f' -> fs_is_file f' q = fs_is_file f q.
Proof.
  intros H. pose proof (mkdir_parents_nofile _ _ _ H q) as Hno.
  unfold fs_is_file in *.
  rewrite (mkdir_parents_lookup _ _ _ H q).
  case_bool_decide as Hq; [|done].
  by rewrite Hno.
Qed.




Lemma resolve_nonempty env p :
  is_absolute (cwd env) = true -> resolve env p <> [].
Proof.
  unfold resolve. intros Hc. destruct (is_absolute p) eqn:E.
  - by destruct p.
  - by destruct (cwd env).
Qed.


Lemma mkdir_ok p env w f' :
  mkdir_parents (resolve env p) (fs w) = Some f' ->
  mkdir p env w = (Ok tt, with_fs f' w).
Proof. unfold mkdir. by intros ->. Qed.

Lemma mkdir_inv p env w w' :
  mkdir p env w = (Ok tt, w') ->
  exists f', mkdir_parents (resolve env p) (fs w) = Some f' /\ w' = with_fs f' w.
Proof.
  unfold mkdir. destruct (mkdir_parents _ _) as [f'|]; intros [= <-]; eauto.
Qed.

(** ** [BaseBatchConfig]: directories *)

Lemma batch_dir_ok b env w f' :
  mkdir_parents (resolve env (batch_dir_path b)) (fs w) = Some f' ->
  BaseBatchConfig.batch_dir b env w = (Ok (batch_dir_path b), with_fs f' w).
Proof.
  intros H. unfold BaseBatchConfig.batch_dir.
  by rewrite (bind_run _ _ _ _ _ _ (mkdir_ok _ _ _ _ H)).
Qed.

Lemma config_dir_ok b env w f1 f2 :
  mkdir_parents (resolve env (batch_dir_path b)) (fs w) = Some f1 ->
  mkdir_parents (resolve env (config_dir_path b)) f1 = Some f2 ->
  BaseBatchConfig.config_dir b env w = (Ok (config_dir_path b), with_fs f2 w).
Proof.
  intros H1 H2. unfold BaseBatchConfig.config_dir.
  rewrite (bind_run _ _ _ _ _ _ (batch_dir_ok _ _ _ _ H1)).
  fold (config_dir_path b).
  by rewrite (bind_run _ _ _ _ _ _ (mkdir_ok _ _ (with_fs f1 w) _ H2)).
Qed.

Lemma makeable_after p q f f' :
  mkdir_parents p f = Some f' -> makeable f q -> makeable f' q.
Proof.
  intros H Hq x Hx. rewrite (mkdir_parents_files _ _ _ x H). by apply Hq.
Qed.







Example init_batch_num_two :
  fst (BaseBatchConfig.init_batch_num b_exp1 env0 w_two)
  = Ok (BaseBatchConfig.with_batch_num (Some 2%Z) b_exp1)
  /\ fst (BaseBatchConfig.init_batch_num b_exp1_latest env0 w_two)
     = Ok (BaseBatchConfig.with_batch_num (Some 1%Z) b_exp1_latest)
  /\ fst (BaseBatchConfig.init_batch_num b_exp1_latest env0 w0)
     = Ok (BaseBatchConfig.with_batch_num (Some (-1)%Z) b_exp1_latest).
Proof. repeat split; vm_compute; reflexivity. Qed.


Lemma mkdir_parents_dirs p g :
  (forall q, q ∈ prefixes p -> g !! q = Some Dir) ->
  mkdir_parents p g = Some g.
Proof.
  destruct p as [|a r]; simpl; [done|]. apply mkdir_from_dirs.
Qed.

Lemma mkdir_parents_keeps_dirs p f f' q :
  mkdir_parents p f = Some f' -> f !! q = Some Dir -> f' !! q = Some Dir.
Proof.
  intros H Hq. rewrite (mkdir_parents_lookup _ _ _ H q).
  by case_bool_decide.
Qed.



(** C9, as stated, fails: [PathConfig.batch_dir] yields the batch directory
    of [root="/r"], [batch_name="exp1"] and the directory does not exist
    afterwards. *)
Lemma path_batch_dir_counterexample :
  lift (PathConfig.batch_dir p_exp1) env0 w0
  = (Ok ["/"; "r"; "outputs"; "exp1"], w0)
  /\ fs_is_dir (fs w0) ["/"; "r"; "outputs"; "exp1"] = false.
Proof. split; reflexivity. Qed.

(** C9, amended.  For a root [r]: [PathConfig.batch_dir] is the computed
    path [r/outputs/batch_name] and touches nothing; on a batch whose
    [output_dir] is [r/outputs], [BaseBatchConfig.batch_dir] returns
    [r/outputs/batch_name] and [config_dir] returns that path extended by
    [config_dirname]; both make the directory and its parents when no
    regular file is in the way, the directory exists afterwards, and a
    second resolution changes nothing. *)
Theorem batch_dir_resolution env w r p b :
  is_absolute (cwd env) = true ->
  PathConfig.root p = Some r ->
  BaseBatchConfig.output_dir b = joinpath (Path_of r) "outputs" ->
  makeable (fs w) (resolve env (batch_dir_path b)) ->
  makeable (fs w) (resolve env (config_dir_path b)) ->
  let d := joinpath (joinpath (Path_of r) "outputs")
             (BaseBatchConfig.batch_name b) in
  let c := joinpath d (BaseBatchConfig.config_dirname b) in
  (forall bn, PathConfig.batch_name p = Some bn ->
     PathConfig.batch_dir p
     = Ok (joinpath (joinpath (Path_of r) "outputs") bn))
  /\ (exists w1,
        BaseBatchConfig.batch_dir b env w = (Ok d, w1)
        /\ fs_is_dir (fs w1) (resolve env d) = true
        /\ BaseBatchConfig.batch_dir b env w1 = (Ok d, w1))
  /\ (exists w2,
        BaseBatchConfig.config_dir b env w = (Ok c, w2)
        /\ fs_is_dir (fs w2) (resolve env d) = true
        /\ fs_is_dir (fs w2) (resolve env c) = true
        /\ BaseBatchConfig.config_dir b env w2 = (Ok c, w2)).
Proof.
  intros Hcwd Hroot Hout Hb Hc d c.
  assert (Hd : batch_dir_path b = d) by (unfold batch_dir_path; by rewrite Hout).
  assert (Hcd : config_dir_path b = c) by (unfold config_dir_path; by rewrite Hd).
  destruct (mkdir_parents_total _ _ Hb) as [f1 H1].
  destruct (mkdir_parents_total _ f1 (makeable_after _ _ _ _ H1 Hc)) as [f2 H2].
  pose proof (resolve_nonempty env d Hcwd) as Hnd.
  pose proof (resolve_nonempty env c Hcwd) as Hnc.
  split; [|split].
  - intros bn Hbn. unfold PathConfig.batch_dir, PathConfig.output_dir,
      PathConfig.sub, PathConfig.root_dir. by rewrite Hroot, Hbn.
  - exists (with_fs f1 w). rewrite <- Hd in *. split; [|split].
    + by apply batch_dir_ok.
    + by apply (mkdir_parents_is_dir _ (fs w)).
    + apply (batch_dir_ok b env (with_fs f1 w) f1).
      by apply (mkdir_parents_idem _ (fs w)).
  - exists (with_fs f2 w). rewrite <- Hcd, <- Hd in *.
    assert (Hdir1 : fs_is_dir f1 (resolve env (batch_dir_path b)) = true)
      by by apply (mkdir_parents_is_dir _ (fs w)).
    split; [|split; [|split]].
    + by apply (config_dir_ok _ _ _ f1).
    + unfold fs_is_dir in *. simpl.
      destruct (f1 !! resolve env (batch_dir_path b)) as [[]|] eqn:E; try done.
      by rewrite (mkdir_parents_keeps_dirs _ _ _ _ H2 E).
    + by apply (mkdir_parents_is_dir _ f1).
    + apply (config_dir_ok b env (with_fs f2 w) f2 f2).
      * apply mkdir_parents_dirs. intros q Hq. simpl.
        apply (mkdir_parents_keeps_dirs _ _ _ _ H2).
        rewrite (mkdir_parents_lookup _ _ _ H1 q).
        by rewrite bool_decide_eq_true_2.
      * by apply (mkdir_parents_idem _ f1).
Qed.

Lemma batch_dir_resolution_witness :
  is_absolute (cwd env0) = true
  /\ PathConfig.root p_exp1 = Some "/r"
  /\ BaseBatchConfig.output_dir b_run0 = joinpath (Path_of "/r") "outputs"
  /\ makeable (fs w0) (resolve env0 (batch_dir_path b_run0))
  /\ makeable (fs w0) (resolve env0 (config_dir_path b_run0))
  /\ exists w2,
       BaseBatchConfig.config_dir b_run0 env0 w0
       = (Ok ["/"; "r"; "outputs"; "exp1"; "configs"], w2)
       /\ fs_is_dir (fs w2) ["/"; "r"; "outputs"; "exp1"] = true
       /\ fs_is_dir (fs w2) ["/"; "r"; "outputs"; "exp1"; "configs"] = true
       /\ BaseBatchConfig.config_dir b_run0 env0 w2
          = (Ok ["/"; "r"; "outputs"; "exp1"; "configs"], w2).
Proof.
  assert (Hm : forall q, makeable (fs w0) q) by (intros q x _; reflexivity).
  repeat (split; [reflexivity || apply Hm|]).
  exact (proj2 (proj2 (batch_dir_resolution env0 w0 "/r" p_exp1 b_run0
                         eq_refl eq_refl eq_refl (Hm _) (Hm _)))).
Defined.

(** ** [BaseBatchConfig]: seed and output file *)

Lemma append_cons c s t : String c s +:+ t = String c (s +:+ t).
Proof. reflexivity. Qed.

Lemma append_nil_l t : "" +:+ t = t.
Proof. reflexivity. Qed.

Lemma append_nil_r s : s +:+ "" = s.
Proof.
  induction s as [|c s IH]; [done|]. rewrite append_cons. by f_equal.
Qed.

Lemma append_assoc3 a b c : (a +:+ b) +:+ c = a +:+ (b +:+ c).
Proof.
  induction a as [|x a IH]; [done|]. rewrite !append_cons. by f_equal.
Qed.

Lemma lstrip_dot_spec s :
  (exists n, s = dots n +:+ lstrip_dot s)
  /\ forall t, lstrip_dot s <> String "."%char t.
Proof.
  induction s as [|c s [[n IHn] IH]]; simpl.
  - split; [by exists 0|done].
  - destruct (Ascii.eqb_spec c "."%char) as [->|Hc].
    + split; [|done]. exists (S n). simpl. rewrite append_cons. by f_equal.
    + split; [by exists 0|]. intros t [= ? _]. done.
Qed.

Lemma rstrip_dot_head s :
  (forall t, s <> String "."%char t) ->
  forall t, rstrip_dot s <> String "."%char t.
Proof.
  destruct s as [|c s]; simpl; [done|]. intros H t.
  assert (c <> "."%char) as Hc by (intros ->; by apply (H s)).
  destruct (rstrip_dot s).
  - destruct (Ascii.eqb_spec c "."%char); [done|]. by intros [= ?].
  - by intros [= ?].
Qed.

Lemma rstrip_dot_spec s :
  (exists n, s = rstrip_dot s +:+ dots n)
  /\ forall t, rstrip_dot s <> t +:+ ".".
Proof.
  induction s as [|c s [[n IHn] IH]]; simpl.
  - split; [by exists 0|]. by intros [|].
  - destruct (rstrip_dot s) as [|d u] eqn:E.
    + rewrite append_nil_l in IHn.
      destruct (Ascii.eqb_spec c "."%char) as [->|Hc].
      * split; [|by intros [|]]. exists (S n). simpl.
        rewrite append_nil_l. by f_equal.
      * split; [exists n; rewrite append_cons, append_nil_l; by f_equal|].
        intros [|x [|y t]]; rewrite ?append_cons, ?append_nil_l;
          intros ?; by simplify_eq.
    + split; [exists n; rewrite append_cons; by f_equal|].
      intros [|x t]; rewrite ?append_cons, ?append_nil_l; [done|].
      intros [= _ Ht]. by apply (IH t).
Qed.

(** [s.strip(".")] takes the dots off both ends, and nothing else. *)
Lemma strip_dot_spec s :
  (exists m n, s = dots m +:+ strip_dot s +:+ dots n)
  /\ (forall t, strip_dot s <> String "."%char t)
  /\ (forall t, strip_dot s <> t +:+ ".").
Proof.
  unfold strip_dot.
  destruct (lstrip_dot_spec s) as [[m Hm] Hl].
  destruct (rstrip_dot_spec (lstrip_dot s)) as [[n Hn] Hr].
  split; [|split].
  - exists m, n. by rewrite <- Hn.
  - by apply rstrip_dot_head.
  - done.
Qed.

Lemma validate_output_extention_strip s :
  BaseBatchConfig._validate_output_extention (Some s) = strip_dot s.
Proof.
  unfold BaseBatchConfig._validate_output_extention.
  by destruct (String.eqb_spec s "") as [->|].
Qed.

Lemma init_batch_num_inv b env w b' w' :
  BaseBatchConfig.init_batch_num b env w = (Ok b', w') ->
  (exists n, BaseBatchConfig.batch_num b' = Some n)
  /\ b' = BaseBatchConfig.with_batch_num (BaseBatchConfig.batch_num b') b
  /\ heap w' = heap w /\ draws w' = draws w /\ trace w' = trace w.
Proof.
  unfold BaseBatchConfig.init_batch_num.
  destruct (BaseBatchConfig.batch_num b) as [n|] eqn:E.
  - intros [-> ->]%ret_ok. rewrite E. split; [eauto|].
    split; [|done]. destruct b; simpl in *; by subst.
  - intros H. inv_bind H as d w1 Hd.
    assert (heap w1 = heap w /\ draws w1 = draws w /\ trace w1 = trace w)
      as (Hh & Hdr & Htr).
    { unfold BaseBatchConfig.config_dir, BaseBatchConfig.batch_dir in Hd.
      inv_bind Hd as d1 w2 H1. inv_bind H1 as u1 w3 H1'.
      apply ret_ok in H1 as [-> ->]. destruct u1.
      apply mkdir_inv in H1' as (f1 & _ & ->).
      inv_bind Hd as u2 w4 H2. destruct u2.
      apply mkdir_inv in H2 as (f2 & _ & ->).
      by apply ret_ok in Hd as [-> ->]. }
    inv_bind H as files w2 Hg. unfold glob in Hg. injection Hg as <- <-.
    destruct (BaseBatchConfig.resume_latest b);
      apply ret_ok in H as [-> ->]; simpl; eauto 10.
Qed.

Lemma init_inv data env w b w' :
  data <> [] ->
  BaseBatchConfig.__init__ data env w = (Ok b, w') ->
  exists b0 w1,
    BaseBatchConfig.validate data env w = (Ok b0, w1)
    /\ BaseBatchConfig.init_batch_num b0 env w1 = (Ok b, w').
Proof.
  intros Hd H. unfold BaseBatchConfig.__init__ in H.
  inv_bind H as d w1 H1.
  assert (d = data /\ w1 = w) as [-> ->]
    by (destruct data; [done|by apply ret_ok in H1]).
  inv_bind H as b0 w2 H2. eauto.
Qed.

(** C10. A batch constructed without [output_suffix] has
    [output_file = "{batch_name}({batch_num})." + output_extention]: with
    the extension left out, [None] or empty the name ends in the separator
    dot; a given extension is appended after all its leading and trailing
    dots are taken off. *)
Theorem output_file_extension data env w b w' :
  data <> [] ->
  unset "output_suffix" data ->
  BaseBatchConfig.__init__ data env w = (Ok b, w') ->
  (exists n,
     BaseBatchConfig.batch_num b = Some n
     /\ BaseBatchConfig.file_prefix b
        = BaseBatchConfig.batch_name b +:+ "(" +:+ pretty n +:+ ")")
  /\ BaseBatchConfig.output_file b
     = BaseBatchConfig.file_prefix b +:+ "."
         +:+ BaseBatchConfig.output_extention b
  /\ (assoc "output_extention" data = None
      \/ assoc "output_extention" data = Some (CVal SNone)
      \/ assoc "output_extention" data = Some (CVal (SStr "")) ->
      BaseBatchConfig.output_file b = BaseBatchConfig.file_prefix b +:+ ".")
  /\ (forall s, assoc "output_extention" data = Some (CVal (SStr s)) ->
      (exists m n, s = dots m +:+ BaseBatchConfig.output_extention b +:+ dots n)
      /\ (forall t, BaseBatchConfig.output_extention b <> String "."%char t)
      /\ (forall t, BaseBatchConfig.output_extention b <> t +:+ ".")).
Proof.
  intros Hd Hsfx H.
  destruct (init_inv _ _ _ _ _ Hd H) as (b0 & w1 & Hv & Hi).
  apply validate_inv in Hv as (_ & Hs & He & _).
  apply init_batch_num_inv in Hi as ([n Hn] & Hb & _).
  assert (Hsfx' : BaseBatchConfig.output_suffix b = None).
  { rewrite Hb. simpl. unfold parse_opt in Hs.
    destruct Hsfx as [E|E]; rewrite E in Hs; congruence. }
  assert (Hext : BaseBatchConfig.output_extention b
                 = BaseBatchConfig.output_extention b0) by (by rewrite Hb).
  assert (Hout : BaseBatchConfig.output_file b
                 = BaseBatchConfig.file_prefix b +:+ "."
                     +:+ BaseBatchConfig.output_extention b)
    by (unfold BaseBatchConfig.output_file; by rewrite Hsfx').
  split; [|split; [done|split]].
  - exists n. split; [done|]. unfold BaseBatchConfig.file_prefix.
    by rewrite Hn.
  - intros Hcase. rewrite Hout, Hext.
    destruct Hcase as [E|[E|E]]; rewrite E in He.
    + by rewrite He.
    + destruct He as (v & Hv & ->). unfold parse_opt in Hv. rewrite E in Hv.
      by injection Hv as <-.
    + destruct He as (v & Hv & ->). unfold parse_opt in Hv. rewrite E in Hv.
      by injection Hv as <-.
  - intros s E. rewrite Hext. rewrite E in He.
    destruct He as (v & Hv & ->). unfold parse_opt in Hv. rewrite E in Hv.
    simpl in Hv. injection Hv as <-.
    rewrite validate_output_extention_strip. apply strip_dot_spec.
Qed.



Example output_file_examples :
  (exists b, fst (BaseBatchConfig.__init__ data_tar env0 w0) = Ok b
             /\ BaseBatchConfig.output_file b = "exp1(0).tar.gz")
  /\ (exists b, fst (BaseBatchConfig.__init__ data_plain env0 w0) = Ok b
                /\ BaseBatchConfig.output_file b = "exp1(0).").
Proof.
  split; eexists; (split; [vm_compute; reflexivity|]); vm_compute; reflexivity.
Qed.

Lemma output_file_extension_witness :
  data_tar <> []
  /\ unset "output_suffix" data_tar
  /\ fst (BaseBatchConfig.__init__ data_tar env0 w0) = Ok b_tar
  /\ BaseBatchConfig.output_file b_tar
     = BaseBatchConfig.file_prefix b_tar +:+ "."
         +:+ BaseBatchConfig.output_extention b_tar.
Proof.
  split; [done|]. split; [by left|]. split; [vm_compute; reflexivity|].
  refine (proj1 (proj2 (output_file_extension data_tar env0 w0 b_tar
                          (snd (BaseBatchConfig.__init__ data_tar env0 w0))
                          _ _ _))).
  - done.
  - by left.
  - vm_compute. reflexivity.
Defined.

Lemma randint_run lo hi env w :
  randint lo hi env w
  = (Ok (lo + os_entropy env (draws w) mod (hi - lo + 1))%Z,
     mkWorld (fs w) (heap w) (S (draws w)) (trace w)).
Proof. reflexivity. Qed.

(** [_validate_seed]: the given seed verbatim when [random_seed] is off and
    the seed is a non-negative number, one draw from a reseeded generator in
    every other case. *)
Lemma validate_seed_spec v rs env w :
  match v with
  | Some z =>
      if rs || (z <? 0)%Z
      then BaseBatchConfig._validate_seed v rs env w
           = (Ok (os_entropy env (draws w) mod 2 ^ 32)%Z,
              mkWorld (fs w) (heap w) (S (draws w)) (trace w))
      else BaseBatchConfig._validate_seed v rs env w = (Ok z, w)
  | None =>
      BaseBatchConfig._validate_seed v rs env w
      = (Ok (os_entropy env (draws w) mod 2 ^ 32)%Z,
         mkWorld (fs w) (heap w) (S (draws w)) (trace w))
  end.
Proof.
  unfold BaseBatchConfig._validate_seed.
  destruct v as [z|]; [destruct (rs || (z <? 0)%Z)|]; try reflexivity.
Qed.



(** C4, as stated, fails: with [random_seed=True] the generated seed can be
    [2**32 - 1], which lies outside the half-open range [[0, 2**32 - 1)]. *)
Lemma seed_range_counterexample :
  exists b,
    fst (BaseBatchConfig.__init__ (data_seed true (CVal (SInt 42))) env_max w0)
    = Ok b
    /\ BaseBatchConfig.seed b = Some (2 ^ 32 - 1)%Z
    /\ ~ (0 <= 2 ^ 32 - 1 < 2 ^ 32 - 1)%Z.
Proof.
  eexists. split; [vm_compute; reflexivity|]. split; [reflexivity|lia].
Qed.

(** A seed that is not passed at all never reaches the validator. *)
Example seed_left_out :
  exists b,
    BaseBatchConfig.__init__
      [("batch_name", CVal (SStr "exp1"));
       ("output_dir", CVal (SStr "/r/outputs"))] env0 w0
    = (Ok b, with_fs (fs (snd (BaseBatchConfig.__init__
                                 (data_seed true (CVal SNone)) env0 w0))) w0)
    /\ BaseBatchConfig.seed b = None.
Proof. eexists. split; [vm_compute; reflexivity|reflexivity]. Qed.

(** C4, amended.  When a seed (a number or [None]) is passed to the
    constructor: with [random_seed] false and a non-negative number the
    seed is that number and the generator is not touched; in every other
    case the generator is reseeded and drawn from exactly once and the seed
    is that draw, in the closed range [[0, 2**32 - 1]].  No later update of
    the batch changes the seed. *)
Theorem seed_resolution data env w b w' c :
  data <> [] ->
  assoc "seed" data = Some c ->
  BaseBatchConfig.__init__ data env w = (Ok b, w') ->
  exists v,
    parse_opt as_int "seed" data = Some v
    /\ (forall z, BaseBatchConfig.random_seed b = false -> v = Some z ->
        (0 <= z)%Z ->
        BaseBatchConfig.seed b = Some z /\ draws w' = draws w)
    /\ (BaseBatchConfig.random_seed b = true \/ v = None
        \/ (exists z, v = Some z /\ (z < 0)%Z) ->
        exists s,
          BaseBatchConfig.seed b = Some s
          /\ s = (os_entropy env (draws w) mod 2 ^ 32)%Z
          /\ (0 <= s <= 2 ^ 32 - 1)%Z
          /\ draws w' = S (draws w))
    /\ (forall n s p,
          BaseBatchConfig.seed (BaseBatchConfig.with_batch_num n b)
          = BaseBatchConfig.seed b
          /\ BaseBatchConfig.seed (BaseBatchConfig.with_batch_name s b)
             = BaseBatchConfig.seed b
          /\ BaseBatchConfig.seed (BaseBatchConfig.with_output_dir p b)
             = BaseBatchConfig.seed b).
Proof.
  intros Hd Hc H.
  destruct (init_inv _ _ _ _ _ Hd H) as (b0 & w1 & Hv & Hi).
  apply validate_inv in Hv as (_ & _ & _ & Hs). rewrite Hc in Hs.
  destruct Hs as (v & s & Hv & Hs & Hseed).
  apply init_batch_num_inv in Hi as (_ & Hb & _ & Hdr & _).
  assert (Hrs : BaseBatchConfig.random_seed b = BaseBatchConfig.random_seed b0)
    by (by rewrite Hb).
  assert (Hsd : BaseBatchConfig.seed b = Some s) by (by rewrite Hb).
  exists v. split; [done|]. rewrite Hrs, Hsd, Hdr.
  pose proof (validate_seed_spec v (BaseBatchConfig.random_seed b0) env w) as Sp.
  split; [|split].
  - intros z Hf -> Hz. rewrite Hf in Sp, Hs. cbn [orb] in Sp.
    rewrite (proj2 (Z.ltb_ge z 0) Hz) in Sp.
    rewrite Sp in Hs. by injection Hs as <- <-.
  - intros Hcase.
    assert (BaseBatchConfig._validate_seed v (BaseBatchConfig.random_seed b0) env w
            = (Ok (os_entropy env (draws w) mod 2 ^ 32)%Z,
               mkWorld (fs w) (heap w) (S (draws w)) (trace w))) as Hr.
    { destruct v as [z|]; [|done].
      destruct Hcase as [Ht|[?|(z' & [= <-] & Hz)]]; [|done|].
      - rewrite Ht in Sp |- *. exact Sp.
      - apply Z.ltb_lt in Hz. rewrite Hz, orb_true_r in Sp. exact Sp. }
    rewrite Hr in Hs. injection Hs as <- <-.
    eexists. split; [done|]. split; [done|]. split; [|done].
    pose proof (Z.mod_pos_bound (os_entropy env (draws w)) (2 ^ 32)). lia.
  - intros n s' p. by destruct b.
Qed.

Lemma seed_resolution_witness :
  data_seed false (CVal (SInt 42)) <> []
  /\ assoc "seed" (data_seed false (CVal (SInt 42))) = Some (CVal (SInt 42))
  /\ fst (BaseBatchConfig.__init__ (data_seed false (CVal (SInt 42))) env0 w0)
     = Ok b_seed42
  /\ exists v,
       parse_opt as_int "seed" (data_seed false (CVal (SInt 42))) = Some v
       /\ (forall z, BaseBatchConfig.random_seed b_seed42 = false ->
           v = Some z -> (0 <= z)%Z ->
           BaseBatchConfig.seed b_seed42 = Some z
           /\ draws (snd (BaseBatchConfig.__init__
                            (data_seed false (CVal (SInt 42))) env0 w0))
              = draws w0).
Proof.
  split; [done|]. split; [reflexivity|]. split; [vm_compute; reflexivity|].
  destruct (seed_resolution (data_seed false (CVal (SInt 42))) env0 w0 b_seed42
              (snd (BaseBatchConfig.__init__
                      (data_seed false (CVal (SInt 42))) env0 w0))
              (CVal (SInt 42))) as (v & Hv & He & _).
  - done.
  - reflexivity.
  - vm_compute. reflexivity.
  - exists v. split; [exact Hv|exact He].
Defined.

(** ** What a computation may do to the world *)



Lemma preserves_ret {A} R env (a : A) :
  Reflexive R -> preserves R env (ret a).
Proof. intros HR w. apply HR. Qed.

Lemma preserves_raise {A} R env e :
  Reflexive R -> preserves R env (@raise A e).
Proof. intros HR w. apply HR. Qed.

Lemma preserves_bind {A B} R env (m : M A) (k : A -> M B) :
  Transitive R ->
  preserves R env m -> (forall a, preserves R env (k a)) ->
  preserves R env (bind m k).
Proof.
  intros HT Hm Hk w. unfold bind. specialize (Hm w).
  destruct (m env w) as [[a|e] w1]; simpl in *; [|done].
  etrans; [exact Hm|]. apply Hk.
Qed.

Global Instance emits_refl P : Reflexive (emits P).
Proof. intros w. exists []. by rewrite app_nil_r. Qed.

Global Instance emits_trans P : Transitive (emits P).
Proof.
  intros w1 w2 w3 (e1 & H1 & F1) (e2 & H2 & F2).
  exists (e1 ++ e2). rewrite H2, H1, app_assoc. split; [done|].
  by apply Forall_app.
Qed.

Global Instance keeps_refl : Reflexive keeps.
Proof. by intros w q. Qed.

Global Instance keeps_trans : Transitive keeps.
Proof. intros w1 w2 w3 K1 K2 q Hq. by apply K2, K1. Qed.

Lemma emits_mono (P Q : event -> Prop) w w' :
  (forall e, P e -> Q e) -> emits P w w' -> emits Q w w'.
Proof.
  intros H (evs & Ht & Hf). exists evs. split; [done|].
  eapply Forall_impl; eauto.
Qed.

Lemma emits_same_trace P w w' : trace w' = trace w -> emits P w w'.
Proof. intros H. exists []. by rewrite app_nil_r. Qed.

Lemma preserves_emit P env e : P e -> preserves (emits P) env (emit e).
Proof. intros He w. exists [e]. split; [done|]. by constructor. Qed.

Lemma preserves_emit_keeps env e : preserves keeps env (emit e).
Proof. by intros w q. Qed.

Lemma preserves_ask R env : Reflexive R -> preserves R env ask.
Proof. intros HR w. apply HR. Qed.

Lemma preserves_is_dir R env p : Reflexive R -> preserves R env (is_dir p).
Proof. intros HR w. apply HR. Qed.

Lemma preserves_is_file R env p : Reflexive R -> preserves R env (is_file p).
Proof. intros HR w. apply HR. Qed.

Lemma preserves_exists R env p : Reflexive R -> preserves R env (exists_ p).
Proof. intros HR w. apply HR. Qed.

Lemma mkdir_parents_exists p f f' q :
  mkdir_parents p f = Some f' ->
  fs_exists f q = true -> fs_exists f' q = true.
Proof.
  intros H. unfold fs_exists. rewrite (mkdir_parents_lookup _ _ _ H q).
  by case_bool_decide.
Qed.

Lemma preserves_mkdir P env p : preserves (emits P) env (mkdir p).
Proof.
  intros w. unfold mkdir.
  destruct (mkdir_parents _ _) as [f'|] eqn:E; simpl; by apply emits_same_trace.
Qed.

Lemma preserves_mkdir_keeps env p : preserves keeps env (mkdir p).
Proof.
  intros w. unfold mkdir.
  destruct (mkdir_parents _ _) as [f'|] eqn:E; simpl; [|reflexivity].
  intros q. by apply mkdir_parents_exists with (p := resolve env p).
Qed.

Lemma preserves_load_dataframe (P : event -> Prop) env p :
  P (EvReadTable (resolve env p)) ->
  preserves (emits P) env (load_dataframe p).
Proof.
  intros HP w. unfold load_dataframe.
  assert (emits P w (mkWorld (fs w) (heap w) (draws w)
                       (trace w ++ [EvReadTable (resolve env p)]))).
  { eexists. split; [done|]. by constructor. }
  by destruct (fs w !! resolve env p) as [[|[]]|].
Qed.

Lemma preserves_load_dataframe_keeps env p :
  preserves keeps env (load_dataframe p).
Proof.
  intros w. unfold load_dataframe.
  destruct (fs w !! resolve env p) as [[|[]]|]; simpl; by intros q.
Qed.

Lemma preserves_apply_pipeline (P : event -> Prop) env df pipes args :
  P (EvPipeline pipes args) ->
  preserves (emits P) env (apply_pipeline df pipes args).
Proof.
  intros HP w. unfold apply_pipeline.
  destruct (pipeline env df pipes args (fs w)) as [df' f']. simpl.
  eexists. split; [done|]. by constructor.
Qed.

Lemma preserves_apply_pipeline_keeps env df pipes args :
  pipeline_keeps env ->
  preserves keeps env (apply_pipeline df pipes args).
Proof.
  intros Hk w. unfold apply_pipeline.
  pose proof (Hk df pipes args (fs w)) as Hq.
  by destruct (pipeline env df pipes args (fs w)) as [df' f'].
Qed.

Lemma preserves_set_pipe_arg R env pipe k v pa :
  Reflexive R -> preserves R env (DatasetBuilder.set_pipe_arg pipe k v pa).
Proof.
  intros HR w. unfold DatasetBuilder.set_pipe_arg.
  destruct (assoc pipe pa) as [[]|]; apply HR.
Qed.

Ltac preserves_step :=
  first
    [ apply preserves_ret; [typeclasses eauto]
    | apply preserves_raise; [typeclasses eauto]
    | apply preserves_ask; [typeclasses eauto]
    | apply preserves_is_dir; [typeclasses eauto]
    | apply preserves_is_file; [typeclasses eauto]
    | apply preserves_exists; [typeclasses eauto]
    | apply preserves_set_pipe_arg; [typeclasses eauto]
    | apply preserves_mkdir
    | apply preserves_mkdir_keeps
    | apply preserves_emit_keeps
    | apply preserves_load_dataframe_keeps
    | apply preserves_apply_pipeline_keeps; [assumption]
    | apply preserves_bind; [typeclasses eauto| |intros ?]
    | match goal with
      | |- preserves _ _ (match ?x with _ => _ end) => destruct x
      | |- preserves _ _ (let '(_, _) := ?x in _) => destruct x
      end ].

Lemma prepare_pipes_preserves R env s od o om self :
  Reflexive R -> Transitive R ->
  preserves R env (DatasetBuilder.prepare_pipes s od o om self).
Proof.
  intros HR HT. unfold DatasetBuilder.prepare_pipes.
  repeat preserves_step.
Qed.

Lemma returns_ret {A} (Q : A -> Prop) env a : Q a -> returns Q env (ret a).
Proof. intros H w a' w' [-> _]%ret_ok. done. Qed.

Lemma returns_raise {A} (Q : A -> Prop) env e : returns Q env (raise e).
Proof. by intros w a w'. Qed.

Lemma returns_bind {A B} (Q : B -> Prop) env (m : M A) (k : A -> M B) :
  (forall a, returns Q env (k a)) -> returns Q env (bind m k).
Proof.
  intros Hk w b w' H. inv_bind H as a w1 Ha. by eapply Hk.
Qed.

Ltac returns_step :=
  first
    [ apply returns_raise
    | apply returns_bind; intros ?
    | match goal with
      | |- returns _ _ (match ?x with _ => _ end) => destruct x
      | |- returns _ _ (let '(_, _) := ?x in _) => destruct x
      end ].



Lemma same_setup_refl self : same_setup self self.
Proof.
  exists (DatasetBuilder.pipeline_args self),
    (DatasetBuilder.transform_pipeline self),
    (DatasetBuilder.process_pipeline self).
  by destruct self.
Qed.

Lemma same_setup_trans a b c :
  same_setup a b -> same_setup b c -> same_setup a c.
Proof.
  intros (pa & tp & pp & ->) (pa' & tp' & pp' & ->).
  exists pa', tp', pp'. by destruct a.
Qed.

Lemma prepare_pipes_returns env s od o om self :
  returns (same_setup self) env
    (DatasetBuilder.prepare_pipes s od o om self).
Proof.
  unfold DatasetBuilder.prepare_pipes.
  repeat returns_step. apply returns_ret. by eexists _, _, _.
Qed.

(** ** [DatasetBuilder] *)



Lemma same_setup_fields self self' :
  same_setup self self' ->
  DatasetBuilder.name self' = DatasetBuilder.name self
  /\ DatasetBuilder.data_dir self' = DatasetBuilder.data_dir self
  /\ DatasetBuilder.data_filetype self' = DatasetBuilder.data_filetype self
  /\ DatasetBuilder.overwrite self' = DatasetBuilder.overwrite self
  /\ DatasetBuilder.calculate_stats self' = DatasetBuilder.calculate_stats self
  /\ DatasetBuilder.preprocess_text self' = DatasetBuilder.preprocess_text self
  /\ DatasetBuilder.loader self' = DatasetBuilder.loader self
  /\ DatasetBuilder.summary_info self' = DatasetBuilder.summary_info self
  /\ DatasetBuilder.fetch_sources self' = DatasetBuilder.fetch_sources self.
Proof. intros (pa & tp & pp & ->). by repeat split. Qed.

Lemma same_setup_output_file self self' s :
  same_setup self self' ->
  DatasetBuilder.output_file self' s = DatasetBuilder.output_file self s.
Proof. intros (pa & tp & pp & ->). reflexivity. Qed.

Lemma same_setup_requested self self' :
  same_setup self self' -> requested self' = requested self.
Proof. intros (pa & tp & pp & ->). reflexivity. Qed.

(** The file is there and [overwrite] is off: the loader is left alone. *)
Lemma fetch_existing s out om self env w :
  fs_exists (fs w) (resolve env out) = true ->
  DatasetBuilder.overwrite self = false ->
  DatasetBuilder.fetch s out om self env w
  = (if requested self
     then df <- load_dataframe out ;; ret (Some df)
     else ret None) env w.
Proof.
  intros He Ho. unfold DatasetBuilder.fetch, bind at 1, exists_.
  rewrite He, Ho. reflexivity.
Qed.

(** The loader is called and yields nothing. *)
Lemma fetch_none s out om self env w :
  instantiate env (DatasetBuilder.loader self) s = None ->
  fs_exists (fs w) (resolve env out) = false
  \/ DatasetBuilder.overwrite self = true ->
  DatasetBuilder.fetch s out om self env w
  = (Raise (ValueError "dataframe is None"),
     mkWorld (fs w) (heap w) (draws w) (trace w ++ [EvLoader s])).
Proof.
  intros Hl Hc. unfold DatasetBuilder.fetch, bind at 1, exists_.
  assert (negb (fs_exists (fs w) (resolve env out))
          || DatasetBuilder.overwrite self = true) as ->.
  { destruct Hc as [-> | ->]; [done|by rewrite orb_true_r]. }
  unfold bind, ask, emit, raise. simpl. by rewrite Hl.
Qed.

Lemma fetch_emits s out om self env :
  preserves (emits (fun e => loader_of s e
                             /\ (forall p, e = EvReadTable p ->
                                   requested self = true
                                   /\ p = resolve env out)))
    env (DatasetBuilder.fetch s out om self).
Proof.
  unfold DatasetBuilder.fetch.
  apply preserves_bind; [typeclasses eauto|preserves_step|].
  intros present. destruct (negb present || _).
  - repeat first
      [ preserves_step
      | apply preserves_emit; split; [by intros ? [= ->] | by intros ? [=]]
      | apply preserves_apply_pipeline;
        split; [by intros ? [=] | by intros ? [=]] ].
  - fold (requested self). destruct (requested self) eqn:E.
    + apply preserves_bind; [typeclasses eauto| |intros ?; preserves_step].
      apply preserves_load_dataframe.
      split; [by intros ? [=]|]. by intros ? [= ->].
    + preserves_step.
Qed.

Lemma fetch_keeps s out om self env :
  pipeline_keeps env ->
  preserves keeps env (DatasetBuilder.fetch s out om self).
Proof.
  intros Hk. unfold DatasetBuilder.fetch. repeat preserves_step.
Qed.

Lemma finish_emits (P : event -> Prop) s df self env :
  (forall p a, P (EvPipeline p a)) -> (forall x, P (EvCalcStats x)) ->
  preserves (emits P) env (DatasetBuilder.finish s df self).
Proof.
  intros H1 H2. unfold DatasetBuilder.finish.
  repeat first
    [ preserves_step
    | apply preserves_emit; apply H2
    | apply preserves_apply_pipeline; apply H1 ].
Qed.

Lemma finish_keeps s df self env :
  pipeline_keeps env ->
  preserves keeps env (DatasetBuilder.finish s df self).
Proof.
  intros Hk. unfold DatasetBuilder.finish. repeat preserves_step.
Qed.

Lemma finish_returns s df self env :
  returns (same_setup self) env (DatasetBuilder.finish s df self).
Proof.
  unfold DatasetBuilder.finish.
  repeat first [returns_step | apply returns_ret; apply same_setup_refl].
Qed.

Lemma process_split_emits s self env :
  preserves (emits (fun e => loader_of s e
                             /\ (forall p, e = EvReadTable p ->
                                   requested self = true)))
    env (DatasetBuilder._process_split s self).
Proof.
  unfold DatasetBuilder._process_split.
  apply preserves_bind; [typeclasses eauto| |intros od].
  { destruct (DatasetBuilder.data_dir self); preserves_step. }
  apply preserves_bind; [typeclasses eauto|preserves_step|intros isd].
  apply preserves_bind; [typeclasses eauto|destruct isd; preserves_step|intros _].
  intros w.
  pose proof (prepare_pipes_preserves eq env s od
                (joinpath od (DatasetBuilder.file_name self "" s))
                (joinpath od (DatasetBuilder.file_name self "meta-" s))
                self _ _ w) as Hw.
  pose proof (prepare_pipes_returns env s od
                (joinpath od (DatasetBuilder.file_name self "" s))
                (joinpath od (DatasetBuilder.file_name self "meta-" s))
                self w) as Hr.
  unfold bind at 1.
  destruct (DatasetBuilder.prepare_pipes _ _ _ _ _ _ _) as [[self1|e] w1];
    simpl in Hw; subst w1; [|reflexivity].
  specialize (Hr self1 w eq_refl).
  revert w. change (preserves
    (emits (fun e => loader_of s e
                     /\ (forall p, e = EvReadTable p -> requested self = true)))
    env (df <- DatasetBuilder.fetch s
                 (joinpath od (DatasetBuilder.file_name self "" s))
                 (joinpath od (DatasetBuilder.file_name self "meta-" s))
                 self1 ;;
         DatasetBuilder.finish s df self1)).
  apply preserves_bind; [typeclasses eauto| |intros df].
  - intros w. eapply emits_mono; [|apply fetch_emits].
    intros e [H1 H2]. split; [done|]. intros p Hp.
    rewrite <- (same_setup_requested _ _ Hr). by apply (H2 p).
  - apply finish_emits; split; by intros ? [=].
Qed.

Lemma process_split_keeps s self env :
  pipeline_keeps env ->
  preserves keeps env (DatasetBuilder._process_split s self).
Proof.
  intros Hk. unfold DatasetBuilder._process_split.
  apply preserves_bind; [typeclasses eauto| |intros od].
  { destruct (DatasetBuilder.data_dir self); preserves_step. }
  apply preserves_bind; [typeclasses eauto|preserves_step|intros isd].
  apply preserves_bind; [typeclasses eauto|destruct isd; preserves_step|intros _].
  apply preserves_bind; [typeclasses eauto| |intros self1].
  { apply prepare_pipes_preserves; typeclasses eauto. }
  apply preserves_bind; [typeclasses eauto| |intros df].
  - by apply fetch_keeps.
  - by apply finish_keeps.
Qed.

Lemma process_split_returns s self env :
  returns (same_setup self) env (DatasetBuilder._process_split s self).
Proof.
  unfold DatasetBuilder._process_split.
  apply returns_bind. intros od. apply returns_bind. intros isd.
  apply returns_bind. intros _.
  intros w a w' H. inv_bind H as self1 w1 H1.
  apply prepare_pipes_returns in H1.
  inv_bind H as df w2 H2. apply finish_returns in H.
  by eapply same_setup_trans.
Qed.

Lemma bind_ret_run {A B} (a : A) (k : A -> M B) env w :
  bind (ret a) k env w = k a env w.
Proof. reflexivity. Qed.

Lemma bind_bind_run {A B C} (m : M A) (k1 : A -> M B) (k2 : B -> M C) env w :
  bind (bind m k1) k2 env w = bind m (fun a => bind (k1 a) k2) env w.
Proof. unfold bind. by destruct (m env w) as [[a|e] w1]. Qed.

Lemma bind_is_dir_run {B} p (k : bool -> M B) env w :
  bind (is_dir p) k env w = k (fs_is_dir (fs w) (resolve env p)) env w.
Proof. reflexivity. Qed.

Lemma same_files_refl f : same_files f f.
Proof. by intros q c. Qed.

Lemma same_files_trans f g h :
  same_files f g -> same_files g h -> same_files f h.
Proof. intros H1 H2 q c. etrans; [apply H2|apply H1]. Qed.

Lemma mkdir_parents_same_files p f f' :
  mkdir_parents p f = Some f' -> same_files f f'.
Proof.
  intros H q c.
  pose proof (mkdir_parents_nofile _ _ _ H q) as Hno.
  rewrite (mkdir_parents_lookup _ _ _ H q).
  case_bool_decide as Hp; [|done].
  specialize (Hno Hp). unfold fs_is_file in Hno.
  split; [done|]. intros Hq. by rewrite Hq in Hno.
Qed.

(** The first phase of [_process_split]: the output directory. *)
Lemma output_dir_phase env w (isd : bool) od :
  let r := (if isd then ret tt else mkdir od) env w in
  trace (snd r) = trace w /\ keeps w (snd r)
  /\ (forall q, fs_is_file (fs (snd r)) q = fs_is_file (fs w) q).
Proof.
  destruct isd; simpl; [by repeat split|].
  unfold mkdir. destruct (mkdir_parents _ _) as [f'|] eqn:E; simpl;
    [|by repeat split].
  split; [done|]. split.
  - intros q. by apply mkdir_parents_exists with (p := resolve env od).
  - intros q. by apply mkdir_parents_files with (p := resolve env od).
Qed.

Lemma prepare_pipes_run env s od o om self w :
  (exists self1,
     DatasetBuilder.prepare_pipes s od o om self env w = (Ok self1, w)
     /\ same_setup self self1)
  \/ exists e, DatasetBuilder.prepare_pipes s od o om self env w = (Raise e, w).
Proof.
  pose proof (prepare_pipes_preserves eq env s od o om self _ _ w) as Hw.
  pose proof (prepare_pipes_returns env s od o om self w) as Hr.
  destruct (DatasetBuilder.prepare_pipes _ _ _ _ _ _ _) as [[self1|e] w1];
    simpl in Hw; subst w1; [left|right]; eauto.
Qed.

Lemma load_dataframe_trace p env w :
  trace (snd (load_dataframe p env w))
  = trace w ++ [EvReadTable (resolve env p)]
  /\ fs (snd (load_dataframe p env w)) = fs w.
Proof.
  unfold load_dataframe. by destruct (fs w !! resolve env p) as [[|[]]|].
Qed.

(** With the output file in place and [overwrite] off, a split is processed
    without the loader; the file is read when, and only when, statistics or
    preprocessing were requested. *)
Lemma process_split_existing env w self split d :
  DatasetBuilder.data_dir self = Some d ->
  DatasetBuilder.overwrite self = false ->
  fs_exists (fs w) (resolve env (DatasetBuilder.output_file self split)) = true ->
  exists evs,
    trace (snd (DatasetBuilder._process_split split self env w))
    = trace w ++ evs
    /\ Forall not_loader evs
    /\ (forall p, EvReadTable p ∈ evs ->
        requested self = true
        /\ p = resolve env (DatasetBuilder.output_file self split))
    /\ (requested self = false -> evs = [])
    /\ (forall self' w',
          DatasetBuilder._process_split split self env w = (Ok self', w') ->
          requested self = true ->
          exists evs',
            evs = EvReadTable
                    (resolve env (DatasetBuilder.output_file self split))
                  :: evs'
            /\ Forall not_read evs').
Proof.
  intros Hd Ho He.
  destruct (DatasetBuilder._process_split split self env w) as [r w'] eqn:E.
  simpl.
  unfold DatasetBuilder._process_split in E. rewrite Hd, bind_ret_run in E.
  set (od := Path_of d) in *.
  set (out := joinpath od (DatasetBuilder.file_name self "" split)) in *.
  set (om := joinpath od (DatasetBuilder.file_name self "meta-" split)) in *.
  assert (Hout : DatasetBuilder.output_file self split = out)
    by (unfold DatasetBuilder.output_file; by rewrite Hd).
  rewrite Hout in *. rewrite bind_is_dir_run in E.
  destruct (output_dir_phase env w (fs_is_dir (fs w) (resolve env od)) od)
    as (Ht & Hk & _).
  assert (Hnil : forall e,
            r = Raise e -> trace w' = trace w ->
            exists evs : list event,
              trace w' = trace w ++ evs
              /\ Forall not_loader evs
              /\ (forall p, EvReadTable p ∈ evs ->
                  requested self = true /\ p = resolve env out)
              /\ (requested self = false -> evs = [])
              /\ (forall self' w'', (r, w') = (Ok self', w'') ->
                  requested self = true ->
                  exists evs', evs = EvReadTable (resolve env out) :: evs'
                               /\ Forall not_read evs')).
  { intros e -> H1. exists []. rewrite app_nil_r.
    split; [done|]. split; [constructor|]. split; [|split; [done|]].
    - by intros p ?%elem_of_nil.
    - by intros ? ? [=]. }
  unfold bind at 1 in E.
  destruct ((if fs_is_dir (fs w) (resolve env od) then ret tt else mkdir od)
              env w) as [[[]|e] w1] eqn:E1; simpl in Ht, Hk;
    [|injection E as <- <-; by eapply Hnil].
  unfold bind at 1 in E.
  destruct (prepare_pipes_run env split od out om self w1)
    as [(self1 & Hp & Hs)|(e & Hp)]; rewrite Hp in E;
    [|injection E as <- <-; by eapply Hnil].
  unfold bind at 1 in E.
  rewrite fetch_existing in E;
    [| by apply Hk
     | by rewrite (proj1 (proj2 (proj2 (proj2 (same_setup_fields _ _ Hs)))))].
  rewrite (same_setup_requested _ _ Hs) in E.
  fold (bind (if requested self
              then df <- load_dataframe out ;; ret (Some df)
              else ret None)
          (fun df => DatasetBuilder.finish split df self1) env w1) in E.
  destruct (requested self) eqn:Er.
  - rewrite bind_bind_run in E.
    destruct (load_dataframe_trace out env w1) as [Hl _].
    destruct (load_dataframe out env w1) as [[df|e] w2] eqn:El; simpl in Hl.
    + rewrite (bind_run _ _ _ _ _ _ El), bind_ret_run in E.
      destruct (finish_emits (fun e => not_loader e /\ not_read e)
                  split (Some df) self1 env) with (w := w2)
        as (evs' & Hf & HP); [by split|by split|].
      rewrite E in Hf. simpl in Hf.
      exists (EvReadTable (resolve env out) :: evs').
      rewrite Hf, Hl, Ht, <- app_assoc. split; [done|]. split.
      { constructor; [by intros x|].
        eapply Forall_impl; [exact HP|]. by intros ? []. }
      split; [|split; [done|]].
      { intros p [[= ->]|Hq]%elem_of_cons; [done|].
        rewrite Forall_forall in HP. apply HP in Hq.
        by destruct Hq as [_ Hq]; specialize (Hq p). }
      intros _ _ _ _. eexists. split; [done|].
      eapply Forall_impl; [exact HP|]. by intros ? [].
    + rewrite (bind_raise _ _ _ _ _ _ El) in E. injection E as <- <-.
      exists [EvReadTable (resolve env out)]. rewrite Hl, Ht.
      split; [done|]. split; [constructor; [by intros x|constructor]|].
      split; [|split; [done|]].
      * intros p [[= ->]|Hq%elem_of_nil]%elem_of_cons; done.
      * by intros ? ? [=].
  - rewrite bind_ret_run in E. simpl in E. injection E as <- <-.
    exists []. rewrite app_nil_r. split; [done|]. split; [constructor|].
    split; [|split; [done|done]]. by intros p ?%elem_of_nil.
Qed.



Global Instance emits_only_refl P : Reflexive (emits_only P).
Proof. intros w. split; [done|reflexivity]. Qed.

Global Instance emits_only_trans P : Transitive (emits_only P).
Proof.
  intros w1 w2 w3 [F1 E1] [F2 E2]. split; [congruence|by etrans].
Qed.

Lemma preserves_emit_only (P : event -> Prop) env e :
  P e -> preserves (emits_only P) env (emit e).
Proof. intros He w. split; [done|]. by apply preserves_emit. Qed.

Lemma same_target_refl self : same_target self self.
Proof. by repeat split. Qed.

Lemma same_target_trans a b c :
  same_target a b -> same_target b c -> same_target a c.
Proof.
  intros (?&?&?&?&?&?&?&?) (?&?&?&?&?&?&?&?).
  repeat split; congruence.
Qed.

Lemma same_setup_target self self' :
  same_setup self self' -> same_target self self'.
Proof. intros (pa & tp & pp & ->). by repeat split. Qed.

Lemma same_target_output_file self self' s :
  same_target self self' ->
  DatasetBuilder.output_file self' s = DatasetBuilder.output_file self s.
Proof.
  intros (Hn & Hd & Hf & _).
  unfold DatasetBuilder.output_file, DatasetBuilder.file_name.
  by rewrite Hn, Hd, Hf.
Qed.

Lemma same_target_requested self self' :
  same_target self self' -> requested self' = requested self.
Proof.
  intros (_ & _ & _ & _ & Hc & Hp & _). unfold requested. by rewrite Hc, Hp.
Qed.

Lemma prelude_preserves (P : event -> Prop) env self :
  (forall c, P (EvInstantiate c)) -> P EvInfoLoad ->
  preserves (emits_only P) env (DatasetBuilder.prelude self).
Proof.
  intros H1 H2. unfold DatasetBuilder.prelude.
  repeat first
    [ preserves_step
    | apply preserves_emit_only; first [apply H1 | apply H2] ].
Qed.

Lemma returns_bind_with {A B} (Q1 : A -> Prop) (Q : B -> Prop) env
  (m : M A) (k : A -> M B) :
  returns Q1 env m -> (forall a, Q1 a -> returns Q env (k a)) ->
  returns Q env (bind m k).
Proof.
  intros Hm Hk w b w' H. inv_bind H as a w1 Ha.
  eapply Hk; [|exact H]. by eapply Hm.
Qed.

Lemma prelude_returns env self :
  returns (same_target self) env (DatasetBuilder.prelude self).
Proof.
  unfold DatasetBuilder.prelude.
  apply returns_bind. intros _.
  apply returns_bind_with with (Q1 := same_target self).
  - destruct (truthy _).
    + apply returns_bind. intros _. apply returns_ret. by repeat split.
    + apply returns_ret. apply same_target_refl.
  - intros self1 Hs. apply returns_bind. intros _. by apply returns_ret.
Qed.

Lemma process_split_target s self env :
  returns (same_target self) env (DatasetBuilder._process_split s self).
Proof.
  intros w a w' H. apply same_setup_target.
  by eapply process_split_returns.
Qed.

(** Through the loop over the splits: a split whose file is there is never
    loaded, and a file is read only on request. *)
Lemma each_split_skips env split d sources :
  pipeline_keeps env ->
  forall self w,
    DatasetBuilder.data_dir self = Some d ->
    DatasetBuilder.overwrite self = false ->
    fs_exists (fs w) (resolve env (DatasetBuilder.output_file self split))
    = true ->
    emits (fun e => e <> EvLoader split
                    /\ (forall p, e = EvReadTable p -> requested self = true))
      w (snd (DatasetBuilder.each_split sources self env w)).
Proof.
  intros Hk. induction sources as [|[s src] rest IH]; intros self w Hd Ho He.
  - reflexivity.
  - simpl. destruct (is_none src); [by apply IH|].
    assert (H1 : emits (fun e => e <> EvLoader split
                         /\ (forall p, e = EvReadTable p ->
                               requested self = true))
                   w (snd (DatasetBuilder._process_split s self env w))).
    { destruct (String.eqb_spec s split) as [->|Hne].
      - destruct (process_split_existing env w self split d Hd Ho He)
          as (evs & Ht & Hnl & Hrd & _).
        exists evs. split; [done|]. rewrite Forall_forall in Hnl |- *.
        intros e Hin. split; [intros ->; by apply (Hnl _ Hin split)|].
        intros p ->. by apply Hrd in Hin as [? _].
      - eapply emits_mono; [|apply process_split_emits].
        intros e [Hl Hr]. split; [|done].
        intros ->. by specialize (Hl split eq_refl). }
    pose proof (process_split_keeps s self env Hk w) as K1.
    pose proof (process_split_target s self env w) as T1.
    unfold bind.
    destruct (DatasetBuilder._process_split s self env w) as [[self1|e] w1];
      simpl in *; [|done].
    specialize (T1 self1 w1 eq_refl).
    etrans; [exact H1|].
    eapply emits_mono; [|apply IH].
    + intros e [? Hr]. split; [done|]. intros p Hp.
      rewrite <- (same_target_requested _ _ T1). by apply (Hr p).
    + destruct T1 as (_ & -> & _). done.
    + destruct T1 as (_ & _ & _ & -> & _). done.
    + rewrite (same_target_output_file _ _ split T1). by apply K1.
Qed.



(** C5. For a split whose output file exists, with [overwrite] off:
    [_process_split] makes no loader call; it reads a file only if
    statistics or text preprocessing were requested, and then it is the
    output file, first of all; if neither was requested it calls nothing.
    When the pipeline steps remove no file, a whole [build()] makes no
    loader call for that split and reads files only on such a request. *)
Theorem build_skips_existing env w self split d :
  DatasetBuilder.data_dir self = Some d ->
  DatasetBuilder.overwrite self = false ->
  fs_exists (fs w) (resolve env (DatasetBuilder.output_file self split)) = true ->
  (exists evs,
     trace (snd (DatasetBuilder._process_split split self env w))
     = trace w ++ evs
     /\ Forall not_loader evs
     /\ (forall p, EvReadTable p ∈ evs ->
         requested self = true
         /\ p = resolve env (DatasetBuilder.output_file self split))
     /\ (requested self = false -> evs = [])
     /\ (forall self' w',
           DatasetBuilder._process_split split self env w = (Ok self', w') ->
           requested self = true ->
           exists evs',
             evs = EvReadTable
                     (resolve env (DatasetBuilder.output_file self split))
                   :: evs'
             /\ Forall not_read evs'))
  /\ (pipeline_keeps env ->
      exists evs,
        trace (snd (DatasetBuilder.build self env w)) = trace w ++ evs
        /\ (EvLoader split ∉ evs)
        /\ (forall p, EvReadTable p ∈ evs -> requested self = true)).
Proof.
  intros Hd Ho He. split; [by apply (process_split_existing _ _ _ _ d)|].
  intros Hk.
  set (P := fun e => e <> EvLoader split
                     /\ (forall p, e = EvReadTable p -> requested self = true)).
  assert (HP : emits P w (snd (DatasetBuilder.build self env w))).
  { unfold DatasetBuilder.build.
    pose proof (prelude_preserves P env self) as H1.
    pose proof (prelude_returns env self w) as T1.
    unfold bind at 1.
    destruct (DatasetBuilder.prelude self env w) as [[self1|e] w1] eqn:E1.
    2:{ simpl. specialize (H1 ltac:(by split) ltac:(by split) w).
        rewrite E1 in H1. apply H1. }
    specialize (H1 ltac:(by split) ltac:(by split) w). rewrite E1 in H1.
    destruct H1 as [Hfs H1]. simpl in Hfs, H1.
    specialize (T1 self1 w1 eq_refl).
    etrans; [exact H1|].
    destruct (DatasetBuilder.fetch_sources self1) as [|sources|];
      try reflexivity.
    rewrite bind_ret_run.
    assert (H2 : emits P w1
                   (snd (DatasetBuilder.each_split sources self1 env w1))).
    { eapply emits_mono; [|apply (each_split_skips env split d sources Hk)].
      - intros e [? Hr]. split; [done|]. intros p Hp.
        rewrite <- (same_target_requested _ _ T1). by apply (Hr p).
      - destruct T1 as (_ & -> & _). done.
      - destruct T1 as (_ & _ & _ & -> & _). done.
      - rewrite (same_target_output_file _ _ split T1). by rewrite Hfs. }
    unfold bind at 1.
    destruct (DatasetBuilder.each_split sources self1 env w1)
      as [[self2|e] w2]; simpl in H2 |- *; [|done].
    etrans; [exact H2|].
    destruct (DatasetBuilder.summary_info self2).
    - exists [EvInfoSave]. split; [done|]. constructor; [|constructor].
      by split.
    - reflexivity. }
  destruct HP as (evs & Ht & Hf). exists evs. split; [done|].
  rewrite Forall_forall in Hf. split.
  - intros Hin. by destruct (Hf _ Hin).
  - intros p Hin. by destruct (Hf _ Hin) as [_ Hr]; apply (Hr p).
Qed.

Lemma build_skips_existing_witness :
  DatasetBuilder.data_dir builder0 = Some "/data"
  /\ DatasetBuilder.overwrite builder0 = false
  /\ fs_exists (fs w_built)
       (resolve env0 (DatasetBuilder.output_file builder0 "train")) = true
  /\ (pipeline_keeps env0 ->
      exists evs,
        trace (snd (DatasetBuilder.build builder0 env0 w_built))
        = trace w_built ++ evs
        /\ (EvLoader "train" ∉ evs)
        /\ (forall p, EvReadTable p ∈ evs -> requested builder0 = true)).
Proof.
  split; [reflexivity|]. split; [reflexivity|].
  split; [vm_compute; reflexivity|].
  refine (proj2 (build_skips_existing env0 w_built builder0 "train" "/data"
                   eq_refl eq_refl _)).
  vm_compute. reflexivity.
Defined.

Example build_existing_run :
  trace (snd (DatasetBuilder.build builder0 env0 w_built))
  = [EvReadTable ["/"; "data"; "exp-train.parquet"]]
  /\ pipeline_keeps env0.
Proof. split; [vm_compute; reflexivity|]. by intros df pipes args f q. Qed.

(** The run of [_process_split], taken apart: it raises before the fetch,
    leaving files and trace as they were, or it reaches the fetch in a world
    that differs by directories only. *)
Lemma process_split_run env w self split :
  (exists e w1,
     DatasetBuilder._process_split split self env w = (Raise e, w1)
     /\ trace w1 = trace w
     /\ (forall q, fs_is_file (fs w1) q = fs_is_file (fs w) q))
  \/ (exists d w1 self1,
        DatasetBuilder.data_dir self = Some d
        /\ trace w1 = trace w
        /\ keeps w w1
        /\ (forall q, fs_is_file (fs w1) q = fs_is_file (fs w) q)
        /\ same_setup self self1
        /\ DatasetBuilder._process_split split self env w
           = (df <- DatasetBuilder.fetch split
                      (DatasetBuilder.output_file self split)
                      (joinpath (Path_of d)
                         (DatasetBuilder.file_name self "meta-" split))
                      self1 ;;
              DatasetBuilder.finish split df self1) env w1).
Proof.
  unfold DatasetBuilder._process_split, DatasetBuilder.output_file.
  destruct (DatasetBuilder.data_dir self) as [d|] eqn:Hd.
  2:{ left. exists (TypeError "expected str, not NoneType"), w. by repeat split. }
  rewrite bind_ret_run, bind_is_dir_run. simpl.
  destruct (output_dir_phase env w
              (fs_is_dir (fs w) (resolve env (Path_of d))) (Path_of d))
    as (Ht & Hk & Hf).
  destruct ((if fs_is_dir (fs w) (resolve env (Path_of d))
             then ret tt else mkdir (Path_of d)) env w)
    as [[[]|e] w1] eqn:E1; simpl in Ht, Hk, Hf.
  2:{ left. exists e, w1. rewrite (bind_raise _ _ _ _ _ _ E1).
      by repeat split. }
  rewrite (bind_run _ _ _ _ _ _ E1).
  destruct (prepare_pipes_run env split (Path_of d)
              (joinpath (Path_of d) (DatasetBuilder.file_name self "" split))
              (joinpath (Path_of d)
                 (DatasetBuilder.file_name self "meta-" split)) self w1)
    as [(self1 & Hp & Hs)|(e & Hp)].
  - right. exists d, w1, self1. rewrite (bind_run _ _ _ _ _ _ Hp).
    by repeat split.
  - left. exists e, w1. rewrite (bind_raise _ _ _ _ _ _ Hp).
    by repeat split.
Qed.

(** The first phase of [_process_split] makes directories: the regular
    files and their contents are left as they are. *)
Lemma output_dir_phase_files env w (isd : bool) od :
  same_files (fs w) (fs (snd ((if isd then ret tt else mkdir od) env w))).
Proof.
  destruct isd; simpl; [apply same_files_refl|].
  unfold mkdir. destruct (mkdir_parents _ _) as [f'|] eqn:E; simpl;
    [|apply same_files_refl].
  by apply mkdir_parents_same_files in E.
Qed.

(** [process_split_run], with the contents of the files. *)
Lemma process_split_run_files env w self split :
  (exists e w1,
     DatasetBuilder._process_split split self env w = (Raise e, w1)
     /\ trace w1 = trace w
     /\ same_files (fs w) (fs w1))
  \/ (exists d w1 self1,
        DatasetBuilder.data_dir self = Some d
        /\ trace w1 = trace w
        /\ same_files (fs w) (fs w1)
        /\ same_setup self self1
        /\ DatasetBuilder._process_split split self env w
           = (df <- DatasetBuilder.fetch split
                      (DatasetBuilder.output_file self split)
                      (joinpath (Path_of d)
                         (DatasetBuilder.file_name self "meta-" split))
                      self1 ;;
              DatasetBuilder.finish split df self1) env w1).
Proof.
  unfold DatasetBuilder._process_split, DatasetBuilder.output_file.
  destruct (DatasetBuilder.data_dir self) as [d|] eqn:Hd.
  2:{ left. exists (TypeError "expected str, not NoneType"), w.
      split; [done|]. split; [done|]. apply same_files_refl. }
  rewrite bind_ret_run, bind_is_dir_run. simpl.
  destruct (output_dir_phase env w
              (fs_is_dir (fs w) (resolve env (Path_of d))) (Path_of d))
    as (Ht & _ & _).
  pose proof (output_dir_phase_files env w
                (fs_is_dir (fs w) (resolve env (Path_of d))) (Path_of d))
    as Hf.
  destruct ((if fs_is_dir (fs w) (resolve env (Path_of d))
             then ret tt else mkdir (Path_of d)) env w)
    as [[[]|e] w1] eqn:E1; simpl in Ht, Hf.
  2:{ left. exists e, w1. rewrite (bind_raise _ _ _ _ _ _ E1).
      split; [done|]. split; [done|exact Hf]. }
  rewrite (bind_run _ _ _ _ _ _ E1).
  destruct (prepare_pipes_run env split (Path_of d)
              (joinpath (Path_of d) (DatasetBuilder.file_name self "" split))
              (joinpath (Path_of d)
                 (DatasetBuilder.file_name self "meta-" split)) self w1)
    as [(self1 & Hp & Hs)|(e & Hp)].
  - right. exists d, w1, self1. rewrite (bind_run _ _ _ _ _ _ Hp).
    split; [done|]. split; [done|]. split; [exact Hf|]. by split.
  - left. exists e, w1. rewrite (bind_raise _ _ _ _ _ _ Hp).
    split; [done|]. split; [done|exact Hf].
Qed.

Lemma prepare_pipes_plain env s od o om self w :
  no_saving_steps self ->
  DatasetBuilder.prepare_pipes s od o om self env w = (Ok self, w).
Proof.
  intros (H1 & H2 & H3). unfold DatasetBuilder.prepare_pipes.
  rewrite H1, bind_ret_run, H2, bind_ret_run, H3, bind_ret_run.
  unfold ret. by destruct self.
Qed.





Lemma process_split_fatal env w self s split :
  instantiate env (DatasetBuilder.loader self) split = None ->
  fatal_at split w (DatasetBuilder._process_split s self env w).
Proof.
  intros Hl. destruct (String.eqb_spec s split) as [->|Hne].
  - destruct (process_split_run env w self split)
      as [(e & w1 & -> & Ht & Hf)|(d & w1 & self1 & Hd & Ht & Hk & Hf & Hs & ->)].
    { exists []. simpl. rewrite app_nil_r. split; [done|].
      by intros ?%elem_of_nil. }
    set (out := DatasetBuilder.output_file self split).
    set (om := joinpath (Path_of d)
                 (DatasetBuilder.file_name self "meta-" split)).
    destruct (same_setup_fields _ _ Hs) as (_&_&_&Ho&_&_&Hld&_).
    destruct (negb (fs_exists (fs w1) (resolve env out))
              || DatasetBuilder.overwrite self1) eqn:Hc.
    + rewrite (bind_raise _ _ _ _ _ _
                 (fetch_none split out om self1 env w1
                    ltac:(by rewrite Hld) ltac:(
                      apply orb_true_iff in Hc as [Hc%negb_true_iff|Hc];
                      auto))).
      simpl. exists [EvLoader split]. simpl. rewrite Ht. split; [done|].
      intros _. split; [done|]. by exists [].
    + apply orb_false_iff in Hc as [Hc%negb_false_iff Hc2].
      assert (Hx : emits not_loader w1
                (snd ((df <- DatasetBuilder.fetch split out om self1 ;;
                       DatasetBuilder.finish split df self1) env w1))).
      { unfold bind at 1. rewrite fetch_existing by done.
        destruct (requested self1).
        - pose proof (preserves_load_dataframe not_loader env out
                        ltac:(by intros x) w1) as H1.
          fold (bind (df <- load_dataframe out ;; ret (Some df))
                  (fun df => DatasetBuilder.finish split df self1) env w1).
          rewrite bind_bind_run. unfold bind at 1.
          destruct (load_dataframe out env w1) as [[df|e] w2];
            simpl in H1 |- *; [|done].
          etrans; [exact H1|]. rewrite bind_ret_run.
          apply finish_emits; by intros.
        - simpl. reflexivity. }
      destruct Hx as (evs & Hx & HP). exists evs. rewrite Hx, Ht.
      split; [done|]. intros Hin. rewrite Forall_forall in HP.
      by destruct (HP _ Hin split).
  - destruct (process_split_emits s self env w) as (evs & Ht & HP).
    exists evs. split; [done|]. intros Hin. rewrite Forall_forall in HP.
    destruct (HP _ Hin) as [Hlo _]. by specialize (Hlo split eq_refl).
Qed.

Lemma fatal_at_seq split {A B} (w w1 : World) (a : A) (rw : Res B * World) :
  fatal_at split w (Ok a, w1) -> fatal_at split w1 rw -> fatal_at split w rw.
Proof.
  intros (e1 & Ht1 & H1) (e2 & Ht2 & H2). simpl in *.
  exists (e1 ++ e2). rewrite Ht2, Ht1, app_assoc. split; [done|].
  intros [Hin|Hin]%elem_of_app.
  - by destruct (H1 Hin) as [? _].
  - destruct (H2 Hin) as [Hr (evs1 & ->)]. split; [done|].
    exists (e1 ++ evs1). by rewrite app_assoc.
Qed.

Lemma each_split_fatal env split sources :
  forall self w,
    instantiate env (DatasetBuilder.loader self) split = None ->
    fatal_at split w (DatasetBuilder.each_split sources self env w).
Proof.
  induction sources as [|[s src] rest IH]; intros self w Hl.
  - exists []. simpl. rewrite app_nil_r. split; [done|].
    by intros ?%elem_of_nil.
  - simpl. destruct (is_none src); [by apply IH|].
    pose proof (process_split_fatal env w self s split Hl) as H1.
    pose proof (process_split_target s self env w) as T1.
    unfold bind.
    destruct (DatasetBuilder._process_split s self env w) as [[self1|e] w1];
      [|done].
    specialize (T1 self1 w1 eq_refl).
    eapply fatal_at_seq; [exact H1|]. apply IH.
    destruct T1 as (_&_&_&_&_&_&->&_). done.
Qed.

Lemma build_fatal env split self w :
  instantiate env (DatasetBuilder.loader self) split = None ->
  fatal_at split w (DatasetBuilder.build self env w).
Proof.
  intros Hl. unfold DatasetBuilder.build.
  pose proof (prelude_preserves not_loader env self
                ltac:(by intros c x) ltac:(by intros x) w) as [_ H1].
  pose proof (prelude_returns env self w) as T1.
  assert (Hpre : forall (r : Res DatasetBuilder.t) w1,
            emits not_loader w w1 -> fatal_at split w (r, w1)).
  { intros r w1 (evs & Ht & HP). exists evs. split; [done|].
    intros Hin. rewrite Forall_forall in HP. by destruct (HP _ Hin split). }
  unfold bind at 1.
  destruct (DatasetBuilder.prelude self env w) as [[self1|e] w1];
    simpl in H1; [|by apply Hpre].
  specialize (T1 self1 w1 eq_refl).
  eapply fatal_at_seq; [by apply (Hpre (Ok self1))|].
  destruct (DatasetBuilder.fetch_sources self1) as [|sources|];
    try (exists []; simpl; rewrite app_nil_r; split; [done|];
         by intros ?%elem_of_nil).
  rewrite bind_ret_run.
  assert (H2 : fatal_at split w1
                 (DatasetBuilder.each_split sources self1 env w1)).
  { apply each_split_fatal. destruct T1 as (_&_&_&_&_&_&->&_). done. }
  unfold bind at 1.
  destruct (DatasetBuilder.each_split sources self1 env w1)
    as [[self2|e] w2]; [|done].
  eapply fatal_at_seq; [exact H2|].
  destruct (DatasetBuilder.summary_info self2); simpl.
  - exists [EvInfoSave]. split; [done|].
    intros [[=]|?%elem_of_nil]%elem_of_cons. done.
  - exists []. simpl. rewrite app_nil_r. split; [done|].
    by intros ?%elem_of_nil.
Qed.

(** C6. When the loader yields no table for a split, [_process_split]
    raises [ValueError("dataframe is None")] right after the loader call:
    that call is the only event of the split, no pipeline (persistence) step
    runs, and the regular files are the ones there were before the call,
    each with the contents it had: none is written, changed or removed.
    The loader is reached, for one, whenever [overwrite] is set, the output
    directory can be made and no saving step needs to be configured; the
    output file that is there is then left as it is.  In [build()], such a
    loader call is the last thing that happens. *)
Theorem loader_none_is_fatal env w self split :
  instantiate env (DatasetBuilder.loader self) split = None ->
  (exists evs,
     trace (snd (DatasetBuilder._process_split split self env w))
     = trace w ++ evs
     /\ (EvLoader split ∈ evs ->
         fst (DatasetBuilder._process_split split self env w)
         = Raise (ValueError "dataframe is None")
         /\ evs = [EvLoader split]
         /\ (forall q,
               fs_is_file
                 (fs (snd (DatasetBuilder._process_split split self env w))) q
               = fs_is_file (fs w) q)
         /\ same_files (fs w)
              (fs (snd (DatasetBuilder._process_split split self env w)))))
  /\ (forall d,
        DatasetBuilder.data_dir self = Some d ->
        DatasetBuilder.overwrite self = true ->
        no_saving_steps self ->
        makeable (fs w) (resolve env (Path_of d)) ->
        fst (DatasetBuilder._process_split split self env w)
        = Raise (ValueError "dataframe is None")
        /\ trace (snd (DatasetBuilder._process_split split self env w))
           = trace w ++ [EvLoader split]
        /\ same_files (fs w)
             (fs (snd (DatasetBuilder._process_split split self env w))))
  /\ fatal_at split w (DatasetBuilder.build self env w).
Proof.
  intros Hl. split; [|split; [|by apply build_fatal]].
  - destruct (process_split_run_files env w self split)
      as [(e & w1 & -> & Ht & Hf)|(d & w1 & self1 & Hd & Ht & Hf & Hs & ->)].
    { exists []. rewrite app_nil_r. split; [done|]. by intros ?%elem_of_nil. }
    set (out := DatasetBuilder.output_file self split).
    set (om := joinpath (Path_of d)
                 (DatasetBuilder.file_name self "meta-" split)).
    destruct (same_setup_fields _ _ Hs) as (_&_&_&Ho&_&_&Hld&_).
    destruct (negb (fs_exists (fs w1) (resolve env out))
              || DatasetBuilder.overwrite self1) eqn:Hc.
    + rewrite (bind_raise _ _ _ _ _ _
                 (fetch_none split out om self1 env w1
                    ltac:(by rewrite Hld) ltac:(
                      apply orb_true_iff in Hc as [Hc%negb_true_iff|Hc];
                      auto))).
      simpl. exists [EvLoader split]. rewrite Ht. split; [done|].
      intros _. split; [done|]. split; [done|]. split; [|exact Hf].
      intros q. unfold fs_is_file.
      destruct (fs w1 !! q) as [[|c]|] eqn:E1.
      * destruct (fs w !! q) as [[|c']|] eqn:E; try done.
        apply (Hf q c') in E. congruence.
      * apply (Hf q c) in E1. by rewrite E1.
      * destruct (fs w !! q) as [[|c']|] eqn:E; try done.
        apply (Hf q c') in E. congruence.
    + apply orb_false_iff in Hc as [Hc%negb_false_iff Hc2].
      assert (Hx : emits not_loader w1
                (snd ((df <- DatasetBuilder.fetch split out om self1 ;;
                       DatasetBuilder.finish split df self1) env w1))).
      { unfold bind at 1. rewrite fetch_existing by done.
        destruct (requested self1).
        - pose proof (preserves_load_dataframe not_loader env out
                        ltac:(by intros x) w1) as H1.
          fold (bind (df <- load_dataframe out ;; ret (Some df))
                  (fun df => DatasetBuilder.finish split df self1) env w1).
          rewrite bind_bind_run. unfold bind at 1.
          destruct (load_dataframe out env w1) as [[df|e] w2];
            simpl in H1 |- *; [|done].
          etrans; [exact H1|]. rewrite bind_ret_run.
          apply finish_emits; by intros.
        - simpl. reflexivity. }
      destruct Hx as (evs & Hx & HP). exists evs. rewrite Hx, Ht.
      split; [done|]. intros Hin. rewrite Forall_forall in HP.
      by destruct (HP _ Hin split).
  - intros d Hd Ho Hn Hm.
    unfold DatasetBuilder._process_split. rewrite Hd, bind_ret_run.
    rewrite bind_is_dir_run.
    destruct (output_dir_phase env w
                (fs_is_dir (fs w) (resolve env (Path_of d))) (Path_of d))
      as (Ht & _ & _).
    pose proof (output_dir_phase_files env w
                  (fs_is_dir (fs w) (resolve env (Path_of d))) (Path_of d))
      as Hf.
    assert (exists w1,
              (if fs_is_dir (fs w) (resolve env (Path_of d))
               then ret tt else mkdir (Path_of d)) env w = (Ok tt, w1))
      as [w1 E1].
    { destruct (fs_is_dir _ _); [by eexists|].
      destruct (mkdir_parents_total _ _ Hm) as [f' Hf'].
      eexists. by apply mkdir_ok. }
    rewrite E1 in Ht, Hf. simpl in Ht, Hf.
    rewrite (bind_run _ _ _ _ _ _ E1).
    rewrite (bind_run _ _ _ _ _ _
               (prepare_pipes_plain env split _ _ _ self w1 Hn)).
    rewrite (bind_raise _ _ _ _ _ _
               (fetch_none split _ _ self env w1 Hl (or_intror Ho))).
    simpl. by rewrite Ht.
Qed.

Lemma loader_none_is_fatal_witness :
  instantiate env0 (DatasetBuilder.loader builder_again) "train" = None
  /\ DatasetBuilder.data_dir builder_again = Some "/data"
  /\ DatasetBuilder.overwrite builder_again = true
  /\ no_saving_steps builder_again
  /\ makeable (fs w_built) (resolve env0 (Path_of "/data"))
  /\ fst (DatasetBuilder._process_split "train" builder_again env0 w_built)
     = Raise (ValueError "dataframe is None")
  /\ trace (snd (DatasetBuilder._process_split "train" builder_again env0
                   w_built))
     = trace w_built ++ [EvLoader "train"]
  /\ fs (snd (DatasetBuilder._process_split "train" builder_again env0
                w_built))
     !! ["/"; "data"; "exp-train.parquet"]
     = Some (File (Tab (Table ["text"] []))).
Proof.
  assert (Hm : makeable (fs w_built) (resolve env0 (Path_of "/data"))).
  { intros q Hq. vm_compute in Hq.
    repeat (apply elem_of_cons in Hq as [->|Hq]; [vm_compute; reflexivity|]).
    by apply elem_of_nil in Hq. }
  split; [reflexivity|]. split; [reflexivity|]. split; [reflexivity|].
  split; [by repeat split|]. split; [exact Hm|].
  destruct (proj1 (proj2 (loader_none_is_fatal env0 w_built builder_again
                            "train" eq_refl))
              "/data" eq_refl eq_refl
              (conj eq_refl (conj eq_refl eq_refl)) Hm) as (Hr & Ht & Hf).
  split; [exact Hr|]. split; [exact Ht|].
  apply (Hf ["/"; "data"; "exp-train.parquet"] (Tab (Table ["text"] []))).
  reflexivity.
Defined.

(** ** [Dataset] *)



Lemma load_each_loaded files : forall self env w self' w',
  Dataset.load_each files self env w = (Ok self', w') ->
  Dataset._loaded self' = Dataset._loaded self
  /\ Dataset.data_files self' = Dataset.data_files self.
Proof.
  induction files as [|[split f] rest IH]; intros self env w self' w' H;
    simpl in H.
  - by apply ret_ok in H as [-> _].
  - inv_bind H as p w1 H1. inv_bind H as df w2 H2. inv_bind H as df' w3 H3.
    apply IH in H. by destruct self.
Qed.

Lemma load_sets_loaded self env w self' w' :
  Dataset.load self env w = (Ok self', w') -> Dataset._loaded self' = true.
Proof.
  unfold Dataset.load. destruct (Dataset._loaded self) eqn:E.
  - by intros [-> _]%ret_ok.
  - intros H. inv_bind H as s w1 H1. by apply ret_ok in H as [-> _].
Qed.

Lemma load_loaded self env w :
  Dataset._loaded self = true -> Dataset.load self env w = (Ok self, w).
Proof. unfold Dataset.load. by intros ->. Qed.

Lemma load_times_loaded n : forall self env w,
  Dataset._loaded self = true -> load_times n self env w = (Ok self, w).
Proof.
  induction n as [|n IH]; intros self env w Hl; simpl; [done|].
  rewrite (bind_run _ _ _ _ _ _ (load_loaded self env w Hl)). by apply IH.
Qed.



(** The reads of a first load: one per entry of [data_files], in order. *)
Lemma load_each_trace files : forall self env w self' w',
  Dataset.load_each files self env w = (Ok self', w') ->
  exists evs,
    trace w' = trace w ++ evs
    /\ List.filter is_read evs
       = map (fun kv =>
                EvReadTable
                  (resolve env
                     (joinpath (Dataset.data_dir self)
                        (default "" (as_str (snd kv)))))) files.
Proof.
  induction files as [|[split f] rest IH]; intros self env w self' w' H;
    simpl in H.
  - apply ret_ok in H as [-> ->]. exists []. by rewrite app_nil_r.
  - inv_bind H as p w1 H1.
    destruct f as [[| | |f]| |]; try discriminate H1.
    apply ret_ok in H1 as [-> ->].
    inv_bind H as df w2 H2.
    destruct (load_dataframe_trace (joinpath (Dataset.data_dir self) f) env w)
      as [Ht2 _]. rewrite H2 in Ht2. simpl in Ht2.
    inv_bind H as df' w3 H3.
    assert (Ht3 : exists evs, trace w3 = trace w2 ++ evs
                              /\ List.filter is_read evs = []).
    { destruct (Dataset.process_pipeline self) eqn:Ep.
      - apply ret_ok in H3 as [-> ->]. exists []. by rewrite app_nil_r.
      - unfold apply_pipeline in H3.
        destruct (pipeline env df _ _ (fs w2)) as [x f'].
        injection H3 as <- <-. simpl. by eexists. }
    destruct Ht3 as (evs3 & Ht3 & Hno).
    destruct (IH _ _ _ _ _ H) as (evs4 & Ht4 & Hrest). simpl in Hrest.
    exists ([EvReadTable (resolve env (joinpath (Dataset.data_dir self) f))]
            ++ evs3 ++ evs4).
    split; [by rewrite Ht4, Ht3, Ht2, <- !app_assoc|].
    rewrite !List.filter_app, Hno, Hrest. reflexivity.
Qed.

(** C8. A load that succeeds reads the file of every split once, in the
    order of [data_files], and marks the dataset loaded; from then on every
    call to [load] returns at once: no read, no other call, the world and
    the dataset (its cached tables with it) unchanged, however often it is
    repeated. *)
Theorem load_idempotent env w self self1 w1 :
  Dataset._loaded self = false ->
  Dataset.load self env w = (Ok self1, w1) ->
  (exists evs,
     trace w1 = trace w ++ evs
     /\ List.filter is_read evs = map EvReadTable (split_files env self))
  /\ Dataset._loaded self1 = true
  /\ (forall env' w', Dataset.load self1 env' w' = (Ok self1, w'))
  /\ (forall n env' w', load_times n self1 env' w' = (Ok self1, w'))
  /\ (forall n split,
        load_times (S n) self env w = (Ok self1, w1)
        /\ Dataset.getitem split
             (default self1 (match load_times n self1 env w1 with
                             | (Ok s, _) => Some s
                             | _ => None
                             end))
           = Dataset.getitem split self1).
Proof.
  intros Hu H.
  pose proof (load_sets_loaded _ _ _ _ _ H) as Hl.
  split; [|split; [done|split; [|split]]].
  - unfold Dataset.load in H. rewrite Hu in H.
    inv_bind H as s w2 H2. apply ret_ok in H as [-> ->].
    destruct (load_each_trace _ _ _ _ _ _ H2) as (evs & Ht & Hf).
    exists evs. split; [done|]. rewrite Hf. unfold split_files.
    by rewrite map_map.
  - intros env' w'. by apply load_loaded.
  - intros n env' w'. by apply load_times_loaded.
  - intros n split. simpl. rewrite (bind_run _ _ _ _ _ _ H).
    by rewrite (load_times_loaded n self1 env w1 Hl).
Qed.

Lemma load_idempotent_witness :
  Dataset._loaded dataset0 = false
  /\ (exists self1 w1,
        Dataset.load dataset0 env0 w_data = (Ok self1, w1)
        /\ trace w1 = [EvReadTable ["/"; "data"; "exp"; "exp-train.parquet"]]
        /\ forall n env' w', load_times n self1 env' w' = (Ok self1, w')).
Proof.
  split; [reflexivity|].
  eexists _, _. split; [vm_compute; reflexivity|]. split; [reflexivity|].
  refine (proj1 (proj2 (proj2 (proj2
            (load_idempotent env0 w_data dataset0 _ _ eq_refl _))))).
  vm_compute. reflexivity.
Defined.

(** ** Configuration objects and the baseline *)



Global Instance same_heap_refl : Reflexive same_heap.
Proof. by intros w. Qed.

Global Instance same_heap_trans : Transitive same_heap.
Proof. intros a b c H1 H2. unfold same_heap in *. congruence. Qed.

Lemma safe_ret {A} L base env (a : A) (Q : A -> Prop) :
  Q a -> safe L base env (ret a) Q.
Proof. intros HQ w Hw. split; [done|]. by intros a' [= <-]. Qed.

Lemma safe_raise {A} L base env e (Q : A -> Prop) :
  safe L base env (raise e) Q.
Proof. intros w Hw. split; [done|]. by intros a' [=]. Qed.

Lemma safe_bind {A B} L base env (m : M A) (k : A -> M B)
  (Q1 : A -> Prop) (Q : B -> Prop) :
  safe L base env m Q1 ->
  (forall a, Q1 a -> safe L base env (k a) Q) ->
  safe L base env (bind m k) Q.
Proof.
  intros Hm Hk w Hw. destruct (Hm w Hw) as [H1 H2]. unfold bind.
  destruct (m env w) as [[a|e] w1]; simpl in *.
  - apply Hk; [by apply H2|done].
  - split; [done|]. by intros a [=].
Qed.

Lemma safe_mono {A} L base env (m : M A) (Q1 Q : A -> Prop) :
  (forall a, Q1 a -> Q a) -> safe L base env m Q1 -> safe L base env m Q.
Proof.
  intros H Hm w Hw. destruct (Hm w Hw) as [H1 H2]. split; [done|].
  intros a Ha. by apply H, H2.
Qed.

(** A computation that leaves the heap as it is. *)
Lemma safe_same_heap {A} L base env (m : M A) :
  preserves same_heap env m -> safe L base env m (fun _ => True).
Proof.
  intros Hm w Hw. split; [|done]. unfold holds. by rewrite (Hm w).
Qed.

Lemma holds_lt L base w : holds L base w -> L < length (heap w).
Proof. intros H. by apply lookup_lt_Some in H. Qed.

Lemma safe_new L base env c :
  safe L base env (DictConfig.new c) (fun l => l <> L).
Proof.
  intros w Hw. pose proof (holds_lt _ _ _ Hw). unfold DictConfig.new. simpl.
  split.
  - unfold holds. simpl. by rewrite lookup_app_l.
  - intros a [= <-]. lia.
Qed.

Lemma safe_read L base env l :
  safe L base env (DictConfig.read l) (fun _ => True).
Proof.
  intros w Hw. unfold DictConfig.read.
  by destruct (heap w !! l).
Qed.

Lemma safe_write L base env l c :
  l <> L -> safe L base env (DictConfig.write l c) (fun _ => True).
Proof.
  intros Hl w Hw. unfold DictConfig.write. simpl. split; [|done].
  unfold holds. simpl. by rewrite list_lookup_insert_ne.
Qed.

Lemma safe_copy L base env l :
  safe L base env (DictConfig.copy l) (fun l' => l' <> L).
Proof.
  unfold DictConfig.copy.
  eapply safe_bind; [apply safe_read|]. intros c _. apply safe_new.
Qed.

Lemma safe_setattr L base env l k v :
  l <> L -> safe L base env (DictConfig.setattr l k v) (fun _ => True).
Proof.
  intros Hl. unfold DictConfig.setattr.
  eapply safe_bind; [apply safe_read|]. intros c _.
  destruct (set_top k v c); [by apply safe_write|apply safe_raise].
Qed.

Lemma safe_setattr2 L base env l k1 k2 v :
  l <> L -> safe L base env (DictConfig.setattr2 l k1 k2 v) (fun _ => True).
Proof.
  intros Hl. unfold DictConfig.setattr2.
  eapply safe_bind; [apply safe_read|]. intros c _.
  destruct (set_in k1 k2 v c); [by apply safe_write|apply safe_raise].
Qed.

Lemma safe_getattr L base env l k :
  safe L base env (DictConfig.getattr l k) (fun _ => True).
Proof.
  unfold DictConfig.getattr.
  eapply safe_bind; [apply safe_read|]. intros c _. by apply safe_ret.
Qed.

Lemma safe_merge L base env l b :
  safe L base env (eKonf.merge l b) (fun l' => l' <> L).
Proof.
  unfold eKonf.merge.
  eapply safe_bind; [apply safe_read|]. intros c _. apply safe_new.
Qed.

(** What touches files, the generator or the trace only. *)
Lemma preserves_opt_field {A} R env (conv : cfg -> option A) k d :
  Reflexive R -> preserves R env (opt_field conv k d).
Proof.
  intros HR w. by rewrite (opt_field_pure conv k d env w _ _ (surjective_pairing _)).
Qed.

Lemma preserves_dflt_field {A} R env (conv : cfg -> option A) k x d :
  Reflexive R -> preserves R env (dflt_field conv k x d).
Proof.
  intros HR w.
  by rewrite (dflt_field_pure conv k x d env w _ _ (surjective_pairing _)).
Qed.

Lemma preserves_req_field {A} R env (conv : cfg -> option A) k d :
  Reflexive R -> preserves R env (req_field conv k d).
Proof.
  intros HR w. by rewrite (req_field_pure conv k d env w _ _ (surjective_pairing _)).
Qed.

Lemma preserves_as_kwargs R env c :
  Reflexive R -> preserves R env (as_kwargs c).
Proof. intros HR w. destruct c; apply HR. Qed.

Lemma preserves_lift {A} R env (r : Res A) :
  Reflexive R -> preserves R env (lift r).
Proof. intros HR w. apply HR. Qed.

Lemma preserves_glob R env d p : Reflexive R -> preserves R env (glob d p).
Proof. intros HR w. apply HR. Qed.

Lemma same_heap_mkdir env p : preserves same_heap env (mkdir p).
Proof. intros w. unfold mkdir. by destruct (mkdir_parents _ _). Qed.

Lemma same_heap_randint env lo hi : preserves same_heap env (randint lo hi).
Proof. by intros w. Qed.

Lemma same_heap_emit env e : preserves same_heap env (emit e).
Proof. by intros w. Qed.

Lemma same_heap_write_file env p c : preserves same_heap env (write_file p c).
Proof.
  intros w. unfold write_file.
  by destruct (fs_is_dir _ _); [|destruct (fs_is_dir _ _)].
Qed.

Lemma same_heap_load env p : preserves same_heap env (eKonf.load p).
Proof.
  intros w. unfold eKonf.load. by destruct (fs w !! _) as [[|[]]|].
Qed.

Lemma preserves_try_field {A} R env (m : M A) :
  preserves R env m -> preserves R env (try_field m).
Proof.
  intros H w. specialize (H w). unfold try_field.
  destruct (m env w) as [[a|e] w1]; [done|]. by destruct (is_field_error e).
Qed.

Ltac same_heap_step :=
  first
    [ apply preserves_try_field
    | apply preserves_opt_field; [typeclasses eauto]
    | apply preserves_dflt_field; [typeclasses eauto]
    | apply preserves_req_field; [typeclasses eauto]
    | apply preserves_as_kwargs; [typeclasses eauto]
    | apply preserves_lift; [typeclasses eauto]
    | apply preserves_glob; [typeclasses eauto]
    | apply same_heap_mkdir
    | apply same_heap_randint
    | apply same_heap_emit
    | apply same_heap_write_file
    | apply same_heap_load
    | preserves_step ].

Lemma same_heap_batch_init env data :
  preserves same_heap env (BaseBatchConfig.__init__ data).
Proof.
  unfold BaseBatchConfig.__init__, BaseBatchConfig.validate,
    BaseBatchConfig.output_extention_field, BaseBatchConfig.seed_field,
    BaseBatchConfig.init_batch_num, BaseBatchConfig.config_dir,
    BaseBatchConfig.batch_dir, BaseBatchConfig._validate_seed.
  repeat same_heap_step.
Qed.

Lemma same_heap_path_init env data :
  preserves same_heap env (PathConfig.__init__ data).
Proof.
  unfold PathConfig.__init__. repeat same_heap_step.
Qed.

Lemma same_heap_config_filepath env b :
  preserves same_heap env (BaseBatchConfig.config_filepath b).
Proof.
  unfold BaseBatchConfig.config_filepath, BaseBatchConfig.config_dir,
    BaseBatchConfig.batch_dir.
  repeat same_heap_step.
Qed.

Lemma same_heap_config_jsonpath env b :
  preserves same_heap env (BaseBatchConfig.config_jsonpath b).
Proof.
  unfold BaseBatchConfig.config_jsonpath, BaseBatchConfig.config_dir,
    BaseBatchConfig.batch_dir.
  repeat same_heap_step.
Qed.

Lemma good_with_batch L b self :
  good L self -> good L (BaseBatchModel.with_batch b self).
Proof. by intros [? ?]. Qed.

Lemma good_with_path L p self :
  good L self -> good L (BaseBatchModel.with_path p self).
Proof. by intros [? ?]. Qed.

Lemma good_with_name L s self :
  good L self -> good L (BaseBatchModel.with_name s self).
Proof. by intros [? ?]. Qed.

Lemma good_with_config L c self :
  c <> L -> good L self -> good L (BaseBatchModel.with_config c self).
Proof. by intros ? [? ?]. Qed.

Lemma safe_the_batch L base env self attr :
  safe L base env (BaseBatchModel.the_batch self attr) (fun _ => True).
Proof.
  unfold BaseBatchModel.the_batch.
  destruct (BaseBatchModel.batch self); [by apply safe_ret|apply safe_raise].
Qed.

Ltac safe_pure :=
  apply safe_same_heap;
  first [ apply same_heap_batch_init
        | apply same_heap_path_init
        | apply same_heap_config_filepath
        | apply same_heap_config_jsonpath
        | repeat same_heap_step ].

Lemma safe_set_output_dir L base env val self :
  good L self ->
  safe L base env (BaseBatchModel.set_output_dir val self) (good L).
Proof.
  intros Hg. unfold BaseBatchModel.set_output_dir.
  eapply safe_bind; [apply safe_setattr2; apply Hg|]. intros _ _.
  eapply safe_bind; [apply safe_the_batch|]. intros b _.
  apply safe_ret. by apply good_with_batch.
Qed.

Lemma safe_set_batch_num L base env val self :
  good L self ->
  safe L base env (BaseBatchModel.set_batch_num val self) (good L).
Proof.
  intros Hg. unfold BaseBatchModel.set_batch_num.
  eapply safe_bind; [apply safe_setattr2; apply Hg|]. intros _ _.
  eapply safe_bind; [apply safe_the_batch|]. intros b _.
  apply safe_ret. by apply good_with_batch.
Qed.

Lemma safe_set_root_dir L base env root_dir self :
  good L self ->
  safe L base env (BaseBatchModel.set_root_dir root_dir self) (good L).
Proof.
  intros Hg. unfold BaseBatchModel.set_root_dir.
  eapply safe_bind; [apply safe_getattr|]. intros path _.
  eapply safe_bind with (Q1 := fun _ => True).
  - destruct (is_none path).
    + eapply safe_bind; [safe_pure|]. intros p _.
      eapply safe_bind; [apply safe_setattr; apply Hg|]. intros _ _.
      safe_pure.
    + eapply safe_bind with (Q1 := fun _ => True).
      * destruct root_dir; [apply safe_setattr2; apply Hg|by apply safe_ret].
      * intros _ _. eapply safe_bind; [apply safe_getattr|]. intros p _.
        safe_pure.
  - intros kw _. eapply safe_bind; [safe_pure|]. intros p _.
    eapply safe_bind; [safe_pure|]. intros out _.
    apply safe_set_output_dir. by apply good_with_path.
Qed.

Lemma safe_initialize_configs L base env root_dir self :
  good L self ->
  safe L base env (BaseBatchModel.initialize_configs root_dir self) (good L).
Proof.
  intros Hg. unfold BaseBatchModel.initialize_configs.
  eapply safe_bind; [by apply safe_set_root_dir|]. intros self1 Hg1.
  eapply safe_bind; [apply safe_getattr|]. intros bc _.
  eapply safe_bind; [safe_pure|]. intros kw _.
  eapply safe_bind; [safe_pure|]. intros b _.
  eapply safe_bind;
    [apply safe_set_batch_num; by apply good_with_batch|].
  intros self2 Hg2.
  destruct (BaseBatchModel.project self2); [|apply safe_raise].
  destruct (truthy _); [|by apply safe_ret].
  eapply safe_bind; [safe_pure|]. intros _ _. by apply safe_ret.
Qed.

Lemma safe_assign_batch_name L base env val self :
  good L self ->
  safe L base env (BaseBatchModel.assign_batch_name val self) (good L).
Proof.
  intros Hg. unfold BaseBatchModel.assign_batch_name.
  eapply safe_bind; [apply safe_setattr2; apply Hg|]. intros _ _.
  eapply safe_bind; [apply safe_setattr; apply Hg|]. intros _ _.
  eapply safe_bind; [apply safe_the_batch|]. intros b _.
  apply safe_ret. by apply good_with_batch.
Qed.

Lemma safe_set_batch_name L base env val self :
  good L self ->
  safe L base env (BaseBatchModel.set_batch_name val self) (good L).
Proof.
  intros Hg. unfold BaseBatchModel.set_batch_name.
  eapply safe_bind; [by apply safe_assign_batch_name|]. intros self1 Hg1.
  eapply safe_bind with (Q1 := good L).
  - destruct (String.eqb _ _); [by apply safe_ret|].
    eapply safe_bind;
      [apply safe_assign_batch_name; by apply good_with_name|].
    intros self2 Hg2. by apply safe_initialize_configs.
  - intros self2 Hg2. by apply safe_initialize_configs.
Qed.

Lemma safe_load_config L base env batch_name batch_num args self :
  good L self ->
  safe L base env
    (BaseBatchModel.load_config batch_name batch_num args self) (good L).
Proof.
  intros Hg. unfold BaseBatchModel.load_config.
  eapply safe_bind with (Q1 := fun _ => True).
  { destruct batch_name; [by apply safe_ret|].
    eapply safe_bind; [apply safe_the_batch|]. intros b _. by apply safe_ret. }
  intros bn _.
  eapply safe_bind
    with (Q1 := fun r => fst (fst r) <> L /\ good L (snd (fst r))).
  { destruct batch_num as [n|].
    - eapply safe_bind; [apply safe_copy|]. intros cfg Hc.
      eapply safe_bind; [apply safe_the_batch|]. intros b _.
      eapply safe_bind; [safe_pure|]. intros p _.
      eapply safe_bind; [safe_pure|]. intros found _.
      destruct found.
      + eapply safe_bind; [safe_pure|]. intros bc _.
        eapply safe_bind; [apply safe_merge|]. intros cfg' Hc'.
        apply safe_ret. split; [done|]. by apply good_with_batch.
      + apply safe_ret. split; [done|]. by apply good_with_batch.
    - apply safe_ret. split; [apply Hg|done]. }
  intros [[cfg self1] bnum] [Hc Hg1]. simpl in Hc, Hg1.
  eapply safe_bind; [apply safe_merge|]. intros new Hnew.
  eapply safe_bind;
    [apply safe_set_batch_num; by apply good_with_config|].
  intros self2 Hg2. by apply safe_set_batch_name.
Qed.

Lemma safe_save_settings L base env excl self :
  safe L base env (BaseBatchModel.save_settings excl self) (fun _ => True).
Proof.
  unfold BaseBatchModel.save_settings, eKonf.save_json.
  eapply safe_bind; [apply safe_the_batch|]. intros b _.
  eapply safe_bind; [safe_pure|]. intros p _. safe_pure.
Qed.

Lemma same_heap_pick env incl : forall cfg args,
  preserves same_heap env (BaseBatchModel.pick incl cfg args).
Proof.
  induction incl as [|k r IH]; intros cfg args; simpl.
  - repeat same_heap_step.
  - destruct (assoc k cfg); [apply IH|repeat same_heap_step].
Qed.

(** [save_config] with the live configuration, or with a configuration
    object of the caller's that is not the baseline. *)
Lemma safe_save_config L base env config excl incl self :
  good L self ->
  (forall c, config = Some c -> c <> L) ->
  safe L base env (BaseBatchModel.save_config config excl incl self)
    (fun r => good L (fst r)).
Proof.
  intros Hg Hc. unfold BaseBatchModel.save_config, eKonf.to_dict, eKonf.save.
  set (self1 := match config with
                | Some c => BaseBatchModel.with_config c self
                | None => self
                end).
  assert (Hg1 : good L self1).
  { subst self1. destruct config as [c|]; [|done].
    apply good_with_config; [by apply Hc|done]. }
  eapply safe_bind; [apply safe_the_batch|]. intros b _.
  eapply safe_bind; [safe_pure|]. intros _ _.
  eapply safe_bind; [apply safe_read|]. intros cfg _.
  eapply safe_bind; [safe_pure|]. intros kw _.
  eapply safe_bind with (Q1 := fun _ => True).
  { destruct (match incl with Some i => names_truthy i | None => false end).
    - apply safe_same_heap, same_heap_pick.
    - destruct (names_truthy _); by apply safe_ret. }
  intros args _.
  eapply safe_bind; [safe_pure|]. intros p _.
  eapply safe_bind; [safe_pure|]. intros _ _.
  eapply safe_bind; [apply safe_save_settings|]. intros _ _.
  by apply safe_ret.
Qed.

Lemma same_heap_run {A} env (m : M A) w r w' :
  preserves same_heap env m -> m env w = (r, w') -> heap w' = heap w.
Proof. intros Hm H. specialize (Hm w). by rewrite H in Hm. Qed.

Lemma same_heap_sub_model {A} env (ctor : kwargs -> M A) k kw :
  (forall d, preserves same_heap env (ctor d)) ->
  preserves same_heap env (BaseBatchModel.sub_model ctor k kw).
Proof.
  intros Hc. unfold BaseBatchModel.sub_model.
  destruct (assoc k kw) as [[[]| |]|]; repeat same_heap_step; apply Hc.
Qed.

(** Construction leaves a baseline that holds the arguments, in an object
    of its own. *)




Lemma safe_run_op L base env o self :
  good L self -> safe L base env (run_op o self) (good L).
Proof.
  intros Hg. destruct o; simpl.
  - eapply safe_bind; [apply safe_setattr; apply Hg|]. intros _ _.
    by apply safe_ret.
  - eapply safe_bind; [apply safe_setattr2; apply Hg|]. intros _ _.
    by apply safe_ret.
  - by apply safe_set_root_dir.
  - by apply safe_set_output_dir.
  - by apply safe_set_batch_num.
  - by apply safe_set_batch_name.
  - by apply safe_initialize_configs.
  - eapply safe_bind; [by apply safe_save_config|]. intros r Hr.
    by apply safe_ret.
  - by apply safe_load_config.
Qed.

Lemma safe_run_ops L base env os : forall self,
  good L self -> safe L base env (run_ops os self) (good L).
Proof.
  induction os as [|o os IH]; intros self Hg; simpl.
  - by apply safe_ret.
  - eapply safe_bind; [by apply safe_run_op|]. intros self1 Hg1.
    by apply IH.
Qed.

Lemma copy_holds L base env w :
  holds L base w ->
  DictConfig.copy L env w
  = (Ok (length (heap w)),
     mkWorld (fs w) (heap w ++ [base]) (draws w) (trace w)).
Proof.
  intros H. unfold DictConfig.copy, bind, DictConfig.read. by rewrite H.
Qed.




(** ** Association lists and trees *)

Lemma assoc_set_eq {A} k (v : A) l : assoc k (assoc_set k v l) = Some v.
Proof.
  induction l as [|[k' v'] r IH]; simpl.
  - by rewrite String.eqb_refl.
  - destruct (String.eqb k k') eqn:E; simpl.
    + by rewrite String.eqb_refl.
    + by rewrite E.
Qed.

Lemma assoc_set_ne {A} k k' (v : A) l :
  k <> k' -> assoc k (assoc_set k' v l) = assoc k l.
Proof.
  intros Hne. induction l as [|[k0 v0] r IH]; simpl.
  - by apply String.eqb_neq in Hne as ->.
  - destruct (String.eqb k' k0) eqn:E; simpl.
    + apply String.eqb_eq in E as <-.
      by apply String.eqb_neq in Hne as ->.
    + by rewrite IH.
Qed.

Lemma assoc_set_same {A} k (v : A) l :
  assoc k l = Some v -> assoc_set k v l = l.
Proof.
  induction l as [|[k0 v0] r IH]; simpl; [done|].
  destruct (String.eqb k k0) eqn:E.
  - apply String.eqb_eq in E as <-. by intros [= ->].
  - intros H. by rewrite IH.
Qed.

Lemma assoc_del_eq {A} k (l : list (string * A)) : assoc k (assoc_del k l) = None.
Proof.
  induction l as [|[k0 v0] r IH]; simpl; [done|].
  destruct (String.eqb k k0) eqn:E; simpl; [done|]. by rewrite E.
Qed.

Lemma assoc_del_ne {A} k k' (l : list (string * A)) :
  k <> k' -> assoc k (assoc_del k' l) = assoc k l.
Proof.
  intros Hne. induction l as [|[k0 v0] r IH]; simpl; [done|].
  destruct (String.eqb k' k0) eqn:E; simpl.
  - apply String.eqb_eq in E as <-.
    by apply String.eqb_neq in Hne as ->.
  - by rewrite IH.
Qed.

Lemma assoc_drop excl : forall (args : kwargs) k,
  assoc k (BaseBatchModel.drop excl args)
  = if mem k excl then None else assoc k args.
Proof.
  unfold BaseBatchModel.drop.
  induction excl as [|x r IH]; intros args k; simpl; [done|].
  rewrite IH. destruct (String.eqb k x) eqn:E; simpl.
  - apply String.eqb_eq in E as ->.
    destruct (mem x r); [done|apply assoc_del_eq].
  - apply String.eqb_neq in E.
    destruct (mem k r); [done|by apply assoc_del_ne].
Qed.

Lemma assoc_Some_nonempty {A} k (l : list (string * A)) v :
  assoc k l = Some v -> l <> [].
Proof. by destruct l. Qed.

Lemma get_top_set_top k v t t' :
  set_top k v t = Some t' -> get_top k t' = v.
Proof.
  destruct t; simpl; intros [= <-]. simpl. by rewrite assoc_set_eq.
Qed.

Lemma get_top_set_top_ne k k' v t t' :
  k <> k' -> set_top k' v t = Some t' -> get_top k t' = get_top k t.
Proof.
  intros Hne. destruct t; simpl; intros [= <-]. simpl.
  by rewrite assoc_set_ne.
Qed.

Lemma get_top_set_in_ne k k1 k2 v t t' :
  k <> k1 -> set_in k1 k2 v t = Some t' -> get_top k t' = get_top k t.
Proof.
  intros Hne. destruct t as [|kvs|]; simpl; try done.
  destruct (assoc k1 kvs) as [[|sub|]|]; intros [= <-]. simpl.
  by rewrite assoc_set_ne.
Qed.

(** Writing [d.k1.k2 = v]: the shape of the tree before and after. *)
Lemma set_in_inv k1 k2 v t t' :
  set_in k1 k2 v t = Some t' ->
  exists kvs sub,
    t = CDict kvs /\ assoc k1 kvs = Some (CDict sub)
    /\ t' = CDict (assoc_set k1 (CDict (assoc_set k2 v sub)) kvs).
Proof.
  destruct t as [|kvs|]; simpl; try done.
  destruct (assoc k1 kvs) as [[|sub|]|] eqn:E; intros [= <-]. eauto.
Qed.

Lemma set_in_same k1 k2 v kvs sub :
  assoc k1 kvs = Some (CDict sub) -> assoc k2 sub = Some v ->
  set_in k1 k2 v (CDict kvs) = Some (CDict kvs).
Proof.
  intros H1 H2. simpl. rewrite H1.
  by rewrite (assoc_set_same k2 v sub H2), (assoc_set_same k1 _ kvs H1).
Qed.

(** ** Cells *)

Lemma set_cell_lookup l t w :
  l < length (heap w) -> heap (set_cell l t w) !! l = Some t.
Proof. intros H. simpl. by apply list_lookup_insert_eq. Qed.

Lemma set_cell_lookup_ne l l' t w :
  l <> l' -> heap (set_cell l t w) !! l' = heap w !! l'.
Proof. intros H. simpl. by apply list_lookup_insert_ne. Qed.

Lemma set_cell_set_cell l t t' w :
  set_cell l t' (set_cell l t w) = set_cell l t' w.
Proof. unfold set_cell. simpl. by rewrite list_insert_insert_eq. Qed.

Lemma set_cell_same l t w : heap w !! l = Some t -> set_cell l t w = w.
Proof.
  intros H. unfold set_cell. rewrite list_insert_id by done. by destruct w.
Qed.

Lemma read_inv l env w c w' :
  DictConfig.read l env w = (Ok c, w') -> heap w !! l = Some c /\ w' = w.
Proof.
  unfold DictConfig.read. destruct (heap w !! l); intros [= <- <-]; auto.
Qed.

Lemma getattr_inv l k env w c w' :
  DictConfig.getattr l k env w = (Ok c, w') ->
  exists t, heap w !! l = Some t /\ c = get_top k t /\ w' = w.
Proof.
  unfold DictConfig.getattr. intros H. inv_bind H as t w1 Hr.
  apply read_inv in Hr as [Hr ->]. apply ret_ok in H as [-> ->]. eauto.
Qed.

Lemma setattr_inv l k v env w u w' :
  DictConfig.setattr l k v env w = (Ok u, w') ->
  exists t t', heap w !! l = Some t /\ set_top k v t = Some t'
               /\ w' = set_cell l t' w.
Proof.
  unfold DictConfig.setattr. intros H. inv_bind H as t w1 Hr.
  apply read_inv in Hr as [Hr ->].
  destruct (set_top k v t) as [t'|] eqn:E; [|done].
  unfold DictConfig.write in H. injection H as _ <-. eauto.
Qed.

Lemma setattr2_inv l k1 k2 v env w u w' :
  DictConfig.setattr2 l k1 k2 v env w = (Ok u, w') ->
  exists t t', heap w !! l = Some t /\ set_in k1 k2 v t = Some t'
               /\ w' = set_cell l t' w.
Proof.
  unfold DictConfig.setattr2. intros H. inv_bind H as t w1 Hr.
  apply read_inv in Hr as [Hr ->].
  destruct (set_in k1 k2 v t) as [t'|] eqn:E; [|done].
  unfold DictConfig.write in H. injection H as _ <-. eauto.
Qed.

Lemma new_inv c env w l w' :
  DictConfig.new c env w = (Ok l, w') ->
  l = length (heap w)
  /\ w' = mkWorld (fs w) (heap w ++ [c]) (draws w) (trace w).
Proof. unfold DictConfig.new. by intros [= <- <-]. Qed.

Lemma merge_inv l b env w l' w' :
  eKonf.merge l b env w = (Ok l', w') ->
  exists a, heap w !! l = Some a /\ l' = length (heap w)
            /\ w' = mkWorld (fs w) (heap w ++ [merge_tree a b]) (draws w)
                      (trace w).
Proof.
  unfold eKonf.merge. intros H. inv_bind H as a w1 Hr.
  apply read_inv in Hr as [Hr ->]. apply new_inv in H as [-> ->]. eauto.
Qed.

Lemma copy_inv l env w l' w' :
  DictConfig.copy l env w = (Ok l', w') ->
  exists a, heap w !! l = Some a /\ l' = length (heap w)
            /\ w' = mkWorld (fs w) (heap w ++ [a]) (draws w) (trace w).
Proof.
  unfold DictConfig.copy. intros H. inv_bind H as a w1 Hr.
  apply read_inv in Hr as [Hr ->]. apply new_inv in H as [-> ->]. eauto.
Qed.

Lemma as_kwargs_inv c env w kw w' :
  as_kwargs c env w = (Ok kw, w') -> c = CDict kw /\ w' = w.
Proof. destruct c; simpl; unfold ret, raise; intros [= <- <-] || intros [=]; auto. Qed.

Lemma the_batch_inv self attr env w b w' :
  BaseBatchModel.the_batch self attr env w = (Ok b, w') ->
  BaseBatchModel.batch self = Some b /\ w' = w.
Proof.
  unfold BaseBatchModel.the_batch.
  destruct (BaseBatchModel.batch self); intros [= <- <-] || intros [=]; auto.
Qed.

(** ** Field parsers read the bindings of their key only *)

Lemma req_field_cong {A} (conv : cfg -> option A) k d d' env w env' w' :
  assoc k d = assoc k d' ->
  fst (req_field conv k d env w) = fst (req_field conv k d' env' w').
Proof.
  unfold req_field. intros <-.
  destruct (assoc k d); [destruct (conv _)|]; reflexivity.
Qed.

Lemma dflt_field_cong {A} (conv : cfg -> option A) k x d d' env w env' w' :
  assoc k d = assoc k d' ->
  fst (dflt_field conv k x d env w) = fst (dflt_field conv k x d' env' w').
Proof.
  unfold dflt_field. intros <-.
  destruct (assoc k d); [destruct (conv _)|]; reflexivity.
Qed.

Lemma opt_field_cong {A} (conv : cfg -> option A) k d d' env w env' w' :
  assoc k d = assoc k d' ->
  fst (opt_field conv k d env w) = fst (opt_field conv k d' env' w').
Proof.
  unfold opt_field. intros <-.
  destruct (assoc k d) as [[[]| |]|]; try destruct (conv _); reflexivity.
Qed.

(** The fields of a validated batch the count depends on, as parsed. *)
Lemma validate_fields data env w b w' :
  BaseBatchConfig.validate data env w = (Ok b, w') ->
  fst (req_field as_str "batch_name" data env w)
  = Ok (BaseBatchConfig.batch_name b)
  /\ fst (dflt_field (fun c => Path_of <$> as_str c) "output_dir"
            (joinpath (cwd env) "outputs") data env w)
     = Ok (BaseBatchConfig.output_dir b)
  /\ fst (dflt_field as_bool "resume_latest" false data env w)
     = Ok (BaseBatchConfig.resume_latest b)
  /\ fst (dflt_field as_str "config_yaml" "config.yaml" data env w)
     = Ok (BaseBatchConfig.config_yaml b)
  /\ fst (dflt_field as_str "config_dirname" "configs" data env w)
     = Ok (BaseBatchConfig.config_dirname b)
  /\ fs w' = fs w /\ heap w' = heap w /\ trace w' = trace w.
Proof.
  intros H.
  pose proof (validate_inv _ _ _ _ _ H) as (_ & _ & _ & Hs).
  apply validate_run in H
    as (H1 & _ & H3 & _ & _ & _ & _ & _ & H9 & _ & H11 & _ & H13).
  rewrite H1, H3, H9, H11, H13. simpl.
  do 5 (split; [done|]).
  destruct (assoc "seed" data).
  - destruct Hs as (v & s & _ & Hs & _).
    unfold BaseBatchConfig._validate_seed in Hs.
    destruct v as [z|]; [destruct (_ || _)|].
    all: try (rewrite randint_run in Hs; by injection Hs as _ <-).
    by apply ret_ok in Hs as [_ ->].
  - by destruct Hs as [_ ->].
Qed.

(** Two validations of keyword arguments that agree on every key but
    [batch_num] give batches with the same [count_key]. *)
Lemma validate_count_key data data' env w w' b b' w1 w1' :
  (forall k, k <> "batch_num" -> assoc k data' = assoc k data) ->
  BaseBatchConfig.validate data env w = (Ok b, w1) ->
  BaseBatchConfig.validate data' env w' = (Ok b', w1') ->
  count_key b' = count_key b.
Proof.
  intros Hag H H'.
  apply validate_fields in H as (H1 & H2 & H3 & H4 & H5 & _).
  apply validate_fields in H' as (H1' & H2' & H3' & H4' & H5' & _).
  rewrite (req_field_cong _ _ data' data env w' env w) in H1'
    by by apply Hag.
  rewrite (dflt_field_cong _ _ _ data' data env w' env w) in H2'
    by by apply Hag.
  rewrite (dflt_field_cong _ _ _ data' data env w' env w) in H3'
    by by apply Hag.
  rewrite (dflt_field_cong _ _ _ data' data env w' env w) in H4'
    by by apply Hag.
  rewrite (dflt_field_cong _ _ _ data' data env w' env w) in H5'
    by by apply Hag.
  unfold count_key. congruence.
Qed.

Lemma derived_num_key env f b b' :
  count_key b' = count_key b -> derived_num env f b' = derived_num env f b.
Proof.
  unfold count_key, derived_num, num_files, config_dir_path, batch_dir_path,
    BaseBatchConfig.config_filepattern.
  by intros [= -> -> -> -> ->].
Qed.

Lemma count_key_with_batch_num n b :
  count_key (BaseBatchConfig.with_batch_num n b) = count_key b.
Proof. reflexivity. Qed.

(** ** [init_batch_num], read backwards *)

Lemma keeps_files_refl f : keeps_files f f.
Proof. by intros q c. Qed.

Lemma keeps_files_trans f g h :
  keeps_files f g -> keeps_files g h -> keeps_files f h.
Proof. intros H1 H2 q c Hq. by apply H2, H1. Qed.

Lemma mkdir_parents_keeps_files p f f' :
  mkdir_parents p f = Some f' -> keeps_files f f'.
Proof.
  intros H q c Hq.
  pose proof (mkdir_parents_nofile _ _ _ H q) as Hno.
  rewrite (mkdir_parents_lookup _ _ _ H q).
  case_bool_decide as Hp; [|done].
  specialize (Hno Hp). unfold fs_is_file in Hno. by rewrite Hq in Hno.
Qed.

Lemma config_dir_inv b env w d w' :
  BaseBatchConfig.config_dir b env w = (Ok d, w') ->
  exists f1 f2,
    mkdir_parents (resolve env (batch_dir_path b)) (fs w) = Some f1
    /\ mkdir_parents (resolve env (config_dir_path b)) f1 = Some f2
    /\ d = config_dir_path b /\ w' = with_fs f2 w.
Proof.
  unfold BaseBatchConfig.config_dir, BaseBatchConfig.batch_dir. intros H.
  inv_bind H as d1 w1 H1. inv_bind H1 as u1 w2 H1'.
  apply ret_ok in H1 as [-> ->]. destruct u1.
  apply mkdir_inv in H1' as (f1 & Hf1 & ->).
  inv_bind H as u2 w3 H2. destruct u2.
  apply mkdir_inv in H2 as (f2 & Hf2 & ->).
  apply ret_ok in H as [-> ->]. exists f1, f2. by repeat split.
Qed.

Lemma config_dir_keeps_files b env w d w' :
  BaseBatchConfig.config_dir b env w = (Ok d, w') ->
  keeps_files (fs w) (fs w') /\ heap w' = heap w.
Proof.
  intros (f1 & f2 & H1 & H2 & _ & ->)%config_dir_inv. split; [|done].
  eapply keeps_files_trans; by eapply mkdir_parents_keeps_files.
Qed.

(** With [batch_num] unset the number is the derived one, over the files as
    they are afterwards; with [batch_num] set nothing happens. *)
Lemma init_batch_num_derives b env w b' w' :
  BaseBatchConfig.init_batch_num b env w = (Ok b', w') ->
  match BaseBatchConfig.batch_num b with
  | None =>
      b' = BaseBatchConfig.with_batch_num
             (Some (derived_num env (fs w') b)) b
  | Some n => b' = b /\ w' = w
  end
  /\ keeps_files (fs w) (fs w').
Proof.
  unfold BaseBatchConfig.init_batch_num.
  destruct (BaseBatchConfig.batch_num b) as [n|] eqn:E.
  - intros [-> ->]%ret_ok. split; [done|apply keeps_files_refl].
  - intros H. inv_bind H as d w1 Hd.
    pose proof (config_dir_keeps_files _ _ _ _ _ Hd) as [Hk _].
    apply config_dir_inv in Hd as (f1 & f2 & H1 & H2 & -> & ->).
    inv_bind H as files w2 Hg. unfold glob in Hg. injection Hg as <- <-.
    unfold derived_num, num_files.
    destruct (BaseBatchConfig.resume_latest b);
      apply ret_ok in H as [-> ->]; by split.
Qed.


(** ** Computations that read the environment only *)

Lemma reads_env_run {A} (m : M A) env w r w' :
  reads_env m -> m env w = (r, w') -> w' = w /\ forall w1, m env w1 = (r, w1).
Proof.
  intros Hm H. pose proof (Hm env w w) as H1. rewrite H in H1. simpl in H1.
  injection H1 as ->. split; [done|]. intros w1.
  rewrite (Hm env w w1). by rewrite H.
Qed.

Lemma reads_env_ret {A} (a : A) : reads_env (ret a).
Proof. by intros env w w'. Qed.

Lemma reads_env_raise {A} e : reads_env (@raise A e).
Proof. by intros env w w'. Qed.

Lemma reads_env_ask : reads_env ask.
Proof. by intros env w w'. Qed.

Lemma reads_env_bind {A B} (m : M A) (k : A -> M B) :
  reads_env m -> (forall a, reads_env (k a)) -> reads_env (bind m k).
Proof.
  intros Hm Hk env w w'. unfold bind.
  rewrite (Hm env w w'), (Hm env w w).
  destruct (fst (m env w)); [apply Hk|done].
Qed.

Lemma reads_env_as_kwargs c : reads_env (as_kwargs c).
Proof. destruct c; simpl; by intros env w w'. Qed.

Lemma reads_env_opt_field {A} (conv : cfg -> option A) k d :
  reads_env (opt_field conv k d).
Proof.
  unfold opt_field.
  destruct (assoc k d) as [[[]| |]|]; try destruct (conv _);
    by intros env w w'.
Qed.

Lemma reads_env_dflt_field {A} (conv : cfg -> option A) k x d :
  reads_env (dflt_field conv k x d).
Proof.
  unfold dflt_field.
  destruct (assoc k d); try destruct (conv _); by intros env w w'.
Qed.

Lemma reads_env_path_init data : reads_env (PathConfig.__init__ data).
Proof.
  unfold PathConfig.__init__.
  apply reads_env_bind.
  { destruct data; [|apply reads_env_ret].
    apply reads_env_bind; [apply reads_env_ask|].
    intros env. apply reads_env_as_kwargs. }
  intros d. apply reads_env_bind; [apply reads_env_dflt_field|]. intros tn.
  apply reads_env_bind; [apply reads_env_opt_field|]. intros r.
  apply reads_env_bind; [apply reads_env_opt_field|]. intros bn.
  apply reads_env_bind; [apply reads_env_dflt_field|]. intros v.
  apply reads_env_ret.
Qed.

Lemma path_out_det env pkw p out p' out' :
  path_out env pkw p out -> path_out env pkw p' out' -> p' = p /\ out' = out.
Proof.
  intros [H1 H2] [H1' H2']. specialize (H1 w0). rewrite H1' in H1.
  injection H1 as ->. rewrite H2' in H2. by injection H2 as ->.
Qed.

(** ** Entries an entity sets by itself *)

Lemma patched_refl kvs : patched (CDict kvs) (CDict kvs).
Proof. exists kvs, kvs. repeat split; eauto. Qed.

Lemma patched_trans a b c : patched a b -> patched b c -> patched a c.
Proof.
  intros (k1 & k2 & -> & -> & HA & HP & HB) (k2' & k3 & [= <-] & -> & HA' & HP' & HB').
  exists k1, k3. repeat split.
  - intros k ? ? ?. rewrite HA', HA; auto.
  - intros Hn. specialize (HP Hn). rewrite HP', HP; [done|].
    simpl in *. by rewrite HP.
  - intros b Hb. destruct (HB b Hb) as (b' & Hb' & Hk).
    destruct (HB' b' Hb') as (b'' & Hb'' & Hk').
    exists b''. split; [done|]. intros k ? ? ?. rewrite Hk', Hk; auto.
Qed.

Lemma patched_set_in k2 v t t' :
  k2 ∈ ["batch_num"; "batch_name"; "output_dir"] ->
  set_in "batch" k2 v t = Some t' -> patched t t'.
Proof.
  intros Hk (kvs & sub & -> & Hs & ->)%set_in_inv.
  eexists _, _. split; [done|]. split; [done|]. repeat split.
  - intros k ? ? ?. by apply assoc_set_ne.
  - intros _. by apply assoc_set_ne.
  - intros b Hb. rewrite Hs in Hb. injection Hb as <-.
    eexists. split; [apply assoc_set_eq|].
    intros k ? ? ?. apply assoc_set_ne. intros ->.
    repeat (apply elem_of_cons in Hk as [->|Hk]; [done|]).
    by apply elem_of_nil in Hk.
Qed.

Lemma patched_set_name v t t' : set_top "name" v t = Some t' -> patched t t'.
Proof.
  destruct t as [|kvs|]; simpl; intros [= <-].
  eexists _, _. split; [done|]. split; [done|]. repeat split.
  - intros k ? ? ?. by apply assoc_set_ne.
  - intros _. by apply assoc_set_ne.
  - intros b Hb. exists b. split; [|done]. by rewrite assoc_set_ne.
Qed.

Lemma patched_set_path v t t' :
  is_none (get_top "path" t) = true ->
  set_top "path" v t = Some t' -> patched t t'.
Proof.
  intros Hn. destruct t as [|kvs|]; simpl; intros [= <-].
  eexists _, _. split; [done|]. split; [done|]. repeat split.
  - intros k ? ? ?. by apply assoc_set_ne.
  - intros Hn'. by rewrite Hn' in Hn.
  - intros b Hb. exists b. split; [|done]. by rewrite assoc_set_ne.
Qed.

Lemma set_in_get k1 k2 v t t' :
  set_in k1 k2 v t = Some t' ->
  exists sub, get_top k1 t = CDict sub
              /\ get_top k1 t' = CDict (assoc_set k2 v sub).
Proof.
  intros (kvs & sub & -> & Hs & ->)%set_in_inv. exists sub. simpl.
  by rewrite Hs, assoc_set_eq.
Qed.

(** ** The setters of [BaseBatchModel], read backwards *)

Section Setters.

Import BaseBatchModel.

Lemma with_batch_num_own b :
  BaseBatchConfig.with_batch_num (BaseBatchConfig.batch_num b) b = b.
Proof. by destruct b. Qed.

Lemma set_output_dir_inv val self env w self' w' :
  set_output_dir val self env w = (Ok self', w') ->
  exists t t' b,
    heap w !! _config_ self = Some t
    /\ set_in "batch" "output_dir" (CVal (SStr (str_of_path val))) t = Some t'
    /\ batch self = Some b
    /\ self' = with_batch (Some (BaseBatchConfig.with_output_dir val b)) self
    /\ w' = set_cell (_config_ self) t' w.
Proof.
  unfold set_output_dir. intros H.
  inv_bind H as u w1 H1. apply setattr2_inv in H1 as (t & t' & Ht & Hs & ->).
  inv_bind H as b w2 H2. apply the_batch_inv in H2 as [Hb ->].
  apply ret_ok in H as [-> ->]. exists t, t', b. by repeat split.
Qed.

Lemma set_batch_num_inv val self env w self' w' :
  set_batch_num val self env w = (Ok self', w') ->
  exists t t' b,
    heap w !! _config_ self = Some t
    /\ set_in "batch" "batch_num" (opt_int val) t = Some t'
    /\ batch self = Some b
    /\ self' = with_batch (Some (BaseBatchConfig.with_batch_num val b)) self
    /\ w' = set_cell (_config_ self) t' w.
Proof.
  unfold set_batch_num. intros H.
  inv_bind H as u w1 H1. apply setattr2_inv in H1 as (t & t' & Ht & Hs & ->).
  inv_bind H as b w2 H2. apply the_batch_inv in H2 as [Hb ->].
  apply ret_ok in H as [-> ->]. exists t, t', b. by repeat split.
Qed.

Lemma assign_batch_name_inv val self env w self' w' :
  assign_batch_name val self env w = (Ok self', w') ->
  exists t t1 t' b,
    heap w !! _config_ self = Some t
    /\ set_in "batch" "batch_name" (CVal (SStr val)) t = Some t1
    /\ set_top "name" (CVal (SStr val)) t1 = Some t'
    /\ batch self = Some b
    /\ self' = with_batch (Some (BaseBatchConfig.with_batch_name val b)) self
    /\ w' = set_cell (_config_ self) t' w.
Proof.
  unfold assign_batch_name. intros H.
  inv_bind H as u w1 H1. apply setattr2_inv in H1 as (t & t1 & Ht & Hs & ->).
  inv_bind H as u2 w2 H2. apply setattr_inv in H2 as (t1' & t' & Ht1 & Hs' & ->).
  rewrite set_cell_lookup in Ht1 by by eapply lookup_lt_Some.
  injection Ht1 as <-.
  inv_bind H as b w3 H3. apply the_batch_inv in H3 as [Hb ->].
  apply ret_ok in H as [-> ->]. rewrite set_cell_set_cell.
  exists t, t1, t', b. by repeat split.
Qed.

(** [set_root_dir(None)]: the path section is read, or composed and
    stored when there is none; the output directory of the path is written
    to [batch.output_dir]. *)
Lemma set_root_dir_inv self env w self' w' :
  set_root_dir None self env w = (Ok self', w') ->
  exists t t1 pkw p out t' b,
    heap w !! _config_ self = Some t
    /\ (if is_none (get_top "path" t)
        then set_top "path" (compose env "path=_batch_") t = Some t1
             /\ compose env "path=_batch_" = CDict pkw
        else t1 = t /\ get_top "path" t = CDict pkw)
    /\ path_out env pkw p out
    /\ set_in "batch" "output_dir" (CVal (SStr (str_of_path out))) t1
       = Some t'
    /\ batch self = Some b
    /\ self' = with_batch (Some (BaseBatchConfig.with_output_dir out b))
                 (with_path (Some p) self)
    /\ w' = set_cell (_config_ self) t' w.
Proof.
  unfold set_root_dir. intros H.
  inv_bind H as path w1 H1. apply getattr_inv in H1 as (t & Ht & -> & ->).
  inv_bind H as kw w2 H2.
  assert (exists t1 pkw,
             (if is_none (get_top "path" t)
              then set_top "path" (compose env "path=_batch_") t = Some t1
                   /\ compose env "path=_batch_" = CDict pkw
              else t1 = t /\ get_top "path" t = CDict pkw)
             /\ kw = pkw /\ w2 = set_cell (_config_ self) t1 w)
    as (t1 & pkw & Hcase & -> & ->).
  { destruct (is_none (get_top "path" t)) eqn:En.
    - inv_bind H2 as path w3 H3. unfold eKonf.compose in H3.
      inv_bind H3 as e w4 H4. unfold ask in H4. injection H4 as <- <-.
      apply ret_ok in H3 as [-> ->].
      inv_bind H2 as u w5 H5.
      apply setattr_inv in H5 as (t0 & t1 & Ht0 & Hs & ->).
      rewrite Ht in Ht0. injection Ht0 as <-.
      apply as_kwargs_inv in H2 as [Hc ->]. by exists t1, kw.
    - inv_bind H2 as u w3 H3. apply ret_ok in H3 as [_ ->].
      inv_bind H2 as path w4 H4.
      apply getattr_inv in H4 as (t0 & Ht0 & -> & ->).
      rewrite Ht in Ht0. injection Ht0 as <-.
      apply as_kwargs_inv in H2 as [Hc ->].
      exists t, kw. by rewrite (set_cell_same _ _ _ Ht). }
  inv_bind H as p w3 H3.
  apply (reads_env_run _ _ _ _ _ (reads_env_path_init pkw)) in H3
    as [-> Hp].
  inv_bind H as out w4 H4. unfold lift in H4. injection H4 as Hout <-.
  apply set_output_dir_inv in H as (t1' & t' & b & Ht1 & Hs & Hb & -> & ->).
  change (_config_ (with_path (Some p) self)) with (_config_ self) in *.
  change (batch (with_path (Some p) self)) with (batch self) in Hb.
  rewrite set_cell_lookup in Ht1 by by eapply lookup_lt_Some.
  injection Ht1 as <-. rewrite set_cell_set_cell.
  exists t, t1, pkw, p, out, t', b. by repeat split.
Qed.

Lemma req_field_str_inv k d env w s :
  fst (req_field as_str k d env w) = Ok s ->
  assoc k d = Some (CVal (SStr s)).
Proof.
  unfold req_field.
  destruct (assoc k d) as [[[]| |]|]; simpl; try done. by intros [= ->].
Qed.

(** [initialize_configs()] *)
Lemma initialize_configs_post env self w self' w' t :
  heap w !! _config_ self = Some t ->
  initialize_configs None self env w = (Ok self', w') ->
  exists t' b' n,
    heap w' = <[_config_ self := t']> (heap w)
    /\ _config_ self' = _config_ self
    /\ _initial_config_ self' = _initial_config_ self
    /\ name self' = name self
    /\ batch self' = Some b'
    /\ patched t t'
    /\ settled env t' b' n
    /\ keeps_files (fs w) (fs w')
    /\ (forall bkw, get_top "batch" t = CDict bkw ->
        unset "batch_num" bkw -> n = derived_num env (fs w') b')
    /\ (forall bkw m, get_top "batch" t = CDict bkw ->
        assoc "batch_num" bkw = Some (CVal (SInt m)) ->
        n = m /\ fs w' = fs w)
    /\ (forall bkw s, get_top "batch" t = CDict bkw ->
        assoc "batch_name" bkw = Some (CVal (SStr s)) ->
        BaseBatchConfig.batch_name b' = s)
    /\ (forall b1 n1, settled env t b1 n1 -> count_key b' = count_key b1).
Proof.
  intros Ht H. unfold initialize_configs in H.
  inv_bind H as self1 w1 H1.
  apply set_root_dir_inv in H1
    as (t0 & t1 & pkw & p & out & t2 & b & Ht0 & Hcase & Hout & Hs2 & Hb
        & -> & ->).
  rewrite Ht in Ht0. injection Ht0 as <-.
  pose proof (lookup_lt_Some _ _ _ Ht) as Hlt.
  assert (Hpath1 : get_top "path" t1 = CDict pkw).
  { destruct (is_none (get_top "path" t)).
    - destruct Hcase as [Hs <-]. by apply get_top_set_top in Hs.
    - by destruct Hcase as [-> ?]. }
  assert (Hbatch1 : get_top "batch" t1 = get_top "batch" t).
  { destruct (is_none (get_top "path" t)).
    - destruct Hcase as [Hs _].
      by apply (get_top_set_top_ne "batch") in Hs.
    - by destruct Hcase as [-> _]. }
  assert (Hp01 : patched t t1).
  { destruct (is_none (get_top "path" t)) eqn:En.
    - destruct Hcase as [Hs _]. by eapply patched_set_path.
    - destruct Hcase as [-> Hc]. destruct t as [|kvs|]; try done.
      apply patched_refl. }
  destruct (set_in_get _ _ _ _ _ Hs2) as (sub & Hsub & Hbkw).
  set (bkw := assoc_set "output_dir" (CVal (SStr (str_of_path out))) sub)
    in *.
  simpl in H.
  inv_bind H as bc w2 H2. apply getattr_inv in H2 as (t2' & Ht2 & -> & ->).
  rewrite set_cell_lookup in Ht2 by done. injection Ht2 as <-.
  inv_bind H as kw w3 H3. apply as_kwargs_inv in H3 as [Hkw ->].
  rewrite Hbkw in Hkw. injection Hkw as <-.
  inv_bind H as b' w4 H4.
  apply init_inv in H4 as (b0 & wv & Hv & Hi);
    [|by apply (assoc_Some_nonempty "output_dir" _ _ (assoc_set_eq _ _ _))].
  pose proof (validate_fields _ _ _ _ _ Hv) as (Hname & _ & _ & _ & _ & Hfv & Hhv & _).
  pose proof (validate_inv _ _ _ _ _ Hv) as (Hnum & _).
  pose proof (init_batch_num_inv _ _ _ _ _ Hi) as ([n Hn] & Hb' & Hhi & _).
  pose proof (init_batch_num_derives _ _ _ _ _ Hi) as [Hder Hkeep].
  inv_bind H as self2 w5 H5.
  apply set_batch_num_inv in H5
    as (t2' & t3 & b'' & Ht2 & Hs3 & Hb'' & -> & ->).
  simpl in Ht2, Hs3, Hb''.
  rewrite Hhi, Hhv in Ht2. rewrite set_cell_lookup in Ht2 by done.
  injection Ht2 as <-. injection Hb'' as <-.
  rewrite with_batch_num_own in H.
  rewrite Hn in Hs3. simpl in Hs3.
  destruct (set_in_get _ _ _ _ _ Hs3) as (sub3 & Hsub3 & Hbkw3).
  rewrite Hbkw in Hsub3. injection Hsub3 as <-.
  assert (Hfinal :
            exists w6,
              (w' = w6
               \/ exists e, w' = mkWorld (fs w6) (heap w6) (draws w6)
                                  (trace w6 ++ [e]))
              /\ w6 = set_cell (_config_ self) t3 w4
              /\ self' = with_batch (Some b') (with_path (Some p) self)).
  { exists (set_cell (_config_ self) t3 w4). simpl in H.
    destruct (project self); [|done].
    destruct (truthy _).
    - inv_bind H as u w7 H7. unfold emit in H7. injection H7 as _ <-.
      apply ret_ok in H as [-> ->]. split; [right; eauto|done].
    - apply ret_ok in H as [-> ->]. split; [by left|done]. }
  destruct Hfinal as (w6 & Hw' & -> & ->).
  assert (Hheap : heap w' = <[_config_ self := t3]> (heap w)).
  { destruct Hw' as [->|[e ->]]; simpl; rewrite Hhi, Hhv; simpl;
      by rewrite list_insert_insert_eq. }
  assert (Hfs : fs w' = fs w4) by (by destruct Hw' as [->|[e ->]]).
  assert (Hkey : count_key b' = count_key b0).
  { rewrite Hb'. apply count_key_with_batch_num. }
  assert (Hbn : BaseBatchConfig.batch_name b' = BaseBatchConfig.batch_name b0).
  { by injection Hkey. }
  exists t3, b', n. split; [done|]. split; [done|]. split; [done|].
  split; [done|]. split; [done|]. split.
  { eapply patched_trans; [apply Hp01|].
    eapply patched_trans; eapply patched_set_in; try eassumption.
    - apply list_elem_of_further, list_elem_of_further, list_elem_of_here.
    - apply list_elem_of_here. }
  split.
  { exists pkw, p, out, (assoc_set "batch_num" (CVal (SInt n)) bkw).
    split.
    { rewrite (get_top_set_in_ne "path" "batch" _ _ t2 t3) by done.
      by rewrite (get_top_set_in_ne "path" "batch" _ _ t1 t2) by done. }
    split; [done|]. split; [done|]. split.
    { rewrite assoc_set_ne by done. apply assoc_set_eq. }
    split; [apply assoc_set_eq|]. split.
    { rewrite assoc_set_ne by done. rewrite Hbn.
      by apply req_field_str_inv in Hname. }
    split; [done|].
    exists bkw, (set_cell (_config_ self) t2 w), b0, wv.
    split; [|by split].
    intros k Hk. by rewrite assoc_set_ne. }
  split.
  { rewrite Hfs. intros q c Hq. apply Hkeep. rewrite Hfv. by simpl. }
  split.
  { intros bkw0 Hb0 Hun. rewrite Hbatch1, Hb0 in Hsub.
    injection Hsub as ->.
    assert (BaseBatchConfig.batch_num b0 = None) as Hnone.
    { unfold parse_opt in Hnum. unfold bkw in Hnum.
      rewrite assoc_set_ne in Hnum by done.
      destruct Hun as [Hu|Hu]; rewrite Hu in Hnum; by injection Hnum. }
    rewrite Hnone in Hder. rewrite Hder in Hn. simpl in Hn.
    injection Hn as <-. rewrite Hfs.
    symmetry. by apply derived_num_key. }
  split.
  { intros bkw0 m Hb0 Hm. rewrite Hbatch1, Hb0 in Hsub.
    injection Hsub as ->.
    assert (BaseBatchConfig.batch_num b0 = Some m) as Hsome.
    { unfold parse_opt in Hnum. unfold bkw in Hnum.
      rewrite assoc_set_ne in Hnum by done.
      rewrite Hm in Hnum. simpl in Hnum. by injection Hnum. }
    rewrite Hsome in Hder. destruct Hder as [-> ->].
    rewrite Hsome in Hn. injection Hn as <-. split; [done|].
    rewrite Hfs, Hfv. by simpl. }
  split.
  { intros bkw0 s Hb0 Hs. rewrite Hbatch1, Hb0 in Hsub.
    injection Hsub as ->. rewrite Hbn.
    apply req_field_str_inv in Hname. unfold bkw in Hname.
    rewrite assoc_set_ne in Hname by done. congruence. }
  intros b1 n1 (pkw1 & p1 & out1 & bkw1 & Hp1 & Hout1 & Hb1 & Ho1 & _ & _ & _
                & kw0 & wa & b0' & wa' & Hag & Hv0 & Hk0).
  assert (is_none (get_top "path" t) = false) as En by by rewrite Hp1.
  rewrite En in Hcase. destruct Hcase as [-> Hpk].
  rewrite Hp1 in Hpk. injection Hpk as <-.
  destruct (path_out_det _ _ _ _ _ _ Hout1 Hout) as [-> ->].
  rewrite Hb1 in Hsub. injection Hsub as <-.
  rewrite Hkey, <- Hk0.
  eapply (validate_count_key kw0 bkw); [|exact Hv0|exact Hv].
  intros k Hk. rewrite Hag by done. unfold bkw.
  destruct (decide (k = "output_dir")) as [->|Hne].
  - by rewrite assoc_set_eq.
  - by rewrite assoc_set_ne.
Qed.

End Setters.


Section BatchName.

Import BaseBatchModel.

Lemma settled_num env t b n :
  settled env t b n -> BaseBatchConfig.batch_num b = Some n.
Proof. by intros (? & ? & ? & ? & ? & ? & ? & ? & ? & ? & ? & ?). Qed.

Lemma assign_batch_name_post env self w self' w' t val :
  heap w !! _config_ self = Some t ->
  assign_batch_name val self env w = (Ok self', w') ->
  exists t' sub,
    heap w' = <[_config_ self := t']> (heap w)
    /\ fs w' = fs w
    /\ _config_ self' = _config_ self
    /\ _initial_config_ self' = _initial_config_ self
    /\ name self' = name self
    /\ patched t t'
    /\ get_top "batch" t = CDict sub
    /\ get_top "batch" t'
       = CDict (assoc_set "batch_name" (CVal (SStr val)) sub).
Proof.
  intros Ht (t0 & t1 & t' & b & Ht0 & Hs1 & Hs2 & Hb & -> & ->)
    %assign_batch_name_inv.
  rewrite Ht in Ht0. injection Ht0 as <-.
  destruct (set_in_get _ _ _ _ _ Hs1) as (sub & Hsub & Hsub1).
  exists t', sub. repeat split; try done.
  - eapply patched_trans.
    + eapply patched_set_in; [|exact Hs1].
      apply list_elem_of_further, list_elem_of_here.
    + by eapply patched_set_name.
  - by rewrite (get_top_set_top_ne "batch" "name" (CVal (SStr val)) t1 t')
      by done.
Qed.

(** [set_batch_name(val)] *)
Lemma set_batch_name_post env self w self' w' t val :
  heap w !! _config_ self = Some t ->
  set_batch_name val self env w = (Ok self', w') ->
  exists t' b' n,
    heap w' = <[_config_ self := t']> (heap w)
    /\ _config_ self' = _config_ self
    /\ _initial_config_ self' = _initial_config_ self
    /\ batch self' = Some b'
    /\ BaseBatchConfig.batch_name b' = val
    /\ BaseBatchConfig.batch_num b' = Some n
    /\ patched t t'
    /\ settled env t' b' n
    /\ keeps_files (fs w) (fs w')
    /\ (forall bkw, get_top "batch" t = CDict bkw ->
        unset "batch_num" bkw -> n = derived_num env (fs w') b')
    /\ (forall bkw m, get_top "batch" t = CDict bkw ->
        assoc "batch_num" bkw = Some (CVal (SInt m)) ->
        n = m /\ fs w' = fs w).
Proof.
  intros Ht H. unfold set_batch_name in H.
  pose proof (lookup_lt_Some _ _ _ Ht) as Hlt.
  inv_bind H as self1 w1 H1.
  destruct (assign_batch_name_post _ _ _ _ _ _ _ Ht H1)
    as (t1 & sub & Hh1 & Hf1 & Hc1 & Hi1 & Hn1 & Hp1 & Hsub & Hsub1).
  assert (Ht1 : heap w1 !! _config_ self1 = Some t1).
  { rewrite Hh1, Hc1. by apply list_lookup_insert_eq. }
  inv_bind H as self2 w2 H2.
  destruct (String.eqb (name self1) val) eqn:En.
  - (* the name is [val] already *)
    apply ret_ok in H2 as [-> ->].
    destruct (initialize_configs_post _ _ _ _ _ _ Ht1 H)
      as (t' & b' & n & Hh & Hc & Hi & _ & Hb & Hp & Hset & Hk & Hder & Hkeepn
          & Hnm & _).
    exists t', b', n.
    split; [by rewrite Hh, Hh1, Hc1, list_insert_insert_eq|].
    split; [congruence|]. split; [congruence|]. split; [done|].
    split; [by apply (Hnm _ _ Hsub1), assoc_set_eq|].
    split; [by eapply settled_num|].
    split; [by eapply patched_trans|].
    split; [done|].
    split; [intros q c Hq; apply Hk; by rewrite Hf1|].
    split.
    + intros bkw Hbkw Hun. rewrite Hsub in Hbkw. injection Hbkw as <-.
      apply (Hder _ Hsub1). unfold unset.
      by rewrite assoc_set_ne.
    + intros bkw m Hbkw Hm. rewrite Hsub in Hbkw. injection Hbkw as <-.
      rewrite <- Hf1. apply (Hkeepn _ _ Hsub1). by rewrite assoc_set_ne.
  - (* [self.name = val] calls [set_batch_name] once more *)
    inv_bind H2 as self1' w1' H1'.
    assert (Ht1' : heap w1 !! _config_ (with_name val self1) = Some t1)
      by done.
    destruct (assign_batch_name_post _ _ _ _ _ _ _ Ht1' H1')
      as (t2 & sub1 & Hh2 & Hf2 & Hc2 & Hi2 & Hn2 & Hp2 & Hsub1' & Hsub2).
    change (_config_ (with_name val self1)) with (_config_ self1) in *.
    change (_initial_config_ (with_name val self1))
      with (_initial_config_ self1) in *.
    rewrite Hsub1 in Hsub1'. injection Hsub1' as <-.
    assert (Ht2 : heap w1' !! _config_ self1' = Some t2).
    { rewrite Hh2, Hc2. apply list_lookup_insert_eq. by rewrite Hc1, Hh1, length_insert. }
    destruct (initialize_configs_post _ _ _ _ _ _ Ht2 H2)
      as (t3 & b1 & n1 & Hh3 & Hc3 & Hi3 & _ & Hb1 & Hp3 & Hset1 & Hk3
          & Hder1 & Hkeep1 & Hnm1 & _).
    assert (Ht3 : heap w2 !! _config_ self2 = Some t3).
    { rewrite Hh3, Hc3. apply list_lookup_insert_eq.
      by rewrite Hh2, Hc2, Hc1, Hh1, !length_insert. }
    destruct (initialize_configs_post _ _ _ _ _ _ Ht3 H)
      as (t' & b' & n & Hh & Hc & Hi & _ & Hb & Hp & Hset & Hk & _ & Hkeepn
          & Hnm & Hkey).
    specialize (Hkey _ _ Hset1).
    destruct Hset1 as (pkw & p & out & bkw1 & Hpath & Hout & Hbkw1 & Hod
                       & Hbn1 & Hname1 & Hnum1 & Hval1).
    destruct (Hkeepn _ _ Hbkw1 Hbn1) as [-> Hfs].
    exists t', b', n1.
    split.
    { rewrite Hh, Hc3, Hh3, Hc2, Hh2, Hc1, Hh1.
      by rewrite !list_insert_insert_eq. }
    split; [congruence|]. split; [congruence|]. split; [done|].
    split.
    { apply (Hnm _ _ Hbkw1). rewrite Hname1. do 3 f_equal.
      apply (Hnm1 _ _ Hsub2), assoc_set_eq. }
    split; [by eapply settled_num|].
    split.
    { eapply patched_trans; [exact Hp1|].
      eapply patched_trans; [exact Hp2|].
      eapply patched_trans; [exact Hp3|exact Hp]. }
    split; [done|].
    split.
    { intros q c Hq. apply Hk, Hk3. by rewrite Hf2, Hf1. }
    split.
    + intros bkw Hbkw Hun. rewrite Hsub in Hbkw. injection Hbkw as <-.
      rewrite Hfs. rewrite (derived_num_key _ _ _ _ Hkey).
      apply (Hder1 _ Hsub2). unfold unset.
      by rewrite !assoc_set_ne.
    + intros bkw m Hbkw Hm. rewrite Hsub in Hbkw. injection Hbkw as <-.
      destruct (Hkeep1 _ m Hsub2) as [-> Hfs1];
        [by rewrite !assoc_set_ne|].
      split; [done|]. by rewrite Hfs, Hfs1, Hf2, Hf1.
Qed.

End BatchName.

(** A run that returns [a] is that value with the world the run ends in. *)
Lemma run_pair {A} (r : Res A * World) (a : A) :
  fst r = Ok a -> r = (Ok a, snd r).
Proof. destruct r as [r w]. simpl. by intros ->. Qed.

(** Concrete runs: the value a closed run returns is computed, the world
    it ends in is named by the run itself. *)
Ltac run_exists m :=
  let r := eval vm_compute in (fst m) in
  lazymatch r with
  | Ok ?a => exists a, (snd m)
  end.

Ltac run_eq := apply run_pair; vm_compute; reflexivity.

(** C7, as stated, fails: after one [save_config()] the entity of [args1] has
    batch number 0, and [load_config()] leaves it with batch number 1. *)
Lemma load_config_counterexample :
  exists self w self' w',
    saved_once env0 w0 = (Ok self, w)
    /\ fst (BaseBatchModel.batch_num self env0 w) = Ok (Some 0%Z)
    /\ BaseBatchModel.load_config None None [] self env0 w = (Ok self', w')
    /\ fst (BaseBatchModel.batch_num self' env0 w') = Ok (Some 1%Z).
Proof.
  run_exists (saved_once env0 w0).
  match goal with
  | |- exists self' w', _ /\ _ /\ ?m = _ /\ _ => run_exists m
  end.
  split; [run_eq|]. split; [vm_compute; reflexivity|].
  split; [run_eq|vm_compute; reflexivity].
Qed.

(** C7, amended.  [load_config] with [batch_num] omitted merges the
    overrides into the live snapshot, as a new object that becomes the live
    one (the old one and the baseline stay as they are), resets the batch
    number and initialises the batch again under the given (or current)
    batch name: up to the entries the entity sets by itself the new live
    tree is the merge, and the batch number afterwards is the one
    [init_batch_num] derives for the new batch over the files as they are
    then: the count of matching config files, less one under
    [resume_latest].  No regular file is touched. *)
Theorem load_config_rederives env self w bn args self' w' :
  BaseBatchModel.load_config bn None args self env w = (Ok self', w') ->
  exists t b t' b',
    heap w !! BaseBatchModel._config_ self = Some t
    /\ BaseBatchModel.batch self = Some b
    /\ BaseBatchModel._config_ self' = length (heap w)
    /\ BaseBatchModel._initial_config_ self'
       = BaseBatchModel._initial_config_ self
    /\ heap w' = heap w ++ [t']
    /\ patched (merge_tree t (CDict args)) t'
    /\ BaseBatchModel.batch self' = Some b'
    /\ BaseBatchConfig.batch_name b'
       = default (BaseBatchConfig.batch_name b) bn
    /\ BaseBatchConfig.batch_num b' = Some (derived_num env (fs w') b')
    /\ keeps_files (fs w) (fs w').
Proof.
  intros H. unfold BaseBatchModel.load_config in H.
  inv_bind H as val w1 H1.
  inv_bind H as r w2 H2. apply ret_ok in H2 as [-> ->]. simpl in H.
  inv_bind H as new w3 H3.
  apply merge_inv in H3 as (t & Ht & -> & ->).
  inv_bind H as self1 w4 H4.
  apply set_batch_num_inv in H4 as (tm & t1 & b & Htm & Hs1 & Hb & -> & ->).
  simpl in Htm, Hs1, Hb.
  assert (val = default (BaseBatchConfig.batch_name b) bn /\ w1 = w)
    as [-> ->].
  { destruct bn as [s|]; [by apply ret_ok in H1|].
    inv_bind H1 as b0 w0' H0. apply the_batch_inv in H0 as [Hb0 ->].
    apply ret_ok in H1 as [-> ->]. rewrite Hb in Hb0. by injection Hb0 as <-. }
  rewrite lookup_app_r in Htm by done. rewrite Nat.sub_diag in Htm.
  injection Htm as <-.
  match type of H with
  | BaseBatchModel.set_batch_name _ ?s _ ?w = _ =>
      assert (Hcell : heap w !! BaseBatchModel._config_ s = Some t1)
  end.
  { simpl. apply list_lookup_insert_eq. rewrite length_app. simpl. lia. }
  destruct (set_batch_name_post _ _ _ _ _ _ _ Hcell H)
    as (t' & b' & n & Hh & Hc & Hi & Hb' & Hname & Hnum & Hp & _ & Hk & Hder
        & _).
  simpl in Hh, Hc, Hi, Hk.
  destruct (set_in_get _ _ _ _ _ Hs1) as (sub & Hsub & Hsub1).
  exists t, b, t', b'.
  split; [done|]. split; [done|]. split; [done|]. split; [done|].
  split.
  { rewrite Hh. rewrite list_insert_insert_eq.
    rewrite insert_app_r_alt by done. by rewrite Nat.sub_diag. }
  split.
  { eapply patched_trans; [|exact Hp].
    eapply patched_set_in; [|exact Hs1]. apply list_elem_of_here. }
  split; [done|]. split; [done|]. split; [|done].
  rewrite Hnum. f_equal. apply (Hder _ Hsub1). right. apply assoc_set_eq.
Qed.

Lemma load_config_rederives_witness :
  exists self w self' w',
    saved_once env0 w0 = (Ok self, w)
    /\ BaseBatchModel.load_config None None [("lr", CVal (SInt 5))] self
         env0 w = (Ok self', w')
    /\ exists b',
         BaseBatchModel.batch self' = Some b'
         /\ BaseBatchConfig.batch_num b' = Some (derived_num env0 (fs w') b')
         /\ derived_num env0 (fs w') b' = 1%Z.
Proof.
  run_exists (saved_once env0 w0).
  match goal with
  | |- exists self' w', _ /\ ?m = _ /\ _ => run_exists m
  end.
  split; [run_eq|].
  match goal with
  | |- ?m = ?r /\ _ => assert (H : m = r) by run_eq
  end.
  split; [exact H|].
  destruct (load_config_rederives _ _ _ _ _ _ _ H)
    as (t & b & t' & b' & _ & _ & _ & _ & _ & _ & Hb & _ & Hn & _).
  exists b'. split; [exact Hb|]. split; [exact Hn|].
  vm_compute in Hb. injection Hb as <-. vm_compute. reflexivity.
Defined.


(** ** Merging trees *)

Lemma merge_tree_cons ka k vb kb :
  merge_tree (CDict ka) (CDict ((k, vb) :: kb))
  = merge_tree
      (CDict (assoc_set k (match assoc k ka with
                           | Some va => merge_tree va vb
                           | None => vb
                           end) ka))
      (CDict kb).
Proof. reflexivity. Qed.

Lemma merge_tree_nil ka : merge_tree (CDict ka) (CDict []) = CDict ka.
Proof. reflexivity. Qed.

Lemma merge_tree_dict kb : forall ka,
  exists kc, merge_tree (CDict ka) (CDict kb) = CDict kc.
Proof.
  induction kb as [|[k vb] kb IH]; intros ka.
  - by exists ka.
  - rewrite merge_tree_cons. apply IH.
Qed.

Lemma merge_tree_not_dict a b :
  (forall d, b <> CDict d) -> merge_tree a b = b.
Proof. destruct b; try done. intros H. by destruct (H kvs). Qed.

Lemma merge_tree_onto_scalar a kb :
  (forall d, a <> CDict d) -> merge_tree a (CDict kb) = CDict kb.
Proof. destruct a; try done. intros H. by destruct (H kvs). Qed.

(** A key the later source does not bind keeps its value. *)
Lemma merge_lookup_none k kb : forall ka kc,
  assoc k kb = None ->
  merge_tree (CDict ka) (CDict kb) = CDict kc ->
  assoc k kc = assoc k ka.
Proof.
  induction kb as [|[k0 vb] kb IH]; intros ka kc Hk.
  - rewrite merge_tree_nil. by intros [= <-].
  - rewrite merge_tree_cons. simpl in Hk.
    destruct (String.eqb k k0) eqn:E; [done|].
    apply String.eqb_neq in E.
    intros H. rewrite (IH _ _ Hk H). by apply assoc_set_ne.
Qed.

(** A key the later source binds once: later sources win, mappings are
    merged. *)
Lemma merge_lookup_some k vb kb : forall ka kc,
  NoDup (keys kb) ->
  assoc k kb = Some vb ->
  merge_tree (CDict ka) (CDict kb) = CDict kc ->
  assoc k kc = Some (match assoc k ka with
                     | Some va => merge_tree va vb
                     | None => vb
                     end).
Proof.
  induction kb as [|[k0 v0] kb IH]; intros ka kc Hnd Hk; [done|].
  rewrite merge_tree_cons. simpl in Hk, Hnd.
  apply NoDup_cons in Hnd as [Hnotin Hnd].
  destruct (String.eqb k k0) eqn:E.
  - apply String.eqb_eq in E as <-. injection Hk as <-.
    intros H.
    assert (Hnone : assoc k kb = None).
    { clear -Hnotin. induction kb as [|[k1 v1] kb IH]; [done|].
      simpl in *. apply not_elem_of_cons in Hnotin as [Hne Hnotin].
      apply String.eqb_neq in Hne as ->. by apply IH. }
    rewrite (merge_lookup_none k kb _ _ Hnone H). apply assoc_set_eq.
  - apply String.eqb_neq in E. intros H.
    rewrite (IH _ _ Hnd Hk H). by rewrite assoc_set_ne.
Qed.

Lemma keys_assoc_del {A} x (l : list (string * A)) :
  keys (assoc_del x l) = filter (fun k => k <> x) (keys l).
Proof.
  induction l as [|[k v] r IH]; [done|]. simpl.
  rewrite filter_cons. destruct (String.eqb x k) eqn:E.
  - apply String.eqb_eq in E as ->.
    by rewrite decide_False by (by intros ?).
  - apply String.eqb_neq in E.
    rewrite decide_True by (by intros ->). simpl. by rewrite IH.
Qed.

Lemma NoDup_keys_drop excl : forall (l : kwargs),
  NoDup (keys l) -> NoDup (keys (BaseBatchModel.drop excl l)).
Proof.
  unfold BaseBatchModel.drop.
  induction excl as [|x r IH]; intros l Hl; [done|]. simpl.
  apply IH. rewrite keys_assoc_del. by apply NoDup_filter.
Qed.

(** ** Saving *)

Lemma write_file_inv p c env w u w' :
  write_file p c env w = (Ok u, w') ->
  w' = mkWorld (<[resolve env p := File c]> (fs w)) (heap w) (draws w)
         (trace w).
Proof.
  unfold write_file. destruct (fs_is_dir _ _); [done|].
  destruct (fs_is_dir _ _); [|done]. by intros [= _ <-].
Qed.

Lemma config_filepath_inv b env w p w' :
  BaseBatchConfig.config_filepath b env w = (Ok p, w') ->
  p = joinpath (config_dir_path b) (BaseBatchConfig.config_filename b)
  /\ keeps_files (fs w) (fs w') /\ heap w' = heap w.
Proof.
  unfold BaseBatchConfig.config_filepath. intros H.
  inv_bind H as d w1 Hd.
  pose proof (config_dir_keeps_files _ _ _ _ _ Hd) as [Hk Hh].
  apply config_dir_inv in Hd as (f1 & f2 & _ & _ & -> & ->).
  by apply ret_ok in H as [-> ->].
Qed.

Lemma config_jsonpath_inv b env w p w' :
  BaseBatchConfig.config_jsonpath b env w = (Ok p, w') ->
  p = joinpath (config_dir_path b) (BaseBatchConfig.config_jsonfile b)
  /\ keeps_files (fs w) (fs w') /\ heap w' = heap w.
Proof.
  unfold BaseBatchConfig.config_jsonpath. intros H.
  inv_bind H as d w1 Hd.
  pose proof (config_dir_keeps_files _ _ _ _ _ Hd) as [Hk Hh].
  apply config_dir_inv in Hd as (f1 & f2 & _ & _ & -> & ->).
  by apply ret_ok in H as [-> ->].
Qed.

(** [save_config()]: the live tree without the excluded keys is the
    document at [config_filepath]. *)
Lemma save_config_file env self w r w' :
  BaseBatchModel.save_config None None None self env w = (Ok r, w') ->
  exists kvs b,
    heap w !! BaseBatchModel._config_ self = Some (CDict kvs)
    /\ BaseBatchModel.batch self = Some b
    /\ r = (self, BaseBatchConfig.config_filename b)
    /\ heap w' = heap w
    /\ (config_file env b <> settings_file env b ->
        fs w' !! config_file env b
        = Some (File (Doc (CDict (BaseBatchModel.drop BaseBatchModel.exclude
                                    kvs))))).
Proof.
  unfold BaseBatchModel.save_config. intros H.
  inv_bind H as b w1 H1. apply the_batch_inv in H1 as [Hb ->].
  inv_bind H as p1 w2 H2.
  apply config_filepath_inv in H2 as (_ & _ & Hh2).
  inv_bind H as c w3 H3. unfold eKonf.to_dict in H3.
  apply read_inv in H3 as [Hc ->].
  inv_bind H as kvs w4 H4. apply as_kwargs_inv in H4 as [-> ->].
  simpl in H.
  inv_bind H as args w5 H5. apply ret_ok in H5 as [-> ->].
  inv_bind H as p w6 H6. apply config_filepath_inv in H6 as (-> & _ & Hh6).
  inv_bind H as u w7 H7. unfold eKonf.save in H7.
  apply write_file_inv in H7 as ->.
  inv_bind H as u2 w8 H8. apply ret_ok in H as [-> ->].
  unfold BaseBatchModel.save_settings in H8.
  inv_bind H8 as b' w9 H9. apply the_batch_inv in H9 as [Hb' ->].
  rewrite Hb in Hb'. injection Hb' as <-.
  inv_bind H8 as pj w10 H10.
  apply config_jsonpath_inv in H10 as (-> & Hk10 & Hh10).
  unfold eKonf.save_json in H8. apply write_file_inv in H8 as ->.
  exists kvs, b. split; [by rewrite <- Hh2|]. split; [done|].
  split; [done|]. split; [simpl; rewrite Hh10; simpl; congruence|].
  intros Hne. simpl. fold (settings_file env b).
  rewrite lookup_insert_ne by done.
  apply Hk10. simpl. fold (config_file env b). apply lookup_insert_eq.
Qed.

(** ** Loading *)

Section Loading.

Import BaseBatchModel.

Local Arguments merge_tree : simpl never.

(** [load_config(batch_name, batch_num)] when the document of that batch is
    there: the baseline is copied, the document and the overrides are merged
    into it, and the entity sets its own entries on the result. *)
Lemma load_config_found env self w bn n args self' w' base b c :
  heap w !! _initial_config_ self = Some base ->
  batch self = Some b ->
  fs w !! config_file env
            (BaseBatchConfig.with_batch_num (Some n)
               (BaseBatchConfig.with_batch_name bn b))
  = Some (File (Doc c)) ->
  load_config (Some bn) (Some n) args self env w = (Ok self', w') ->
  exists t' b',
    heap w' = heap w ++ [base; merge_tree base c; t']
    /\ _config_ self' = S (S (length (heap w)))
    /\ _initial_config_ self' = _initial_config_ self
    /\ patched (merge_tree (merge_tree base c) (CDict args)) t'
    /\ batch self' = Some b'
    /\ BaseBatchConfig.batch_name b' = bn
    /\ BaseBatchConfig.batch_num b' = Some n
    /\ keeps_files (fs w) (fs w').
Proof.
  intros Hbase Hb Hfile H. unfold load_config in H.
  inv_bind H as val w1 H1. apply ret_ok in H1 as [-> ->].
  inv_bind H as r w2 H2.
  inv_bind H2 as cfg0 w3 H3.
  apply copy_inv in H3 as (base' & Hbase' & -> & ->).
  rewrite Hbase in Hbase'. injection Hbase' as <-.
  inv_bind H2 as b0 w4 H4. apply the_batch_inv in H4 as [Hb0 ->].
  rewrite Hb in Hb0. injection Hb0 as <-.
  inv_bind H2 as p w5 H5.
  apply config_filepath_inv in H5 as (-> & Hk5 & Hh5).
  inv_bind H2 as found w6 H6. unfold is_file in H6.
  injection H6 as <- <-.
  match type of H2 with
  | context [fs_is_file ?f ?q] =>
      assert (Hq : fs w5 !! q = Some (File (Doc c)))
        by (apply Hk5; exact Hfile);
      assert (fs_is_file f q = true) as Hfound
        by (unfold fs_is_file; by rewrite Hq)
  end.
  rewrite Hfound in H2.
  inv_bind H2 as bc w7 H7. unfold eKonf.load in H7. rewrite Hq in H7.
  injection H7 as <- <-.
  inv_bind H2 as cfg1 w8 H8.
  apply merge_inv in H8 as (a & Ha & -> & ->).
  rewrite Hh5 in Ha. simpl in Ha.
  rewrite lookup_app_r in Ha by done. rewrite Nat.sub_diag in Ha.
  injection Ha as <-.
  apply ret_ok in H2 as [-> ->]. simpl in H.
  inv_bind H as new w9 H9.
  apply merge_inv in H9 as (a & Ha & -> & ->).
  rewrite Hh5 in Ha. simpl in Ha.
  rewrite lookup_app_r in Ha by done. rewrite Nat.sub_diag in Ha.
  injection Ha as <-.
  inv_bind H as self1 w10 H10.
  apply set_batch_num_inv in H10 as (tm & t1 & b1 & Htm & Hs1 & Hb1 & -> & ->).
  simpl in Htm, Hs1, Hb1.
  rewrite Hh5 in Htm. simpl in Htm.
  rewrite lookup_app_r in Htm by done. rewrite Nat.sub_diag in Htm.
  injection Htm as <-.
  match type of H with
  | set_batch_name _ ?s _ ?w = _ =>
      assert (Hcell : heap w !! _config_ s = Some t1)
  end.
  { simpl. rewrite Hh5. simpl. apply list_lookup_insert_eq.
    rewrite !length_app. simpl. lia. }
  destruct (set_batch_name_post _ _ _ _ _ _ _ Hcell H)
    as (t' & b' & n' & Hh & Hc & Hi & Hb' & Hname & Hnum & Hp & _ & Hk & _
        & Hkeep).
  simpl in Hh, Hc, Hi, Hk.
  destruct (set_in_get _ _ _ _ _ Hs1) as (sub & Hsub & Hsub1).
  destruct (Hkeep _ n Hsub1 (assoc_set_eq _ _ _)) as [-> _].
  exists t', b'.
  split.
  { rewrite Hh, Hh5. simpl. rewrite list_insert_insert_eq.
    rewrite !length_app. simpl.
    rewrite insert_app_r_alt by (rewrite !length_app; simpl; lia).
    rewrite !length_app. simpl.
    replace (length (heap w) + 1 + 1 - (length (heap w) + 1 + 1)) with 0
      by lia.
    simpl. by rewrite <- !app_assoc. }
  split; [rewrite Hc, ?length_app, Hh5; simpl; rewrite ?length_app; simpl; lia|].
  split; [done|]. split.
  { eapply patched_trans; [|exact Hp].
    eapply patched_set_in; [|exact Hs1]. apply list_elem_of_here. }
  split; [done|]. split; [done|]. split; [done|].
  intros q d Hqd. apply Hk. by apply Hk5.
Qed.

End Loading.
(** What a key reads as after "baseline <- document <- overrides". *)
Lemma merged_lookup_saved base sk args kvsm k v :
  merge_tree (merge_tree base (CDict sk)) (CDict args) = CDict kvsm ->
  NoDup (keys sk) ->
  assoc k sk = Some v -> (forall d, v <> CDict d) ->
  assoc k args = None ->
  assoc k kvsm = Some v.
Proof.
  intros Hm Hnd Hk Hv Ha.
  assert (exists k1, merge_tree base (CDict sk) = CDict k1
                     /\ assoc k k1 = Some v) as (k1 & H1 & Hk1).
  { destruct base as [s|bk|l].
    - exists sk. by split.
    - destruct (merge_tree_dict sk bk) as [k1 H1]. exists k1.
      split; [done|]. rewrite (merge_lookup_some _ _ _ _ _ Hnd Hk H1).
      destruct (assoc k bk); [|done]. by rewrite merge_tree_not_dict.
    - exists sk. by split. }
  rewrite H1 in Hm. by rewrite (merge_lookup_none _ _ _ _ Ha Hm).
Qed.

Lemma merged_lookup_kept base sk args kvsm k :
  merge_tree (merge_tree base (CDict sk)) (CDict args) = CDict kvsm ->
  assoc k sk = None -> assoc k args = None ->
  default (CVal SNone) (assoc k kvsm) = get_top k base.
Proof.
  intros Hm Hk Ha.
  assert (exists k1, merge_tree base (CDict sk) = CDict k1
                     /\ default (CVal SNone) (assoc k k1) = get_top k base)
    as (k1 & H1 & Hk1).
  { destruct base as [s|bk|l].
    - exists sk. split; [done|]. by rewrite Hk.
    - destruct (merge_tree_dict sk bk) as [k1 H1]. exists k1.
      split; [done|]. by rewrite (merge_lookup_none _ _ _ _ Hk H1).
    - exists sk. split; [done|]. by rewrite Hk. }
  rewrite H1 in Hm. by rewrite (merge_lookup_none _ _ _ _ Ha Hm).
Qed.

(** The snapshot an entity holds after the load is not the saved document:
    it is its baseline merged with that document, so it has the excluded
    keys of its baseline ([path], [project]), which the document has not;
    and for a second entity that was built with a setting the first did not
    have ([epochs]), the two snapshots differ on the other keys as well. *)
Example round_trip_is_a_merge :
  (exists saved loaded,
      fst (round_trip args1 env0 w0) = Ok (saved, loaded)
      /\ loaded <> restricted saved
      /\ get_top "path" loaded = CDict [("root", CVal (SStr "/r"))]
      /\ get_top "path" (restricted saved) = CVal SNone)
  /\ (exists saved loaded,
         fst (round_trip args2 env0 w0) = Ok (saved, loaded)
         /\ restricted loaded <> restricted saved
         /\ get_top "epochs" loaded = CVal (SInt 10)
         /\ get_top "epochs" saved = CVal SNone).
Proof.
  split.
  - eexists _, _. split; [vm_compute; reflexivity|].
    split; [by vm_compute|]. split; vm_compute; reflexivity.
  - eexists _, _. split; [vm_compute; reflexivity|].
    split; [by vm_compute|]. split; vm_compute; reflexivity.
Qed.

(** When the second entity is built from the same arguments as the first,
    the two snapshots agree on the keys that are not excluded. *)
Example round_trip_same_arguments :
  exists saved loaded,
    fst (round_trip args1 env0 w0) = Ok (saved, loaded)
    /\ restricted loaded = restricted saved.
Proof. eexists _, _. split; vm_compute; reflexivity. Qed.

(** X3.  [save_config()] (default exclude set, no include list)
    writes the live snapshot without the excluded top-level keys to
    [config_filepath].  While that document is in place,
    [load_config(batch_name, batch_num)] on an entity with the same batch
    identity (output directory, config directory and file names) whose
    baseline is [base] yields [base] merged with the saved document and
    then with the overrides, up to the entries the entity sets by itself;
    the batch has the name and number that were asked for.  So a
    non-excluded top-level key other than [name] and [batch] that was saved
    with a value that is no mapping, and is not overridden, reads back with
    that value, and the excluded keys read as in the baseline of the loading
    entity. *)
Theorem save_load_round_trip env self1 w1 r w2 b1 n self2 w3 b2 base args
  self2' w4 :
  BaseBatchModel.save_config None None None self1 env w1 = (Ok r, w2) ->
  BaseBatchModel.batch self1 = Some b1 ->
  BaseBatchConfig.batch_num b1 = Some n ->
  config_file env b1 <> settings_file env b1 ->
  BaseBatchModel.batch self2 = Some b2 ->
  BaseBatchConfig.output_dir b2 = BaseBatchConfig.output_dir b1 ->
  BaseBatchConfig.config_dirname b2 = BaseBatchConfig.config_dirname b1 ->
  BaseBatchConfig.config_yaml b2 = BaseBatchConfig.config_yaml b1 ->
  heap w3 !! BaseBatchModel._initial_config_ self2 = Some base ->
  fs w3 !! config_file env b1 = fs w2 !! config_file env b1 ->
  BaseBatchModel.load_config (Some (BaseBatchConfig.batch_name b1)) (Some n)
    args self2 env w3 = (Ok self2', w4) ->
  exists kvs t' b',
    heap w1 !! BaseBatchModel._config_ self1 = Some (CDict kvs)
    /\ fs w2 !! config_file env b1 = Some (File (Doc (restricted (CDict kvs))))
    /\ heap w4 !! BaseBatchModel._config_ self2' = Some t'
    /\ patched (merge_tree (merge_tree base (restricted (CDict kvs)))
                  (CDict args)) t'
    /\ BaseBatchModel.batch self2' = Some b'
    /\ BaseBatchConfig.batch_name b' = BaseBatchConfig.batch_name b1
    /\ BaseBatchConfig.batch_num b' = Some n
    /\ (forall k v,
           NoDup (keys kvs) ->
           mem k BaseBatchModel.exclude = false ->
           k <> "name" -> k <> "batch" ->
           assoc k args = None ->
           assoc k kvs = Some v -> (forall d, v <> CDict d) ->
           get_top k t' = v)
    /\ (forall k,
           mem k BaseBatchModel.exclude = true ->
           assoc k args = None ->
           (k = "path" -> is_none (get_top "path" base) = false) ->
           get_top k t' = get_top k base).
Proof.
  intros Hsave Hb1 Hn Hne Hb2 Hod Hcd Hcy Hbase Hfs Hload.
  destruct (save_config_file _ _ _ _ _ Hsave)
    as (kvs & b & Hlive & Hb & _ & _ & Hfile).
  rewrite Hb1 in Hb. injection Hb as <-. specialize (Hfile Hne).
  set (sk := BaseBatchModel.drop BaseBatchModel.exclude kvs) in *.
  assert (Hsame : config_file env
                    (BaseBatchConfig.with_batch_num (Some n)
                       (BaseBatchConfig.with_batch_name
                          (BaseBatchConfig.batch_name b1) b2))
                  = config_file env b1).
  { unfold config_file, config_dir_path, batch_dir_path,
      BaseBatchConfig.config_filename, BaseBatchConfig.file_prefix.
    simpl. by rewrite Hod, Hcd, Hcy, Hn. }
  assert (Hdoc : fs w3 !! config_file env
                   (BaseBatchConfig.with_batch_num (Some n)
                      (BaseBatchConfig.with_batch_name
                         (BaseBatchConfig.batch_name b1) b2))
                 = Some (File (Doc (CDict sk))))
    by (by rewrite Hsame, Hfs).
  destruct (load_config_found _ _ _ _ _ _ _ _ _ _ _ Hbase Hb2 Hdoc Hload)
    as (t' & b' & Hh & Hc & _ & Hp & Hb' & Hname & Hnum & _).
  exists kvs, t', b'. split; [done|]. split; [done|]. split.
  { rewrite Hh, Hc. rewrite lookup_app_r by lia.
    by replace (S (S (length (heap w3))) - length (heap w3)) with 2 by lia. }
  split; [done|]. split; [done|]. split; [done|]. split; [done|].
  destruct Hp as (kvsm & kvs' & Hm & -> & HA & HP & _).
  split.
  - intros k v Hnd Hex Hk1 Hk2 Ha Hk Hv.
    assert (k <> "path") as Hk3 by (intros ->; discriminate).
    simpl. rewrite HA by done.
    rewrite (merged_lookup_saved _ _ _ _ k v Hm); try done.
    + by apply NoDup_keys_drop.
    + unfold sk. by rewrite assoc_drop, Hex.
  - intros k Hex Ha Hpath.
    assert (k <> "name") as Hk1 by (intros ->; discriminate).
    assert (k <> "batch") as Hk2 by (intros ->; discriminate).
    assert (Hkept : default (CVal SNone) (assoc k kvsm) = get_top k base).
    { apply (merged_lookup_kept _ _ _ _ _ Hm); [|done].
      unfold sk. by rewrite assoc_drop, Hex. }
    simpl. rewrite <- Hkept. f_equal.
    destruct (decide (k = "path")) as [->|Hk3]; [|by apply HA].
    apply HP. rewrite Hm. simpl. rewrite Hkept. by apply Hpath.
Qed.
Ltac not_in_strings :=
  repeat (apply not_elem_of_cons; split; [discriminate|]);
  apply not_elem_of_nil.

Ltac nodup_strings :=
  repeat (apply NoDup_cons; split; [not_in_strings|]); apply NoDup_nil_2.

Ltac run_step H :=
  lazymatch goal with
  | |- exists a w, ?m = _ /\ _ =>
      run_exists m;
      lazymatch goal with
      | |- ?e /\ _ => assert (H : e) by run_eq; split; [exact H|]
      end
  end.

Lemma save_load_round_trip_witness :
  exists self1 w1,
    BaseBatchModel.__init__ None None args1 env0 w0 = (Ok self1, w1)
    /\ exists r w2,
      BaseBatchModel.save_config None None None self1 env0 w1 = (Ok r, w2)
      /\ exists self2 w3,
        BaseBatchModel.__init__ None None args2 env0 w2 = (Ok self2, w3)
        /\ exists self2' w4,
          BaseBatchModel.load_config (Some "exp1") (Some 0%Z) [] self2
            env0 w3 = (Ok self2', w4)
          /\ exists t' b',
            heap w4 !! BaseBatchModel._config_ self2' = Some t'
            /\ BaseBatchModel.batch self2' = Some b'
            /\ BaseBatchConfig.batch_num b' = Some 0%Z
            /\ get_top "lr" t' = CVal (SInt 3)
            /\ get_top "path" t' = CDict [("root", CVal (SStr "/r"))]
            /\ get_top "project" t' = CDict [].
Proof.
  run_step H1. run_step H2. run_step H3. run_step H4.
  lazymatch type of H2 with
  | BaseBatchModel.save_config _ _ _ ?s1 _ ?w1 = (_, ?w2) =>
      lazymatch type of H4 with
      | BaseBatchModel.load_config _ _ _ ?s2 _ ?w3 = _ =>
          assert (Hb1 : BaseBatchModel.batch s1 = Some b_seed42)
            by (vm_compute; reflexivity);
          assert (Hb2 : BaseBatchModel.batch s2
                        = Some (BaseBatchConfig.with_batch_num (Some 1%Z)
                                  b_seed42))
            by (vm_compute; reflexivity);
          assert (Hbase : heap w3 !! BaseBatchModel._initial_config_ s2
                          = Some (CDict args2))
            by (vm_compute; reflexivity);
          assert (Hfs : fs w3 !! config_file env0 b_seed42
                        = fs w2 !! config_file env0 b_seed42)
            by (vm_compute; reflexivity)
      end
  end.
  assert (Hne : config_file env0 b_seed42 <> settings_file env0 b_seed42)
    by (by vm_compute).
  destruct (save_load_round_trip env0 _ _ _ _ b_seed42 0%Z _ _ _ _ [] _ _
              H2 Hb1 eq_refl Hne Hb2 eq_refl eq_refl eq_refl Hbase Hfs H4)
    as (kvs & t' & b' & Hlive & _ & Ht' & _ & Hb' & _ & Hnum & Hi & Hii).
  exists t', b'. split; [exact Ht'|]. split; [exact Hb'|].
  split; [exact Hnum|].
  vm_compute in Hlive. injection Hlive as <-.
  split.
  { apply Hi;
      [ unfold keys; simpl; nodup_strings | reflexivity | discriminate
      | discriminate | reflexivity | reflexivity | intros d; discriminate ]. }
  split.
  - rewrite (Hii "path"); [reflexivity..|]. intros _. reflexivity.
  - rewrite (Hii "project"); [reflexivity..|]. intros; discriminate.
Defined.


Lemma config_dir_same_files b env w d w' :
  BaseBatchConfig.config_dir b env w = (Ok d, w') ->
  same_files (fs w) (fs w') /\ heap w' = heap w /\ trace w' = trace w
  /\ draws w' = draws w.
Proof.
  intros (f1 & f2 & H1 & H2 & _ & ->)%config_dir_inv. split; [|done].
  eapply same_files_trans; by eapply mkdir_parents_same_files.
Qed.

Lemma config_filepath_same_files b env w p w' :
  BaseBatchConfig.config_filepath b env w = (Ok p, w') ->
  p = joinpath (config_dir_path b) (BaseBatchConfig.config_filename b)
  /\ same_files (fs w) (fs w') /\ heap w' = heap w /\ trace w' = trace w.
Proof.
  unfold BaseBatchConfig.config_filepath. intros H.
  inv_bind H as d w1 Hd.
  pose proof (config_dir_same_files _ _ _ _ _ Hd) as (Hk & Hh & Ht & _).
  apply config_dir_inv in Hd as (f1 & f2 & _ & _ & -> & ->).
  by apply ret_ok in H as [-> ->].
Qed.

Lemma config_jsonpath_same_files b env w p w' :
  BaseBatchConfig.config_jsonpath b env w = (Ok p, w') ->
  p = joinpath (config_dir_path b) (BaseBatchConfig.config_jsonfile b)
  /\ same_files (fs w) (fs w') /\ heap w' = heap w /\ trace w' = trace w.
Proof.
  unfold BaseBatchConfig.config_jsonpath. intros H.
  inv_bind H as d w1 Hd.
  pose proof (config_dir_same_files _ _ _ _ _ Hd) as (Hk & Hh & Ht & _).
  apply config_dir_inv in Hd as (f1 & f2 & _ & _ & -> & ->).
  by apply ret_ok in H as [-> ->].
Qed.




Global Instance files_as_refl : Reflexive files_as.
Proof. intros w. apply same_files_refl. Qed.

Global Instance files_as_trans : Transitive files_as.
Proof. intros a b c. apply same_files_trans. Qed.

Lemma preserves_mkdir_files env p : preserves files_as env (mkdir p).
Proof.
  intros w. unfold mkdir.
  destruct (mkdir_parents _ _) as [f'|] eqn:E; simpl; [|reflexivity].
  by apply mkdir_parents_same_files with (p := resolve env p).
Qed.

Lemma preserves_config_filepath_files env b :
  preserves files_as env (BaseBatchConfig.config_filepath b).
Proof.
  unfold BaseBatchConfig.config_filepath, BaseBatchConfig.config_dir,
    BaseBatchConfig.batch_dir.
  repeat first [ apply preserves_mkdir_files
               | apply preserves_ret; [typeclasses eauto]
               | apply preserves_bind; [typeclasses eauto| |intros ?] ].
Qed.

Lemma preserves_read_files env l : preserves files_as env (DictConfig.read l).
Proof. intros w. unfold DictConfig.read. by destruct (heap w !! l). Qed.

(** [pick]: the named keys, with the values of the snapshot. *)
Lemma pick_ok incl cfg : forall args0 env w args w',
  BaseBatchModel.pick incl cfg args0 env w = (Ok args, w') ->
  w' = w
  /\ (forall k, assoc k args
                = if mem k incl then assoc k cfg else assoc k args0)
  /\ (forall k, k ∈ incl -> is_Some (assoc k cfg)).
Proof.
  induction incl as [|key r IH]; intros args0 env w args w' H; simpl in H.
  - apply ret_ok in H as [-> ->]. split; [done|]. split; [done|].
    by intros k ?%elem_of_nil.
  - destruct (assoc key cfg) as [v|] eqn:E; [|done].
    apply IH in H as (-> & Hk & Hin). split; [done|]. split.
    + intros k. rewrite Hk. simpl.
      destruct (String.eqb k key) eqn:Ek; simpl.
      * apply String.eqb_eq in Ek as ->.
        destruct (mem key r); [done|]. by rewrite assoc_set_eq.
      * apply String.eqb_neq in Ek.
        destruct (mem k r); [done|]. by rewrite assoc_set_ne.
    + intros k [->|Hk']%elem_of_cons; [by rewrite E|by apply Hin].
Qed.

Lemma pick_missing incl cfg k : forall args0 env w,
  k ∈ incl -> assoc k cfg = None ->
  exists k', k' ∈ incl /\ assoc k' cfg = None
             /\ BaseBatchModel.pick incl cfg args0 env w
                = (Raise (KeyError k'), w).
Proof.
  induction incl as [|key r IH]; intros args0 env w Hin Hk.
  - by apply elem_of_nil in Hin.
  - simpl. destruct (assoc key cfg) as [v|] eqn:E.
    + apply elem_of_cons in Hin as [->|Hin]; [congruence|].
      destruct (IH (assoc_set key v args0) env w Hin Hk)
        as (k' & Hk' & Hnone & Hrun).
      exists k'. split; [by apply list_elem_of_further|]. by split.
    + exists key. split; [apply list_elem_of_here|]. by split.
Qed.

(** X2.  [save_config(include=...)] with a non-empty [include]: [exclude]
    is not looked at.  When the call returns, the document at
    [config_filepath] holds the named top-level keys of the snapshot, with
    their values, and no other key, and every name is a key of the snapshot.
    When some name is not a key of the snapshot the call raises (a
    [KeyError] for such a name, once the batch directories could be made)
    and no regular file is created or changed. *)
Theorem save_config_include env config excl i self w :
  names_truthy i = true ->
  let self0 := match config with
               | Some c => BaseBatchModel.with_config c self
               | None => self
               end in
  let run := BaseBatchModel.save_config config excl (Some i) self env w in
  (forall r w', run = (Ok r, w') ->
     exists kvs args b,
       heap w !! BaseBatchModel._config_ self0 = Some (CDict kvs)
       /\ BaseBatchModel.batch self = Some b
       /\ (forall k, assoc k args
                     = if mem k (names_list i) then assoc k kvs else None)
       /\ (forall k, k ∈ names_list i -> is_Some (assoc k kvs))
       /\ (config_file env b <> settings_file env b ->
           fs w' !! config_file env b = Some (File (Doc (CDict args)))))
  /\ (forall kvs k,
        heap w !! BaseBatchModel._config_ self0 = Some (CDict kvs) ->
        k ∈ names_list i -> assoc k kvs = None ->
        (exists e, fst run = Raise e)
        /\ files_as w (snd run)
        /\ (forall b p w1,
              BaseBatchModel.batch self = Some b ->
              BaseBatchConfig.config_filepath b env w = (Ok p, w1) ->
              exists k', k' ∈ names_list i /\ assoc k' kvs = None
                         /\ fst run = Raise (KeyError k'))).
Proof.
  intros Hi self0 run.
  assert (Hbatch : BaseBatchModel.batch self0 = BaseBatchModel.batch self)
    by (unfold self0; by destruct config).
  split.
  - intros r w' H. unfold run, BaseBatchModel.save_config in H.
    fold self0 in H.
    inv_bind H as b w1 H1. apply the_batch_inv in H1 as [Hb ->].
    inv_bind H as p1 w2 H2.
    apply config_filepath_same_files in H2 as (_ & Hs2 & Hh2 & Ht2).
    inv_bind H as c w3 H3. unfold eKonf.to_dict in H3.
    apply read_inv in H3 as [Hc ->].
    inv_bind H as kvs w4 H4. apply as_kwargs_inv in H4 as [-> ->].
    rewrite Hi in H. simpl in H.
    inv_bind H as args w5 H5. apply pick_ok in H5 as (-> & Hargs & Hall).
    inv_bind H as p w6 H6.
    apply config_filepath_same_files in H6 as (-> & Hs6 & Hh6 & Ht6).
    inv_bind H as u w7 H7. unfold eKonf.save in H7.
    apply write_file_inv in H7 as ->.
    inv_bind H as u2 w8 H8. apply ret_ok in H as [-> ->].
    unfold BaseBatchModel.save_settings in H8.
    inv_bind H8 as b' w9 H9. apply the_batch_inv in H9 as [Hb' ->].
    rewrite Hb in Hb'. injection Hb' as <-.
    inv_bind H8 as pj w10 H10.
    apply config_jsonpath_same_files in H10 as (-> & Hs10 & Hh10 & Ht10).
    unfold eKonf.save_json in H8. apply write_file_inv in H8 as ->.
    fold (config_file env b) in *. fold (settings_file env b) in *.
    exists kvs, args, b. split; [by rewrite <- Hh2|].
    split; [by rewrite <- Hbatch|]. split; [done|]. split; [done|].
    intros Hne. simpl. rewrite lookup_insert_ne by done.
    apply Hs10. apply lookup_insert_eq.
  - intros kvs k Hkvs Hin Hk.
    unfold run, BaseBatchModel.save_config. fold self0.
    unfold BaseBatchModel.the_batch. rewrite Hbatch.
    destruct (BaseBatchModel.batch self) as [b|] eqn:Hb.
    2:{ split; [by eexists|]. split; [exact (files_as_refl w)|].
        by intros ? ? ? [=]. }
    rewrite bind_ret_run.
    pose proof (preserves_config_filepath_files env b w) as Hfiles.
    destruct (BaseBatchConfig.config_filepath b env w) as [[p1|e1] w1] eqn:E1.
    2:{ rewrite (bind_raise _ _ _ _ _ _ E1). split; [by eexists|].
        split; [exact Hfiles|]. intros b0 p w2 [= <-] H.
        rewrite E1 in H. discriminate. }
    rewrite (bind_run _ _ _ _ _ _ E1).
    apply config_filepath_same_files in E1 as (_ & _ & Hh1 & _).
    assert (Hread : eKonf.to_dict (BaseBatchModel._config_ self0) env w1
                    = (Ok (CDict kvs), w1)).
    { unfold eKonf.to_dict, DictConfig.read. by rewrite Hh1, Hkvs. }
    rewrite (bind_run _ _ _ _ _ _ Hread). simpl as_kwargs.
    rewrite bind_ret_run. rewrite Hi.
    destruct (pick_missing _ _ _ [] env w1 Hin Hk)
      as (k' & Hin' & Hnone & Hpick).
    rewrite (bind_raise _ _ _ _ _ _ Hpick). simpl.
    split; [by eexists|]. split; [exact Hfiles|].
    intros b' p w2 [= <-] _. by exists k'.
Qed.

Lemma save_config_include_witness :
  exists self w,
    BaseBatchModel.__init__ None None args1 env0 w0 = (Ok self, w)
    /\ (exists r w',
          BaseBatchModel.save_config None None (Some (Names ["lr"; "name"]))
            self env0 w = (Ok r, w')
          /\ exists args,
               fs w' !! ["/"; "r"; "outputs"; "exp1"; "configs";
                         "exp1(0)_config.yaml"]
               = Some (File (Doc (CDict args)))
               /\ assoc "lr" args = Some (CVal (SInt 3))
               /\ assoc "batch" args = None)
    /\ (exists e,
          fst (BaseBatchModel.save_config None None (Some (Name "epochs"))
                 self env0 w) = Raise e)
    /\ files_as w
         (snd (BaseBatchModel.save_config None None (Some (Name "epochs"))
                 self env0 w)).
Proof.
  run_step H1. split.
  - run_step H2.
    lazymatch type of H2 with
    | BaseBatchModel.save_config _ _ (Some ?i) ?s _ ?w = _ =>
        destruct (save_config_include env0 None None i s w eq_refl)
          as [Hok _]
    end.
    destruct (Hok _ _ H2) as (kvs & args & b & Hkvs & Hb & Hargs & _ & Hdoc).
    vm_compute in Hb. injection Hb as <-.
    vm_compute in Hkvs. injection Hkvs as <-.
    exists args. split; [apply Hdoc; by vm_compute|].
    split; [apply (Hargs "lr")|apply (Hargs "batch")].
  - lazymatch goal with
    | |- _ /\ files_as ?w (snd (BaseBatchModel.save_config _ _ (Some ?i) ?s _ _)) =>
        destruct (save_config_include env0 None None i s w eq_refl)
          as [_ Hbad];
        destruct (Hbad args_live "epochs") as (He & Hf & _)
    end.
    + vm_compute. reflexivity.
    + apply list_elem_of_here.
    + reflexivity.
    + split; [exact He|exact Hf].
Defined.
Section MoreLoading.

Import BaseBatchModel.

Local Arguments merge_tree : simpl never.

(** [load_config(batch_name, batch_num)] when the document of that batch is
    not there. *)
Lemma load_config_absent env self w bn n args self' w' base b :
  heap w !! _initial_config_ self = Some base ->
  batch self = Some b ->
  fs_is_file (fs w)
    (config_file env
       (BaseBatchConfig.with_batch_num (Some n)
          (BaseBatchConfig.with_batch_name
             (default (BaseBatchConfig.batch_name b) bn) b))) = false ->
  load_config bn (Some n) args self env w = (Ok self', w') ->
  exists t' b',
    heap w' = heap w ++ [base; t']
    /\ _config_ self' = S (length (heap w))
    /\ _initial_config_ self' = _initial_config_ self
    /\ patched (merge_tree base (CDict args)) t'
    /\ batch self' = Some b'
    /\ BaseBatchConfig.batch_name b'
       = default (BaseBatchConfig.batch_name b) bn
    /\ BaseBatchConfig.batch_num b' = Some (derived_num env (fs w') b')
    /\ keeps_files (fs w) (fs w').
Proof.
  intros Hbase Hb Hfile H. unfold load_config in H.
  inv_bind H as val w1 H1.
  assert (val = default (BaseBatchConfig.batch_name b) bn /\ w1 = w)
    as [-> ->].
  { destruct bn as [s|]; [by apply ret_ok in H1|].
    inv_bind H1 as b0 w0' H0. apply the_batch_inv in H0 as [Hb0 ->].
    apply ret_ok in H1 as [-> ->]. rewrite Hb in Hb0. by injection Hb0 as <-. }
  set (val := default (BaseBatchConfig.batch_name b) bn) in *.
  inv_bind H as r w2 H2.
  inv_bind H2 as cfg0 w3 H3.
  apply copy_inv in H3 as (base' & Hbase' & -> & ->).
  rewrite Hbase in Hbase'. injection Hbase' as <-.
  inv_bind H2 as b0 w4 H4. apply the_batch_inv in H4 as [Hb0 ->].
  rewrite Hb in Hb0. injection Hb0 as <-.
  inv_bind H2 as p w5 H5.
  pose proof H5 as H5'.
  apply config_filepath_inv in H5 as (-> & Hk5 & Hh5).
  inv_bind H2 as found w6 H6. unfold is_file in H6.
  injection H6 as <- <-.
  assert (Hfound : fs_is_file (fs w5)
                     (config_file env
                        (BaseBatchConfig.with_batch_num (Some n)
                           (BaseBatchConfig.with_batch_name val b)))
                   = false).
  { unfold BaseBatchConfig.config_filepath in H5'.
    inv_bind H5' as d wd Hd.
    apply config_dir_inv in Hd as (f1 & f2 & Hf1 & Hf2 & -> & ->).
    apply ret_ok in H5' as [_ ->]. simpl.
    by rewrite (mkdir_parents_files _ _ _ _ Hf2),
      (mkdir_parents_files _ _ _ _ Hf1). }
  unfold config_file in Hfound. rewrite Hfound in H2.
  apply ret_ok in H2 as [-> ->]. simpl in H.
  inv_bind H as new w9 H9.
  apply merge_inv in H9 as (a & Ha & -> & ->).
  rewrite Hh5 in Ha. simpl in Ha.
  rewrite lookup_app_r in Ha by done. rewrite Nat.sub_diag in Ha.
  injection Ha as <-.
  inv_bind H as self1 w10 H10.
  apply set_batch_num_inv in H10 as (tm & t1 & b1 & Htm & Hs1 & Hb1 & -> & ->).
  simpl in Htm, Hs1, Hb1.
  rewrite Hh5 in Htm. simpl in Htm.
  rewrite lookup_app_r in Htm by done. rewrite Nat.sub_diag in Htm.
  injection Htm as <-.
  match type of H with
  | set_batch_name _ ?s _ ?w = _ =>
      assert (Hcell : heap w !! _config_ s = Some t1)
  end.
  { simpl. rewrite Hh5. simpl. apply list_lookup_insert_eq.
    rewrite !length_app. simpl. lia. }
  destruct (set_batch_name_post _ _ _ _ _ _ _ Hcell H)
    as (t' & b' & n' & Hh & Hc & Hi & Hb' & Hname & Hnum & Hp & _ & Hk & Hder
        & _).
  simpl in Hh, Hc, Hi, Hk.
  destruct (set_in_get _ _ _ _ _ Hs1) as (sub & Hsub & Hsub1).
  exists t', b'.
  split.
  { rewrite Hh, Hh5. simpl. rewrite list_insert_insert_eq.
    rewrite !length_app. simpl.
    rewrite insert_app_r_alt by (rewrite !length_app; simpl; lia).
    rewrite !length_app. simpl.
    replace (length (heap w) + 1 - (length (heap w) + 1)) with 0 by lia.
    simpl. by rewrite <- !app_assoc. }
  split; [rewrite Hc, ?length_app, Hh5; simpl; rewrite ?length_app; simpl; lia|].
  split; [done|]. split.
  { eapply patched_trans; [|exact Hp].
    eapply patched_set_in; [|exact Hs1]. apply list_elem_of_here. }
  split; [done|]. split; [done|]. split.
  { rewrite Hnum. f_equal. apply (Hder _ Hsub1). right. apply assoc_set_eq. }
  intros q d Hqd. apply Hk. by apply Hk5.
Qed.

(** X4.  [load_config(batch_name, batch_num)] when there is no document for
    that batch name and number: the number that was asked for is dropped.
    The new live snapshot is a copy of the baseline merged with the
    overrides (up to the entries the entity sets by itself), the batch has
    the name that was asked for (the current one when it is left out), and
    its number is the one [init_batch_num] derives then.  The baseline and
    the old snapshot stay as they are, and no regular file changes. *)
Theorem load_config_missing env self w bn n args self' w' base b :
  heap w !! _initial_config_ self = Some base ->
  batch self = Some b ->
  fs_is_file (fs w)
    (config_file env
       (BaseBatchConfig.with_batch_num (Some n)
          (BaseBatchConfig.with_batch_name
             (default (BaseBatchConfig.batch_name b) bn) b))) = false ->
  load_config bn (Some n) args self env w = (Ok self', w') ->
  exists t' b',
    heap w' = heap w ++ [base; t']
    /\ _config_ self' = S (length (heap w))
    /\ _initial_config_ self' = _initial_config_ self
    /\ patched (merge_tree base (CDict args)) t'
    /\ batch self' = Some b'
    /\ BaseBatchConfig.batch_name b'
       = default (BaseBatchConfig.batch_name b) bn
    /\ BaseBatchConfig.batch_num b' = Some (derived_num env (fs w') b')
    /\ keeps_files (fs w) (fs w').
Proof. apply load_config_absent. Qed.

End MoreLoading.

Lemma load_config_missing_witness :
  exists self w,
    saved_once env0 w0 = (Ok self, w)
    /\ exists self' w',
      BaseBatchModel.load_config None (Some 7%Z) [] self env0 w
      = (Ok self', w')
      /\ exists b',
        BaseBatchModel.batch self' = Some b'
        /\ BaseBatchConfig.batch_num b' = Some (derived_num env0 (fs w') b')
        /\ derived_num env0 (fs w') b' = 1%Z.
Proof.
  run_step H1. run_step H2.
  lazymatch type of H2 with
  | BaseBatchModel.load_config _ _ _ ?s _ ?w = _ =>
      assert (Hbase : heap w !! BaseBatchModel._initial_config_ s
                      = Some (CDict args1)) by (vm_compute; reflexivity);
      assert (Hb : BaseBatchModel.batch s = Some b_seed42)
        by (vm_compute; reflexivity)
  end.
  destruct (load_config_missing env0 _ _ None 7%Z [] _ _ _ _ Hbase Hb
              ltac:(vm_compute; reflexivity) H2)
    as (t' & b' & _ & _ & _ & _ & Hb' & _ & Hnum & _).
  exists b'. split; [exact Hb'|]. split; [exact Hnum|].
  vm_compute in Hb'. injection Hb' as <-. vm_compute. reflexivity.
Defined.

(** ** A reload restarts from the baseline *)

Section Baseline.

Import BaseBatchModel.

Local Arguments merge_tree : simpl never.

Lemma load_config_named env self w n args b :
  batch self = Some b ->
  load_config None n args self env w
  = load_config (Some (BaseBatchConfig.batch_name b)) n args self env w.
Proof.
  intros Hb. unfold load_config, bind at 1, the_batch. rewrite Hb.
  reflexivity.
Qed.

(** [load_config] with a batch number needs a batch, and a file at the
    place of the document must be a document. *)
Lemma load_config_batch env self w bn n args self' w' :
  load_config bn (Some n) args self env w = (Ok self', w') ->
  exists b,
    batch self = Some b
    /\ forall tab,
         fs w !! config_file env
                   (BaseBatchConfig.with_batch_num (Some n)
                      (BaseBatchConfig.with_batch_name
                         (default (BaseBatchConfig.batch_name b) bn) b))
         <> Some (File (Tab tab)).
Proof.
  intros H. unfold load_config in H.
  inv_bind H as val w1 H1.
  inv_bind H as r w2 H2.
  inv_bind H2 as cfg0 w3 H3.
  inv_bind H2 as b w4 H4. apply the_batch_inv in H4 as [Hb ->].
  exists b. split; [done|]. intros tab Hq.
  assert (val = default (BaseBatchConfig.batch_name b) bn /\ w1 = w)
    as [-> ->].
  { destruct bn as [s|]; [by apply ret_ok in H1 as [-> ->]|].
    inv_bind H1 as b0 w0' H0. apply the_batch_inv in H0 as [Hb0 ->].
    apply ret_ok in H1 as [-> ->]. rewrite Hb in Hb0. by injection Hb0 as <-. }
  apply copy_inv in H3 as (base' & _ & _ & ->).
  inv_bind H2 as p w5 H5.
  apply config_filepath_inv in H5 as (-> & Hk5 & _).
  inv_bind H2 as found w6 H6. unfold is_file in H6.
  injection H6 as <- <-.
  apply Hk5 in Hq. unfold config_file in Hq.
  unfold fs_is_file in H2. rewrite Hq in H2.
  inv_bind H2 as bc w7 H7. unfold eKonf.load in H7. by rewrite Hq in H7.
Qed.

(** Whatever the live snapshot holds, the snapshot [load_config] makes for
    a batch number is the baseline, merged with the document of that batch
    when there is one, and then with the overrides. *)
Lemma load_config_restarts env self w bn n args self' w' base :
  heap w !! _initial_config_ self = Some base ->
  load_config bn (Some n) args self env w = (Ok self', w') ->
  exists b t',
    batch self = Some b
    /\ _initial_config_ self' = _initial_config_ self
    /\ _config_ self' <> _initial_config_ self
    /\ heap w' !! _config_ self' = Some t'
    /\ ((exists c,
           fs w !! config_file env
                     (BaseBatchConfig.with_batch_num (Some n)
                        (BaseBatchConfig.with_batch_name
                           (default (BaseBatchConfig.batch_name b) bn) b))
           = Some (File (Doc c))
           /\ patched (merge_tree (merge_tree base c) (CDict args)) t')
        \/ (fs_is_file (fs w)
              (config_file env
                 (BaseBatchConfig.with_batch_num (Some n)
                    (BaseBatchConfig.with_batch_name
                       (default (BaseBatchConfig.batch_name b) bn) b)))
            = false
            /\ patched (merge_tree base (CDict args)) t')).
Proof.
  intros Hbase H.
  destruct (load_config_batch _ _ _ _ _ _ _ _ H) as (b & Hb & Hnt).
  pose proof (lookup_lt_Some _ _ _ Hbase) as Hlt.
  set (b1 := BaseBatchConfig.with_batch_num (Some n)
               (BaseBatchConfig.with_batch_name
                  (default (BaseBatchConfig.batch_name b) bn) b)) in *.
  destruct (fs w !! config_file env b1) as [[|[c|tab]]|] eqn:Eq.
  - assert (Hno : fs_is_file (fs w) (config_file env b1) = false)
      by (unfold fs_is_file; by rewrite Eq).
    destruct (load_config_absent env self w bn n args self' w' base b
                Hbase Hb Hno H) as (t' & b' & Hh & Hc & Hi & Hp & _).
    exists b, t'. split; [done|]. split; [done|]. split; [lia|]. split.
    { rewrite Hh, Hc. rewrite lookup_app_r by (simpl; lia).
      by replace (S (length (heap w)) - length (heap w)) with 1 by lia. }
    right. split; [exact Hno|exact Hp].
  - assert (H' : load_config
                   (Some (default (BaseBatchConfig.batch_name b) bn))
                   (Some n) args self env w = (Ok self', w')).
    { destruct bn as [s|]; [done|]. simpl.
      by rewrite <- (load_config_named env self w (Some n) args b Hb). }
    destruct (load_config_found env self w _ n args self' w' base b c
                Hbase Hb Eq H') as (t' & b' & Hh & Hc & Hi & Hp & _).
    exists b, t'. split; [done|]. split; [done|]. split; [lia|]. split.
    { rewrite Hh, Hc. rewrite lookup_app_r by (simpl; lia).
      by replace (S (S (length (heap w))) - length (heap w)) with 2 by lia. }
    left. by exists c.
  - by destruct (Hnt tab).
  - assert (Hno : fs_is_file (fs w) (config_file env b1) = false)
      by (unfold fs_is_file; by rewrite Eq).
    destruct (load_config_absent env self w bn n args self' w' base b
                Hbase Hb Hno H) as (t' & b' & Hh & Hc & Hi & Hp & _).
    exists b, t'. split; [done|]. split; [done|]. split; [lia|]. split.
    { rewrite Hh, Hc. rewrite lookup_app_r by (simpl; lia).
      by replace (S (length (heap w)) - length (heap w)) with 1 by lia. }
    right. split; [exact Hno|exact Hp].
Qed.

End Baseline.

Lemma init_baseline env w config_group root_dir args self w' :
  BaseBatchModel.__init__ config_group root_dir args env w = (Ok self, w') ->
  good (BaseBatchModel._initial_config_ self) self
  /\ holds (BaseBatchModel._initial_config_ self)
       (baseline env config_group args) w'.
Proof.
  unfold BaseBatchModel.__init__. intros H.
  inv_bind H as l w1 H1.
  assert (Hl : heap w1 !! l = Some (baseline env config_group args)).
  { destruct config_group as [g|]; simpl.
    - inv_bind H1 as base wa Ha. unfold eKonf.compose in Ha.
      inv_bind Ha as e wb Hb. unfold ask in Hb. injection Hb as <- <-.
      apply ret_ok in Ha as [-> ->].
      inv_bind H1 as l0 wc Hc. apply new_inv in Hc as [-> ->].
      apply merge_inv in H1 as (a & Ha & -> & ->). simpl in Ha |- *.
      rewrite lookup_app_r, Nat.sub_diag in Ha by done. injection Ha as <-.
      rewrite length_app. simpl.
      rewrite lookup_app_r by (rewrite length_app; simpl; lia).
      rewrite length_app. simpl.
      by replace (length (heap w) + 1 - (length (heap w) + 1)) with 0 by lia.
    - unfold eKonf.to_config in H1. apply new_inv in H1 as [-> ->]. simpl.
      by rewrite lookup_app_r, Nat.sub_diag by done. }
  pose proof (lookup_lt_Some _ _ _ Hl) as Hlt.
  clear H1.
  inv_bind H as data w2 H2. apply read_inv in H2 as [H2 ->].
  rewrite Hl in H2. injection H2 as <-.
  inv_bind H as kw wk Hk. apply as_kwargs_inv in Hk as [Hkw ->].
  inv_bind H as cn w3 H3. apply opt_field_pure in H3 as ->.
  inv_bind H as nm w4 H4. apply req_field_pure in H4 as ->.
  inv_bind H as pth w5 H5.
  apply same_heap_run in H5;
    [|apply same_heap_sub_model; intros d; apply same_heap_path_init].
  inv_bind H as bt w6 H6.
  apply same_heap_run in H6;
    [|apply same_heap_sub_model; intros d; apply same_heap_batch_init].
  inv_bind H as pj w7 H7.
  apply same_heap_run in H7;
    [|apply same_heap_sub_model; intros d; repeat same_heap_step].
  inv_bind H as al w8 H8. apply dflt_field_pure in H8 as ->.
  inv_bind H as vs w9 H9. apply dflt_field_pure in H9 as ->.
  inv_bind H as ini w10 H10.
  assert (Hh : heap w7 = heap w1) by (by rewrite H7, H6, H5).
  apply copy_inv in H10 as (c & Hc & -> & ->).
  rewrite Hh, Hl in Hc. injection Hc as <-.
  match type of H with
  | BaseBatchModel.initialize_configs _ ?s _ ?w0 = _ =>
      assert (Hg : good (length (heap w7)) s)
        by (split; simpl; [rewrite Hh; lia|done]);
      assert (Hw : holds (length (heap w7)) (baseline env config_group args)
                     w0)
        by (unfold holds; simpl; by rewrite lookup_app_r, Nat.sub_diag);
      destruct (safe_initialize_configs (length (heap w7))
                  (baseline env config_group args) env
                  root_dir s Hg w0 Hw) as [Hb Hq]
  end.
  rewrite H in Hb, Hq. simpl in Hb, Hq. specialize (Hq self eq_refl).
  destruct Hq as [Hq1 Hq2]. rewrite Hq2.
  split; [split; [exact Hq1|exact Hq2]|exact Hb].
Qed.

(** C3. The baseline captured at construction is an object of its own that
    holds the configuration the entity was constructed from (the arguments,
    merged onto the composed group when one is named).  Whatever is done to
    the entity afterwards, whether the live tree is changed directly or the
    setters, [initialize_configs], [save_config] and [load_config] are
    called, in any order and whether the last call returns or raises, the
    baseline still holds that configuration and the live configuration is
    another object.  At any such point a [load_config] that is given a
    batch number starts from a copy of the baseline, not from the live
    tree: the snapshot it makes is the baseline merged with the document of
    that batch, when there is one, and then with the overrides (up to the
    entries the entity sets by itself), whatever the live tree held; and
    the baseline is still as it was afterwards. *)
Theorem baseline_never_mutated env w config_group root_dir args self w' :
  BaseBatchModel.__init__ config_group root_dir args env w = (Ok self, w') ->
  let L := BaseBatchModel._initial_config_ self in
  let base := baseline env config_group args in
  holds L base w'
  /\ BaseBatchModel._config_ self <> L
  /\ forall os,
       holds L base (snd (run_ops os self env w'))
       /\ forall self1,
            fst (run_ops os self env w') = Ok self1 ->
            BaseBatchModel._initial_config_ self1 = L
            /\ BaseBatchModel._config_ self1 <> L
            /\ DictConfig.copy (BaseBatchModel._initial_config_ self1) env
                 (snd (run_ops os self env w'))
               = (Ok (length (heap (snd (run_ops os self env w')))),
                  mkWorld (fs (snd (run_ops os self env w')))
                    (heap (snd (run_ops os self env w')) ++ [base])
                    (draws (snd (run_ops os self env w')))
                    (trace (snd (run_ops os self env w'))))
            /\ forall bn n overrides self2 w2,
                 BaseBatchModel.load_config bn (Some n) overrides self1 env
                   (snd (run_ops os self env w'))
                 = (Ok self2, w2) ->
                 holds L base w2
                 /\ BaseBatchModel._initial_config_ self2 = L
                 /\ BaseBatchModel._config_ self2 <> L
                 /\ exists b t',
                      BaseBatchModel.batch self1 = Some b
                      /\ heap w2 !! BaseBatchModel._config_ self2 = Some t'
                      /\ ((exists c,
                             fs (snd (run_ops os self env w'))
                             !! config_file env
                                  (BaseBatchConfig.with_batch_num (Some n)
                                     (BaseBatchConfig.with_batch_name
                                        (default
                                           (BaseBatchConfig.batch_name b) bn)
                                        b))
                             = Some (File (Doc c))
                             /\ patched
                                  (merge_tree (merge_tree base c)
                                     (CDict overrides)) t')
                          \/ (fs_is_file (fs (snd (run_ops os self env w')))
                                (config_file env
                                   (BaseBatchConfig.with_batch_num (Some n)
                                      (BaseBatchConfig.with_batch_name
                                         (default
                                            (BaseBatchConfig.batch_name b) bn)
                                         b)))
                              = false
                              /\ patched
                                   (merge_tree base (CDict overrides)) t')).
Proof.
  intros H L base. destruct (init_baseline _ _ _ _ _ _ _ H) as [Hg Hw].
  fold L in Hg, Hw. fold base in Hw. split; [done|]. split; [apply Hg|].
  intros os.
  destruct (safe_run_ops L base env os self Hg w' Hw) as [Hh Hq].
  split; [done|]. intros self1 H1. destruct (Hq self1 H1) as [Hc Hi].
  split; [done|]. split; [done|].
  split; [rewrite Hi; by apply copy_holds|].
  intros bn n overrides self2 w2 H2.
  destruct (safe_load_config L base env bn (Some n) overrides self1
              (conj Hc Hi) _ Hh) as [Hh2 Hq2].
  rewrite H2 in Hh2, Hq2. simpl in Hh2, Hq2.
  destruct (Hq2 self2 eq_refl) as [Hc2 Hi2].
  split; [done|]. split; [done|]. split; [done|].
  unfold holds in Hh. rewrite <- Hi in Hh.
  destruct (load_config_restarts _ _ _ _ _ _ _ _ _ Hh H2)
    as (b & t' & Hb & _ & _ & Ht' & Hcase).
  by exists b, t'.
Qed.

Lemma baseline_never_mutated_witness :
  exists self w',
    BaseBatchModel.__init__ None None args1 env0 w0 = (Ok self, w')
    /\ holds (BaseBatchModel._initial_config_ self) (CDict args1)
         (snd (run_ops session1 self env0 w'))
    /\ exists self1 w1,
         run_ops session_adhoc self env0 w' = (Ok self1, w1)
         /\ (exists t, heap w1 !! BaseBatchModel._config_ self1 = Some t
                       /\ get_top "lr" t = CVal (SInt 99))
         /\ exists self2 w2,
              BaseBatchModel.load_config None (Some 3%Z) [] self1 env0 w1
              = (Ok self2, w2)
              /\ holds (BaseBatchModel._initial_config_ self) (CDict args1) w2
              /\ exists t',
                   heap w2 !! BaseBatchModel._config_ self2 = Some t'
                   /\ get_top "lr" t' = CVal (SInt 3).
Proof.
  run_step H.
  pose proof (baseline_never_mutated env0 w0 None None args1 _ _ H)
    as (_ & _ & Hall).
  split; [exact (proj1 (Hall session1))|].
  run_step H1.
  split; [eexists; split; vm_compute; reflexivity|].
  run_step H2.
  match type of H1 with
  | ?m = (Ok ?s1, _) =>
      assert (F1 : fst m = Ok s1) by (vm_compute; reflexivity);
      pose proof (proj2 (Hall session_adhoc) s1 F1) as (_ & _ & _ & Hload)
  end.
  match type of H2 with
  | _ = (Ok ?s2, ?w2) =>
      pose proof (Hload None 3%Z [] s2 w2 H2) as (Hh2 & _)
  end.
  split; [exact Hh2|].
  eexists. split; vm_compute; reflexivity.
Defined.

Section Names.

Import BaseBatchModel.

(** What [initialize_configs()] leaves of the live tree outside [path] and
    [batch], and of the entity. *)
Lemma initialize_configs_frame env self w self' w' t :
  heap w !! _config_ self = Some t ->
  initialize_configs None self env w = (Ok self', w') ->
  exists t',
    heap w' !! _config_ self = Some t'
    /\ (forall k, k <> "path" -> k <> "batch" -> get_top k t' = get_top k t)
    /\ name self' = name self
    /\ project self' = project self.
Proof.
  intros Ht H. unfold initialize_configs in H.
  pose proof (lookup_lt_Some _ _ _ Ht) as Hlt.
  inv_bind H as self1 w1 H1.
  apply set_root_dir_inv in H1
    as (t0 & t1 & pkw & p & out & t2 & b & Ht0 & Hcase & Hout & Hs2 & Hb
        & -> & ->).
  rewrite Ht in Ht0. injection Ht0 as <-.
  assert (Hk1 : forall k, k <> "path" -> get_top k t1 = get_top k t).
  { intros k Hk. destruct (is_none (get_top "path" t)).
    - destruct Hcase as [Hs _]. by apply (get_top_set_top_ne k) in Hs.
    - by destruct Hcase as [-> _]. }
  simpl in H.
  inv_bind H as bc w2 H2. apply getattr_inv in H2 as (t2' & Ht2 & -> & ->).
  inv_bind H as kw w3 H3. apply as_kwargs_inv in H3 as [Hkw ->].
  inv_bind H as b' w4 H4.
  apply (same_heap_run _ _ _ _ _ (same_heap_batch_init env kw)) in H4.
  inv_bind H as self2 w5 H5.
  apply set_batch_num_inv in H5
    as (t2'' & t3 & b'' & Ht2'' & Hs3 & Hb'' & -> & ->).
  simpl in Ht2''. rewrite H4 in Ht2''.
  rewrite set_cell_lookup in Ht2'' by done. injection Ht2'' as <-.
  assert (heap w' = <[_config_ self := t3]> (heap w)
          /\ name self' = name self /\ project self' = project self)
    as (Hh & Hn & Hp).
  { simpl in H. destruct (project self) eqn:Hpj; [|done].
    destruct (truthy _).
    - inv_bind H as u w7 H7. unfold emit in H7. injection H7 as _ <-.
      apply ret_ok in H as [-> ->]. simpl. rewrite H4. simpl.
      by rewrite list_insert_insert_eq.
    - apply ret_ok in H as [-> ->]. simpl. rewrite H4. simpl.
      by rewrite list_insert_insert_eq. }
  exists t3. split; [rewrite Hh; by apply list_lookup_insert_eq|].
  split; [|done].
  intros k Hkp Hkb.
  rewrite (get_top_set_in_ne k "batch" _ _ t2 t3) by done.
  rewrite (get_top_set_in_ne k "batch" _ _ t1 t2) by done.
  by apply Hk1.
Qed.

(** X5.  After [set_batch_name(val)] (what [self.name = val] and
    [self.batch_name = val] run) the name is [val] in all four places: the
    [name] field, [config.name], [config.batch.batch_name] and
    [batch.batch_name]; the live snapshot stays the same object. *)
Theorem set_batch_name_everywhere env self w val self' w' :
  set_batch_name val self env w = (Ok self', w') ->
  exists t' bkw b',
    _config_ self' = _config_ self
    /\ heap w' !! _config_ self' = Some t'
    /\ name self' = val
    /\ get_top "name" t' = CVal (SStr val)
    /\ get_top "batch" t' = CDict bkw
    /\ assoc "batch_name" bkw = Some (CVal (SStr val))
    /\ batch self' = Some b'
    /\ BaseBatchConfig.batch_name b' = val.
Proof.
  intros H.
  assert (exists t, heap w !! _config_ self = Some t) as [t Ht].
  { unfold set_batch_name in H. inv_bind H as s1 w1 H1.
    apply assign_batch_name_inv in H1 as (t & _ & _ & _ & Ht & _). eauto. }
  pose proof (lookup_lt_Some _ _ _ Ht) as Hlt.
  destruct (set_batch_name_post _ _ _ _ _ _ _ Ht H)
    as (t' & b' & n & Hh & Hc & _ & Hb' & Hname & _ & _ & Hset & _).
  destruct Hset as (pkw & p & out & bkw & _ & _ & Hbkw & _ & _ & Hbn & _).
  exists t', bkw, b'. split; [done|].
  split; [rewrite Hc, Hh; by apply list_lookup_insert_eq|].
  assert (Ht' : heap w' !! _config_ self = Some t')
    by (rewrite Hh; by apply list_lookup_insert_eq).
  assert (name self' = val /\ get_top "name" t' = CVal (SStr val))
    as [Hn Hnt].
  { clear Hbkw Hbn Hb' Hname Hc Hh.
    unfold set_batch_name in H.
    inv_bind H as self1 w1 H1.
    apply assign_batch_name_inv in H1
      as (t0 & ta & t1 & b & Ht0 & Hsa & Hs1 & Hb & -> & ->).
    rewrite Ht in Ht0. injection Ht0 as <-.
    pose proof (get_top_set_top _ _ _ _ Hs1) as Hname1.
    inv_bind H as self2 w2 H2. simpl in H2.
    destruct (String.eqb (name self) val) eqn:En.
    - apply ret_ok in H2 as [-> ->]. apply String.eqb_eq in En.
      assert (Hcell : heap (set_cell (_config_ self) t1 w)
                      !! _config_ (with_batch
                                     (Some (BaseBatchConfig.with_batch_name
                                              val b)) self) = Some t1)
        by (by apply set_cell_lookup).
      destruct (initialize_configs_frame _ _ _ _ _ _ Hcell H)
        as (t3 & Ht3 & Hk & Hn & _).
      simpl in Ht3, Hn. rewrite Ht' in Ht3. injection Ht3 as <-.
      split; [congruence|]. by rewrite Hk.
    - inv_bind H2 as self1' w1' H1'.
      apply assign_batch_name_inv in H1'
        as (t1' & tb & t2 & b1 & Ht1' & Hsb & Hs2 & Hb1 & -> & ->).
      simpl in Ht1'. rewrite list_lookup_insert_eq in Ht1' by done.
      injection Ht1' as <-. simpl in H2, H. rewrite set_cell_set_cell in H2.
      pose proof (get_top_set_top _ _ _ _ Hs2) as Hname2.
      match type of H2 with
      | initialize_configs _ ?s _ ?w0 = _ =>
          assert (Hcell : heap w0 !! _config_ s = Some t2)
            by (by apply set_cell_lookup)
      end.
      destruct (initialize_configs_frame _ _ _ _ _ _ Hcell H2)
        as (t3 & Ht3 & Hk3 & Hn3 & _).
      simpl in Ht3, Hn3.
      assert (Hc2 : _config_ self2 = _config_ self).
      { destruct (initialize_configs_post _ _ _ _ _ _ Hcell H2)
          as (? & ? & ? & _ & Hc2 & _). exact Hc2. }
      rewrite <- Hc2 in Ht3.
      destruct (initialize_configs_frame _ _ _ _ _ _ Ht3 H)
        as (t4 & Ht4 & Hk4 & Hn4 & _).
      rewrite Hc2, Ht' in Ht4. injection Ht4 as <-.
      split; [congruence|]. rewrite Hk4, Hk3 by done. exact Hname2. }
  split; [done|]. split; [done|]. split; [done|].
  split; [by rewrite Hbn, Hname|]. by split.
Qed.

Lemma set_batch_name_everywhere_witness :
  exists self w,
    BaseBatchModel.__init__ None None args1 env0 w0 = (Ok self, w)
    /\ exists self' w',
      set_batch_name "exp2" self env0 w = (Ok self', w')
      /\ exists t' b',
        heap w' !! _config_ self' = Some t'
        /\ name self' = "exp2"
        /\ get_top "name" t' = CVal (SStr "exp2")
        /\ batch self' = Some b'
        /\ BaseBatchConfig.batch_name b' = "exp2".
Proof.
  run_step H1. run_step H2.
  destruct (set_batch_name_everywhere _ _ _ _ _ _ H2)
    as (t' & bkw & b' & _ & Ht' & Hn & Hnt & _ & _ & Hb' & Hbn).
  exists t', b'. by repeat split.
Defined.

(** X7.  An entity needs a [project] section: when the arguments have none
    (or [None]) and no config group supplies one, [__init__] never returns
    an entity; [initialize_configs] ends in reading
    [self.project.init_huggingface_hub]. *)
Theorem entity_needs_project env root_dir args w self w' :
  assoc "project" args = None \/ assoc "project" args = Some (CVal SNone) ->
  BaseBatchModel.__init__ None root_dir args env w <> (Ok self, w').
Proof.
  intros Hproj H. unfold BaseBatchModel.__init__ in H.
  inv_bind H as l w1 H1. unfold eKonf.to_config in H1.
  apply new_inv in H1 as [-> ->].
  inv_bind H as data w2 H2. apply read_inv in H2 as [Hd ->].
  simpl in Hd. rewrite lookup_app_r in Hd by done.
  rewrite Nat.sub_diag in Hd. injection Hd as <-.
  inv_bind H as kw w3 H3. apply as_kwargs_inv in H3 as [[= <-] ->].
  inv_bind H as cn w4 H4. clear H4.
  inv_bind H as nm w5 H5. clear H5.
  inv_bind H as pth w6 H6. clear H6.
  inv_bind H as bt w7 H7. clear H7.
  inv_bind H as pj w8 H8.
  assert (pj = None) as ->.
  { unfold sub_model in H8.
    destruct Hproj as [Hp|Hp]; rewrite Hp in H8;
      apply ret_ok in H8 as [Hpj _]; exact Hpj. }
  clear H8.
  inv_bind H as al w9 H9. clear H9.
  inv_bind H as vs w10 H10. clear H10.
  inv_bind H as ini w11 H11. clear H11.
  unfold initialize_configs in H.
  inv_bind H as self1 w12 H12.
  assert (project self1 = None) as Hp1.
  { unfold set_root_dir in H12.
    inv_bind H12 as x1 v1 E1. inv_bind H12 as x2 v2 E2.
    inv_bind H12 as x3 v3 E3. inv_bind H12 as x4 v4 E4.
    by apply set_output_dir_inv in H12 as (? & ? & ? & _ & _ & _ & -> & _). }
  inv_bind H as bc w13 H13. inv_bind H as kw2 w14 H14.
  inv_bind H as b' w15 H15. inv_bind H as self2 w16 H16.
  apply set_batch_num_inv in H16 as (? & ? & ? & _ & _ & _ & -> & _).
  simpl in H. by rewrite Hp1 in H.
Qed.

End Names.

Lemma entity_needs_project_witness :
  (assoc "project" [("name", CVal (SStr "exp1"));
                    ("batch", CDict [("batch_name", CVal (SStr "exp1"))])]
   = None
   \/ assoc "project" [("name", CVal (SStr "exp1"));
                       ("batch", CDict [("batch_name", CVal (SStr "exp1"))])]
      = Some (CVal SNone))
  /\ fst (BaseBatchModel.__init__ None None
            [("name", CVal (SStr "exp1"));
             ("batch", CDict [("batch_name", CVal (SStr "exp1"))])]
            env0 w0)
     = Raise (AttributeError "init_huggingface_hub").
Proof.
  split; [left; reflexivity|].
  destruct (BaseBatchModel.__init__ None None
              [("name", CVal (SStr "exp1"));
               ("batch", CDict [("batch_name", CVal (SStr "exp1"))])]
              env0 w0) as [[self|e] w'] eqn:E.
  - exfalso. revert E.
    apply entity_needs_project. left. reflexivity.
  - apply (f_equal fst) in E. vm_compute in E. simpl. congruence.
Defined.
(** ** Names of the files of a batch *)

Lemma append_inj_l s a b : s +:+ a = s +:+ b -> a = b.
Proof.
  induction s as [|c s IH]; [done|]. rewrite !append_cons.
  intros [= H]. by apply IH.
Qed.

Lemma length_append a b :
  String.length (a +:+ b) = String.length a + String.length b.
Proof.
  induction a as [|c a IH]; [done|]. rewrite append_cons. simpl.
  by rewrite IH.
Qed.

Lemma append_inj_r t : forall a b, a +:+ t = b +:+ t -> a = b.
Proof.
  induction a as [|c a IH]; intros [|d b] H.
  - done.
  - apply (f_equal String.length) in H. rewrite !length_append in H.
    simpl in H. lia.
  - apply (f_equal String.length) in H. rewrite !length_append in H.
    simpl in H. lia.
  - rewrite !append_cons in H. injection H as -> H. f_equal. by apply IH.
Qed.

Lemma pretty_N_go_ne_None x : forall s,
  s <> "None" -> pretty_N_go x s <> "None".
Proof.
  induction (N.lt_wf_0 x) as [x _ IH]; intros s Hs.
  assert (x = 0 \/ 0 < x)%N as [->|Hx] by lia.
  - by rewrite pretty_N_go_0.
  - rewrite pretty_N_go_step by done. apply IH.
    { by apply N.div_lt. }
    unfold pretty_N_char. by repeat case_match.
Qed.

Lemma pretty_Z_ne_None (z : Z) : pretty z <> "None".
Proof.
  unfold pretty, pretty_Z. destruct z as [|p|p].
  - done.
  - unfold pretty, pretty_positive, pretty, pretty_N.
    case_decide; [done|]. by apply pretty_N_go_ne_None.
  - by rewrite append_cons.
Qed.

Lemma fmt_int_inj a b : fmt_int a = fmt_int b -> a = b.
Proof.
  destruct a as [x|], b as [y|]; simpl; intros H.
  - f_equal. by apply (inj pretty).
  - by apply pretty_Z_ne_None in H.
  - symmetry in H. by apply pretty_Z_ne_None in H.
  - done.
Qed.

Lemma file_prefix_inj b b' :
  BaseBatchConfig.batch_name b = BaseBatchConfig.batch_name b' ->
  BaseBatchConfig.file_prefix b = BaseBatchConfig.file_prefix b' ->
  BaseBatchConfig.batch_num b = BaseBatchConfig.batch_num b'.
Proof.
  unfold BaseBatchConfig.file_prefix. intros -> H.
  apply append_inj_l, append_inj_l, append_inj_r in H.
  by apply fmt_int_inj.
Qed.

(** X11.  The batch number tells the files of the runs of a batch apart:
    two batches of the same name whose numbers differ (a number that is
    still unset counts as different from every number) differ in
    [file_prefix], in [config_filename] and [config_jsonfile] when they use
    the same [config_yaml] and [config_json], and in [output_file] when
    they use the same suffix and extension. *)
Theorem batch_files_distinct b b' :
  BaseBatchConfig.batch_name b = BaseBatchConfig.batch_name b' ->
  BaseBatchConfig.batch_num b <> BaseBatchConfig.batch_num b' ->
  BaseBatchConfig.file_prefix b <> BaseBatchConfig.file_prefix b'
  /\ (BaseBatchConfig.config_yaml b = BaseBatchConfig.config_yaml b' ->
      BaseBatchConfig.config_filename b <> BaseBatchConfig.config_filename b')
  /\ (BaseBatchConfig.config_json b = BaseBatchConfig.config_json b' ->
      BaseBatchConfig.config_jsonfile b <> BaseBatchConfig.config_jsonfile b')
  /\ (BaseBatchConfig.output_suffix b = BaseBatchConfig.output_suffix b' ->
      BaseBatchConfig.output_extention b
      = BaseBatchConfig.output_extention b' ->
      BaseBatchConfig.output_file b <> BaseBatchConfig.output_file b').
Proof.
  intros Hname Hnum.
  assert (Hp : BaseBatchConfig.file_prefix b <> BaseBatchConfig.file_prefix b')
    by (intros H; by apply Hnum, file_prefix_inj).
  split; [done|]. split; [|split].
  - unfold BaseBatchConfig.config_filename. intros -> H.
    by apply append_inj_r in H.
  - unfold BaseBatchConfig.config_jsonfile. intros -> H.
    by apply append_inj_r in H.
  - unfold BaseBatchConfig.output_file. intros -> ->.
    destruct (BaseBatchConfig.output_suffix b') as [sfx|];
      [destruct (String.eqb sfx "")|]; intros H;
      by apply append_inj_r in H.
Qed.

Lemma batch_files_distinct_witness :
  BaseBatchConfig.batch_name b_run0
  = BaseBatchConfig.batch_name
      (BaseBatchConfig.with_batch_num (Some 1%Z) b_run0)
  /\ BaseBatchConfig.batch_num b_run0
     <> BaseBatchConfig.batch_num
          (BaseBatchConfig.with_batch_num (Some 1%Z) b_run0)
  /\ BaseBatchConfig.config_filename b_run0
     <> BaseBatchConfig.config_filename
          (BaseBatchConfig.with_batch_num (Some 1%Z) b_run0).
Proof.
  split; [reflexivity|]. split; [discriminate|].
  apply (batch_files_distinct b_run0
           (BaseBatchConfig.with_batch_num (Some 1%Z) b_run0));
    [reflexivity|discriminate|reflexivity].
Defined.

(** ** Constructing a batch *)













(** X10.  A batch that is given its number keeps it and is constructed
    without touching the file system: no directory is made and nothing is
    counted (the generator may still be used for the seed). *)
Theorem explicit_batch_num_keeps_files data env w n b w' :
  data <> [] ->
  assoc "batch_num" data = Some (CVal (SInt n)) ->
  BaseBatchConfig.__init__ data env w = (Ok b, w') ->
  BaseBatchConfig.batch_num b = Some n
  /\ fs w' = fs w /\ heap w' = heap w /\ trace w' = trace w.
Proof.
  intros Hd Hn H.
  apply init_inv in H as (b0 & w1 & Hv & Hi); [|done].
  pose proof (validate_inv _ _ _ _ _ Hv) as (Hnum & _).
  pose proof (validate_fields _ _ _ _ _ Hv) as (_ & _ & _ & _ & _ & Hf & Hh & Ht).
  unfold parse_opt in Hnum. rewrite Hn in Hnum. simpl in Hnum.
  injection Hnum as Hnum.
  apply init_batch_num_derives in Hi as [Hi _]. rewrite <- Hnum in Hi.
  destruct Hi as [-> ->]. by rewrite <- Hnum.
Qed.

Lemma explicit_batch_num_keeps_files_witness :
  exists b w',
    BaseBatchConfig.__init__
      [("batch_name", CVal (SStr "exp1")); ("batch_num", CVal (SInt 5))]
      env0 w0 = (Ok b, w')
    /\ BaseBatchConfig.batch_num b = Some 5%Z
    /\ fs w' = fs w0.
Proof.
  run_step H.
  destruct (explicit_batch_num_keeps_files
              [("batch_name", CVal (SStr "exp1"));
               ("batch_num", CVal (SInt 5))] env0 w0 5%Z _ _
              ltac:(discriminate) eq_refl H) as (Hn & Hf & _).
  by split.
Defined.


(** ** The loader calls of a build *)

Lemma loader_calls_app a b :
  loader_calls (a ++ b) = loader_calls a ++ loader_calls b.
Proof. unfold loader_calls. apply omap_app. Qed.

Lemma loader_calls_cons e evs :
  loader_calls (e :: evs)
  = match e with
    | EvLoader s => s :: loader_calls evs
    | _ => loader_calls evs
    end.
Proof. by destruct e. Qed.

Lemma loader_calls_none evs : Forall not_loader evs -> loader_calls evs = [].
Proof.
  induction 1 as [|e evs He _ IH]; [done|].
  rewrite loader_calls_cons, IH.
  destruct e; try done. by destruct (He split_name).
Qed.

Lemma calls_refl w : calls [] w w.
Proof. exists []. by rewrite app_nil_r. Qed.

Lemma calls_trans l1 l2 w1 w2 w3 :
  calls l1 w1 w2 -> calls l2 w2 w3 -> calls (l1 ++ l2) w1 w3.
Proof.
  intros (e1 & H1 & F1) (e2 & H2 & F2).
  exists (e1 ++ e2). rewrite H2, H1, app_assoc. split; [done|].
  by rewrite loader_calls_app, F1, F2.
Qed.

Lemma emits_calls w w' : emits not_loader w w' -> calls [] w w'.
Proof.
  intros (evs & Ht & Hf). exists evs. split; [done|].
  by apply loader_calls_none.
Qed.

Lemma calls_same_trace w w' : trace w' = trace w -> calls [] w w'.
Proof. intros H. exists []. by rewrite app_nil_r. Qed.

(** [fetch] calls the loader once when the file is missing or [overwrite]
    is set, and not at all otherwise. *)
Lemma fetch_calls s out om self env w :
  calls (if negb (fs_exists (fs w) (resolve env out))
           || DatasetBuilder.overwrite self
         then [s] else [])
    w (snd (DatasetBuilder.fetch s out om self env w)).
Proof.
  unfold DatasetBuilder.fetch, bind at 1, exists_.
  destruct (negb _ || _).
  - unfold bind at 1, ask. unfold bind at 1, emit.
    apply (calls_trans [s] []
             _ (mkWorld (fs w) (heap w) (draws w) (trace w ++ [EvLoader s]))).
    { by exists [EvLoader s]. }
    apply emits_calls.
    generalize (mkWorld (fs w) (heap w) (draws w) (trace w ++ [EvLoader s])).
    change (preserves (emits not_loader) env
      (match instantiate env (DatasetBuilder.loader self) s with
       | None => raise (ValueError "dataframe is None")
       | Some df =>
           df <- (match DatasetBuilder.transform_pipeline self with
                  | [] => ret df
                  | tp => apply_pipeline df tp
                            (DatasetBuilder.pipeline_args self)
                  end) ;;
           (if DatasetBuilder.summary_info self
               && DatasetBuilder.calculate_stats self
            then
              meta <- is_file om ;;
              emit (EvInitStats s
                      ([("name", CVal (SStr s));
                        ("dataset_name", opt_str (DatasetBuilder.name self));
                        ("data_file", CVal (SStr (path_name out)))]
                       ++ (if meta : bool
                           then [("meta_file", CVal (SStr (path_name om)))]
                           else [])))
            else ret tt) ;;;
           ret (Some df)
       end)).
    repeat first
      [ preserves_step
      | apply preserves_emit; by intros x
      | apply preserves_apply_pipeline; by intros x ].
  - apply emits_calls. fold (requested self). destruct (requested self).
    + unfold bind.
      pose proof (preserves_load_dataframe not_loader env out
                    ltac:(by intros x) w) as H1.
      by destruct (load_dataframe out env w) as [[df|e] w2].
    + reflexivity.
Qed.

(** One split: no call or one call, for this split; with [overwrite] set,
    a split that is processed to the end was loaded. *)
Lemma process_split_calls env w self s :
  exists l,
    calls l w (snd (DatasetBuilder._process_split s self env w))
    /\ (l = [] \/ l = [s])
    /\ (DatasetBuilder.overwrite self = true ->
        forall self' w',
          DatasetBuilder._process_split s self env w = (Ok self', w') ->
          l = [s]).
Proof.
  destruct (process_split_run env w self s)
    as [(e & w1 & -> & Ht & Hf)|(d & w1 & self1 & Hd & Ht & Hk & Hf & Hs & ->)].
  { exists []. split; [by apply calls_same_trace|]. split; [by left|].
    by intros _ ?? [=]. }
  set (out := DatasetBuilder.output_file self s).
  set (om := joinpath (Path_of d) (DatasetBuilder.file_name self "meta-" s)).
  destruct (same_setup_fields _ _ Hs) as (_&_&_&Ho&_).
  pose proof (fetch_calls s out om self1 env w1) as H1.
  set (l := if negb (fs_exists (fs w1) (resolve env out))
               || DatasetBuilder.overwrite self1
            then [s] else []) in *.
  exists l. split; [|split].
  - change l with ([] ++ l).
    apply (calls_trans [] l w w1); [by apply calls_same_trace|].
    unfold bind.
    destruct (DatasetBuilder.fetch s out om self1 env w1) as [[df|e] w2];
      simpl in H1 |- *; [|done].
    rewrite <- (app_nil_r l).
    apply (calls_trans l [] w1 w2); [exact H1|].
    apply emits_calls. apply finish_emits; by intros.
  - subst l. destruct (negb _ || _); auto.
  - intros Hov _ _ _. subst l. rewrite Ho, Hov. by rewrite orb_true_r.
Qed.

Lemma sourced_splits_cons s v rest :
  sourced_splits ((s, v) :: rest)
  = if is_none v then sourced_splits rest else s :: sourced_splits rest.
Proof. unfold sourced_splits. simpl. by destruct (is_none v). Qed.

(** The loop over the splits. *)
Lemma each_split_calls env sources :
  forall self w,
    exists l,
      calls l w (snd (DatasetBuilder.each_split sources self env w))
      /\ l `sublist_of` sourced_splits sources
      /\ (DatasetBuilder.overwrite self = true ->
          forall self' w',
            DatasetBuilder.each_split sources self env w = (Ok self', w') ->
            l = sourced_splits sources).
Proof.
  induction sources as [|[s v] rest IH]; intros self w.
  - exists []. split; [apply calls_refl|]. split; [done|]. done.
  - rewrite sourced_splits_cons. simpl. destruct (is_none v); [apply IH|].
    destruct (process_split_calls env w self s) as (l1 & C1 & S1 & O1).
    pose proof (process_split_target s self env w) as T1.
    unfold bind.
    destruct (DatasetBuilder._process_split s self env w) as [[self1|e] w1];
      simpl in C1 |- *.
    + specialize (T1 self1 w1 eq_refl).
      destruct (IH self1 w1) as (l2 & C2 & S2 & O2).
      exists (l1 ++ l2). split; [by eapply calls_trans|]. split.
      * destruct S1 as [->| ->]; simpl.
        -- by apply sublist_cons.
        -- by apply sublist_skip.
      * intros Hov self' w' Hr.
        rewrite (O1 Hov self1 w1 eq_refl). simpl. f_equal.
        apply (O2 ltac:(destruct T1 as (_&_&_&->&_); exact Hov) self' w' Hr).
    + exists l1. split; [done|]. split.
      * destruct S1 as [->| ->]; [apply sublist_nil_l|].
        apply sublist_skip, sublist_nil_l.
      * by intros _ ?? [=].
Qed.

Lemma build_calls env self w :
  exists l,
    calls l w (snd (DatasetBuilder.build self env w))
    /\ l `sublist_of` splits_of (DatasetBuilder.fetch_sources self)
    /\ (DatasetBuilder.overwrite self = true ->
        forall self' w',
          DatasetBuilder.build self env w = (Ok self', w') ->
          l = splits_of (DatasetBuilder.fetch_sources self)).
Proof.
  unfold DatasetBuilder.build.
  pose proof (prelude_preserves not_loader env self
                ltac:(by intros c x) ltac:(by intros x) w) as [_ H1].
  pose proof (prelude_returns env self w) as T1.
  destruct (DatasetBuilder.prelude self env w) as [[self1|e] w1] eqn:E1;
    simpl in H1.
  2:{ rewrite (bind_raise _ _ _ _ _ _ E1).
      exists []. split; [by apply emits_calls|].
      split; [apply sublist_nil_l|]. by intros _ ?? [=]. }
  rewrite (bind_run _ _ _ _ _ _ E1).
  specialize (T1 self1 w1 eq_refl).
  destruct T1 as (_&_&_&Hov1&_&_&_&Hfs). rewrite <- Hfs.
  destruct (DatasetBuilder.fetch_sources self1) as [|sources|].
  1,3: exists []; (split; [by apply emits_calls|]);
       (split; [apply sublist_nil_l|]); by intros _ ?? [=].
  rewrite bind_ret_run. simpl.
  destruct (each_split_calls env sources self1 w1) as (l & C & S & O).
  exists l.
  destruct (DatasetBuilder.each_split sources self1 env w1)
    as [[self2|e] w2] eqn:E2; simpl in C.
  2:{ rewrite (bind_raise _ _ _ _ _ _ E2).
      split; [|split; [done|by intros _ ?? [=]]].
      change l with ([] ++ l).
      apply (calls_trans [] l w w1); [by apply emits_calls|done]. }
  rewrite (bind_run _ _ _ _ _ _ E2).
  split; [|split; [done|]].
  - change l with ([] ++ l).
    apply (calls_trans [] l w w1); [by apply emits_calls|].
    rewrite <- (app_nil_r l). apply (calls_trans l [] w1 w2); [done|].
    destruct (DatasetBuilder.summary_info self2); simpl.
    + by exists [EvInfoSave].
    + apply calls_refl.
  - intros Hov self' w' _. rewrite <- Hov1 in Hov.
    by apply (O Hov self2 w2).
Qed.

(** X12. Whatever [build()] does, and whether it returns or raises, the
    loader calls it makes are calls for splits of [data_sources] that have a
    source (an entry whose source is [None] is skipped), in the order of
    the dictionary and at most one per entry. *)
Theorem build_loads_sourced_splits env self w :
  exists evs,
    trace (snd (DatasetBuilder.build self env w)) = trace w ++ evs
    /\ loader_calls evs
       `sublist_of` splits_of (DatasetBuilder.fetch_sources self).
Proof.
  destruct (build_calls env self w) as (l & (evs & Ht & <-) & S & _).
  by exists evs.
Qed.

(** X13. With [overwrite] set, a [build()] that returns has called the
    loader exactly once for every split that has a source, in the order of
    [data_sources], whether or not the output files were there. *)
Theorem overwrite_loads_every_split env self w self' w' :
  DatasetBuilder.overwrite self = true ->
  DatasetBuilder.build self env w = (Ok self', w') ->
  exists evs,
    trace w' = trace w ++ evs
    /\ loader_calls evs = splits_of (DatasetBuilder.fetch_sources self).
Proof.
  intros Hov Hr.
  destruct (build_calls env self w) as (l & (evs & Ht & <-) & _ & O).
  rewrite Hr in Ht. exists evs. split; [done|]. by apply (O Hov self' w').
Qed.

Lemma overwrite_loads_every_split_witness :
  DatasetBuilder.overwrite builder_two = true
  /\ fs_exists (fs w_built)
       (resolve env_load (DatasetBuilder.output_file builder_two "train"))
     = true
  /\ exists self' w',
       DatasetBuilder.build builder_two env_load w_built = (Ok self', w')
       /\ exists evs,
            trace w' = trace w_built ++ evs
            /\ loader_calls evs = ["train"; "test"].
Proof.
  split; [reflexivity|]. split; [vm_compute; reflexivity|].
  run_step H.
  exact (overwrite_loads_every_split env_load builder_two w_built _ _
           eq_refl H).
Defined.


(** ** The saving steps of a split *)

Lemma mem_keys_assoc_set {A} q k (v : A) l :
  mem q (keys (assoc_set k v l)) = mem q (keys l) || String.eqb q k.
Proof.
  unfold mem, keys. induction l as [|[k' v'] r IH]; simpl.
  - by rewrite orb_false_r.
  - destruct (String.eqb k k') eqn:E; simpl.
    + apply String.eqb_eq in E as <-.
      destruct (String.eqb q k); simpl; [done|]. by rewrite orb_false_r.
    + rewrite IH. by rewrite orb_assoc.
Qed.

Lemma mem_keys_assoc {A} q (l : list (string * A)) :
  mem q (keys l) = true <-> assoc q l <> None.
Proof.
  unfold mem, keys. induction l as [|[k' v'] r IH]; simpl; [done|].
  destruct (String.eqb q k'); simpl; [done|]. exact IH.
Qed.

Lemma mem_keys_set_present {A} q k (v : A) l :
  assoc k l <> None -> mem q (keys (assoc_set k v l)) = mem q (keys l).
Proof.
  intros Hk. rewrite mem_keys_assoc_set.
  destruct (String.eqb_spec q k) as [->|Hne]; [|by rewrite orb_false_r].
  apply mem_keys_assoc in Hk. rewrite Hk. done.
Qed.

Lemma set_pipe_arg_ok pipe k v pa env w pa' w' :
  DatasetBuilder.set_pipe_arg pipe k v pa env w = (Ok pa', w') ->
  w' = w
  /\ arg_of pipe k pa' = Some v
  /\ (forall k', k' <> k -> arg_of pipe k' pa' = arg_of pipe k' pa)
  /\ (forall p', p' <> pipe -> assoc p' pa' = assoc p' pa)
  /\ (forall q, mem q (keys pa') = mem q (keys pa)).
Proof.
  unfold DatasetBuilder.set_pipe_arg, arg_of.
  destruct (assoc pipe pa) as [[| d |]|] eqn:E; try done.
  intros [-> ->]%ret_ok. split; [done|].
  rewrite assoc_set_eq. split; [by rewrite assoc_set_eq|].
  split; [by intros k' Hk; rewrite assoc_set_ne|].
  split; [by intros p' Hp; rewrite assoc_set_ne|].
  intros q. apply mem_keys_set_present. by rewrite E.
Qed.

Lemma has_app_here pipe l : DatasetBuilder.has pipe (l ++ [CVal (SStr pipe)]) = true.
Proof.
  unfold DatasetBuilder.has. rewrite existsb_app. simpl.
  rewrite String.eqb_refl. by rewrite orb_true_r.
Qed.

Lemma has_app_l q l l' :
  DatasetBuilder.has q l = true -> DatasetBuilder.has q (l ++ l') = true.
Proof.
  unfold DatasetBuilder.has. rewrite existsb_app. by intros ->.
Qed.

Lemma append_pipe_ok key pipe l pa l' pa' :
  DatasetBuilder.append_pipe key pipe l pa = (l', pa') ->
  DatasetBuilder.has pipe l' = true
  /\ (forall p', p' <> key -> assoc p' pa' = assoc p' pa)
  /\ (forall q, mem q (keys pa') = mem q (keys pa))
  /\ (DatasetBuilder.has pipe l = true -> l' = l)
  /\ (forall q, DatasetBuilder.has q l = true ->
                DatasetBuilder.has q l' = true).
Proof.
  unfold DatasetBuilder.append_pipe.
  destruct (DatasetBuilder.has pipe l) eqn:Eh.
  { intros [= <- <-]. by repeat split. }
  intros H.
  assert (Hpa : (forall p', p' <> key -> assoc p' pa' = assoc p' pa)
                /\ (forall q, mem q (keys pa') = mem q (keys pa))
                /\ l' = l ++ [CVal (SStr pipe)]).
  { destruct (assoc key pa) as [[| |lst]|] eqn:E; injection H as <- <-;
      try by repeat split.
    split; [by intros p' Hp; rewrite assoc_set_ne|].
    split; [|done]. intros q. apply mem_keys_set_present. by rewrite E. }
  destruct Hpa as (H1 & H2 & ->).
  split; [apply has_app_here|]. split; [done|]. split; [done|].
  split; [done|]. intros q. apply has_app_l.
Qed.

Lemma arg_of_same pipe k pa pa' :
  assoc pipe pa' = assoc pipe pa -> arg_of pipe k pa' = arg_of pipe k pa.
Proof. unfold arg_of. by intros ->. Qed.

(** What [prepare_pipes] leaves behind when it returns. *)
Lemma prepare_pipes_post env s od o om self w self1 w1 :
  DatasetBuilder.prepare_pipes s od o om self env w = (Ok self1, w1) ->
  (forall q, configured q self1 = configured q self)
  /\ (configured "save_metadata" self = true ->
      DatasetBuilder.has "save_metadata"
        (DatasetBuilder.transform_pipeline self1) = true
      /\ pipe_arg "save_metadata" "filepath" self1
         = Some (CVal (SStr (str_of_path om)))
      /\ pipe_arg "save_metadata" "column_info" self1
         = Some (DatasetBuilder.column_info self)
      /\ pipe_arg "save_metadata" "split_name" self1 = Some (CVal (SStr s)))
  /\ (configured "save_samples" self = true ->
      DatasetBuilder.has "save_samples"
        (DatasetBuilder.process_pipeline self1) = true
      /\ pipe_arg "save_samples" "sample_file_prefix" self1
         = Some (CVal (SStr (str_of_path od +:+ "/sample-"
                     +:+ fmt_opt (DatasetBuilder.name self)
                     +:+ "-" +:+ s +:+ "-"))))
  /\ (configured "save_dataframe" self = true ->
      DatasetBuilder.has "save_dataframe"
        (DatasetBuilder.process_pipeline self1) = true
      /\ pipe_arg "save_dataframe" "filepath" self1
         = Some (CVal (SStr (str_of_path o))))
  /\ ((configured "save_metadata" self = true ->
       DatasetBuilder.has "save_metadata"
         (DatasetBuilder.transform_pipeline self) = true) ->
      DatasetBuilder.transform_pipeline self1
      = DatasetBuilder.transform_pipeline self)
  /\ ((configured "save_samples" self = true ->
       DatasetBuilder.has "save_samples"
         (DatasetBuilder.process_pipeline self) = true) ->
      (configured "save_dataframe" self = true ->
       DatasetBuilder.has "save_dataframe"
         (DatasetBuilder.process_pipeline self) = true) ->
      DatasetBuilder.process_pipeline self1
      = DatasetBuilder.process_pipeline self).
Proof.
  unfold DatasetBuilder.prepare_pipes, configured, pipe_arg.
  set (pa0 := DatasetBuilder.pipeline_args self).
  set (tp0 := DatasetBuilder.transform_pipeline self).
  set (pp0 := DatasetBuilder.process_pipeline self).
  intros H.
  (* save_metadata *)
  inv_bind H as r1 wa H1. destruct r1 as [tp1 pa1].
  assert (S1 : wa = w
    /\ (forall q, mem q (keys pa1) = mem q (keys pa0))
    /\ (forall p', p' <> "_transform_" -> p' <> "save_metadata" ->
          assoc p' pa1 = assoc p' pa0)
    /\ (mem "save_metadata" (keys pa0) = true ->
        DatasetBuilder.has "save_metadata" tp1 = true
        /\ arg_of "save_metadata" "filepath" pa1
           = Some (CVal (SStr (str_of_path om)))
        /\ arg_of "save_metadata" "column_info" pa1
           = Some (DatasetBuilder.column_info self)
        /\ arg_of "save_metadata" "split_name" pa1 = Some (CVal (SStr s)))
    /\ ((mem "save_metadata" (keys pa0) = true ->
         DatasetBuilder.has "save_metadata" tp0 = true) -> tp1 = tp0)).
  { destruct (mem "save_metadata" (keys pa0)) eqn:Em.
    - destruct (DatasetBuilder.append_pipe _ _ _ _) as [tpa paa] eqn:Ea.
      apply append_pipe_ok in Ea as (Ah & Ao & Am & As & _).
      inv_bind H1 as pab wb Hb.
      apply set_pipe_arg_ok in Hb as (-> & B1 & B2 & B3 & B4).
      inv_bind H1 as pac wc Hc.
      apply set_pipe_arg_ok in Hc as (-> & C1 & C2 & C3 & C4).
      inv_bind H1 as pad wd Hd.
      apply set_pipe_arg_ok in Hd as (-> & D1 & D2 & D3 & D4).
      apply ret_ok in H1 as [[= -> ->] ->].
      split; [done|]. split.
      { intros q. by rewrite D4, C4, B4, Am. }
      split.
      { intros p' P1 P2. by rewrite D3, C3, B3, Ao. }
      split.
      { intros _. split; [done|]. split.
        - by rewrite D2, C2, B1.
        - split; [by rewrite D2, C1|done]. }
      intros Hh. by apply As, Hh.
    - apply ret_ok in H1 as [[= -> ->] ->]. by repeat split. }
  destruct S1 as (-> & M1 & O1 & G1 & T1). simpl in H.
  (* save_samples *)
  inv_bind H as r2 wa H2. destruct r2 as [pp2 pa2].
  assert (S2 : wa = w
    /\ (forall q, mem q (keys pa2) = mem q (keys pa1))
    /\ (forall p', p' <> "_preprocess_" -> p' <> "save_samples" ->
          assoc p' pa2 = assoc p' pa1)
    /\ (mem "save_samples" (keys pa1) = true ->
        DatasetBuilder.has "save_samples" pp2 = true
        /\ arg_of "save_samples" "sample_file_prefix" pa2
           = Some (CVal (SStr (str_of_path od +:+ "/sample-"
                       +:+ fmt_opt (DatasetBuilder.name self)
                       +:+ "-" +:+ s +:+ "-"))))
    /\ ((mem "save_samples" (keys pa1) = true ->
         DatasetBuilder.has "save_samples" pp0 = true) -> pp2 = pp0)
    /\ (forall q, DatasetBuilder.has q pp0 = true ->
                  DatasetBuilder.has q pp2 = true)).
  { destruct (mem "save_samples" (keys pa1)) eqn:Em.
    - destruct (DatasetBuilder.append_pipe _ _ _ _) as [ppa paa] eqn:Ea.
      apply append_pipe_ok in Ea as (Ah & Ao & Am & As & Ak).
      inv_bind H2 as pab wb Hb.
      apply set_pipe_arg_ok in Hb as (-> & B1 & B2 & B3 & B4).
      apply ret_ok in H2 as [[= -> ->] ->].
      split; [done|]. split.
      { intros q. by rewrite B4, Am. }
      split.
      { intros p' P1 P2. by rewrite B3, Ao. }
      split; [done|]. split; [|done].
      intros Hh. by apply As, Hh.
    - apply ret_ok in H2 as [[= -> ->] ->]. by repeat split. }
  destruct S2 as (-> & M2 & O2 & G2 & T2 & K2). simpl in H.
  (* save_dataframe *)
  inv_bind H as r3 wa H3. destruct r3 as [pp3 pa3].
  assert (S3 : wa = w
    /\ (forall q, mem q (keys pa3) = mem q (keys pa2))
    /\ (forall p', p' <> "_preprocess_" -> p' <> "save_dataframe" ->
          assoc p' pa3 = assoc p' pa2)
    /\ (mem "save_dataframe" (keys pa2) = true ->
        DatasetBuilder.has "save_dataframe" pp3 = true
        /\ arg_of "save_dataframe" "filepath" pa3
           = Some (CVal (SStr (str_of_path o))))
    /\ ((mem "save_dataframe" (keys pa2) = true ->
         DatasetBuilder.has "save_dataframe" pp2 = true) -> pp3 = pp2)
    /\ (forall q, DatasetBuilder.has q pp2 = true ->
                  DatasetBuilder.has q pp3 = true)).
  { destruct (mem "save_dataframe" (keys pa2)) eqn:Em.
    - destruct (DatasetBuilder.append_pipe _ _ _ _) as [ppa paa] eqn:Ea.
      apply append_pipe_ok in Ea as (Ah & Ao & Am & As & Ak).
      inv_bind H3 as pab wb Hb.
      apply set_pipe_arg_ok in Hb as (-> & B1 & B2 & B3 & B4).
      inv_bind H3 as ctk wc Hc.
      assert (wc = w) as ->.
      { destruct (DatasetBuilder.column_info self) as [| ci |]; try done.
        destruct (truthy _); [|by apply ret_ok in Hc as [_ ->]].
        destruct (get_or "data" (CVal SNone) ci); try done.
        by apply ret_ok in Hc as [_ ->]. }
      inv_bind H3 as pad wd Hd.
      apply set_pipe_arg_ok in Hd as (-> & D1 & D2 & D3 & D4).
      apply ret_ok in H3 as [[= -> ->] ->].
      split; [done|]. split.
      { intros q. by rewrite D4, B4, Am. }
      split.
      { intros p' P1 P2. by rewrite D3, B3, Ao. }
      split.
      { intros _. split; [done|]. by rewrite D2, B1. }
      split; [|done]. intros Hh. by apply As, Hh.
    - apply ret_ok in H3 as [[= -> ->] ->]. by repeat split. }
  destruct S3 as (-> & M3 & O3 & G3 & T3 & K3). simpl in H.
  apply ret_ok in H as [-> ->]. simpl.
  split.
  { intros q. by rewrite M3, M2, M1. }
  split.
  { intros Hm. destruct (G1 Hm) as (Ga & Gb & Gc & Gd).
    split; [done|].
    assert (Hsame : assoc "save_metadata" pa3 = assoc "save_metadata" pa1)
      by (by rewrite O3, O2).
    unfold arg_of in *. by rewrite Hsame. }
  split.
  { intros Hm. rewrite <- M1 in Hm. destruct (G2 Hm) as (Ga & Gb).
    split; [by apply K3|].
    assert (Hsame : assoc "save_samples" pa3 = assoc "save_samples" pa2)
      by (by rewrite O3).
    unfold arg_of in *. by rewrite Hsame. }
  split.
  { intros Hm. rewrite <- M1, <- M2 in Hm. by apply G3. }
  split; [done|].
  intros Hs Hd. rewrite T3, T2; [done| |].
  - intros Hm. apply Hs. by rewrite <- M1.
  - intros Hm. rewrite T2.
    + apply Hd. by rewrite <- M1, <- M2.
    + intros Hm'. apply Hs. by rewrite <- M1.
Qed.

Lemma finish_ok s df self env w self' w' :
  DatasetBuilder.finish s df self env w = (Ok self', w') -> self' = self.
Proof.
  unfold DatasetBuilder.finish. destruct df as [df|].
  - intros H. inv_bind H as df1 w1 H1. inv_bind H as u w2 H2.
    by apply ret_ok in H as [-> _].
  - by intros [-> _]%ret_ok.
Qed.

(** A split that is processed to the end has been through
    [prepare_pipes], whose result is the builder that comes back. *)
Lemma process_split_prepared env w self s self' w' :
  DatasetBuilder._process_split s self env w = (Ok self', w') ->
  exists d w1,
    DatasetBuilder.data_dir self = Some d
    /\ DatasetBuilder.prepare_pipes s (Path_of d)
         (joinpath (Path_of d) (DatasetBuilder.file_name self "" s))
         (joinpath (Path_of d) (DatasetBuilder.file_name self "meta-" s))
         self env w1
       = (Ok self', w1).
Proof.
  unfold DatasetBuilder._process_split. intros H.
  inv_bind H as od w1 H1.
  destruct (DatasetBuilder.data_dir self) as [d|]; [|done].
  apply ret_ok in H1 as [-> ->].
  inv_bind H as isd w2 H2. inv_bind H as u w3 H3.
  inv_bind H as self1 w4 H4. inv_bind H as df w5 H5.
  apply finish_ok in H as ->.
  destruct (prepare_pipes_run env s (Path_of d)
              (joinpath (Path_of d) (DatasetBuilder.file_name self "" s))
              (joinpath (Path_of d) (DatasetBuilder.file_name self "meta-" s))
              self w3) as [(self2 & Hp & _)|(e & Hp)];
    rewrite Hp in H4; [|done].
  injection H4 as -> ->. by exists d, w4.
Qed.

(** X14. When [_process_split] returns, every saving step that is
    configured in [pipeline_args] is in its pipeline and has been told the
    files of this split: [save_metadata] (transform pipeline) the meta file,
    the column info and the split name, [save_samples] (process pipeline)
    the sample file prefix, [save_dataframe] (process pipeline) the output
    file of the split. *)
Theorem saving_steps_know_their_files env w self s self' w' :
  DatasetBuilder._process_split s self env w = (Ok self', w') ->
  (configured "save_metadata" self = true ->
   DatasetBuilder.has "save_metadata"
     (DatasetBuilder.transform_pipeline self') = true
   /\ pipe_arg "save_metadata" "filepath" self'
      = Some (CVal (SStr (str_of_path (output_meta_file self s))))
   /\ pipe_arg "save_metadata" "column_info" self'
      = Some (DatasetBuilder.column_info self)
   /\ pipe_arg "save_metadata" "split_name" self' = Some (CVal (SStr s)))
  /\ (configured "save_samples" self = true ->
      DatasetBuilder.has "save_samples"
        (DatasetBuilder.process_pipeline self') = true
      /\ pipe_arg "save_samples" "sample_file_prefix" self'
         = Some (CVal (SStr (sample_file_prefix self s))))
  /\ (configured "save_dataframe" self = true ->
      DatasetBuilder.has "save_dataframe"
        (DatasetBuilder.process_pipeline self') = true
      /\ pipe_arg "save_dataframe" "filepath" self'
         = Some (CVal (SStr (str_of_path
                               (DatasetBuilder.output_file self s))))).
Proof.
  intros H.
  apply process_split_prepared in H as (d & w1 & Hd & H).
  apply prepare_pipes_post in H as (_ & G1 & G2 & G3 & _).
  unfold output_meta_file, sample_file_prefix, output_dir,
    DatasetBuilder.output_file.
  rewrite Hd. simpl. split; [exact G1|]. split; [exact G2|exact G3].
Qed.

Lemma saving_steps_know_their_files_witness :
  exists self' w',
    DatasetBuilder._process_split "train" builder_saving env_load w_built
    = (Ok self', w')
    /\ DatasetBuilder.transform_pipeline self'
       = [CVal (SStr "normalize"); CVal (SStr "save_metadata")]
    /\ DatasetBuilder.process_pipeline self'
       = [CVal (SStr "save_samples"); CVal (SStr "save_dataframe")]
    /\ pipe_arg "save_metadata" "filepath" self'
       = Some (CVal (SStr "/data/meta-exp-train.parquet"))
    /\ pipe_arg "save_dataframe" "filepath" self'
       = Some (CVal (SStr "/data/exp-train.parquet"))
    /\ pipe_arg "save_samples" "sample_file_prefix" self'
       = Some (CVal (SStr "/data/sample-exp-train-")).
Proof.
  run_step H.
  destruct (saving_steps_know_their_files _ _ _ _ _ _ H) as (G1 & G2 & G3).
  split; [vm_compute; reflexivity|]. split; [vm_compute; reflexivity|].
  split; [apply (G1 eq_refl)|]. split; [apply (G3 eq_refl)|].
  apply (G2 eq_refl).
Defined.

(** X15. The saving steps are appended once: a builder that has been
    through one split keeps its transform and process pipelines as they are
    through every later split, whatever its name. *)
Theorem pipelines_grow_once env w self s1 self1 w1 env' w' s2 self2 w2 :
  DatasetBuilder._process_split s1 self env w = (Ok self1, w1) ->
  DatasetBuilder._process_split s2 self1 env' w' = (Ok self2, w2) ->
  DatasetBuilder.transform_pipeline self2
  = DatasetBuilder.transform_pipeline self1
  /\ DatasetBuilder.process_pipeline self2
     = DatasetBuilder.process_pipeline self1.
Proof.
  intros H1 H2.
  apply process_split_prepared in H1 as (d1 & wa & _ & H1).
  apply process_split_prepared in H2 as (d2 & wb & _ & H2).
  apply prepare_pipes_post in H1 as (M & G1 & G2 & G3 & _).
  apply prepare_pipes_post in H2 as (_ & _ & _ & _ & T & P).
  split.
  - apply T. intros Hm. rewrite M in Hm. by apply G1.
  - apply P; intros Hm; rewrite M in Hm; [by apply G2|by apply G3].
Qed.

Lemma pipelines_grow_once_witness :
  exists self1 w1,
    DatasetBuilder._process_split "train" builder_saving env_load w_built
    = (Ok self1, w1)
    /\ exists self2 w2,
         DatasetBuilder._process_split "test" self1 env_load w1
         = (Ok self2, w2)
         /\ DatasetBuilder.transform_pipeline self2
            = [CVal (SStr "normalize"); CVal (SStr "save_metadata")]
         /\ DatasetBuilder.process_pipeline self2
            = [CVal (SStr "save_samples"); CVal (SStr "save_dataframe")]
         /\ DatasetBuilder.transform_pipeline builder_saving
            <> DatasetBuilder.transform_pipeline self1.
Proof.
  run_step H1. run_step H2.
  destruct (pipelines_grow_once _ _ _ _ _ _ _ _ _ _ _ H1 H2) as [-> ->].
  split; [vm_compute; reflexivity|]. split; [vm_compute; reflexivity|].
  vm_compute. discriminate.
Defined.


(** ** The constructor of the builder and the entry points *)

Lemma builder_init_pure args env w r w' :
  DatasetBuilder.__init__ args env w = (r, w') -> w' = w.
Proof.
  unfold DatasetBuilder.__init__, bind.
  destruct (assoc "fetch" args) as [[| fa |]|]; try by intros [= _ <-].
  simpl. destruct (get_or "pipeline" (CDict []) args);
    by intros [= _ <-].
Qed.

Lemma builder_init_fetch args env w self w' :
  DatasetBuilder.__init__ args env w = (Ok self, w') ->
  exists fa,
    assoc "fetch" args = Some (CDict fa)
    /\ DatasetBuilder.fetch_sources self
       = match get_or "data_sources" (CVal SNone) fa with
         | CVal (SStr s) => CDict [("train", CList [CVal (SStr s)])]
         | CList l => CDict [("train", CList l)]
         | c => c
         end.
Proof.
  unfold DatasetBuilder.__init__. intros H.
  inv_bind H as fa w1 H1.
  destruct (assoc "fetch" args) as [[| fa' |]|]; try done.
  apply ret_ok in H1 as [-> ->]. exists fa'. split; [done|].
  inv_bind H as pa w2 H2. by apply ret_ok in H as [-> _].
Qed.

(** X16. A string [data_sources] is the one source of the train split, a
    list [data_sources] is the sources of the train split: the builder made
    from such arguments loads no split but [train], and that one at most
    once in a [build()]. *)
Theorem plain_sources_are_train args fa env w self w' :
  assoc "fetch" args = Some (CDict fa) ->
  ((exists s, assoc "data_sources" fa = Some (CVal (SStr s)))
   \/ (exists l, assoc "data_sources" fa = Some (CList l))) ->
  DatasetBuilder.__init__ args env w = (Ok self, w') ->
  w' = w
  /\ splits_of (DatasetBuilder.fetch_sources self) = ["train"]
  /\ forall env1 w1,
       exists evs,
         trace (snd (DatasetBuilder.build self env1 w1)) = trace w1 ++ evs
         /\ (loader_calls evs = [] \/ loader_calls evs = ["train"]).
Proof.
  intros Hf Hs H. split; [by eapply builder_init_pure|].
  destruct (builder_init_fetch _ _ _ _ _ H) as (fa' & Hf' & Hsrc).
  rewrite Hf in Hf'. injection Hf' as <-.
  assert (Hsp : splits_of (DatasetBuilder.fetch_sources self) = ["train"]).
  { rewrite Hsrc. unfold get_or.
    by destruct Hs as [[s ->]|[l ->]]. }
  split; [done|]. intros env1 w1.
  destruct (build_calls env1 self w1) as (l & (evs & Ht & <-) & S & _).
  exists evs. split; [done|]. rewrite Hsp in S.
  apply sublist_cons_r in S as [S|(l' & -> & S)].
  - left. by apply sublist_nil_r.
  - right. apply sublist_nil_r in S as ->. done.
Qed.

Lemma plain_sources_are_train_witness :
  exists self,
    DatasetBuilder.__init__
      [("name", CVal (SStr "exp")); ("data_dir", CVal (SStr "/data"));
       ("fetch", CDict [("data_sources", CVal (SStr "src.csv"))])]
      env_load w0
    = (Ok self, w0)
    /\ DatasetBuilder.fetch_sources self
       = CDict [("train", CList [CVal (SStr "src.csv")])]
    /\ exists evs,
         trace (snd (DatasetBuilder.build self env_load w0)) = trace w0 ++ evs
         /\ (loader_calls evs = [] \/ loader_calls evs = ["train"]).
Proof.
  eexists. split; [vm_compute; reflexivity|]. split; [reflexivity|].
  refine (proj2 (proj2 (plain_sources_are_train
            [("name", CVal (SStr "exp")); ("data_dir", CVal (SStr "/data"));
             ("fetch", CDict [("data_sources", CVal (SStr "src.csv"))])]
            [("data_sources", CVal (SStr "src.csv"))]
            env_load w0 _ w0 eq_refl _ _)) env_load w0).
  - left. by eexists.
  - vm_compute. reflexivity.
Defined.

Lemma entry_point_shape (f : kwargs -> M unit) section key :
  (forall args,
     f args
     = (cfg <- match get_or section (CDict []) args with
               | CDict d => ret (get_or key (CVal SNone) d)
               | _ => raise (AttributeError "get")
               end ;;
        if truthy cfg
        then
          match cfg with
          | CDict d =>
              db <- DatasetBuilder.__init__ d ;;
              DatasetBuilder.build db ;;;
              ret tt
          | _ => raise (TypeError "argument after ** must be a mapping")
          end
        else ret tt)) ->
  entry_point_edges f section key.
Proof.
  intros Hf args env w. rewrite Hf. unfold get_or.
  split; [by intros ->|].
  split.
  { intros c -> Hc. simpl. destruct c as [| d |]; try done.
    by destruct (Hc d). }
  split.
  { intros d -> Ht. simpl. rewrite bind_ret_run.
    unfold get_or in Ht. by rewrite Ht. }
  split.
  { intros d c -> Hk Ht Hc. simpl. rewrite bind_ret_run, Hk. simpl.
    rewrite Ht. destruct c as [| x |]; try done. by destruct (Hc x). }
  split.
  { intros d x -> Hk Hx Hfa. simpl. rewrite bind_ret_run, Hk. simpl.
    destruct x as [|kv x]; [done|].
    unfold DatasetBuilder.__init__.
    set (x' := kv :: x) in *. unfold bind.
    destruct (assoc "fetch" x') as [[| fa |]|]; try done.
    by destruct (Hfa fa). }
  intros d x db w1 -> Hk Hx Hi. simpl. rewrite bind_ret_run, Hk. simpl.
  destruct x as [|kv x]; [done|].
  rewrite (bind_run _ _ _ _ _ _ Hi).
  apply builder_init_pure in Hi as Hw. subst w1.
  destruct (build_calls env db w) as (l & (evs & Ht & <-) & S & _).
  exists evs. split; [|done].
  unfold bind. by destruct (DatasetBuilder.build db env w) as [[]].
Qed.

(** X17. The entry points [build_corpus], [build_t5] and [build_simple]
    read [corpus.builtin], [dataset.t5] and [dataset.simple]: without the
    section, or with no or an empty entry in it, nothing is built and
    nothing happens; a section that is no mapping ([None] included) raises
    [AttributeError], an entry that is no mapping [TypeError], an entry
    without a [fetch] mapping [AttributeError], each before anything
    happens; otherwise the loader is called for splits of the entry's
    sources only. *)
Theorem entry_points_at_the_edges :
  entry_point_edges build_corpus "corpus" "builtin"
  /\ entry_point_edges build_t5 "dataset" "t5"
  /\ entry_point_edges build_simple "dataset" "simple".
Proof.
  split; [|split]; apply entry_point_shape; intros args; reflexivity.
Qed.

Lemma entry_points_at_the_edges_witness :
  build_corpus [("verbose", CVal (SBool true))] env_load w_built
  = (Ok tt, w_built)
  /\ build_t5 [("dataset", CVal SNone)] env_load w_built
     = (Raise (AttributeError "get"), w_built)
  /\ build_simple
       [("dataset", CDict [("t5", CDict [("name", CVal (SStr "exp"))])])]
       env_load w_built
     = (Ok tt, w_built)
  /\ build_t5
       [("dataset", CDict [("t5", CDict [("name", CVal (SStr "exp"))])])]
       env_load w_built
     = (Raise (AttributeError "get"), w_built).
Proof.
  destruct entry_points_at_the_edges as (Hc & Ht & Hs).
  split; [|split; [|split]].
  - exact (proj1 (Hc [("verbose", CVal (SBool true))] env_load w_built)
             eq_refl).
  - refine (proj1 (proj2 (Ht [("dataset", CVal SNone)] env_load w_built))
              (CVal SNone) eq_refl _).
    intros d. discriminate.
  - exact (proj1 (proj2 (proj2
             (Hs [("dataset", CDict [("t5", CDict [("name", CVal (SStr "exp"))])])]
                env_load w_built)))
             [("t5", CDict [("name", CVal (SStr "exp"))])] eq_refl eq_refl).
  - refine (proj1 (proj2 (proj2 (proj2 (proj2
              (Ht [("dataset", CDict [("t5", CDict [("name", CVal (SStr "exp"))])])]
                 env_load w_built)))))
              [("t5", CDict [("name", CVal (SStr "exp"))])]
              [("name", CVal (SStr "exp"))] eq_refl eq_refl _ _).
    + discriminate.
    + intros fa. discriminate.
Defined.

(** ** The tables of a dataset *)

Lemma getitem_with_loaded b split self :
  Dataset.getitem split (Dataset.with_loaded b self)
  = Dataset.getitem split self.
Proof. reflexivity. Qed.

(** The loop over the data files fills the splits of its files and leaves
    the other splits alone. *)
Lemma load_each_splits files : forall self env w self' w',
  Dataset.load_each files self env w = (Ok self', w') ->
  forall split,
    (mem split (keys files) = true ->
     exists df, Dataset.getitem split self' = Ok df)
    /\ (mem split (keys files) = false ->
        Dataset.getitem split self' = Dataset.getitem split self).
Proof.
  induction files as [|[s f] rest IH]; intros self env w self' w' H split;
    simpl in H.
  - apply ret_ok in H as [-> ->]. by split.
  - inv_bind H as p w1 H1. inv_bind H as df w2 H2. inv_bind H as df' w3 H3.
    destruct (IH _ _ _ _ _ H split) as [I1 I2].
    unfold mem, keys in *. simpl.
    destruct (String.eqb split s) eqn:E; simpl.
    + split; [|done]. intros _.
      destruct (existsb (String.eqb split) (map fst rest)) eqn:Er.
      * by apply I1.
      * rewrite (I2 eq_refl). unfold Dataset.getitem. simpl.
        apply String.eqb_eq in E as ->. rewrite assoc_set_eq. by eexists.
    + split; [exact I1|]. intros Hn. rewrite (I2 Hn).
      unfold Dataset.getitem. simpl. rewrite assoc_set_ne; [done|].
      by apply String.eqb_neq.
Qed.

(** X18. After a first [load()] that returns, [self[split]] is a table for
    every split of [data_files], and for any other split it is what it was
    before: a [KeyError] on a dataset that had no tables. *)
Theorem load_fills_the_splits env w self self1 w1 :
  Dataset._loaded self = false ->
  Dataset.load self env w = (Ok self1, w1) ->
  forall split,
    (mem split (keys (Dataset.data_files self)) = true ->
     exists df, Dataset.getitem split self1 = Ok df)
    /\ (mem split (keys (Dataset.data_files self)) = false ->
        Dataset.getitem split self1 = Dataset.getitem split self)
    /\ (mem split (keys (Dataset.data_files self)) = false ->
        Dataset.splits self = [] ->
        Dataset.getitem split self1 = Raise (KeyError split)).
Proof.
  intros Hu H split. unfold Dataset.load in H. rewrite Hu in H.
  inv_bind H as s w2 H2. apply ret_ok in H as [-> ->].
  rewrite getitem_with_loaded.
  destruct (load_each_splits _ _ _ _ _ _ H2 split) as [I1 I2].
  split; [done|]. split; [done|].
  intros Hn He. rewrite (I2 Hn). unfold Dataset.getitem. by rewrite He.
Qed.

Lemma load_fills_the_splits_witness :
  Dataset._loaded dataset_two = false
  /\ exists self1 w1,
       Dataset.load dataset_two env0 w_splits = (Ok self1, w1)
       /\ (exists df, Dataset.getitem "test" self1 = Ok df)
       /\ Dataset.getitem "dev" self1 = Raise (KeyError "dev").
Proof.
  split; [reflexivity|].
  run_step H.
  pose proof (load_fills_the_splits env0 w_splits dataset_two _ _ eq_refl H)
    as G.
  split.
  - exact (proj1 (G "test") eq_refl).
  - exact (proj2 (proj2 (G "dev")) eq_refl eq_refl).
Defined.


(** ** The constructor of a dataset *)

Lemma load_each_autoload files : forall self env w self' w',
  Dataset.load_each files self env w = (Ok self', w') ->
  Dataset.autoload self' = Dataset.autoload self.
Proof.
  induction files as [|[split f] rest IH]; intros self env w self' w' H;
    simpl in H.
  - by apply ret_ok in H as [-> _].
  - inv_bind H as p w1 H1. inv_bind H as df w2 H2. inv_bind H as df' w3 H3.
    apply IH in H. by destruct self.
Qed.

Lemma ekonf_load_pure p env w r w' : eKonf.load p env w = (r, w') -> w' = w.
Proof.
  unfold eKonf.load. destruct (fs w !! resolve env p) as [[|[]]|];
    by intros [= _ <-].
Qed.

(** The constructor, taken apart: everything before the autoload reads the
    arguments and the info file, and changes nothing. *)
Lemma dataset_init_inv args env w self w' :
  Dataset.__init__ args env w = (Ok self, w') ->
  exists self0,
    Dataset.autoload self0
    = truthy (get_or "autoload" (CVal (SBool false)) args)
    /\ Dataset.splits self0 = []
    /\ Dataset._loaded self0 = false
    /\ (if Dataset.autoload self0 then Dataset.load self0 else ret self0)
         env w
       = (Ok self, w').
Proof.
  unfold Dataset.__init__. intros H.
  inv_bind H as n w1 H1.
  assert (w1 = w) as ->.
  { destruct (assoc "name" args) as [[[| | |]| |[|[[| | |]| |]]]|];
      try done; by apply ret_ok in H1 as [_ ->]. }
  inv_bind H as d w2 H2.
  assert (w2 = w) as ->.
  { destruct (assoc "data_dir" args) as [[[| | |]| |]|];
      try done; by apply ret_ok in H2 as [_ ->]. }
  inv_bind H as found w3 H3. injection H3 as <- <-.
  inv_bind H as info w4 H4.
  assert (w4 = w) as ->.
  { destruct (fs_is_file _ _); [by apply ekonf_load_pure in H4|].
    by apply ret_ok in H4 as [_ ->]. }
  inv_bind H as args' w5 H5.
  assert (w5 = w) as ->.
  { destruct (truthy info); [|by apply ret_ok in H5 as [_ ->]].
    destruct (merge_tree _ _); try done. by apply ret_ok in H5 as [_ ->]. }
  inv_bind H as ci w6 H6.
  assert (w6 = w) as ->.
  { destruct (get_or "column_info" _ _) as [[| | |]| |]; try done.
    by apply ret_ok in H6 as [_ ->]. }
  inv_bind H as ks w7 H7.
  assert (w7 = w) as ->.
  { destruct (assoc "keys" ci) as [[| |]|]; try done.
    by apply ret_ok in H7 as [_ ->]. }
  inv_bind H as ids w8 H8.
  assert (w8 = w) as ->.
  { destruct (assoc "id" ks) as [[[| | |]| |]|]; try done;
      by apply ret_ok in H8 as [_ ->]. }
  inv_bind H as pa w9 H9.
  assert (w9 = w) as ->.
  { destruct (get_or "pipeline" _ _); try done.
    by apply ret_ok in H9 as [_ ->]. }
  eexists. split; [|split; [|split; [|exact H]]]; reflexivity.
Qed.

(** X19. A dataset is loaded by its constructor when, and only when,
    [autoload] is set in the arguments: without it the new dataset has no
    table ([self[split]] raises [KeyError] for every split) and the
    constructor has changed nothing and read no table; with it the dataset
    comes back loaded, with a table for every split of its data files. *)
Theorem autoload_loads env w args self w' :
  Dataset.__init__ args env w = (Ok self, w') ->
  Dataset.autoload self = truthy (get_or "autoload" (CVal (SBool false)) args)
  /\ (Dataset.autoload self = false ->
      w' = w /\ Dataset._loaded self = false
      /\ forall split, Dataset.getitem split self = Raise (KeyError split))
  /\ (Dataset.autoload self = true ->
      Dataset._loaded self = true
      /\ forall split,
           mem split (keys (Dataset.data_files self)) = true ->
           exists df, Dataset.getitem split self = Ok df).
Proof.
  intros H.
  apply dataset_init_inv in H as (self0 & Ha & Hs & Hl & H).
  destruct (Dataset.autoload self0) eqn:E.
  - pose proof (load_sets_loaded _ _ _ _ _ H) as Hl1.
    assert (Hsame : Dataset.autoload self = true
                    /\ Dataset.data_files self = Dataset.data_files self0).
    { unfold Dataset.load in H. rewrite Hl in H.
      inv_bind H as s w2 H2. apply ret_ok in H as [-> ->].
      pose proof (load_each_autoload _ _ _ _ _ _ H2) as A.
      apply load_each_loaded in H2 as [_ D]. simpl.
      by rewrite A, D, E. }
    destruct Hsame as [A D]. rewrite A, <- Ha.
    split; [done|]. split; [done|]. intros _. split; [done|].
    intros split Hm. rewrite D in Hm.
    unfold Dataset.load in H. rewrite Hl in H.
    inv_bind H as s w2 H2. apply ret_ok in H as [-> ->].
    rewrite getitem_with_loaded.
    by apply (load_each_splits _ _ _ _ _ _ H2 split).
  - apply ret_ok in H as [-> ->]. rewrite E, <- Ha.
    split; [done|]. split; [|done]. intros _. split; [done|].
    split; [done|]. intros split. unfold Dataset.getitem. by rewrite Hs.
Qed.

Lemma autoload_loads_witness :
  exists self w',
    Dataset.__init__ dataset_args env0 w_splits = (Ok self, w')
    /\ Dataset._loaded self = true
    /\ exists df, Dataset.getitem "test" self = Ok df.
Proof.
  run_step H.
  destruct (autoload_loads env0 w_splits dataset_args _ _ H) as (A & _ & G).
  split; [exact (proj1 (G eq_refl))|].
  exact (proj2 (G eq_refl) "test" eq_refl).
Defined.

(** X20. Column information is required, and is looked for after the info
    file: with a name and a data directory, no info file in place and no
    [column_info] in the arguments (or [None] for it), the constructor
    raises [ValueError("Column info can't be None")], and nothing has
    changed. *)
Theorem column_info_required env w args n d :
  assoc "name" args = Some (CVal (SStr n)) ->
  assoc "data_dir" args = Some (CVal (SStr d)) ->
  fs_is_file (fs w) (resolve env (info_path args n d)) = false ->
  get_or "column_info" (CVal SNone) args = CVal SNone ->
  Dataset.__init__ args env w
  = (Raise (ValueError "Column info can't be None"), w).
Proof.
  intros Hn Hd Hf Hc. unfold Dataset.__init__.
  rewrite Hn, bind_ret_run, Hd, bind_ret_run.
  unfold info_path in Hf. unfold bind at 1, is_file. rewrite Hf.
  rewrite bind_ret_run. simpl. rewrite bind_ret_run. by rewrite Hc.
Qed.

Lemma column_info_required_witness :
  Dataset.__init__
    [("name", CVal (SStr "exp")); ("data_dir", CVal (SStr "/data"))]
    env0 w_splits
  = (Raise (ValueError "Column info can't be None"), w_splits).
Proof.
  apply (column_info_required env0 w_splits _ "exp" "/data");
    [reflexivity|reflexivity|vm_compute; reflexivity|reflexivity].
Defined.
(** ** Moving the root directory *)

Section Roots.

Import BaseBatchModel.

Lemma path_init_root kw r env w p w' :
  assoc "root" kw = Some (CVal (SStr r)) ->
  PathConfig.__init__ kw env w = (Ok p, w') ->
  PathConfig.root p = Some r.
Proof.
  intros Hr H. unfold PathConfig.__init__ in H.
  destruct kw as [|kv kw]; [done|]. rewrite bind_ret_run in H.
  set (d := kv :: kw) in *.
  inv_bind H as tn w1 H1. inv_bind H as rt w2 H2.
  unfold opt_field in H2. rewrite Hr in H2. simpl in H2.
  apply ret_ok in H2 as [-> ->].
  inv_bind H as bn w3 H3. inv_bind H as vb w4 H4.
  by apply ret_ok in H as [-> _].
Qed.

(** X8. Assigning a root directory to an entity whose configuration has a
    path section moves its outputs: [path.root] becomes the new root, in
    the configuration and in the path object, and the output directory of
    the batch becomes [root/outputs], in the configuration and in the batch
    object; every other section of the configuration, the files and the
    calls made are as before. *)
Theorem root_dir_moves_outputs env w self r self' w' t pkw :
  heap w !! _config_ self = Some t ->
  get_top "path" t = CDict pkw ->
  set_root_dir (Some r) self env w = (Ok self', w') ->
  exists t' p b pkw' bkw',
    heap w' = <[_config_ self := t']> (heap w)
    /\ fs w' = fs w /\ trace w' = trace w
    /\ _config_ self' = _config_ self
    /\ path self' = Some p /\ PathConfig.root p = Some r
    /\ batch self = Some b
    /\ batch self'
       = Some (BaseBatchConfig.with_output_dir
                 (joinpath (Path_of r) "outputs") b)
    /\ get_top "path" t' = CDict pkw'
    /\ assoc "root" pkw' = Some (CVal (SStr r))
    /\ get_top "batch" t' = CDict bkw'
    /\ assoc "output_dir" bkw'
       = Some (CVal (SStr (str_of_path (joinpath (Path_of r) "outputs"))))
    /\ (forall k, k <> "path" -> k <> "batch" -> get_top k t' = get_top k t).
Proof.
  intros Ht Hp H. unfold set_root_dir in H.
  pose proof (lookup_lt_Some _ _ _ Ht) as Hlt.
  inv_bind H as path0 w1 H1. apply getattr_inv in H1 as (t0 & Ht0 & -> & ->).
  rewrite Ht in Ht0. injection Ht0 as <-. rewrite Hp in H. simpl in H.
  inv_bind H as kw w2 H2.
  inv_bind H2 as u w3 H3.
  apply setattr2_inv in H3 as (t0 & t1 & Ht0 & Hs1 & ->).
  rewrite Ht in Ht0. injection Ht0 as <-.
  inv_bind H2 as path1 w4 H4.
  apply getattr_inv in H4 as (t1' & Ht1 & -> & ->).
  rewrite set_cell_lookup in Ht1 by done. injection Ht1 as <-.
  apply as_kwargs_inv in H2 as [Hkw ->].
  destruct (set_in_get _ _ _ _ _ Hs1) as (sub & Hsub & Hsub1).
  rewrite Hp in Hsub. injection Hsub as <-.
  rewrite Hsub1 in Hkw. injection Hkw as <-.
  inv_bind H as p w5 H5.
  pose proof (path_init_root _ r _ _ _ _ (assoc_set_eq _ _ _) H5) as Hroot.
  apply (reads_env_run _ _ _ _ _ (reads_env_path_init _)) in H5 as [-> _].
  inv_bind H as out w6 H6. unfold lift in H6. injection H6 as Hout <-.
  unfold PathConfig.output_dir, PathConfig.sub, PathConfig.root_dir in Hout.
  rewrite Hroot in Hout. injection Hout as <-.
  apply set_output_dir_inv in H as (t1' & t' & b & Ht1 & Hs & Hb & -> & ->).
  change (_config_ (with_path (Some p) self)) with (_config_ self) in *.
  change (batch (with_path (Some p) self)) with (batch self) in Hb.
  rewrite set_cell_lookup in Ht1 by done. injection Ht1 as <-.
  rewrite set_cell_set_cell.
  destruct (set_in_get _ _ _ _ _ Hs) as (bsub & Hbsub & Hbsub').
  exists t', p, b, (assoc_set "root" (CVal (SStr r)) pkw),
    (assoc_set "output_dir"
       (CVal (SStr (str_of_path (joinpath (Path_of r) "outputs")))) bsub).
  split; [done|]. split; [done|]. split; [done|]. split; [done|].
  split; [done|]. split; [done|]. split; [done|]. split; [done|].
  split.
  { by rewrite (get_top_set_in_ne "path" "batch" _ _ t1 t') by done. }
  split; [apply assoc_set_eq|]. split; [done|].
  split; [apply assoc_set_eq|].
  intros k K1 K2.
  rewrite (get_top_set_in_ne k "batch" _ _ t1 t') by done.
  by rewrite (get_top_set_in_ne k "path" _ _ t t1) by done.
Qed.

End Roots.

Lemma root_dir_moves_outputs_witness :
  exists self w,
    BaseBatchModel.__init__ None None args1 env0 w0 = (Ok self, w)
    /\ exists self' w',
      BaseBatchModel.set_root_dir (Some "/new") self env0 w = (Ok self', w')
      /\ exists p b',
        BaseBatchModel.path self' = Some p
        /\ PathConfig.root p = Some "/new"
        /\ BaseBatchModel.batch self' = Some b'
        /\ BaseBatchConfig.output_dir b' = ["/"; "new"; "outputs"].
Proof.
  run_step H1. run_step H2.
  match type of H2 with
  | BaseBatchModel.set_root_dir _ ?s _ ?w = _ =>
      assert (exists t pkw,
                heap w !! BaseBatchModel._config_ s = Some t
                /\ get_top "path" t = CDict pkw) as (t & pkw & Ht & Hp)
  end.
  { eexists _, _. split; vm_compute; reflexivity. }
  destruct (root_dir_moves_outputs _ _ _ _ _ _ _ _ Ht Hp H2)
    as (t' & p & b & pkw' & bkw' & _ & _ & _ & _ & Hpa & Hr & Hb & Hb' & _).
  exists p, (BaseBatchConfig.with_output_dir
               (joinpath (Path_of "/new") "outputs") b).
  split; [exact Hpa|]. split; [exact Hr|]. split; [exact Hb'|].
  reflexivity.
Defined.
(** ** The data columns of a dataset *)

Lemma load_each_columns files : forall self env w self' w',
  Dataset.load_each files self env w = (Ok self', w') ->
  Dataset.column_info self' = Dataset.column_info self
  /\ Dataset._data_keys self' = Dataset._data_keys self.
Proof.
  induction files as [|[split f] rest IH]; intros self env w self' w' H;
    simpl in H.
  - by apply ret_ok in H as [-> _].
  - inv_bind H as p w1 H1. inv_bind H as df w2 H2. inv_bind H as df' w3 H3.
    apply IH in H. by destruct self.
Qed.

Lemma load_columns self env w self' w' :
  Dataset.load self env w = (Ok self', w') ->
  Dataset.column_info self' = Dataset.column_info self
  /\ Dataset._data_keys self' = Dataset._data_keys self.
Proof.
  unfold Dataset.load. destruct (Dataset._loaded self).
  - by intros [-> _]%ret_ok.
  - intros H. inv_bind H as s w1 H1. apply ret_ok in H as [-> _].
    by apply load_each_columns in H1.
Qed.

Lemma dataset_init_inv_columns args env w self w' :
  Dataset.__init__ args env w = (Ok self, w') ->
  exists self0 w0,
    Dataset._data_keys self0
    = get_or "data" (CVal SNone) (Dataset.column_info self0)
    /\ (if Dataset.autoload self0 then Dataset.load self0 else ret self0)
         env w0
       = (Ok self, w').
Proof.
  unfold Dataset.__init__. intros H.
  inv_bind H as n w1 H1. inv_bind H as d w2 H2.
  inv_bind H as found w3 H3. inv_bind H as info w4 H4.
  inv_bind H as args' w5 H5. inv_bind H as ci w6 H6.
  inv_bind H as ks w7 H7. inv_bind H as ids w8 H8.
  inv_bind H as pa w9 H9.
  eexists _, _. split; [|exact H]. reflexivity.
Qed.

(** X6. For a dataset that its constructor returned, loaded or not,
    [DATA] is the list of the keys of [column_info["data"]], in their
    order; a dataset whose column information has no [data] mapping has no
    [DATA]: the property raises [AttributeError]. *)
Theorem data_lists_the_data_columns env w args self w' :
  Dataset.__init__ args env w = (Ok self, w') ->
  Dataset.DATA self
  = match assoc "data" (Dataset.column_info self) with
    | Some (CDict d) => Ok (keys d)
    | _ => Raise (AttributeError "keys")
    end.
Proof.
  intros H.
  assert (Hk : Dataset._data_keys self
               = get_or "data" (CVal SNone) (Dataset.column_info self)).
  { apply dataset_init_inv_columns in H as (self0 & wi & Hk0 & H).
    destruct (Dataset.autoload self0).
    - apply load_columns in H as [-> ->]. exact Hk0.
    - by apply ret_ok in H as [-> _]. }
  unfold Dataset.DATA. rewrite Hk. unfold get_or.
  by destruct (assoc "data" (Dataset.column_info self)) as [[[]| |]|].
Qed.

Lemma data_lists_the_data_columns_witness :
  exists self w',
    Dataset.__init__ dataset_args env0 w_splits = (Ok self, w')
    /\ Dataset.DATA self = Raise (AttributeError "keys").
Proof.
  run_step H.
  exact (data_lists_the_data_columns env0 w_splits dataset_args _ _ H).
Defined.
